(** * dataset-generator: the pipeline stages and the validator

    A shallow embedding of [src/dataset_generator]: the pydantic data contract
    ([models.py]), evidence repair ([extractor.py]), test-case generation
    ([test_case_generator.py]), incremental dataset generation
    ([dataset_generator.py]) and the artifact validator ([validator.py]).

    Conventions of the embedding.
    - Values coming out of [json.load] / the gateway are [json] trees.  JSON
      numbers are integers ([Z]); floats are outside the model.  A dict is an
      association list in key order; lookups take the first binding.
    - Strings are byte strings; [str.strip] is modelled on ASCII whitespace.
    - An exception that escapes a function is [Raise].  The class of an
      exception raised by the program's own code (TypeError, AttributeError,
      KeyError, an escaping pydantic ValidationError) is not tracked:
      all are [RuntimeErr].  What the gateway raises is [GatewayErr].
    - A pydantic constructor is a function into [option]: [None] is
      ValidationError.  Fields are typed as in [models.py]; pydantic's
      lax-mode coercions into [int] (numeric strings, booleans) are not
      modelled, an [int] field takes a JSON integer.
    - Text of prompts and of report messages is not modelled: the gateway is
      a function of the call number, and a report entry is a constructor
      carrying the values the f-string interpolates. *)

From Stdlib Require Import ZArith List String Ascii Bool Lia DecimalString.
Import ListNotations.
Open Scope string_scope.
Open Scope list_scope.
Open Scope Z_scope.
Set Warnings "-register-all".

(** ** Python values and the exception monad *)

Inductive json : Type :=
| JNull
| JBool (b : bool)
| JInt (n : Z)
| JStr (s : string)
| JList (l : list json)
| JDict (d : list (string * json)).

Inductive exn : Type :=
| RuntimeErr
| GatewayErr (what : string).

Inductive result (A : Type) : Type :=
| Ok (a : A)
| Raise (e : exn).
Arguments Ok {A} a.
Arguments Raise {A} e.

Definition bind {A B : Type} (m : result A) (k : A -> result B) : result B :=
  match m with
  | Ok a => k a
  | Raise e => Raise e
  end.

Notation "x <- m ;; k" := (bind m (fun x => k))
  (at level 61, m at next level, right associativity).
Notation "' p <- m ;; k" := (bind m (fun x => match x with p => k end))
  (at level 61, p pattern, m at next level, right associativity).

Fixpoint mapM {A B : Type} (f : A -> result B) (l : list A) : result (list B) :=
  match l with
  | [] => Ok []
  | x :: t => y <- f x ;; ys <- mapM f t ;; Ok (y :: ys)
  end.

Module Py.

(** [d.get(k)] on a dict; [None] when the key is absent. *)
Fixpoint dict_get (d : list (string * json)) (k : string) : option json :=
  match d with
  | [] => None
  | (k', v) :: t => if String.eqb k' k then Some v else dict_get t k
  end.

Definition dict_get_default (d : list (string * json)) (k : string) (dflt : json) : json :=
  match dict_get d k with
  | Some v => v
  | None => dflt
  end.

Definition dict_has (d : list (string * json)) (k : string) : bool :=
  match dict_get d k with
  | Some _ => true
  | None => false
  end.

(** [d[k] = v]: replace in place, or append a new key. *)
Fixpoint dict_set (d : list (string * json)) (k : string) (v : json) : list (string * json) :=
  match d with
  | [] => [(k, v)]
  | (k', v') :: t => if String.eqb k' k then (k', v) :: t else (k', v') :: dict_set t k v
  end.

(** [x.get(k, dflt)] on an arbitrary value: only dicts have [.get]. *)
Definition get (x : json) (k : string) (dflt : json) : result json :=
  match x with
  | JDict d => Ok (dict_get_default d k dflt)
  | _ => Raise RuntimeErr
  end.

(** [bool(x)]. *)
Definition truthy (x : json) : bool :=
  match x with
  | JNull => false
  | JBool b => b
  | JInt n => negb (n =? 0)
  | JStr s => negb (String.eqb s "")
  | JList l => match l with [] => false | _ => true end
  | JDict d => match d with [] => false | _ => true end
  end.

Fixpoint chars (s : string) : list json :=
  match s with
  | EmptyString => []
  | String c t => JStr (String c EmptyString) :: chars t
  end.

(** [len(x)]; TypeError on None, bool and int. *)
Definition len (x : json) : result Z :=
  match x with
  | JStr s => Ok (Z.of_nat (String.length s))
  | JList l => Ok (Z.of_nat (List.length l))
  | JDict d => Ok (Z.of_nat (List.length d))
  | _ => Raise RuntimeErr
  end.

(** The items a [for] loop sees: elements of a list, characters of a
    string, keys of a dict. *)
Definition iter (x : json) : result (list json) :=
  match x with
  | JStr s => Ok (chars s)
  | JList l => Ok l
  | JDict d => Ok (map (fun kv => JStr (fst kv)) d)
  | _ => Raise RuntimeErr
  end.

(** [l[:n]] on a Python list. *)
Definition take {A : Type} (n : Z) (l : list A) : list A :=
  if n <? 0 then firstn (Z.to_nat (Z.of_nat (List.length l) + n)) l
  else firstn (Z.to_nat n) l.

(** [l[a:b]] for [0 <= a] and [0 <= b]. *)
Definition slice {A : Type} (a b : Z) (l : list A) : list A :=
  skipn (Z.to_nat a) (firstn (Z.to_nat b) l).

(** [x[:n]] as a following loop sees it: a list is sliced, a string is
    sliced into a string, whose characters the loop visits; a dict,
    None, a bool or an int cannot be sliced. *)
Definition take_items (n : Z) (x : json) : result (list json) :=
  match x with
  | JList l => Ok (take n l)
  | JStr s => Ok (take n (chars s))
  | _ => Raise RuntimeErr
  end.

(** [x == y] on the hashable scalars ([True == 1], [False == 0]). *)
Definition eq_scalar (x y : json) : bool :=
  match x, y with
  | JNull, JNull => true
  | JBool a, JBool b => Bool.eqb a b
  | JBool a, JInt n | JInt n, JBool a => Z.b2z a =? n
  | JInt n, JInt m => n =? m
  | JStr s, JStr t => String.eqb s t
  | _, _ => false
  end.

Definition eq_int (x : json) (n : Z) : bool := eq_scalar x (JInt n).
Definition eq_str (x : json) (s : string) : bool := eq_scalar x (JStr s).

Definition hashable (x : json) : bool :=
  match x with
  | JList _ | JDict _ => false
  | _ => true
  end.

(** The value of [x] in arithmetic with an [int]: ints and bools order
    against ints, anything else is a TypeError. *)
Definition as_int (x : json) : result Z :=
  match x with
  | JInt n => Ok n
  | JBool b => Ok (Z.b2z b)
  | _ => Raise RuntimeErr
  end.

Definition is_space (c : ascii) : bool :=
  let n := nat_of_ascii c in
  ((9 <=? n) && (n <=? 13) || (28 <=? n) && (n <=? 32))%nat.

Fixpoint lstrip (s : string) : string :=
  match s with
  | EmptyString => EmptyString
  | String c t => if is_space c then lstrip t else s
  end.

Fixpoint rev_string (s acc : string) : string :=
  match s with
  | EmptyString => acc
  | String c t => rev_string t (String c acc)
  end.

Definition rstrip (s : string) : string :=
  rev_string (lstrip (rev_string s EmptyString)) EmptyString.

(** [s.strip()]. *)
Definition strip (s : string) : string := rstrip (lstrip s).

(** [needle in hay] on strings. *)
Fixpoint contains (needle hay : string) : bool :=
  if String.prefix needle hay then true
  else match hay with
       | EmptyString => false
       | String _ t => contains needle t
       end.

Definition newline : string := String (ascii_of_nat 10) EmptyString.

(** ["\n".join(l)]. *)
Definition join_lines (l : list string) : string := String.concat newline l.

(** [str(n)] for an int. *)
Definition str_of_int (n : Z) : string := NilZero.string_of_int (Z.to_int n).

(** Membership in a set or list of strings. *)
Definition mem (s : string) (l : list string) : bool := existsb (String.eqb s) l.

(** [set.add] with the insertion order kept (Python leaves the iteration
    order of a set unspecified). *)
Definition set_add (s : string) (l : list string) : list string :=
  if mem s l then l else l ++ [s].

End Py.

(** ** models.py *)

Module Models.

Inductive case_type := support_bot | operator_quality.
Inductive policy_type := must | must_not | escalate | style | format_.
Inductive example_format :=
  single_turn_qa | single_utterance_correction | dialog_last_turn_correction.

Definition case_str (c : case_type) : string :=
  match c with
  | support_bot => "support_bot"
  | operator_quality => "operator_quality"
  end.

Definition policy_type_str (t : policy_type) : string :=
  match t with
  | must => "must" | must_not => "must_not" | escalate => "escalate"
  | style => "style" | format_ => "format"
  end.

Definition format_str (f : example_format) : string :=
  match f with
  | single_turn_qa => "single_turn_qa"
  | single_utterance_correction => "single_utterance_correction"
  | dialog_last_turn_correction => "dialog_last_turn_correction"
  end.

Definition case_of_str (s : string) : option case_type :=
  if String.eqb s "support_bot" then Some support_bot
  else if String.eqb s "operator_quality" then Some operator_quality
  else None.

Definition policy_type_of_str (s : string) : option policy_type :=
  if String.eqb s "must" then Some must
  else if String.eqb s "must_not" then Some must_not
  else if String.eqb s "escalate" then Some escalate
  else if String.eqb s "style" then Some style
  else if String.eqb s "format" then Some format_
  else None.

Definition format_of_str (s : string) : option example_format :=
  if String.eqb s "single_turn_qa" then Some single_turn_qa
  else if String.eqb s "single_utterance_correction" then Some single_utterance_correction
  else if String.eqb s "dialog_last_turn_correction" then Some dialog_last_turn_correction
  else None.

Record Evidence := mkEvidence {
  input_file : string;
  line_start : Z;
  line_end : Z;
  quote : string }.

Record UseCase := mkUseCase {
  uc_id : string;
  uc_case : case_type;
  uc_name : string;
  uc_description : string;
  uc_evidence : list Evidence }.

Record Policy := mkPolicy {
  pol_id : string;
  pol_type : policy_type;
  pol_case : case_type;
  pol_statement : string;
  pol_evidence : list Evidence }.

Record TestCase := mkTestCase {
  tc_id : string;
  tc_case : case_type;
  tc_use_case_id : string;
  tc_parameters : list (string * json);
  tc_policy_ids : list string }.

Record DatasetExample := mkDatasetExample {
  ex_id : string;
  ex_case : case_type;
  ex_format : example_format;
  ex_use_case_id : string;
  ex_test_case_id : string;
  ex_input : list (string * json);
  ex_expected_output : string;
  ex_evaluation_criteria : list string;
  ex_policy_ids : list string;
  ex_metadata : list (string * json) }.

Record LLMInfo := mkLLMInfo {
  provider : string;
  model : string;
  temperature : Z }.

Record RunManifest := mkRunManifest {
  rm_input_path : string;
  rm_out_path : string;
  seed : Z;
  timestamp : string;
  generator_version : string;
  llm_info : LLMInfo }.

(** *** Field validators *)

Definition obind {A B : Type} (o : option A) (k : A -> option B) : option B :=
  match o with
  | Some a => k a
  | None => None
  end.

Notation "x <-? o ;; k" := (obind o (fun x => k))
  (at level 61, o at next level, right associativity).

Definition as_str (j : json) : option string :=
  match j with JStr s => Some s | _ => None end.

Definition as_int (j : json) : option Z :=
  match j with JInt n => Some n | _ => None end.

Definition as_dict (j : json) : option (list (string * json)) :=
  match j with JDict d => Some d | _ => None end.

Fixpoint omap {A B : Type} (f : A -> option B) (l : list A) : option (list B) :=
  match l with
  | [] => Some []
  | x :: t => y <-? f x ;; ys <-? omap f t ;; Some (y :: ys)
  end.

Definition as_list {A : Type} (f : json -> option A) (j : json) : option (list A) :=
  match j with JList l => omap f l | _ => None end.

(** A required field of the given type. *)
Definition field {A : Type} (f : json -> option A) (d : list (string * json)) (k : string)
  : option A :=
  v <-? Py.dict_get d k ;; f v.

(** [Field(pattern=r"^p")]. *)
Definition with_prefix (p : string) (s : string) : option string :=
  if String.prefix p s then Some s else None.

Definition min_length {A : Type} (n : nat) (l : list A) : option (list A) :=
  if (n <=? List.length l)%nat then Some l else None.

Definition str_field d k := field as_str d k.
Definition id_field (p : string) d k := s <-? str_field d k ;; with_prefix p s.
Definition case_field d k := s <-? str_field d k ;; case_of_str s.

(** *** Constructors from keyword arguments *)

Definition parse_Evidence (d : list (string * json)) : option Evidence :=
  f <-? str_field d "input_file" ;;
  ls <-? field as_int d "line_start" ;;
  le <-? field as_int d "line_end" ;;
  q <-? str_field d "quote" ;;
  Some (mkEvidence f ls le q).

Definition evidence_field d k : option (list Evidence) :=
  evs <-? field (as_list (fun j => e <-? as_dict j ;; parse_Evidence e)) d k ;;
  min_length 1 evs.

Definition parse_UseCase (d : list (string * json)) : option UseCase :=
  i <-? id_field "uc_" d "id" ;;
  c <-? case_field d "case" ;;
  n <-? str_field d "name" ;;
  ds <-? str_field d "description" ;;
  ev <-? evidence_field d "evidence" ;;
  Some (mkUseCase i c n ds ev).

Definition parse_Policy (d : list (string * json)) : option Policy :=
  i <-? id_field "pol_" d "id" ;;
  t <-? (s <-? str_field d "type" ;; policy_type_of_str s) ;;
  c <-? case_field d "case" ;;
  st <-? str_field d "statement" ;;
  ev <-? evidence_field d "evidence" ;;
  Some (mkPolicy i t c st ev).

Definition parse_TestCase (d : list (string * json)) : option TestCase :=
  i <-? id_field "tc_" d "id" ;;
  c <-? case_field d "case" ;;
  u <-? id_field "uc_" d "use_case_id" ;;
  p <-? field as_dict d "parameters" ;;
  ps <-? field (as_list as_str) d "policy_ids" ;;
  Some (mkTestCase i c u p ps).

Definition parse_DatasetExample (d : list (string * json)) : option DatasetExample :=
  i <-? id_field "ex_" d "id" ;;
  c <-? case_field d "case" ;;
  f <-? (s <-? str_field d "format" ;; format_of_str s) ;;
  u <-? id_field "uc_" d "use_case_id" ;;
  t <-? id_field "tc_" d "test_case_id" ;;
  inp <-? field as_dict d "input" ;;
  eo <-? str_field d "expected_output" ;;
  ec <-? (l <-? field (as_list as_str) d "evaluation_criteria" ;; min_length 3 l) ;;
  ps <-? field (as_list as_str) d "policy_ids" ;;
  md <-? match Py.dict_get d "metadata" with
         | Some v => as_dict v
         | None => Some []
         end ;;
  Some (mkDatasetExample i c f u t inp eo ec ps md).

Definition parse_LLMInfo (d : list (string * json)) : option LLMInfo :=
  p <-? str_field d "provider" ;;
  m <-? str_field d "model" ;;
  t <-? field as_int d "temperature" ;;
  Some (mkLLMInfo p m t).

Definition parse_RunManifest (d : list (string * json)) : option RunManifest :=
  ip <-? str_field d "input_path" ;;
  op <-? str_field d "out_path" ;;
  sd <-? field as_int d "seed" ;;
  ts <-? str_field d "timestamp" ;;
  gv <-? str_field d "generator_version" ;;
  li <-? field (fun j => l <-? as_dict j ;; parse_LLMInfo l) d "llm" ;;
  Some (mkRunManifest ip op sd ts gv li).

(** *** Constructors called with Python values

    The fields the caller has already typed are taken at their type; a
    field filled from gateway data is a [json] value and is validated. *)

Definition new_TestCase (id : string) (case : case_type) (use_case_id : string)
  (parameters : json) (policy_ids : list string) : option TestCase :=
  i <-? with_prefix "tc_" id ;;
  u <-? with_prefix "uc_" use_case_id ;;
  p <-? as_dict parameters ;;
  Some (mkTestCase i case u p policy_ids).

Definition new_DatasetExample (id : string) (case : case_type) (format : string)
  (use_case_id test_case_id : string) (input expected_output evaluation_criteria : json)
  (policy_ids : list string) (metadata : json) : option DatasetExample :=
  i <-? with_prefix "ex_" id ;;
  f <-? format_of_str format ;;
  u <-? with_prefix "uc_" use_case_id ;;
  t <-? with_prefix "tc_" test_case_id ;;
  inp <-? as_dict input ;;
  eo <-? as_str expected_output ;;
  ec <-? (l <-? as_list as_str evaluation_criteria ;; min_length 3 l) ;;
  md <-? as_dict metadata ;;
  Some (mkDatasetExample i case f u t inp eo ec policy_ids md).

(** *** [model_dump] *)

Definition jstrs (l : list string) : json := JList (map JStr l).

Definition dump_Evidence (e : Evidence) : json :=
  JDict [("input_file", JStr (input_file e)); ("line_start", JInt (line_start e));
         ("line_end", JInt (line_end e)); ("quote", JStr (quote e))].

Definition dump_DatasetExample (e : DatasetExample) : json :=
  JDict [("id", JStr (ex_id e)); ("case", JStr (case_str (ex_case e)));
         ("format", JStr (format_str (ex_format e)));
         ("use_case_id", JStr (ex_use_case_id e));
         ("test_case_id", JStr (ex_test_case_id e));
         ("input", JDict (ex_input e));
         ("expected_output", JStr (ex_expected_output e));
         ("evaluation_criteria", jstrs (ex_evaluation_criteria e));
         ("policy_ids", jstrs (ex_policy_ids e));
         ("metadata", JDict (ex_metadata e))].

End Models.

(** ** extractor.py *)

Module Extractor.
Import Models.

(** One pass of the loop body of [_validate_evidence]. *)
Definition validate_one (raw_lines : list string) (input_file : string) (ev : json)
  : result Evidence :=
  line_start0 <- Py.get ev "line_start" (JInt 1) ;;
  line_end0 <- Py.get ev "line_end" line_start0 ;;
  quote0 <- Py.get ev "quote" (JStr "") ;;
  let n := Z.of_nat (List.length raw_lines) in
  ls <- Py.as_int line_start0 ;;
  let line_start := Z.max 1 (Z.min ls n) in
  le <- Py.as_int line_end0 ;;
  let line_end := Z.max line_start (Z.min le n) in
  let actual_text := Py.join_lines (Py.slice (line_start - 1) line_end raw_lines) in
  match quote0 with
  | JStr quote =>
      let final_quote :=
        if negb (String.eqb (Py.strip quote) "") && Py.contains (Py.strip quote) actual_text
        then Py.strip quote
        else Py.strip actual_text in
      Ok (mkEvidence input_file line_start line_end
            (if negb (String.eqb final_quote "") then final_quote else quote))
  | _ => Raise RuntimeErr
  end.

Definition _validate_evidence (evidence_list : list json) (raw_lines : list string)
  (input_file : string) : result (list Evidence) :=
  mapM (validate_one raw_lines input_file) evidence_list.

(** The invariant of the data contract on one record. *)
Definition in_range (total_lines : Z) (e : Evidence) : Prop :=
  1 <= line_start e /\ line_start e <= line_end e /\ line_end e <= total_lines.

(** Entries whose fields have the types the prompt asks for. *)
Definition well_typed_entry (ev : json) : Prop :=
  exists d,
    ev = JDict d /\
    (forall v, Py.dict_get d "line_start" = Some v -> exists n, v = JInt n) /\
    (forall v, Py.dict_get d "line_end" = Some v -> exists n, v = JInt n) /\
    (forall v, Py.dict_get d "quote" = Some v -> exists s, v = JStr s).

End Extractor.

(** ** The generation gateway and the run configuration *)

(** [llm.generate_json]: what the k-th call of a stage returns or raises.
    The prompt a stage builds reaches nothing but this call, and any run
    of the real client, whatever it does with the prompts, is one such
    function; the statements below hold for all of them.  Retries and
    rate limiting happen inside the call. *)
Definition gateway := nat -> result json.

Record Config := mkConfig {
  n_use_cases : Z;
  n_test_cases_per_uc : Z;
  n_examples_per_tc : Z }.

Fixpoint foldM {A S : Type} (f : S -> A -> result S) (l : list A) (s : S) : result S :=
  match l with
  | [] => Ok s
  | x :: t => s' <- f s x ;; foldM f t s'
  end.

(** [result.get(key, result) if isinstance(result, dict) else result],
    then a lone dict is wrapped into a one-element list. *)
Definition unwrap (key : string) (response : json) : json :=
  let raw := match response with
             | JDict d => Py.dict_get_default d key response
             | _ => response
             end in
  match raw with
  | JDict _ => JList [raw]
  | _ => raw
  end.

(** ** test_case_generator.py *)

Module TestCaseGenerator.
Import Models.

(** [[p for p in pids if p in policy_ids]], then the fallback
    [policy_ids[:2]] when nothing is left. *)
Definition keep_known (policy_ids : list string) (items : list json) : list string :=
  flat_map (fun p => match p with
                     | JStr s => if Py.mem s policy_ids then [s] else []
                     | _ => []
                     end) items.

Definition resolve_policy_ids (policy_ids : list string) (pids : json) : result (list string) :=
  items <- Py.iter pids ;;
  let pids := keep_known policy_ids items in
  Ok (match pids with
      | [] => Py.take 2 policy_ids
      | _ => pids
      end).

(** The body of the inner loop; the state is [all_test_cases] and
    [tc_counter]. *)
Definition add_test_case (case : case_type) (policy_ids : list string) (uc : UseCase)
  (st : list TestCase * Z) (tc_data : json) : result (list TestCase * Z) :=
  let '(all_test_cases, tc_counter) := st in
  params <- Py.get tc_data "parameters" (JDict []) ;;
  pids0 <- Py.get tc_data "policy_ids" (JList []) ;;
  pids <- resolve_policy_ids policy_ids pids0 ;;
  match new_TestCase ("tc_" ++ Py.str_of_int tc_counter)%string case (uc_id uc) params pids with
  | Some tc => Ok (all_test_cases ++ [tc], tc_counter + 1)
  | None => Raise RuntimeErr
  end.

(** The loop over the use cases; [k] counts the gateway calls made. *)
Fixpoint use_case_loop (config : Config) (llm : gateway) (case : case_type)
  (policy_ids : list string) (use_cases : list UseCase) (k : nat)
  (st : list TestCase * Z) : result (list TestCase * Z) :=
  match use_cases with
  | [] => Ok st
  | uc :: rest =>
      response <- llm k ;;
      tc_raw <- Py.take_items (n_test_cases_per_uc config) (unwrap "test_cases" response) ;;
      st' <- foldM (add_test_case case policy_ids uc) tc_raw st ;;
      use_case_loop config llm case policy_ids rest (S k) st'
  end.

Definition generate_test_cases (config : Config) (llm : gateway)
  (use_cases : list UseCase) (policies : list Policy) : result (list TestCase) :=
  let case := match use_cases with
              | uc :: _ => uc_case uc
              | [] => support_bot
              end in
  let policy_ids := map pol_id policies in
  st <- use_case_loop config llm case policy_ids use_cases 0%nat ([], 1) ;;
  Ok (fst st).

(** The policy ids that the inner loop stores for the record [tc_data]. *)
Definition stored_ids (known : list string) (tc_data : json) (ids : list string) : Prop :=
  exists pids items,
    Py.get tc_data "policy_ids" (JList []) = Ok pids
    /\ Py.iter pids = Ok items
    /\ ids = match keep_known known items with
             | [] => Py.take 2 known
             | _ => keep_known known items
             end.

(** The contract on the policy ids of a stored test case. *)
Definition good_ids (known : list string) (ids : list string) : Prop :=
  ids <> [] /\ incl ids known.

End TestCaseGenerator.

(** ** dataset_generator.py *)

Module DatasetGenerator.
Import Models.

Definition _get_format_for_case (case_type : string) (tc_index : Z) : string :=
  if String.eqb case_type "support_bot" then "single_turn_qa"
  else if tc_index mod 2 =? 0 then "single_utterance_correction"
  else "dialog_last_turn_correction".

Definition _get_source_for_support (ex_index : Z) : string :=
  let sources := ["tickets"; "faq_paraphrase"; "corner"] in
  nth (Z.to_nat (ex_index mod Z.of_nat (List.length sources))) sources "".

(** The file at [save_path] ([None]: no such file) and the gateway calls
    made so far, each with the position and the id of its test case. *)
Record world := mkWorld {
  disk : option json;
  calls : list (Z * string) }.

Inductive outcome :=
| Returned (examples : list DatasetExample) (w : world)
| Raised (e : exn) (w : world).

(** The wrapped form [{"examples": [...]}] of a list of examples. *)
Definition wrapper (examples : list DatasetExample) : json :=
  JDict [("examples", JList (map dump_DatasetExample examples))].

Definition _save_partial (examples : list DatasetExample) (w : world) : world :=
  mkWorld (Some (wrapper examples)) (calls w).

Definition save_if (save_path : string) (examples : list DatasetExample) (w : world) : world :=
  if negb (String.eqb save_path "") then _save_partial examples w else w.

(** Loading the partial results: the parsed examples and [completed_tc_ids]. *)
Definition load_record (st : list DatasetExample * list string) (ex_data : json)
  : list DatasetExample * list string :=
  match ex_data with
  | JDict d =>
      match parse_DatasetExample d with
      | Some ex => (fst st ++ [ex], Py.set_add (ex_test_case_id ex) (snd st))
      | None => st
      end
  | _ => st
  end.

Definition load_existing (save_path : string) (on_disk : option json)
  : list DatasetExample * list string :=
  match on_disk with
  | Some existing =>
      if negb (String.eqb save_path "") then
        let existing :=
          match existing with
          | JDict d => Py.dict_get_default d "examples" existing
          | _ => existing
          end in
        match existing with
        | JList l => fold_left load_record l ([], [])
        | _ => ([], [])
        end
      else ([], [])
  | None => ([], [])
  end.

(** [uc_map.get(id)] for [uc_map = {uc.id: uc for uc in use_cases}]: a
    later use case replaces an earlier one with the same id. *)
Definition uc_map_get (use_cases : list UseCase) (id : string) : option UseCase :=
  fold_left (fun found uc => if String.eqb (uc_id uc) id then Some uc else found)
    use_cases None.

Definition normalize_message (msg : json) : result json :=
  role <- Py.get msg "role" (JStr "user") ;;
  content <- Py.get msg "content" (JStr "") ;;
  Ok (JDict [("role", role); ("content", content)]).

(** ["messages" in x]: a key of a dict, an element of a list, a
    substring of a string. *)
Definition has_messages (x : json) : result bool :=
  match x with
  | JDict d => Ok (Py.dict_has d "messages")
  | JList l => Ok (existsb (fun y => Py.eq_str y "messages") l)
  | JStr s => Ok (Py.contains "messages" s)
  | _ => Raise RuntimeErr
  end.

(** [x[k]] and [x[k] = v] with a string key: only a dict takes one. *)
Definition getitem (x : json) (k : string) : result json :=
  match x with
  | JDict d => match Py.dict_get d k with
               | Some v => Ok v
               | None => Raise RuntimeErr
               end
  | _ => Raise RuntimeErr
  end.

Definition setitem (x : json) (k : string) (v : json) : result json :=
  match x with
  | JDict d => Ok (JDict (Py.dict_set d k v))
  | _ => Raise RuntimeErr
  end.

Definition fallback_criteria : list json :=
  [JStr "Response is relevant"; JStr "Response follows policies"; JStr "Response is in Russian"].

(** The body of the loop over the returned examples, up to the
    [DatasetExample] it appends. *)
Definition build_example (tc : TestCase) (fmt : string) (ex_idx ex_counter : Z)
  (ex_data : json) : result DatasetExample :=
  input_data <- Py.get ex_data "input" (JDict []) ;;
  has <- has_messages input_data ;;
  input_data <- (if has then
                   raw <- getitem input_data "messages" ;;
                   msgs <- Py.iter raw ;;
                   messages <- mapM normalize_message msgs ;;
                   setitem input_data "messages" (JList messages)
                 else Ok input_data) ;;
  expected_output <- Py.get ex_data "expected_output" (JStr "") ;;
  eval_criteria <- Py.get ex_data "evaluation_criteria" (JList []) ;;
  n <- Py.len eval_criteria ;;
  eval_criteria <- (if n <? 3 then
                      match eval_criteria with
                      | JList l => Ok (JList (l ++ Py.take (3 - n) fallback_criteria))
                      | _ => Raise RuntimeErr
                      end
                    else Ok eval_criteria) ;;
  metadata <- Py.get ex_data "metadata" (JDict []) ;;
  metadata <- (if String.eqb (case_str (tc_case tc)) "support_bot"
               then setitem metadata "source" (JStr (_get_source_for_support ex_idx))
               else Ok metadata) ;;
  metadata <- setitem metadata "split" (JStr "test") ;;
  input_data <- (if String.eqb fmt "single_utterance_correction" then
                   setitem input_data "target_message_index" (JInt 0)
                 else if String.eqb fmt "dialog_last_turn_correction" then
                   has <- has_messages input_data ;;
                   if has then
                     msgs <- getitem input_data "messages" ;;
                     n <- Py.len msgs ;;
                     setitem input_data "target_message_index" (JInt (n - 1))
                   else Ok input_data
                 else Ok input_data) ;;
  match new_DatasetExample ("ex_" ++ Py.str_of_int ex_counter)%string (tc_case tc) fmt
          (tc_use_case_id tc) (tc_id tc) input_data expected_output eval_criteria
          (tc_policy_ids tc) metadata with
  | Some ex => Ok ex
  | None => Raise RuntimeErr
  end.

(** The loop over [enumerate(examples_raw[:n])]; the state is
    [all_examples] and [ex_counter]. *)
Fixpoint batch_loop (tc : TestCase) (fmt : string) (items : list json) (ex_idx : Z)
  (st : list DatasetExample * Z) : result (list DatasetExample * Z) :=
  match items with
  | [] => Ok st
  | ex_data :: rest =>
      ex <- build_example tc fmt ex_idx (snd st) ex_data ;;
      batch_loop tc fmt rest (ex_idx + 1) (fst st ++ [ex], snd st + 1)
  end.

Definition process_batch (config : Config) (tc : TestCase) (fmt : string) (response : json)
  (st : list DatasetExample * Z) : result (list DatasetExample * Z) :=
  items <- Py.take_items (n_examples_per_tc config) (unwrap "examples" response) ;;
  batch_loop tc fmt items 0 st.

(** The loop over [enumerate(test_cases)].  [relevant_policies], the
    prompt and the progress messages only feed the gateway call and the
    console; the call is logged in [calls] before its outcome is known. *)
Fixpoint test_case_loop (config : Config) (llm : gateway) (use_cases : list UseCase)
  (save_path : string) (completed_tc_ids : list string)
  (test_cases : list TestCase) (tc_idx : Z)
  (st : list DatasetExample * Z) (w : world) : outcome :=
  match test_cases with
  | [] => Returned (fst st) w
  | tc :: rest =>
      let continue_ := test_case_loop config llm use_cases save_path completed_tc_ids
                         rest (tc_idx + 1) in
      if Py.mem (tc_id tc) completed_tc_ids then continue_ st w
      else
        match uc_map_get use_cases (tc_use_case_id tc) with
        | None => continue_ st w
        | Some uc =>
            let fmt := _get_format_for_case (case_str (tc_case tc)) tc_idx in
            let w1 := mkWorld (disk w) (calls w ++ [(tc_idx, tc_id tc)]) in
            match llm (List.length (calls w)) with
            | Raise e => Raised e (save_if save_path (fst st) w1)
            | Ok response =>
                match process_batch config tc fmt response st with
                | Raise e => Raised e w1
                | Ok st' => continue_ st' (save_if save_path (fst st') w1)
                end
            end
        end
  end.

Definition generate_dataset (config : Config) (llm : gateway) (use_cases : list UseCase)
  (policies : list Policy) (test_cases : list TestCase) (save_path : string)
  (on_disk : option json) : outcome :=
  let '(all_examples, completed_tc_ids) := load_existing save_path on_disk in
  let ex_counter := Z.of_nat (List.length all_examples) + 1 in
  test_case_loop config llm use_cases save_path completed_tc_ids test_cases 0
    (all_examples, ex_counter) (mkWorld on_disk []).

Definition world_of (o : outcome) : world :=
  match o with
  | Returned _ w => w
  | Raised _ w => w
  end.

(** *** Vocabulary of the statements about a run *)

(** What the constructor guarantees of a [DatasetExample]. *)
Definition valid_example (e : DatasetExample) : Prop :=
  String.prefix "ex_" (ex_id e) = true
  /\ String.prefix "uc_" (ex_use_case_id e) = true
  /\ String.prefix "tc_" (ex_test_case_id e) = true
  /\ (3 <= List.length (ex_evaluation_criteria e))%nat.

(** The persisted records that parse, in their order. *)
Definition parsed_examples (l : list json) : list DatasetExample :=
  flat_map (fun ex_data => match ex_data with
                           | JDict d => match parse_DatasetExample d with
                                        | Some ex => [ex]
                                        | None => []
                                        end
                           | _ => []
                           end) l.

(** The records of the file at [save_path]: the wrapped form or a bare
    list. *)
Definition persisted_records (on_disk : json) : list json :=
  match on_disk with
  | JDict d => match Py.dict_get d "examples" with
               | Some (JList l) => l
               | _ => []
               end
  | JList l => l
  | _ => []
  end.

(** A test case the loop does not skip. *)
Definition processed (use_cases : list UseCase) (completed_tc_ids : list string)
  (tc : TestCase) : Prop :=
  Py.mem (tc_id tc) completed_tc_ids = false
  /\ uc_map_get use_cases (tc_use_case_id tc) <> None.

(** [ex] was built for the test case at some position of [test_cases]. *)
Definition generated_for (use_cases : list UseCase) (completed_tc_ids : list string)
  (test_cases : list TestCase) (ex : DatasetExample) : Prop :=
  exists i tc,
    nth_error test_cases i = Some tc
    /\ processed use_cases completed_tc_ids tc
    /\ ex_test_case_id ex = tc_id tc
    /\ ex_use_case_id ex = tc_use_case_id tc
    /\ format_str (ex_format ex)
        = _get_format_for_case (case_str (tc_case tc)) (Z.of_nat i).

(** The log entry [c] is the gateway call of some processed test case. *)
Definition called_for (use_cases : list UseCase) (completed_tc_ids : list string)
  (test_cases : list TestCase) (c : Z * string) : Prop :=
  exists i tc,
    nth_error test_cases i = Some tc
    /\ processed use_cases completed_tc_ids tc
    /\ c = (Z.of_nat i, tc_id tc).

(** What a run of the loop from [(base, _)] and [w] leaves behind: the
    log grows by calls satisfying [C]; the file is untouched or holds
    [base] followed by examples satisfying [G]; a returned list is [base]
    followed by examples satisfying [G]. *)
Definition run_post (G : DatasetExample -> Prop) (C : Z * string -> Prop)
  (save_path : string) (base : list DatasetExample) (w : world) (o : outcome) : Prop :=
  (exists new_calls, calls (world_of o) = calls w ++ new_calls /\ Forall C new_calls)
  /\ (disk (world_of o) = disk w
      \/ (save_path <> ""
          /\ exists fresh, disk (world_of o) = Some (wrapper (base ++ fresh))
                           /\ Forall G fresh))
  /\ (forall out w', o = Returned out w' ->
        exists fresh, out = base ++ fresh /\ Forall G fresh).

End DatasetGenerator.

(** ** validator.py *)

Module Validator.
Import Models.

(** The entries of a report.  Each constructor stands for one message
    template of [validate] and carries what the template interpolates. *)
Inductive message :=
| MissingFile (fname : string)
| ManifestInvalid
| BadWrapper (fname : string)
| BareArray (fname : string)
| MinUseCases (found : Z)
| MinPolicies (found : Z)
| MinPolicyTypes (found : Z) (types : list string)
| RecordInvalid (artifact : string) (i : Z)
| EvidenceOutOfBounds (artifact : string) (i : Z) (line_start line_end file_lines : Z)
| EvidenceQuoteMismatch (artifact : string) (i : Z) (line_start line_end : Z)
| UseCaseNotFound (artifact : string) (i : Z) (use_case_id : string)
| TestCaseNotFound (i : Z) (test_case_id : string)
| PolicyNotFound (artifact : string) (i : Z) (pid : string)
| NoPolicyId (artifact : string) (i : Z)
| TooFewTestCases (uc_id : string) (count : Z)
| MessagesEmpty (i : Z)
| SucMessageCount (i : Z) (has : Z)
| SucRoleNotOperator (i : Z)
| SucMissingIndex (i : Z)
| SucWrongIndex (i : Z)
| DlcTooFewMessages (i : Z)
| DlcLastRoleNotOperator (i : Z)
| DlcMissingIndex (i : Z)
| DlcWrongIndex (i : Z) (tmi : json) (expected : Z)
| SupportMissingSource (i : Z)
| NoExamples (tc_id : string)
| MissingSources (missing : list string)
| MissingFormats (missing : list string).

Record ValidationReport := mkReport {
  errors : list message;
  warnings : list message;
  stats : list (string * Z) }.

Definition new_report : ValidationReport := mkReport [] [] [].

Definition error (msg : message) (r : ValidationReport) : ValidationReport :=
  mkReport (errors r ++ [msg]) (warnings r) (stats r).

Definition warn (msg : message) (r : ValidationReport) : ValidationReport :=
  mkReport (errors r) (warnings r ++ [msg]) (stats r).

(** [report.stats[k] = v]. *)
Fixpoint stats_set (st : list (string * Z)) (k : string) (v : Z) : list (string * Z) :=
  match st with
  | [] => [(k, v)]
  | (k', v') :: t => if String.eqb k' k then (k', v) :: t else (k', v') :: stats_set t k v
  end.

Definition set_stat (k : string) (v : Z) (r : ValidationReport) : ValidationReport :=
  mkReport (errors r) (warnings r) (stats_set (stats r) k v).

Definition ok (r : ValidationReport) : bool :=
  match errors r with
  | [] => true
  | _ => false
  end.

(** The output directory, by file name, and the text files a path may
    name, as the lines [_read_input_lines] returns.  A file that exists
    holds well-formed JSON. *)
Record files := mkFiles {
  out_dir : string -> option json;
  text_at : string -> option (list string) }.

Definition exists_ (fs : files) (fname : string) : bool :=
  match out_dir fs fname with
  | Some _ => true
  | None => false
  end.

(** [_load_json]: Python's [None] and JSON's [null] are both [JNull]. *)
Definition _load_json (fs : files) (fname : string) : json :=
  match out_dir fs fname with
  | Some j => j
  | None => JNull
  end.

Definition _read_input_lines (fs : files) (input_path : string) : option (list string) :=
  if String.eqb input_path "" then None else text_at fs input_path.

Definition _validate_evidence_quote (ev : Evidence) (input_lines : option (list string))
  (artifact : string) (i : Z) (r : ValidationReport) : ValidationReport :=
  match input_lines with
  | None => r
  | Some lines =>
      let n := Z.of_nat (List.length lines) in
      if (line_start ev <? 1) || (line_end ev <? line_start ev) || (n <? line_end ev)
      then warn (EvidenceOutOfBounds artifact i (line_start ev) (line_end ev) n) r
      else
        let actual := Py.join_lines (Py.slice (line_start ev - 1) (line_end ev) lines) in
        let normalized_quote := Py.strip (quote ev) in
        let normalized_actual := Py.strip actual in
        if negb (String.eqb normalized_quote "")
           && negb (Py.contains normalized_quote normalized_actual)
        then warn (EvidenceQuoteMismatch artifact i (line_start ev) (line_end ev)) r
        else r
  end.

Definition required_files : list string :=
  ["run_manifest.json"; "use_cases.json"; "policies.json"; "test_cases.json"; "dataset.json"].

Definition check_required_files (fs : files) (r : ValidationReport) : ValidationReport :=
  fold_left (fun r fname => if exists_ fs fname then r else error (MissingFile fname) r)
    required_files r.

(** The manifest block; returns the report and [input_lines]. *)
Definition check_manifest (fs : files) (input_path : string)
  (input_lines : option (list string)) (r : ValidationReport)
  : result (ValidationReport * option (list string)) :=
  let manifest_data := _load_json fs "run_manifest.json" in
  if Py.truthy manifest_data then
    match manifest_data with
    | JDict d =>
        match parse_RunManifest d with
        | Some manifest =>
            if String.eqb input_path "" && negb (String.eqb (rm_input_path manifest) "")
            then Ok (r, _read_input_lines fs (rm_input_path manifest))
            else Ok (r, input_lines)
        | None => Ok (error ManifestInvalid r, input_lines)
        end
    | _ => Raise RuntimeErr
    end
  else Ok (r, input_lines).

(** The wrapper check shared by the four artifacts. *)
Definition load_wrapped (fs : files) (fname key : string) (r : ValidationReport)
  : json * ValidationReport :=
  let raw := _load_json fs fname in
  match raw with
  | JDict d =>
      match Py.dict_get d key with
      | Some l => (l, r)
      | None => (JList [], error (BadWrapper fname) r)
      end
  | JList _ => (raw, warn (BareArray fname) r)
  | _ => (JList [], error (BadWrapper fname) r)
  end.

(** [for i, x in enumerate(items)] over a state [S]. *)
Fixpoint for_enumerate {S : Type} (body : Z -> json -> S -> result S)
  (items : list json) (i : Z) (s : S) : result S :=
  match items with
  | [] => Ok s
  | x :: t => s' <- body i x s ;; for_enumerate body t (i + 1) s'
  end.

Definition check_evidence (evs : list Evidence) (input_lines : option (list string))
  (artifact : string) (i : Z) (r : ValidationReport) : ValidationReport :=
  fold_left (fun r ev => _validate_evidence_quote ev input_lines artifact i r) evs r.

(** *** use_cases.json *)

Definition use_case_body (input_lines : option (list string)) (i : Z) (uc : json)
  (s : list string * ValidationReport) : result (list string * ValidationReport) :=
  let '(use_case_ids, r) := s in
  match uc with
  | JDict d =>
      match parse_UseCase d with
      | Some obj =>
          Ok (Py.set_add (uc_id obj) use_case_ids,
              check_evidence (uc_evidence obj) input_lines "use_cases" i r)
      | None => Ok (use_case_ids, error (RecordInvalid "use_cases" i) r)
      end
  | _ => Raise RuntimeErr
  end.

Definition check_use_cases (fs : files) (input_lines : option (list string))
  (r : ValidationReport) : result (list string * ValidationReport) :=
  let '(uc_list, r) := load_wrapped fs "use_cases.json" "use_cases" r in
  n <- Py.len uc_list ;;
  let r := set_stat "use_cases" n r in
  let r := if n <? 5 then error (MinUseCases n) r else r in
  items <- Py.iter uc_list ;;
  for_enumerate (use_case_body input_lines) items 0 ([], r).

(** *** policies.json *)

Definition policy_body (input_lines : option (list string)) (i : Z) (pol : json)
  (s : list string * list string * ValidationReport)
  : result (list string * list string * ValidationReport) :=
  let '(policy_ids, policy_types, r) := s in
  match pol with
  | JDict d =>
      match parse_Policy d with
      | Some obj =>
          Ok (Py.set_add (pol_id obj) policy_ids,
              Py.set_add (policy_type_str (pol_type obj)) policy_types,
              check_evidence (pol_evidence obj) input_lines "policies" i r)
      | None => Ok (policy_ids, policy_types, error (RecordInvalid "policies" i) r)
      end
  | _ => Raise RuntimeErr
  end.

Definition check_policies (fs : files) (input_lines : option (list string))
  (r : ValidationReport) : result (list string * ValidationReport) :=
  let '(pol_list, r) := load_wrapped fs "policies.json" "policies" r in
  n <- Py.len pol_list ;;
  let r := set_stat "policies" n r in
  let r := if n <? 5 then error (MinPolicies n) r else r in
  items <- Py.iter pol_list ;;
  '(policy_ids, policy_types, r) <- for_enumerate (policy_body input_lines) items 0 ([], [], r) ;;
  let k := Z.of_nat (List.length policy_types) in
  Ok (policy_ids, if k <? 2 then error (MinPolicyTypes k policy_types) r else r).

(** *** test_cases.json *)

(** [d[k] = d.get(k, 0) + 1] on a dict that keeps insertion order. *)
Fixpoint incr (d : list (string * Z)) (k : string) : list (string * Z) :=
  match d with
  | [] => [(k, 1)]
  | (k', v) :: t => if String.eqb k' k then (k', v + 1) :: t else (k', v) :: incr t k
  end.

Definition has_key (d : list (string * Z)) (k : string) : bool :=
  existsb (fun kv => String.eqb (fst kv) k) d.

Definition check_policy_refs (known : list string) (artifact : string) (i : Z)
  (pids : list string) (r : ValidationReport) : ValidationReport :=
  let r := fold_left (fun r pid => if Py.mem pid known then r
                                   else error (PolicyNotFound artifact i pid) r) pids r in
  match pids with
  | [] => error (NoPolicyId artifact i) r
  | _ => r
  end.

Definition test_case_body (use_case_ids policy_ids : list string) (i : Z) (tc : json)
  (s : list string * list (string * Z) * ValidationReport)
  : result (list string * list (string * Z) * ValidationReport) :=
  let '(test_case_ids, tc_per_uc, r) := s in
  match tc with
  | JDict d =>
      match parse_TestCase d with
      | Some obj =>
          let r := if Py.mem (tc_use_case_id obj) use_case_ids then r
                   else error (UseCaseNotFound "test_cases" i (tc_use_case_id obj)) r in
          Ok (Py.set_add (tc_id obj) test_case_ids,
              incr tc_per_uc (tc_use_case_id obj),
              check_policy_refs policy_ids "test_cases" i (tc_policy_ids obj) r)
      | None => Ok (test_case_ids, tc_per_uc, error (RecordInvalid "test_cases" i) r)
      end
  | _ => Raise RuntimeErr
  end.

(** [for uc_id, count in tc_per_uc.items()]. *)
Definition check_tc_per_uc (tc_per_uc : list (string * Z)) (r : ValidationReport)
  : ValidationReport :=
  fold_left (fun r kv => if snd kv <? 3 then error (TooFewTestCases (fst kv) (snd kv)) r
                         else r) tc_per_uc r.

Definition check_test_cases (fs : files) (use_case_ids policy_ids : list string)
  (r : ValidationReport) : result (list string * ValidationReport) :=
  let '(tc_list, r) := load_wrapped fs "test_cases.json" "test_cases" r in
  n <- Py.len tc_list ;;
  let r := set_stat "test_cases" n r in
  items <- Py.iter tc_list ;;
  '(test_case_ids, tc_per_uc, r) <-
     for_enumerate (test_case_body use_case_ids policy_ids) items 0 ([], [], r) ;;
  Ok (test_case_ids, check_tc_per_uc tc_per_uc r).

(** *** dataset.json *)

Definition first_item (x : json) : result json :=
  match x with
  | JList (y :: _) => Ok y
  | JStr (String c _) => Ok (JStr (String c EmptyString))
  | _ => Raise RuntimeErr
  end.

Definition last_item (x : json) : result json :=
  match x with
  | JList l => match rev l with
               | y :: _ => Ok y
               | [] => Raise RuntimeErr
               end
  | JStr s => match rev (Py.chars s) with
              | y :: _ => Ok y
              | [] => Raise RuntimeErr
              end
  | _ => Raise RuntimeErr
  end.

(** [input.get("target_message_index")]; [JNull] is Python's [None]. *)
Definition target_message_index (input : list (string * json)) : json :=
  Py.dict_get_default input "target_message_index" JNull.

(** The [single_utterance_correction] branch. *)
Definition check_single_utterance (i : Z) (messages : json) (input : list (string * json))
  (r : ValidationReport) : result ValidationReport :=
  n <- Py.len messages ;;
  let r := if negb (n =? 1) then warn (SucMessageCount i n) r else r in
  r <- (if Py.truthy messages then
          m <- first_item messages ;;
          role <- Py.get m "role" JNull ;;
          Ok (if negb (Py.eq_str role "operator") then error (SucRoleNotOperator i) r else r)
        else Ok r) ;;
  let tmi := target_message_index input in
  Ok (match tmi with
      | JNull => warn (SucMissingIndex i) r
      | _ => if negb (Py.eq_int tmi 0) then warn (SucWrongIndex i) r else r
      end).

(** The [dialog_last_turn_correction] branch. *)
Definition check_dialog_last_turn (i : Z) (messages : json) (input : list (string * json))
  (r : ValidationReport) : result ValidationReport :=
  n <- Py.len messages ;;
  let r := if n <? 2 then error (DlcTooFewMessages i) r else r in
  r <- (if Py.truthy messages then
          m <- last_item messages ;;
          role <- Py.get m "role" JNull ;;
          Ok (if negb (Py.eq_str role "operator") then error (DlcLastRoleNotOperator i) r
              else r)
        else Ok r) ;;
  let tmi := target_message_index input in
  Ok (match tmi with
      | JNull => error (DlcMissingIndex i) r
      | _ => if negb (Py.eq_int tmi (n - 1)) then error (DlcWrongIndex i tmi (n - 1)) r
             else r
      end).

Definition check_format_shape (i : Z) (fmt : example_format) (messages : json)
  (input : list (string * json)) (r : ValidationReport) : result ValidationReport :=
  match fmt with
  | single_utterance_correction => check_single_utterance i messages input r
  | dialog_last_turn_correction => check_dialog_last_turn i messages input r
  | single_turn_qa => Ok r
  end.

(** The checks on [input.messages]: the emptiness check and the
    format-specific ones. *)
Definition check_messages (i : Z) (fmt : example_format) (input : list (string * json))
  (r : ValidationReport) : result ValidationReport :=
  let messages := Py.dict_get_default input "messages" (JList []) in
  let r := if Py.truthy messages then r else error (MessagesEmpty i) r in
  check_format_shape i fmt messages input r.

(** [set.add] on values: equal values are one element, a list or a dict
    is unhashable. *)
Definition value_set_add (x : json) (l : list json) : result (list json) :=
  if Py.hashable x then
    Ok (if existsb (Py.eq_scalar x) l then l else l ++ [x])
  else Raise RuntimeErr.

Record dataset_state := mkDatasetState {
  ex_per_tc : list (string * Z);
  formats_seen : list string;
  sources_seen : list json;
  ds_report : ValidationReport }.

Definition example_body (use_case_ids policy_ids test_case_ids : list string) (i : Z)
  (ex : json) (s : dataset_state) : result dataset_state :=
  match ex with
  | JDict d =>
      match parse_DatasetExample d with
      | Some obj =>
          let formats := Py.set_add (format_str (ex_format obj)) (formats_seen s) in
          let per_tc := incr (ex_per_tc s) (ex_test_case_id obj) in
          let source := Py.dict_get_default (ex_metadata obj) "source" JNull in
          sources <- (if Py.truthy source then value_set_add source (sources_seen s)
                      else Ok (sources_seen s)) ;;
          let r := ds_report s in
          let r := if Py.mem (ex_use_case_id obj) use_case_ids then r
                   else error (UseCaseNotFound "dataset" i (ex_use_case_id obj)) r in
          let r := if Py.mem (ex_test_case_id obj) test_case_ids then r
                   else error (TestCaseNotFound i (ex_test_case_id obj)) r in
          let r := check_policy_refs policy_ids "dataset" i (ex_policy_ids obj) r in
          r <- check_messages i (ex_format obj) (ex_input obj) r ;;
          let r := if String.eqb (case_str (ex_case obj)) "support_bot"
                      && negb (Py.truthy source)
                   then warn (SupportMissingSource i) r else r in
          Ok (mkDatasetState per_tc formats sources r)
      | None =>
          Ok (mkDatasetState (ex_per_tc s) (formats_seen s) (sources_seen s)
                (error (RecordInvalid "dataset" i) (ds_report s)))
      end
  | _ => Raise RuntimeErr
  end.

(** [for tc_id in test_case_ids: if tc_id not in ex_per_tc]. *)
Definition check_examples_per_tc (test_case_ids : list string)
  (ex_per_tc : list (string * Z)) (r : ValidationReport) : ValidationReport :=
  fold_left (fun r tc_id => if has_key ex_per_tc tc_id then r else error (NoExamples tc_id) r)
    test_case_ids r.

Definition is_str (x : json) : bool :=
  match x with
  | JStr _ => true
  | _ => false
  end.

(** [', '.join(sorted(sources_seen))]: a source that is not a string
    cannot be joined. *)
Definition print_sources (sources_seen : list json) : result unit :=
  if forallb is_str sources_seen then Ok tt else Raise RuntimeErr.

(** [ds_list[0].get("case")] when [ds_list] is truthy, else [None]. *)
Definition first_case (ds_list : json) : result json :=
  if Py.truthy ds_list then
    ex <- first_item ds_list ;;
    Py.get ex "case" JNull
  else Ok JNull.

Definition required_sources : list string := ["tickets"; "faq_paraphrase"; "corner"].
Definition required_formats : list string :=
  ["single_utterance_correction"; "dialog_last_turn_correction"].

(** The case-wide coverage check. *)
Definition check_coverage (case_type : json) (formats_seen : list string)
  (sources_seen : list json) (r : ValidationReport) : ValidationReport :=
  if Py.eq_str case_type "support_bot" then
    let missing := filter (fun s => negb (existsb (fun x => Py.eq_str x s) sources_seen))
                     required_sources in
    match missing with
    | [] => r
    | _ => error (MissingSources missing) r
    end
  else if Py.eq_str case_type "operator_quality" then
    let missing := filter (fun s => negb (Py.mem s formats_seen)) required_formats in
    match missing with
    | [] => r
    | _ => error (MissingFormats missing) r
    end
  else r.

Definition check_dataset (fs : files) (use_case_ids policy_ids test_case_ids : list string)
  (r : ValidationReport) : result ValidationReport :=
  let '(ds_list, r) := load_wrapped fs "dataset.json" "examples" r in
  n <- Py.len ds_list ;;
  let r := set_stat "examples" n r in
  items <- Py.iter ds_list ;;
  s <- for_enumerate (example_body use_case_ids policy_ids test_case_ids) items 0
         (mkDatasetState [] [] [] r) ;;
  let r := check_examples_per_tc test_case_ids (ex_per_tc s) (ds_report s) in
  let r := set_stat "formats" (Z.of_nat (List.length (formats_seen s))) r in
  let r := set_stat "sources" (Z.of_nat (List.length (sources_seen s))) r in
  _ <- print_sources (sources_seen s) ;;
  case_type <- first_case ds_list ;;
  Ok (check_coverage case_type (formats_seen s) (sources_seen s) r).

(** Everything [validate] does once the required files are there. *)
Definition validate_artifacts (fs : files) (input_path : string) (r : ValidationReport)
  : result ValidationReport :=
  let input_lines := _read_input_lines fs input_path in
  '(r, input_lines) <- check_manifest fs input_path input_lines r ;;
  '(use_case_ids, r) <- check_use_cases fs input_lines r ;;
  '(policy_ids, r) <- check_policies fs input_lines r ;;
  '(test_case_ids, r) <- check_test_cases fs use_case_ids policy_ids r ;;
  check_dataset fs use_case_ids policy_ids test_case_ids r.

Definition validate (fs : files) (input_path : string) : result ValidationReport :=
  let report := check_required_files fs new_report in
  if negb (ok report) then Ok report
  else validate_artifacts fs input_path report.

(** *** Vocabulary of the statements about a report *)

(** The list the dataset checks run over ([ds_list]). *)
Definition examples_list (fs : files) : json :=
  fst (load_wrapped fs "dataset.json" "examples" new_report).

Definition missing_files (fs : files) : list string :=
  filter (fun fname => negb (exists_ fs fname)) required_files.

(** The records of a list that the schema accepts, in their order. *)
Definition accepted (items : list json) : list DatasetExample :=
  flat_map (fun x => match x with
                     | JDict d => match parse_DatasetExample d with
                                  | Some ex => [ex]
                                  | None => []
                                  end
                     | _ => []
                     end) items.

(** Some accepted record of [items] has the metadata source [s]. *)
Definition source_in (items : list json) (s : string) : bool :=
  existsb (fun ex => Py.eq_str (Py.dict_get_default (ex_metadata ex) "source" JNull) s)
    (accepted items).

(** Some accepted record of [items] has the format [f]. *)
Definition format_in (items : list json) (f : string) : bool :=
  existsb (fun ex => String.eqb (format_str (ex_format ex)) f) (accepted items).

(** The errors of the case-wide coverage check. *)
Definition is_coverage (m : message) : bool :=
  match m with
  | MissingSources _ | MissingFormats _ => true
  | _ => false
  end.

Definition is_missing_file (m : message) : bool :=
  match m with
  | MissingFile _ => true
  | _ => false
  end.

(** The errors of the checks between the file check and the coverage
    check. *)
Definition content_error (m : message) : Prop :=
  is_coverage m = false /\ is_missing_file m = false.

(** [r'] is [r] after some checks: more errors, all satisfying [P]; the
    statistics recorded stay recorded. *)
Definition extends (P : message -> Prop) (r r' : ValidationReport) : Prop :=
  (exists es, errors r' = errors r ++ es /\ Forall P es)
  /\ (forall k, In k (map fst (stats r)) -> In k (map fst (stats r'))).

End Validator.

(** ** Sample runs *)

Module Samples.
Import Models.

(** The gateway answer of the fallback scenario of stage 2. *)
Definition empty_ids_answer : gateway :=
  fun _ => Ok (JDict [("test_cases",
                       JList [JDict [("parameters", JDict []); ("policy_ids", JList [])]])]).

Definition uc1 : UseCase :=
  mkUseCase "uc_1" support_bot "Returns" "" [mkEvidence "doc.md" 1 1 "N/A"].

Definition pol (id : string) : Policy :=
  mkPolicy id must support_bot "" [mkEvidence "doc.md" 1 1 "N/A"].

(** Stage 3: a support-bot run over five test cases; the gateway answers
    every call with one example. *)
Definition one_example : json :=
  JDict [("input", JDict [("messages",
                           JList [JDict [("role", JStr "user"); ("content", JStr "q")]])]);
         ("expected_output", JStr "a");
         ("evaluation_criteria", JList [JStr "c1"])].

Definition steady_gateway : gateway :=
  fun _ => Ok (JDict [("examples", JList [one_example])]).

Definition tc (n : Z) (use_case_id : string) : TestCase :=
  mkTestCase ("tc_" ++ Py.str_of_int n)%string support_bot use_case_id [] ["pol_1"].

Definition five_test_cases : list TestCase :=
  [tc 1 "uc_1"; tc 2 "uc_1"; tc 3 "uc_1"; tc 4 "uc_1"; tc 5 "uc_1"].

Definition ex (n : Z) (test_case_id source : string) : DatasetExample :=
  mkDatasetExample ("ex_" ++ Py.str_of_int n)%string support_bot single_turn_qa
    "uc_1" test_case_id
    [("messages", JList [JDict [("role", JStr "user"); ("content", JStr "q")]])]
    "a" ["c1"; "Response is relevant"; "Response follows policies"] ["pol_1"]
    [("source", JStr source); ("split", JStr "test")].

Definition save_path : string := "out/dataset.json".

(** Two of the five test cases are on disk. *)
Definition two_persisted : json :=
  DatasetGenerator.wrapper [ex 1 "tc_1" "tickets"; ex 2 "tc_2" "tickets"].

(** A test case whose use case is unknown, with an example on disk. *)
Definition orphan : TestCase := tc 1 "uc_9".

(** A gateway that fails on its third call. *)
Definition failing_gateway : gateway :=
  fun k => if (k <? 2)%nat then steady_gateway k else Raise (GatewayErr "Max retries exceeded").

(** The validator: an output directory that meets the contract except
    that use case [uc_5] has no test case. *)
Definition numbered (p : string) (n : Z) : string := (p ++ Py.str_of_int n)%string.

Definition evidence_json : json :=
  JDict [("input_file", JStr "doc.md"); ("line_start", JInt 1); ("line_end", JInt 1);
         ("quote", JStr "Returns")].

Definition use_case_fields (case : string) (n : Z) : list (string * json) :=
  [("id", JStr (numbered "uc_" n)); ("case", JStr case); ("name", JStr "Returns");
   ("description", JStr "Customer returns an order");
   ("evidence", JList [evidence_json])].

Definition use_case_json (case : string) (n : Z) : json := JDict (use_case_fields case n).

Definition policy_json (case : string) (n : Z) (type : string) : json :=
  JDict [("id", JStr (numbered "pol_" n)); ("type", JStr type); ("case", JStr case);
         ("statement", JStr "Answer politely"); ("evidence", JList [evidence_json])].

Definition test_case_fields (case : string) (n : Z) : list (string * json) :=
  [("id", JStr (numbered "tc_" n)); ("case", JStr case);
   ("use_case_id", JStr (numbered "uc_" ((n - 1) / 3 + 1)));
   ("parameters", JDict [("tone", JStr "polite")]);
   ("policy_ids", JList [JStr "pol_1"; JStr "pol_2"])].

Definition test_case_json (case : string) (n : Z) : json := JDict (test_case_fields case n).

Definition message_json (role : string) : json :=
  JDict [("role", JStr role); ("content", JStr "text")].

Definition example_json (case format : string) (n : Z) (input metadata : list (string * json))
  : json :=
  JDict [("id", JStr (numbered "ex_" n)); ("case", JStr case); ("format", JStr format);
         ("use_case_id", JStr (numbered "uc_" ((n - 1) / 3 + 1)));
         ("test_case_id", JStr (numbered "tc_" n));
         ("input", JDict input);
         ("expected_output", JStr "answer");
         ("evaluation_criteria", JList [JStr "c1"; JStr "c2"; JStr "c3"]);
         ("policy_ids", JList [JStr "pol_1"]);
         ("metadata", JDict metadata)].

Definition manifest_json : json :=
  JDict [("input_path", JStr "/in/doc.md"); ("out_path", JStr "/out"); ("seed", JInt 42);
         ("timestamp", JStr "2025-01-01T00:00:00+00:00");
         ("generator_version", JStr "0.1.0");
         ("llm", JDict [("provider", JStr "google"); ("model", JStr "gemini-2.0-flash");
                        ("temperature", JInt 0)])].

Definition range (n : nat) : list Z := map Z.of_nat (seq 1 n).

Definition policy_types : list string := ["must"; "must_not"; "escalate"; "style"; "format"].

Definition policies_json (case : string) : json :=
  JDict [("policies",
          JList (map (fun nt => policy_json case (fst nt) (snd nt))
                   (combine (range 5) policy_types)))].

Definition use_cases_json (case : string) : json :=
  JDict [("use_cases", JList (map (use_case_json case) (range 5)))].

Definition test_cases_json (case : string) (n : nat) : json :=
  JDict [("test_cases", JList (map (test_case_json case) (range n)))].

Definition support_example (n : Z) : json :=
  example_json "support_bot" "single_turn_qa" n
    [("messages", JList [message_json "user"])]
    [("source", JStr (DatasetGenerator._get_source_for_support (n - 1)));
     ("split", JStr "test")].

Definition document : string -> option (list string) :=
  fun path => if String.eqb path "/in/doc.md"
              then Some ["Returns are accepted within 14 days"]
              else None.

Definition directory (l : list (string * json)) : Validator.files :=
  Validator.mkFiles (Py.dict_get l) document.

(** Twelve test cases, three for each of [uc_1] .. [uc_4], none for
    [uc_5]; one example per test case. *)
Definition shortfall_dir : Validator.files :=
  directory [("run_manifest.json", manifest_json);
             ("use_cases.json", use_cases_json "support_bot");
             ("policies.json", policies_json "support_bot");
             ("test_cases.json", test_cases_json "support_bot" 12);
             ("dataset.json", JDict [("examples", JList (map support_example (range 12)))])].

(** The four artifacts without the manifest. *)
Definition no_manifest_dir : Validator.files :=
  directory [("use_cases.json", use_cases_json "support_bot");
             ("policies.json", policies_json "support_bot");
             ("test_cases.json", test_cases_json "support_bot" 12);
             ("dataset.json", JDict [("examples", JList (map support_example (range 12)))])].

(** The same artifacts with an empty examples list. *)
Definition no_examples_dir : Validator.files :=
  directory [("run_manifest.json", manifest_json);
             ("use_cases.json", use_cases_json "support_bot");
             ("policies.json", policies_json "support_bot");
             ("test_cases.json", test_cases_json "support_bot" 3);
             ("dataset.json", JDict [("examples", JList [])])].

(** An operator-quality directory that meets the contract, except that
    the single message of its first example has role "user". *)
Definition operator_example (n : Z) : json :=
  if Z.odd n then
    example_json "operator_quality" "single_utterance_correction" n
      [("messages", JList [message_json (if n =? 1 then "user" else "operator")]);
       ("target_message_index", JInt 0)] [("split", JStr "test")]
  else
    example_json "operator_quality" "dialog_last_turn_correction" n
      [("messages", JList [message_json "user"; message_json "operator"]);
       ("target_message_index", JInt 1)] [("split", JStr "test")].

Definition user_role_dir : Validator.files :=
  directory [("run_manifest.json", manifest_json);
             ("use_cases.json", use_cases_json "operator_quality");
             ("policies.json", policies_json "operator_quality");
             ("test_cases.json", test_cases_json "operator_quality" 15);
             ("dataset.json", JDict [("examples", JList (map operator_example (range 15)))])].

(** A support-bot directory whose examples list starts with a record of
    case "support_bot" and goes on with one of case "operator_quality". *)
Definition mixed_cases_dir : Validator.files :=
  directory [("run_manifest.json", manifest_json);
             ("use_cases.json", use_cases_json "support_bot");
             ("policies.json", policies_json "support_bot");
             ("test_cases.json", test_cases_json "support_bot" 3);
             ("dataset.json",
              JDict [("examples", JList [support_example 1; operator_example 2])])].

End Samples.

(** ** Vocabulary of the further properties *)

Module Shapes.
Import Models.

(** A message as the dataset stage stores it: a role and a content,
    nothing else. *)
Definition normalized_message (m : json) : Prop :=
  exists role content, m = JDict [("role", role); ("content", content)].

(** The reversal [rstrip] is built on. *)
Definition srev (s : string) : string := Py.rev_string s EmptyString.

(** Text of 7-bit characters only.  On such text the white space that
    [Py.strip] removes is the white space of Python's [str.strip]. *)
Fixpoint seven_bit (s : string) : bool :=
  match s with
  | EmptyString => true
  | String c t => (nat_of_ascii c <? 128)%nat && seven_bit t
  end.

End Shapes.

(** ** extractor.py: the two extraction calls *)

Module ExtractionStage.
Import Models.

(** Constructors of [UseCase] and [Policy] as the stage calls them: the
    id, the case, the type and the evidence are typed by the caller, the
    texts come from the gateway. *)
Definition new_UseCase (id : string) (case : case_type) (name description : json)
  (evidence : list Evidence) : option UseCase :=
  i <-? with_prefix "uc_" id ;;
  n <-? as_str name ;;
  d <-? as_str description ;;
  ev <-? min_length 1 evidence ;;
  Some (mkUseCase i case n d ev).

Definition new_Policy (id : string) (type : policy_type) (case : case_type)
  (statement : json) (evidence : list Evidence) : option Policy :=
  i <-? with_prefix "pol_" id ;;
  st <-? as_str statement ;;
  ev <-? min_length 1 evidence ;;
  Some (mkPolicy i type case st ev).

(** The default of [data.get("evidence", ...)]. *)
Definition default_evidence : json :=
  JList [JDict [("line_start", JInt 1); ("line_end", JInt 1); ("quote", JStr "N/A")]].

Definition placeholder (input_file : string) : Evidence :=
  mkEvidence input_file 1 1 "N/A".

(** [_validate_evidence(data.get("evidence", default), raw_lines,
    input_file)], then the placeholder when nothing came out. *)
Definition checked_evidence (data : json) (raw_lines : list string) (input_file : string)
  : result (list Evidence) :=
  raw <- Py.get data "evidence" default_evidence ;;
  evidence_list <- Py.iter raw ;;
  evidence <- Extractor._validate_evidence evidence_list raw_lines input_file ;;
  Ok (match evidence with
      | [] => [placeholder input_file]
      | _ => evidence
      end).

(** The body of the loop of [extract_use_cases]; [i] counts from 1. *)
Definition use_case_of (raw_lines : list string) (case : case_type) (input_file : string)
  (i : Z) (uc_data : json) : result UseCase :=
  evidence <- checked_evidence uc_data raw_lines input_file ;;
  name <- Py.get uc_data "name" (JStr ("Use Case " ++ Py.str_of_int i)%string) ;;
  description <- Py.get uc_data "description" (JStr "") ;;
  match new_UseCase ("uc_" ++ Py.str_of_int i)%string case name description evidence with
  | Some uc => Ok uc
  | None => Raise RuntimeErr
  end.

(** [for i, x in enumerate(items, start)] collecting a list. *)
Fixpoint collect {A : Type} (body : Z -> json -> result A) (items : list json) (i : Z)
  : result (list A) :=
  match items with
  | [] => Ok []
  | x :: t => y <- body i x ;; ys <- collect body t (i + 1) ;; Ok (y :: ys)
  end.

(** [extract_use_cases]; [answer] is what [llm.generate_json] gave, the
    base name of the input path is [input_file]. *)
Definition extract_use_cases (config : Config) (answer : result json)
  (raw_lines : list string) (case : case_type) (input_file : string)
  : result (list UseCase) :=
  response <- answer ;;
  use_cases_raw <- Py.take_items (n_use_cases config) (unwrap "use_cases" response) ;;
  collect (use_case_of raw_lines case input_file) use_cases_raw 1.

(** [pol_type not in valid_types] on a set: a list or a dict cannot be
    hashed; a value that is not one of the five names becomes "must". *)
Definition resolve_type (pol_type : json) : result policy_type :=
  if Py.hashable pol_type then
    Ok (match pol_type with
        | JStr s => match policy_type_of_str s with
                    | Some t => t
                    | None => must
                    end
        | _ => must
        end)
  else Raise RuntimeErr.

Definition policy_of (raw_lines : list string) (case : case_type) (input_file : string)
  (i : Z) (pol_data : json) : result Policy :=
  pol_type <- Py.get pol_data "type" (JStr "must") ;;
  pol_type <- resolve_type pol_type ;;
  evidence <- checked_evidence pol_data raw_lines input_file ;;
  statement <- Py.get pol_data "statement" (JStr "") ;;
  match new_Policy ("pol_" ++ Py.str_of_int i)%string pol_type case statement evidence with
  | Some p => Ok p
  | None => Raise RuntimeErr
  end.

Definition extract_policies (config : Config) (answer : result json)
  (raw_lines : list string) (case : case_type) (input_file : string)
  : result (list Policy) :=
  response <- answer ;;
  policies_raw <- Py.iter (unwrap "policies" response) ;;
  collect (policy_of raw_lines case input_file) policies_raw 1.

(** [run_extraction] once the document is read and its case detected:
    the use cases from the first gateway call, the policies from the
    second. *)
Definition run_extraction (config : Config) (llm : gateway) (raw_lines : list string)
  (case : case_type) (input_file : string) : result (list UseCase * list Policy) :=
  use_cases <- extract_use_cases config (llm 0%nat) raw_lines case input_file ;;
  policies <- extract_policies config (llm 1%nat) raw_lines case input_file ;;
  Ok (use_cases, policies).

End ExtractionStage.

(** ** What the checks of the validator range over *)

Module Contract.
Import Models Validator.

(** The list a block of [validate] runs over: the value under the
    wrapper key, or the bare array. *)
Definition artifact_list (fs : files) (fname key : string) : json :=
  fst (load_wrapped fs fname key new_report).

(** The items the loop of the block visits. *)
Definition items_of (fs : files) (fname key : string) : list json :=
  match Py.iter (artifact_list fs fname key) with
  | Ok items => items
  | Raise _ => []
  end.

(** A record the constructor of the model accepts. *)
Definition schema_valid {A : Type} (parse : list (string * json) -> option A) (x : json)
  : Prop :=
  exists d a, x = JDict d /\ parse d = Some a.

(** The objects built from the records the constructor accepts, in
    order. *)
Definition parsed {A : Type} (parse : list (string * json) -> option A) (items : list json)
  : list A :=
  flat_map (fun x => match x with
                     | JDict d => match parse d with
                                  | Some a => [a]
                                  | None => []
                                  end
                     | _ => []
                     end) items.

Definition use_cases_of (fs : files) : list UseCase :=
  parsed parse_UseCase (items_of fs "use_cases.json" "use_cases").

Definition policies_of (fs : files) : list Policy :=
  parsed parse_Policy (items_of fs "policies.json" "policies").

Definition test_cases_of (fs : files) : list TestCase :=
  parsed parse_TestCase (items_of fs "test_cases.json" "test_cases").

Definition examples_of (fs : files) : list DatasetExample :=
  parsed parse_DatasetExample (items_of fs "dataset.json" "examples").

(** [d.get(k)] on a counter dict. *)
Fixpoint counter_get (d : list (string * Z)) (k : string) : option Z :=
  match d with
  | [] => None
  | (k', v) :: t => if String.eqb k' k then Some v else counter_get t k
  end.

(** [d.get(k, 0)]. *)
Definition counter_total (d : list (string * Z)) (k : string) : Z :=
  match counter_get d k with
  | Some v => v
  | None => 0
  end.

(** How often [k] occurs in a list of keys. *)
Definition occ (k : string) (keys : list string) : Z :=
  Z.of_nat (List.length (filter (String.eqb k) keys)).

(** [obj.input.get("messages", [])]. *)
Definition messages_in (input : list (string * json)) : json :=
  Py.dict_get_default input "messages" (JList []).

(** The shape the format-specific checks accept without an error. *)
Definition shape (fmt : example_format) (input : list (string * json)) : Prop :=
  match fmt with
  | single_turn_qa => True
  | single_utterance_correction =>
      exists m, first_item (messages_in input) = Ok m
                /\ Py.get m "role" JNull = Ok (JStr "operator")
  | dialog_last_turn_correction =>
      exists n m, Py.len (messages_in input) = Ok n /\ 2 <= n
                  /\ last_item (messages_in input) = Ok m
                  /\ Py.get m "role" JNull = Ok (JStr "operator")
                  /\ Py.eq_int (target_message_index input) (n - 1) = true
  end.

(** The references of an example the validator accepts without an
    error: its use case among [uids], its test case among [tids], at
    least one policy id, all of them among [pids]. *)
Definition example_refs_ok (uids pids tids : list string) (e : DatasetExample) : Prop :=
  In (ex_use_case_id e) uids
  /\ In (ex_test_case_id e) tids
  /\ ex_policy_ids e <> []
  /\ Forall (fun p => In p pids) (ex_policy_ids e).

(** The messages the validator accepts without an error: a non-empty
    [messages] value of the shape of the format. *)
Definition example_messages_ok (e : DatasetExample) : Prop :=
  Py.truthy (messages_in (ex_input e)) = true /\ shape (ex_format e) (ex_input e).

Definition example_ok (uids pids tids : list string) (e : DatasetExample) : Prop :=
  example_refs_ok uids pids tids e /\ example_messages_ok e.

(** The references of a test case the validator accepts without an
    error: its use case among [uids], at least one policy id, all of
    them among [pids]. *)
Definition test_case_ok (uids pids : list string) (tc : TestCase) : Prop :=
  In (tc_use_case_id tc) uids
  /\ tc_policy_ids tc <> []
  /\ Forall (fun p => In p pids) (tc_policy_ids tc).

(** Some source seen is not a string. *)
Definition odd_source (l : list json) : bool := existsb (fun x => negb (is_str x)) l.

(** The messages of the checks on [target_message_index]. *)
Definition is_index_message (m : message) : bool :=
  match m with
  | SucMissingIndex _ | SucWrongIndex _ | DlcMissingIndex _ | DlcWrongIndex _ _ _ => true
  | _ => false
  end.

End Contract.

(** ** The retry loop of the gateway ([llm.py]) *)

Module Llm.

(** What one pass of the loop body of [generate_json] meets, from the
    call to the API to the parsing of its text. *)
Inductive attempt :=
| Parsed (j : json)
  (** [json.loads(text)] gives [j] *)
| Fenced (r : result json)
  (** JSONDecodeError, the text holds a code block; [r] is what
      [json.loads] gives or raises on the content of the block *)
| NotJson (e : exn)
  (** JSONDecodeError [e], no code block *)
| RateLimited (e : exn) (delay : option Z)
  (** an exception whose text mentions 429, resource or quota; [delay]
      is the retry delay read from the text, when it states one *)
| Failed (e : exn).
  (** any other exception *)

(** The outcome of a call, the back-off sleeps in seconds, in order, and
    the number of calls to the API.  The pacing of [_rate_limit] depends
    on the clock and is not part of the sleeps recorded. *)
Record run := mkRun {
  outcome : result json;
  slept : list Z;
  calls : nat }.

Definition rate_limit_wait (attempt : Z) (delay : option Z) : Z :=
  match delay with
  | Some d => Z.min (d + 5) 120
  | None => Z.min (2 ^ (attempt + 2) * 3) 120
  end.

(** [for attempt in range(max_retries)] with the statement after it. *)
Fixpoint retry_loop (api : Z -> attempt) (max_retries : Z) (attempts : list Z)
  (slept : list Z) (calls : nat) : run :=
  match attempts with
  | [] => mkRun (Raise (GatewayErr "Max retries exceeded")) slept calls
  | attempt :: rest =>
      match api attempt with
      | Parsed j => mkRun (Ok j) slept (S calls)
      | Fenced r => mkRun r slept (S calls)
      | NotJson e | Failed e =>
          if attempt <? max_retries - 1
          then retry_loop api max_retries rest (slept ++ [2 ^ attempt]) (S calls)
          else mkRun (Raise e) slept (S calls)
      | RateLimited _ delay =>
          retry_loop api max_retries rest (slept ++ [rate_limit_wait attempt delay])
            (S calls)
      end
  end.

(** [range(n)]. *)
Definition py_range (n : Z) : list Z := map Z.of_nat (seq 0 (Z.to_nat n)).

Definition generate_json (api : Z -> attempt) (max_retries : Z) : run :=
  retry_loop api max_retries (py_range max_retries) [] 0%nat.

(** What an attempt that ends the loop with an answer gives. *)
Definition answer_of (a : attempt) : option (result json) :=
  match a with
  | Parsed j => Some (Ok j)
  | Fenced r => Some r
  | _ => None
  end.

(** [sum] of a list of sleeps. *)
Definition total (l : list Z) : Z := fold_right Z.add 0 l.

End Llm.

(** ** The pipeline with resume ([__main__.py]) *)

Module Pipeline.
Import Models.

(** *** [model_dump] of the stage artifacts *)

Definition dump_UseCase (uc : UseCase) : json :=
  JDict [("id", JStr (uc_id uc)); ("case", JStr (case_str (uc_case uc)));
         ("name", JStr (uc_name uc)); ("description", JStr (uc_description uc));
         ("evidence", JList (map dump_Evidence (uc_evidence uc)))].

Definition dump_Policy (p : Policy) : json :=
  JDict [("id", JStr (pol_id p)); ("type", JStr (policy_type_str (pol_type p)));
         ("case", JStr (case_str (pol_case p))); ("statement", JStr (pol_statement p));
         ("evidence", JList (map dump_Evidence (pol_evidence p)))].

Definition dump_TestCase (tc : TestCase) : json :=
  JDict [("id", JStr (tc_id tc)); ("case", JStr (case_str (tc_case tc)));
         ("use_case_id", JStr (tc_use_case_id tc));
         ("parameters", JDict (tc_parameters tc));
         ("policy_ids", jstrs (tc_policy_ids tc))].

(** *** Files of the output directory *)

(** The output directory by file name; [None]: no such file.  A file
    that exists holds well-formed JSON. *)
Definition files := string -> option json.

Definition _save_json (name : string) (data : json) (fs : files) : files :=
  fun n => if String.eqb n name then Some data else fs n.

(** [_load_json]: Python's [None] and JSON's [null] are both [JNull]. *)
Definition _load_json (fs : files) (name : string) : json :=
  match fs name with
  | Some j => j
  | None => JNull
  end.

Definition _unwrap (data : json) (key : string) : json :=
  match data with
  | JDict d => match Py.dict_get d key with
               | Some v => v
               | None => JNull
               end
  | JList _ => data
  | _ => JNull
  end.

(** The comprehension that builds a model from every item of [lst]:
    each item has to be a dict the constructor accepts. *)
Definition load_all {A : Type} (parse : list (string * json) -> option A) (lst : json)
  : result (list A) :=
  items <- Py.iter lst ;;
  mapM (fun u => match u with
                 | JDict d => match parse d with
                              | Some a => Ok a
                              | None => Raise RuntimeErr
                              end
                 | _ => Raise RuntimeErr
                 end) items.

(** The wrapped form [{key: [...]}]. *)
Definition wrap (key : string) (records : list json) : json := JDict [(key, JList records)].

(** *** The steps of [cmd_generate] *)

(** Step 1: resume from use_cases.json and policies.json when both hold
    something truthy, else extract and save both. *)
Definition extraction_step (config : Config) (llm : gateway) (raw_lines : list string)
  (case : case_type) (input_file : string) (fs : files)
  : result (list UseCase * list Policy * files) :=
  let uc_list := _unwrap (_load_json fs "use_cases.json") "use_cases" in
  let pol_list := _unwrap (_load_json fs "policies.json") "policies" in
  if Py.truthy uc_list && Py.truthy pol_list then
    use_cases <- load_all parse_UseCase uc_list ;;
    policies <- load_all parse_Policy pol_list ;;
    Ok (use_cases, policies, fs)
  else
    '(use_cases, policies) <-
       ExtractionStage.run_extraction config llm raw_lines case input_file ;;
    let fs := _save_json "use_cases.json" (wrap "use_cases" (map dump_UseCase use_cases)) fs in
    let fs := _save_json "policies.json" (wrap "policies" (map dump_Policy policies)) fs in
    Ok (use_cases, policies, fs).

(** Step 2: resume from test_cases.json, or generate and save. *)
Definition test_case_step (config : Config) (llm : gateway) (use_cases : list UseCase)
  (policies : list Policy) (fs : files) : result (list TestCase * files) :=
  let tc_list := _unwrap (_load_json fs "test_cases.json") "test_cases" in
  if Py.truthy tc_list then
    test_cases <- load_all parse_TestCase tc_list ;;
    Ok (test_cases, fs)
  else
    test_cases <- TestCaseGenerator.generate_test_cases config llm use_cases policies ;;
    Ok (test_cases,
        _save_json "test_cases.json" (wrap "test_cases" (map dump_TestCase test_cases)) fs).

Record artifacts := mkArtifacts {
  use_cases : list UseCase;
  policies : list Policy;
  test_cases : list TestCase;
  examples : list DatasetExample }.

(** How the pipeline ends, with the files it leaves. *)
Inductive ended :=
| Completed (a : artifacts) (fs : files)
| Crashed (e : exn) (fs : files).

(** [cmd_generate] from the manifest on.  [manifest] is the dump of the
    run manifest (it holds the clock and a float); the document is read
    and its case detected as in [ExtractionStage.run_extraction]; each
    stage has its gateway, a function of the number of the call within
    the stage. *)
Definition run_pipeline (config : Config) (manifest : json) (raw_lines : list string)
  (case : case_type) (input_file : string) (llm_extract llm_tests llm_dataset : gateway)
  (fs : files) : ended :=
  let fs := _save_json "run_manifest.json" manifest fs in
  match extraction_step config llm_extract raw_lines case input_file fs with
  | Raise e => Crashed e fs
  | Ok (use_cases, policies, fs) =>
      match test_case_step config llm_tests use_cases policies fs with
      | Raise e => Crashed e fs
      | Ok (test_cases, fs) =>
          match DatasetGenerator.generate_dataset config llm_dataset use_cases policies
                  test_cases "dataset.json" (fs "dataset.json") with
          | DatasetGenerator.Raised e w =>
              Crashed e (fun n => if String.eqb n "dataset.json"
                                  then DatasetGenerator.disk w else fs n)
          | DatasetGenerator.Returned examples w =>
              Completed (mkArtifacts use_cases policies test_cases examples)
                (_save_json "dataset.json" (DatasetGenerator.wrapper examples) fs)
          end
      end
  end.

(** The exit of the command: a code, or an exception that escapes. *)
Inductive exit :=
| Exit (code : Z) (fs : files)
| Escaped (e : exn) (fs : files).

Definition cmd_generate (has_api_key input_exists : bool) (config : Config)
  (manifest : json) (raw_lines : list string) (case : case_type) (input_file : string)
  (llm_extract llm_tests llm_dataset : gateway) (fs : files) : exit :=
  if negb has_api_key then Exit 1 fs
  else if negb input_exists then Exit 1 fs
  else match run_pipeline config manifest raw_lines case input_file
               llm_extract llm_tests llm_dataset fs with
       | Completed _ fs' => Exit 0 fs'
       | Crashed e fs' => Escaped e fs'
       end.

(** *** Vocabulary of the statements about the pipeline *)

Definition files_of (r : ended) : files :=
  match r with
  | Completed _ fs => fs
  | Crashed _ fs => fs
  end.

(** The file [name] holds, under [key] or as a bare array, records that
    load as [xs]. *)
Definition stored {A : Type} (parse : list (string * json) -> option A) (fs : files)
  (name key : string) (xs : list A) : Prop :=
  load_all parse (_unwrap (_load_json fs name) key) = Ok xs.

(** A stage with a truthy list on file is resumed. *)
Definition resumable (fs : files) (name key : string) : bool :=
  Py.truthy (_unwrap (_load_json fs name) key).

(** The constraints of the models on the fields the stages type. *)
Definition valid_use_case (uc : UseCase) : Prop :=
  String.prefix "uc_" (uc_id uc) = true /\ uc_evidence uc <> [].

Definition valid_policy (p : Policy) : Prop :=
  String.prefix "pol_" (pol_id p) = true /\ pol_evidence p <> [].

Definition valid_test_case (tc : TestCase) : Prop :=
  String.prefix "tc_" (tc_id tc) = true /\ String.prefix "uc_" (tc_use_case_id tc) = true.

End Pipeline.

(** ** The pipeline against the validator *)

Module EndToEnd.
Import Models.

(** The errors that say the output has too little of something: too few
    records, types or test cases, no policy id, no message, no example,
    a source never used. *)
Definition is_shortfall (m : Validator.message) : bool :=
  match m with
  | Validator.MinUseCases _ | Validator.MinPolicies _ | Validator.MinPolicyTypes _ _
  | Validator.NoPolicyId _ _ | Validator.TooFewTestCases _ _ | Validator.MessagesEmpty _
  | Validator.NoExamples _ | Validator.MissingSources _ => true
  | _ => false
  end.

Definition shortfall (m : Validator.message) : Prop := is_shortfall m = true.

(** A test case of a support-bot run whose references resolve. *)
Definition sound_test_case (uids pids : list string) (tc : TestCase) : Prop :=
  Pipeline.valid_test_case tc
  /\ In (tc_use_case_id tc) uids
  /\ Forall (fun p => In p pids) (tc_policy_ids tc)
  /\ tc_case tc = support_bot.

(** An example of a support-bot run whose references resolve. *)
Definition sound_example (uids pids tids : list string) (ex : DatasetExample) : Prop :=
  DatasetGenerator.valid_example ex
  /\ In (ex_use_case_id ex) uids
  /\ In (ex_test_case_id ex) tids
  /\ Forall (fun p => In p pids) (ex_policy_ids ex)
  /\ ex_case ex = support_bot
  /\ ex_format ex = single_turn_qa
  /\ exists s, Py.dict_get (ex_metadata ex) "source" = Some (JStr s).

(** The output directory as the validator sees it. *)
Definition as_validator_files (fs : Pipeline.files) (text : string -> option (list string))
  : Validator.files :=
  Validator.mkFiles fs text.

End EndToEnd.

(** ** Further sample runs *)

Module MoreSamples.
Import Models Samples.

(** An operator-quality test case at an odd position and a gateway
    example for it: three messages, one with a stray key, a stale index
    and a source of its own. *)
Definition operator_tc : TestCase :=
  mkTestCase "tc_2" operator_quality "uc_1" [] ["pol_1"].

Definition dialog_answer : json :=
  JDict [("input",
          JDict [("messages",
                  JList [JDict [("role", JStr "user"); ("content", JStr "q")];
                         JDict [("content", JStr "a"); ("role", JStr "operator");
                                ("lang", JStr "ru")];
                         JDict []]);
                 ("target_message_index", JInt 7)]);
         ("expected_output", JStr "fixed");
         ("evaluation_criteria", JList [JStr "c1"; JStr "c2"; JStr "c3"; JStr "c4"]);
         ("metadata", JDict [("source", JStr "chat"); ("split", JStr "train")])].

Definition dialog_example : DatasetExample :=
  mkDatasetExample "ex_5" operator_quality dialog_last_turn_correction "uc_1" "tc_2"
    [("messages",
      JList [JDict [("role", JStr "user"); ("content", JStr "q")];
             JDict [("role", JStr "operator"); ("content", JStr "a")];
             JDict [("role", JStr "user"); ("content", JStr "")]]);
     ("target_message_index", JInt 2)]
    "fixed" ["c1"; "c2"; "c3"; "c4"] ["pol_1"]
    [("source", JStr "chat"); ("split", JStr "test")].

(** Stage 2 over two use cases; the gateway answers each call with three
    records, of which the configuration keeps two. *)
Definition uc2 : UseCase :=
  mkUseCase "uc_2" operator_quality "Refunds" "" [mkEvidence "doc.md" 2 2 "N/A"].

Definition three_records : gateway :=
  fun _ => Ok (JDict [("test_cases",
                       JList [JDict [("parameters", JDict [("tone", JStr "angry")]);
                                     ("policy_ids", JList [JStr "pol_2"; JStr "pol_9"])];
                              JDict [("policy_ids", JStr "pol_1")];
                              JDict []])]).

Definition four_test_cases : list TestCase :=
  [mkTestCase "tc_1" support_bot "uc_1" [("tone", JStr "angry")] ["pol_2"];
   mkTestCase "tc_2" support_bot "uc_1" [] ["pol_1"; "pol_2"];
   mkTestCase "tc_3" support_bot "uc_2" [("tone", JStr "angry")] ["pol_2"];
   mkTestCase "tc_4" support_bot "uc_2" [] ["pol_1"; "pol_2"]].

(** Extraction over a two-line document. *)
Definition two_lines : list string := ["Returns within 14 days"; "Refunds by card"].

Definition use_cases_answer : result json :=
  Ok (JDict [("use_cases",
              JList [JDict [("name", JStr "Returns");
                            ("evidence",
                             JList [JDict [("line_start", JInt 0); ("line_end", JInt 9);
                                           ("quote", JStr "no such text")]])];
                     JDict [("description", JStr "Money back"); ("evidence", JList [])]])]).

Definition extracted_use_cases : list UseCase :=
  [mkUseCase "uc_1" support_bot "Returns" ""
     [mkEvidence "doc.md" 1 2
        (String.concat Py.newline ["Returns within 14 days"; "Refunds by card"])];
   mkUseCase "uc_2" support_bot "Use Case 2" "Money back" [mkEvidence "doc.md" 1 1 "N/A"]].

Definition policies_answer : result json :=
  Ok (JList [JDict [("type", JStr "escalate"); ("statement", JStr "Call a human")];
             JDict [("type", JStr "should"); ("evidence", JList [JDict [("line_start", JInt 2)]])];
             JDict [("type", JNull)]]).

Definition extracted_policies : list Policy :=
  [mkPolicy "pol_1" escalate support_bot "Call a human"
     [mkEvidence "doc.md" 1 1 "Returns within 14 days"];
   mkPolicy "pol_2" must support_bot "" [mkEvidence "doc.md" 2 2 "Refunds by card"];
   mkPolicy "pol_3" must support_bot "" [mkEvidence "doc.md" 1 1 "Returns within 14 days"]].

(** An operator-quality directory that meets the contract. *)
Definition operator_record (n : Z) : json :=
  if Z.odd n then
    example_json "operator_quality" "single_utterance_correction" n
      [("messages", JList [message_json "operator"]);
       ("target_message_index", JInt 0)] [("split", JStr "test")]
  else
    example_json "operator_quality" "dialog_last_turn_correction" n
      [("messages", JList [message_json "user"; message_json "operator"]);
       ("target_message_index", JInt 1)] [("split", JStr "test")].

Definition operator_dir : Validator.files :=
  directory [("run_manifest.json", manifest_json);
             ("use_cases.json", use_cases_json "operator_quality");
             ("policies.json", policies_json "operator_quality");
             ("test_cases.json", test_cases_json "operator_quality" 15);
             ("dataset.json", JDict [("examples", JList (map operator_record (range 15)))])].

(** A first run of the pipeline in an empty directory: two use cases
    and three policies are extracted, two test cases are kept for each
    use case and one example is built for each test case. *)
Definition extraction_gateway : gateway :=
  fun k => match k with
           | O => use_cases_answer
           | _ => policies_answer
           end.

Definition empty_directory : Pipeline.files := fun _ => None.

Definition built (n : Z) (use_case_id test_case_id : string) (policy_ids : list string)
  : DatasetExample :=
  mkDatasetExample ("ex_" ++ Py.str_of_int n)%string support_bot single_turn_qa
    use_case_id test_case_id
    [("messages", JList [JDict [("role", JStr "user"); ("content", JStr "q")]])]
    "a" ["c1"; "Response is relevant"; "Response follows policies"] policy_ids
    [("source", JStr "tickets"); ("split", JStr "test")].

Definition first_run_artifacts : Pipeline.artifacts :=
  Pipeline.mkArtifacts extracted_use_cases extracted_policies four_test_cases
    [built 1 "uc_1" "tc_1" ["pol_2"]; built 2 "uc_1" "tc_2" ["pol_1"; "pol_2"];
     built 3 "uc_2" "tc_3" ["pol_2"]; built 4 "uc_2" "tc_4" ["pol_1"; "pol_2"]].

Definition first_run_files : Pipeline.files :=
  Pipeline._save_json "dataset.json"
    (DatasetGenerator.wrapper (Pipeline.examples first_run_artifacts))
    (Pipeline._save_json "test_cases.json"
       (Pipeline.wrap "test_cases" (map Pipeline.dump_TestCase four_test_cases))
       (Pipeline._save_json "policies.json"
          (Pipeline.wrap "policies" (map Pipeline.dump_Policy extracted_policies))
          (Pipeline._save_json "use_cases.json"
             (Pipeline.wrap "use_cases" (map Pipeline.dump_UseCase extracted_use_cases))
             (Pipeline._save_json "run_manifest.json" manifest_json empty_directory)))).

(** An output directory whose second example carries a number as its
    metadata source. *)
Definition numbered_source_dir : Validator.files :=
  directory [("run_manifest.json", manifest_json);
             ("use_cases.json", use_cases_json "operator_quality");
             ("policies.json", policies_json "operator_quality");
             ("test_cases.json", test_cases_json "operator_quality" 15);
             ("dataset.json",
              JDict [("examples",
                      JList [operator_record 1;
                             example_json "operator_quality" "dialog_last_turn_correction" 2
                               [("messages",
                                 JList [message_json "user"; message_json "operator"]);
                                ("target_message_index", JInt 1)]
                               [("source", JInt 7); ("split", JStr "test")]])])].

(** The files of the first run without policies.json, and what a run
    over them leaves. *)
Definition without_policies : Pipeline.files :=
  fun n => if String.eqb n "policies.json" then None else first_run_files n.

Definition after_second_extraction : Pipeline.files :=
  Pipeline._save_json "dataset.json"
    (DatasetGenerator.wrapper (Pipeline.examples first_run_artifacts))
    (Pipeline._save_json "policies.json"
       (Pipeline.wrap "policies" (map Pipeline.dump_Policy extracted_policies))
       (Pipeline._save_json "use_cases.json"
          (Pipeline.wrap "use_cases" (map Pipeline.dump_UseCase extracted_use_cases))
          (Pipeline._save_json "run_manifest.json" manifest_json without_policies))).

(** A gateway that is down. *)
Definition down : gateway := fun _ => Raise (GatewayErr "down").

(** The files a run leaves when the dataset gateway is down: the three
    stage files are saved, dataset.json holds the empty wrapper. *)
Definition crashed_run_files : Pipeline.files :=
  fun n => if String.eqb n "dataset.json" then Some (DatasetGenerator.wrapper [])
           else Pipeline._save_json "test_cases.json"
                  (Pipeline.wrap "test_cases" (map Pipeline.dump_TestCase four_test_cases))
                  (Pipeline._save_json "policies.json"
                     (Pipeline.wrap "policies" (map Pipeline.dump_Policy extracted_policies))
                     (Pipeline._save_json "use_cases.json"
                        (Pipeline.wrap "use_cases"
                           (map Pipeline.dump_UseCase extracted_use_cases))
                        (Pipeline._save_json "run_manifest.json" manifest_json
                           empty_directory))) n.

(** Attempts of the retry loop: two rate-limit errors, then JSON; and
    nothing but rate-limit errors that state a delay of 30 seconds. *)
Definition limited_twice : Z -> Llm.attempt :=
  fun k => if k <? 2 then Llm.RateLimited (GatewayErr "429") None
           else Llm.Parsed (JDict []).

Definition always_limited : Z -> Llm.attempt :=
  fun _ => Llm.RateLimited (GatewayErr "429 quota") (Some 30).

End MoreSamples.

(* ------------------------------------------------------------------ *)
(** * Properties *)

Lemma mapM_ok_Forall {A B : Type} (f : A -> result B) (P : B -> Prop) :
  (forall x y, f x = Ok y -> P y) ->
  forall l ys, mapM f l = Ok ys -> Forall P ys.
Proof.
  intros Hf l; induction l as [|x t IH]; simpl; intros ys H.
  - inversion H; constructor.
  - destruct (f x) as [y|e] eqn:Hx; simpl in H; [|discriminate].
    destruct (mapM f t) as [ys'|e] eqn:Ht; simpl in H; [|discriminate].
    inversion H; subst. constructor; eauto.
Qed.

Lemma mapM_ok_length {A B : Type} (f : A -> result B) :
  forall l ys, mapM f l = Ok ys -> List.length ys = List.length l.
Proof.
  induction l as [|x t IH]; simpl; intros ys H.
  - inversion H; reflexivity.
  - destruct (f x) as [y|e]; simpl in H; [|discriminate].
    destruct (mapM f t) as [ys'|e]; simpl in H; [|discriminate].
    inversion H; subst; simpl. f_equal. apply IH; reflexivity.
Qed.

Lemma mapM_total {A B : Type} (f : A -> result B) (Q : A -> Prop) :
  (forall x, Q x -> exists y, f x = Ok y) ->
  forall l, Forall Q l -> exists ys, mapM f l = Ok ys.
Proof.
  intros Hf l HQ; induction HQ as [|x t Hx _ IH]; simpl.
  - eexists; reflexivity.
  - destruct (Hf x Hx) as [y ->]. destruct IH as [ys ->]. simpl. eexists; reflexivity.
Qed.

Lemma foldM_invariant {A S : Type} (f : S -> A -> result S) (I : S -> Prop) :
  (forall s x s', I s -> f s x = Ok s' -> I s') ->
  forall l s s', I s -> foldM f l s = Ok s' -> I s'.
Proof.
  intros Hf l; induction l as [|x t IH]; simpl; intros s s' Hs H.
  - inversion H; subst; exact Hs.
  - destruct (f s x) as [s1|e] eqn:Hx; simpl in H; [|discriminate]. eauto.
Qed.

Lemma In_firstn {A : Type} (n : nat) (l : list A) (x : A) :
  In x (firstn n l) -> In x l.
Proof.
  intros H. rewrite <- (firstn_skipn n l). apply in_or_app. left; exact H.
Qed.

Lemma mem_In s l : Py.mem s l = true <-> In s l.
Proof.
  unfold Py.mem. rewrite existsb_exists. split.
  - intros [x [Hin Hx]]. apply String.eqb_eq in Hx. subst; exact Hin.
  - intros Hin. exists s. split; [exact Hin | apply String.eqb_refl].
Qed.

Lemma mem_false_In s l : Py.mem s l = false <-> ~ In s l.
Proof.
  rewrite <- mem_In. destruct (Py.mem s l); split; congruence.
Qed.

(** Inversion of a chain of binds that ends in [Ok]. *)
Ltac bind_inv H :=
  repeat match type of H with
         | bind ?m _ = Ok _ =>
             let E := fresh "E" in
             destruct m eqn:E; [cbn [bind] in H | discriminate H]
         end.

Ltac obind_inv H :=
  repeat match type of H with
         | Models.obind ?m _ = Some _ =>
             let E := fresh "E" in
             destruct m eqn:E; [cbn [Models.obind] in H | discriminate H]
         end.

(** ** Evidence repair *)

Module ExtractorFacts.
Import Models Extractor.

Lemma validate_one_range raw f ev e :
  (1 <= List.length raw)%nat ->
  validate_one raw f ev = Ok e -> in_range (Z.of_nat (List.length raw)) e.
Proof.
  intros Hn H. unfold validate_one in H.
  destruct (Py.get ev "line_start" (JInt 1)) as [a|] ; simpl in H; [|discriminate].
  destruct (Py.get ev "line_end" a) as [b|]; simpl in H; [|discriminate].
  destruct (Py.get ev "quote" (JStr "")) as [q|]; simpl in H; [|discriminate].
  destruct (Py.as_int a) as [ls|]; simpl in H; [|discriminate].
  destruct (Py.as_int b) as [le|]; simpl in H; [|discriminate].
  destruct q; try discriminate.
  inversion H; subst; clear H. unfold in_range; simpl. lia.
Qed.

Lemma validate_one_total raw f ev :
  well_typed_entry ev -> exists e, validate_one raw f ev = Ok e.
Proof.
  intros [d [-> [Hs [He Hq]]]]. unfold validate_one, Py.get, Py.dict_get_default.
  destruct (Py.dict_get d "line_start") as [a|] eqn:Ea.
  - destruct (Hs a eq_refl) as [n ->]. simpl.
    destruct (Py.dict_get d "line_end") as [b|] eqn:Eb.
    + destruct (He b eq_refl) as [m ->]. simpl.
      destruct (Py.dict_get d "quote") as [q|] eqn:Eq.
      * destruct (Hq q eq_refl) as [t ->]. eexists; reflexivity.
      * eexists; reflexivity.
    + simpl. destruct (Py.dict_get d "quote") as [q|] eqn:Eq.
      * destruct (Hq q eq_refl) as [t ->]. eexists; reflexivity.
      * eexists; reflexivity.
  - simpl. destruct (Py.dict_get d "line_end") as [b|] eqn:Eb.
    + destruct (He b eq_refl) as [m ->]. simpl.
      destruct (Py.dict_get d "quote") as [q|] eqn:Eq.
      * destruct (Hq q eq_refl) as [t ->]. eexists; reflexivity.
      * eexists; reflexivity.
    + simpl. destruct (Py.dict_get d "quote") as [q|] eqn:Eq.
      * destruct (Hq q eq_refl) as [t ->]. eexists; reflexivity.
      * eexists; reflexivity.
Qed.

(** C4, as the spec states it, fails on a document without lines: the
    clamp [max(1, min(x, 0))] still answers line 1, past the end of the
    document. *)
Lemma C4_empty_document_out_of_range :
  _validate_evidence [JDict [("line_start", JInt 1); ("line_end", JInt 1)]] [] "doc.md"
    = Ok [mkEvidence "doc.md" 1 1 ""]
  /\ ~ in_range (Z.of_nat (List.length (@nil string))) (mkEvidence "doc.md" 1 1 "").
Proof.
  split; [reflexivity|]. unfold in_range; simpl. lia.
Qed.

(** C4 (amended): for a document with at least one line, every Evidence
    record that [_validate_evidence] produces has
    [1 <= line_start <= line_end <= total lines], one record per entry;
    and on entries whose fields have the requested types it does
    produce them. *)
Theorem C4_validated_evidence_in_range :
  forall (evidence_list : list json) (raw_lines : list string) (input_file : string),
    (1 <= List.length raw_lines)%nat ->
    (forall evs, _validate_evidence evidence_list raw_lines input_file = Ok evs ->
       Forall (in_range (Z.of_nat (List.length raw_lines))) evs
       /\ List.length evs = List.length evidence_list)
    /\ (Forall well_typed_entry evidence_list ->
        exists evs, _validate_evidence evidence_list raw_lines input_file = Ok evs).
Proof.
  intros l raw f Hn. split.
  - intros evs H. split.
    + eapply mapM_ok_Forall; [|exact H]. intros x y Hy.
      eapply validate_one_range; eauto.
    + eapply mapM_ok_length; exact H.
  - intros Hwt. eapply mapM_total; [|exact Hwt]. intros x Hx.
    apply validate_one_total; exact Hx.
Qed.

Lemma C4_witness :
  Forall (in_range 2)
    [mkEvidence "doc.md" 1 2 "alpha"; mkEvidence "doc.md" 2 2 "beta"].
Proof.
  apply (proj1 (C4_validated_evidence_in_range
                  [JDict [("line_start", JInt 0); ("line_end", JInt 99);
                          ("quote", JStr " alpha ")];
                   JDict [("line_start", JInt 7); ("quote", JStr "gamma")]]
                  ["alpha"; "beta"] "doc.md" (le_S 1 1 (le_n 1))) _ eq_refl).
Defined.

End ExtractorFacts.

(** ** Test-case generation *)

Module TestCaseGeneratorFacts.
Import Models TestCaseGenerator Samples.

Lemma keep_known_incl known items : incl (keep_known known items) known.
Proof.
  unfold keep_known. intros x Hx. apply in_flat_map in Hx.
  destruct Hx as [p [_ Hp]]. destruct p; simpl in Hp; try contradiction.
  destruct (Py.mem s known) eqn:E; simpl in Hp; [|contradiction].
  destruct Hp as [<-|[]]. apply mem_In; exact E.
Qed.

Lemma take_two_incl (l : list string) : incl (Py.take 2 l) l.
Proof. intros x Hx. apply (In_firstn 2 l x). exact Hx. Qed.

Lemma take_two_nonempty (l : list string) : l <> [] -> Py.take 2 l <> [].
Proof. destruct l; [congruence|]. unfold Py.take; simpl. discriminate. Qed.

Lemma resolve_policy_ids_good known pids r :
  known <> [] -> resolve_policy_ids known pids = Ok r -> good_ids known r.
Proof.
  intros Hk H. unfold resolve_policy_ids in H.
  destruct (Py.iter pids) as [items|]; simpl in H; [|discriminate].
  inversion H; subst; clear H.
  destruct (keep_known known items) eqn:E.
  - split; [apply take_two_nonempty; exact Hk | apply take_two_incl].
  - split; [discriminate | rewrite <- E; apply keep_known_incl].
Qed.

Lemma new_TestCase_policy_ids id c u p ids tc :
  new_TestCase id c u p ids = Some tc -> tc_policy_ids tc = ids.
Proof.
  unfold new_TestCase, obind, with_prefix, as_dict.
  destruct (String.prefix "tc_" id); [|discriminate].
  destruct (String.prefix "uc_" u); [|discriminate].
  destruct p; try discriminate. intros H; inversion H; reflexivity.
Qed.

Lemma add_test_case_good c known uc st tc_data st' :
  known <> [] ->
  Forall (fun tc => good_ids known (tc_policy_ids tc)) (fst st) ->
  add_test_case c known uc st tc_data = Ok st' ->
  Forall (fun tc => good_ids known (tc_policy_ids tc)) (fst st').
Proof.
  intros Hk Hst H. destruct st as [acc n]. unfold add_test_case in H.
  destruct (Py.get tc_data "parameters" (JDict [])) as [params|]; simpl in H; [|discriminate].
  destruct (Py.get tc_data "policy_ids" (JList [])) as [pids0|]; simpl in H; [|discriminate].
  destruct (resolve_policy_ids known pids0) as [pids|] eqn:Er; simpl in H; [|discriminate].
  destruct (new_TestCase _ c (uc_id uc) params pids) as [tc|] eqn:Et; [|discriminate].
  inversion H; subst; clear H. simpl in *. apply Forall_app; split; [exact Hst|].
  constructor; [|constructor].
  rewrite (new_TestCase_policy_ids _ _ _ _ _ _ Et).
  eapply resolve_policy_ids_good; eauto.
Qed.

Lemma use_case_loop_good cfg llm c known :
  known <> [] ->
  forall ucs k st st',
    Forall (fun tc => good_ids known (tc_policy_ids tc)) (fst st) ->
    use_case_loop cfg llm c known ucs k st = Ok st' ->
    Forall (fun tc => good_ids known (tc_policy_ids tc)) (fst st').
Proof.
  intros Hk ucs; induction ucs as [|uc rest IH]; simpl; intros k st st' Hst H.
  - inversion H; subst; exact Hst.
  - destruct (llm k) as [response|]; simpl in H; [|discriminate].
    destruct (Py.take_items _ _) as [items|]; simpl in H; [|discriminate].
    destruct (foldM (add_test_case c known uc) items st) as [st1|] eqn:Ef; simpl in H;
      [|discriminate].
    eapply IH; [|exact H].
    eapply (foldM_invariant _ (fun s => Forall _ (fst s))); [|exact Hst|exact Ef].
    intros s x s1' Hs Hx. eapply add_test_case_good; eauto.
Qed.

(** What the comprehension keeps: the returned ids that are strings and
    name a known policy. *)
Lemma keep_known_In known items s :
  In s (keep_known known items) <-> In (JStr s) items /\ In s known.
Proof.
  unfold keep_known. rewrite in_flat_map. split.
  - intros [p [Hp Hs]]. destruct p as [| | |s0| |]; simpl in Hs; try contradiction.
    destruct (Py.mem s0 known) eqn:E; simpl in Hs; [|contradiction].
    destruct Hs as [<-|[]]. split; [exact Hp | apply mem_In; exact E].
  - intros [Hi Hk]. exists (JStr s). split; [exact Hi|].
    apply mem_In in Hk. simpl. rewrite Hk. left. reflexivity.
Qed.

(** On a list of strings the comprehension is a filter. *)
Lemma keep_known_strings known ids :
  keep_known known (map JStr ids) = filter (fun p => existsb (String.eqb p) known) ids.
Proof.
  unfold keep_known. induction ids as [|p t IH]; [reflexivity|]. simpl. rewrite IH.
  unfold Py.mem. destruct (existsb (String.eqb p) known); reflexivity.
Qed.

(** The ids stored for the record [tc_data]: the kept ones, or the first
    two known ids when none is kept. *)
Lemma add_test_case_record c known uc acc n tc_data st' :
  add_test_case c known uc (acc, n) tc_data = Ok st' ->
  exists tc,
    st' = (acc ++ [tc], n + 1)
    /\ stored_ids known tc_data (tc_policy_ids tc).
Proof.
  unfold add_test_case. intros H.
  destruct (Py.get tc_data "parameters" (JDict [])) as [params|]; simpl in H; [|discriminate].
  destruct (Py.get tc_data "policy_ids" (JList [])) as [pids0|] eqn:Eg; simpl in H;
    [|discriminate].
  unfold resolve_policy_ids in H.
  destruct (Py.iter pids0) as [items|] eqn:Ei; simpl in H; [|discriminate].
  destruct (new_TestCase _ c (uc_id uc) params _) as [tc|] eqn:Et; [|discriminate].
  inversion H; subst; clear H. exists tc. split; [reflexivity|].
  exists pids0, items. split; [exact Eg|]. split; [exact Ei|].
  apply (new_TestCase_policy_ids _ _ _ _ _ _ Et).
Qed.

Lemma block_records c known uc items :
  forall acc n st',
    foldM (add_test_case c known uc) items (acc, n) = Ok st' ->
    exists block n',
      st' = (acc ++ block, n')
      /\ Forall2 (fun tc tc_data => stored_ids known tc_data (tc_policy_ids tc)) block items.
Proof.
  induction items as [|x t IH]; intros acc n st' H; cbn [foldM] in H.
  - inversion H; subst. exists [], n. rewrite app_nil_r. split; [reflexivity|constructor].
  - destruct (add_test_case c known uc (acc, n) x) as [s1|] eqn:Ea; cbn [bind] in H;
      [|discriminate H].
    destruct (add_test_case_record _ _ _ _ _ _ _ Ea) as [tc [-> Hs]].
    destruct (IH _ _ _ H) as [block [n' [-> HF]]].
    exists (tc :: block), n'. rewrite <- app_assoc. split; [reflexivity|].
    constructor; assumption.
Qed.

(** The run makes one call per use case, numbered from [k], and stores
    one test case per record of the answers, in their order. *)
Lemma use_case_loop_records cfg llm c known :
  forall ucs k acc n st',
    use_case_loop cfg llm c known ucs k (acc, n) = Ok st' ->
    exists blocks tcs n',
      st' = (acc ++ tcs, n')
      /\ Forall2 (fun i records =>
                    exists response,
                      llm i = Ok response
                      /\ Py.take_items (n_test_cases_per_uc cfg)
                           (unwrap "test_cases" response) = Ok records)
           (seq k (List.length ucs)) blocks
      /\ Forall2 (fun tc tc_data => stored_ids known tc_data (tc_policy_ids tc))
           tcs (List.concat blocks).
Proof.
  induction ucs as [|uc rest IH]; intros k acc n st' H; cbn [use_case_loop] in H.
  - inversion H; subst. exists [], [], n. rewrite app_nil_r.
    split; [reflexivity|]. split; constructor.
  - destruct (llm k) as [response|] eqn:El; cbn [bind] in H; [|discriminate H].
    destruct (Py.take_items _ _) as [items|] eqn:Ei; cbn [bind] in H; [|discriminate H].
    destruct (foldM _ items (acc, n)) as [s1|] eqn:Ef; cbn [bind] in H; [|discriminate H].
    destruct (block_records _ _ _ _ _ _ _ Ef) as [block [n1 [-> HB]]].
    destruct (IH _ _ _ _ H) as [blocks [tcs [n' [-> [HC HF]]]]].
    exists (items :: blocks), (block ++ tcs), n'. rewrite <- app_assoc.
    split; [reflexivity|]. split.
    + simpl. constructor; [|exact HC]. exists response. split; assumption.
    + simpl. apply Forall2_app; assumption.
Qed.

(** C5, as the spec states it, fails when the known policy set is empty:
    the fallback [policy_ids[:2]] is then empty too, and the test case is
    stored without any policy id. *)
Lemma C5_no_known_policy_stores_empty_ids :
  generate_test_cases (mkConfig 8 5 2) empty_ids_answer [uc1] []
    = Ok [mkTestCase "tc_1" support_bot "uc_1" [] []].
Proof. reflexivity. Qed.

(** C5 (amended): [generate_test_cases] calls the gateway once per use
    case and stores one TestCase per record of the answers, in their
    order.  The TestCase stored for a record receives the first two
    known policy ids (all of them when fewer than two are known)
    whenever none of the record's policy ids is known, and otherwise the
    record's known ids, in their order; so, when at least one policy is
    known, every stored TestCase has a non-empty [policy_ids] list made
    of known ids; in particular [[]] against [["pol_1","pol_2","pol_3"]]
    is stored as [["pol_1","pol_2"]]. *)
Theorem C5_stored_policy_ids :
  forall (config : Config) (llm : gateway) (use_cases : list UseCase)
         (policies : list Policy) (tcs : list TestCase),
    generate_test_cases config llm use_cases policies = Ok tcs ->
    (exists blocks : list (list json),
       Forall2 (fun i records =>
                  exists response,
                    llm i = Ok response
                    /\ Py.take_items (n_test_cases_per_uc config)
                         (unwrap "test_cases" response) = Ok records)
         (seq 0 (List.length use_cases)) blocks
       /\ Forall2 (fun tc tc_data =>
                     exists pids items,
                       Py.get tc_data "policy_ids" (JList []) = Ok pids
                       /\ Py.iter pids = Ok items
                       /\ ((forall s, In (JStr s) items -> ~ In s (map pol_id policies)) ->
                           tc_policy_ids tc = firstn 2 (map pol_id policies))
                       /\ ((exists s, In (JStr s) items /\ In s (map pol_id policies)) ->
                           tc_policy_ids tc = keep_known (map pol_id policies) items
                           /\ forall s, In s (tc_policy_ids tc)
                                        <-> In (JStr s) items /\ In s (map pol_id policies))
                       /\ (forall ids,
                             items = map JStr ids ->
                             tc_policy_ids tc
                             = match filter (fun p => existsb (String.eqb p)
                                                        (map pol_id policies)) ids with
                               | [] => firstn 2 (map pol_id policies)
                               | kept => kept
                               end))
            tcs (List.concat blocks))
    /\ (policies <> [] ->
        Forall (fun tc => tc_policy_ids tc <> []
                          /\ incl (tc_policy_ids tc) (map pol_id policies)) tcs)
    /\ generate_test_cases (mkConfig 8 5 2) empty_ids_answer [uc1]
         [pol "pol_1"; pol "pol_2"; pol "pol_3"]
       = Ok [mkTestCase "tc_1" support_bot "uc_1" [] ["pol_1"; "pol_2"]].
Proof.
  intros cfg llm ucs pols tcs H. unfold generate_test_cases in H.
  destruct (use_case_loop _ _ _ _ _ _ _) as [st|] eqn:El; simpl in H; [|discriminate].
  inversion H; subst; clear H. split; [|split].
  - destruct (use_case_loop_records _ _ _ _ _ _ _ _ _ El) as [blocks [tcs [n' [-> [HC HF]]]]].
    exists blocks. split; [exact HC|]. simpl.
    eapply Forall2_impl; [|exact HF].
    intros tc tc_data [pids [items [Hg [Hi Hids]]]]. exists pids, items.
    split; [exact Hg|]. split; [exact Hi|]. split; [|split].
    + intros Hnone. rewrite Hids.
      destruct (keep_known (map pol_id pols) items) as [|x t] eqn:Ek; [reflexivity|].
      exfalso. assert (Hx : In x (keep_known (map pol_id pols) items))
        by (rewrite Ek; left; reflexivity).
      apply keep_known_In in Hx. destruct Hx as [Hx1 Hx2]. exact (Hnone x Hx1 Hx2).
    + intros [s [Hs1 Hs2]].
      assert (Hin : In s (keep_known (map pol_id pols) items))
        by (apply keep_known_In; split; assumption).
      assert (Heq : tc_policy_ids tc = keep_known (map pol_id pols) items).
      { rewrite Hids. destruct (keep_known (map pol_id pols) items); [contradiction|].
        reflexivity. }
      split; [exact Heq|]. intros s'. rewrite Heq. apply keep_known_In.
    + intros ids ->. rewrite Hids, keep_known_strings.
      destruct (filter _ ids); reflexivity.
  - intros Hp. eapply use_case_loop_good in El; [exact El| |constructor].
    destruct pols; [congruence|discriminate].
  - reflexivity.
Qed.

Lemma C5_witness :
  Forall (fun tc => tc_policy_ids tc <> []
                    /\ incl (tc_policy_ids tc) (map pol_id [pol "pol_1"; pol "pol_2"; pol "pol_3"]))
    [mkTestCase "tc_1" support_bot "uc_1" [] ["pol_1"; "pol_2"]].
Proof.
  apply (proj1 (proj2 (C5_stored_policy_ids (mkConfig 8 5 2) empty_ids_answer [uc1]
                         [pol "pol_1"; pol "pol_2"; pol "pol_3"] _ eq_refl))).
  discriminate.
Defined.

End TestCaseGeneratorFacts.

(** ** Dataset generation *)

Module DatasetGeneratorFacts.
Import Models DatasetGenerator Samples.

Lemma with_prefix_Some p s x : with_prefix p s = Some x -> x = s.
Proof. unfold with_prefix. destruct (String.prefix p s); congruence. Qed.

Lemma format_of_str_Some s f : format_of_str s = Some f -> format_str f = s.
Proof.
  unfold format_of_str. intros H.
  destruct (String.eqb_spec s "single_turn_qa");
    [inversion H; subst; reflexivity|].
  destruct (String.eqb_spec s "single_utterance_correction");
    [inversion H; subst; reflexivity|].
  destruct (String.eqb_spec s "dialog_last_turn_correction");
    [inversion H; subst; reflexivity|discriminate].
Qed.

Lemma new_DatasetExample_fields id c fmt u t inp eo ec ps md ex :
  new_DatasetExample id c fmt u t inp eo ec ps md = Some ex ->
  ex_test_case_id ex = t /\ ex_use_case_id ex = u /\ format_str (ex_format ex) = fmt.
Proof.
  unfold new_DatasetExample. intros H. obind_inv H.
  inversion H; subst; simpl.
  repeat split; eauto using with_prefix_Some, format_of_str_Some.
Qed.

Lemma build_example_fields tc fmt i c d ex :
  build_example tc fmt i c d = Ok ex ->
  ex_test_case_id ex = tc_id tc /\ ex_use_case_id ex = tc_use_case_id tc
  /\ format_str (ex_format ex) = fmt.
Proof.
  unfold build_example. intros H. bind_inv H.
  match type of H with
  | match ?n with _ => _ end = _ => destruct n eqn:En; [|discriminate H]
  end.
  inversion H; subst. eapply new_DatasetExample_fields; exact En.
Qed.

Lemma batch_loop_fields tc fmt items :
  forall i st st',
    batch_loop tc fmt items i st = Ok st' ->
    exists batch,
      fst st' = fst st ++ batch
      /\ Forall (fun ex => ex_test_case_id ex = tc_id tc
                           /\ ex_use_case_id ex = tc_use_case_id tc
                           /\ format_str (ex_format ex) = fmt) batch.
Proof.
  induction items as [|x t IH]; simpl; intros i st st' H.
  - inversion H; subst. exists []. rewrite app_nil_r. split; [reflexivity|constructor].
  - bind_inv H. apply IH in H. destruct H as [batch [Hb HF]]. simpl in Hb.
    exists (a :: batch). split.
    + rewrite Hb, <- app_assoc. reflexivity.
    + constructor; [eapply build_example_fields; exact E | exact HF].
Qed.

Lemma process_batch_fields cfg tc fmt response st st' :
  process_batch cfg tc fmt response st = Ok st' ->
  exists batch,
    fst st' = fst st ++ batch
    /\ Forall (fun ex => ex_test_case_id ex = tc_id tc
                         /\ ex_use_case_id ex = tc_use_case_id tc
                         /\ format_str (ex_format ex) = fmt) batch.
Proof.
  unfold process_batch. intros H. bind_inv H. eapply batch_loop_fields; exact H.
Qed.

Lemma nth_error_middle {A : Type} (pre : list A) (x : A) (rest : list A) :
  nth_error (pre ++ x :: rest) (List.length pre) = Some x.
Proof.
  rewrite nth_error_app2 by apply Nat.le_refl. rewrite Nat.sub_diag. reflexivity.
Qed.

Section Loop.
Variables (config : Config) (llm : gateway) (use_cases : list UseCase) (path : string)
          (completed : list string).

Let loop := test_case_loop config llm use_cases path completed.

(** The first of the two skips. *)
Lemma loop_skip_completed tc rest idx st w :
  Py.mem (tc_id tc) completed = true ->
  loop (tc :: rest) idx st w = loop rest (idx + 1) st w.
Proof. intros H. unfold loop; simpl. rewrite H. reflexivity. Qed.

(** The second: the use case is unknown. *)
Lemma loop_skip_unknown tc rest idx st w :
  uc_map_get use_cases (tc_use_case_id tc) = None ->
  loop (tc :: rest) idx st w = loop rest (idx + 1) st w.
Proof.
  intros H. unfold loop; simpl. rewrite H.
  destruct (Py.mem (tc_id tc) completed); reflexivity.
Qed.

Lemma loop_post :
  forall rest pre st w,
    run_post (generated_for use_cases completed (pre ++ rest))
             (called_for use_cases completed (pre ++ rest))
             path (fst st) w
             (loop rest (Z.of_nat (List.length pre)) st w).
Proof.
  induction rest as [|tc rest IH]; intros pre st w.
  - unfold loop; simpl. split; [|split].
    + exists []. rewrite app_nil_r. split; [reflexivity|constructor].
    + left; reflexivity.
    + intros out w' H; inversion H; subst. exists []. rewrite app_nil_r.
      split; [reflexivity|constructor].
  - assert (Hnext : Z.of_nat (List.length pre) + 1 = Z.of_nat (List.length (pre ++ [tc]))).
    { rewrite length_app; simpl. lia. }
    assert (Hlist : pre ++ tc :: rest = (pre ++ [tc]) ++ rest).
    { rewrite <- app_assoc. reflexivity. }
    destruct (Py.mem (tc_id tc) completed) eqn:Hc.
    { rewrite loop_skip_completed by exact Hc. rewrite Hnext, Hlist. apply IH. }
    destruct (uc_map_get use_cases (tc_use_case_id tc)) as [uc|] eqn:Hu.
    2:{ rewrite loop_skip_unknown by exact Hu. rewrite Hnext, Hlist. apply IH. }
    assert (Hproc : processed use_cases completed tc).
    { split; [exact Hc | rewrite Hu; discriminate]. }
    assert (Hcall : called_for use_cases completed (pre ++ tc :: rest)
                      (Z.of_nat (List.length pre), tc_id tc)).
    { exists (List.length pre), tc. split; [apply nth_error_middle|].
      split; [exact Hproc | reflexivity]. }
    unfold loop; simpl. rewrite Hc, Hu. fold loop.
    destruct (llm (List.length (calls w))) as [response|e] eqn:Hl.
    2:{ split; [|split].
        - exists [(Z.of_nat (List.length pre), tc_id tc)]. simpl.
          split; [|constructor; [exact Hcall|constructor]].
          unfold save_if. destruct (negb (path =? "")%string); reflexivity.
        - simpl. unfold save_if. destruct (String.eqb_spec path ""); simpl.
          + left; reflexivity.
          + right. split; [assumption|]. exists []. rewrite app_nil_r.
            split; [reflexivity|constructor].
        - intros out w' H; discriminate H. }
    destruct (process_batch config tc _ response st) as [st'|e] eqn:Hb.
    2:{ split; [|split].
        - exists [(Z.of_nat (List.length pre), tc_id tc)]. simpl.
          split; [reflexivity|constructor; [exact Hcall|constructor]].
        - left; reflexivity.
        - intros out w' H; discriminate H. }
    apply process_batch_fields in Hb. destruct Hb as [batch [Hst' Hbatch]].
    assert (HG : Forall (generated_for use_cases completed (pre ++ tc :: rest)) batch).
    { eapply Forall_impl; [|exact Hbatch]. intros ex [H1 [H2 H3]].
      exists (List.length pre), tc. split; [apply nth_error_middle|].
      split; [exact Hproc|]. repeat split; assumption. }
    rewrite Hnext.
    match goal with
    | |- run_post _ _ _ _ _ (loop rest _ st' ?w2) =>
        specialize (IH (pre ++ [tc]) st' w2); rewrite <- Hlist in IH;
        destruct IH as [[nc [Hnc HC]] [Hd Hout]];
        assert (Hw2c : calls w2 = calls w ++ [(Z.of_nat (List.length pre), tc_id tc)])
          by (unfold save_if; destruct (negb (path =? "")%string); reflexivity);
        assert (Hw2d : disk w2 = disk w
                       \/ (path <> "" /\ disk w2 = Some (wrapper (fst st ++ batch))))
          by (unfold save_if; destruct (String.eqb_spec path ""); simpl;
              [left; reflexivity | right; split; [assumption | rewrite Hst'; reflexivity]])
    end.
    split; [|split].
    + exists ((Z.of_nat (List.length pre), tc_id tc) :: nc). split.
      * rewrite Hnc, Hw2c, <- app_assoc. reflexivity.
      * constructor; assumption.
    + destruct Hd as [Hd | [Hp [fresh [Hd HF]]]].
      * rewrite Hd. destruct Hw2d as [Hw | [Hp Hw]]; [left; exact Hw|].
        right. split; [exact Hp|]. exists batch. split; assumption.
      * right. split; [exact Hp|]. exists (batch ++ fresh). split.
        -- rewrite Hd, Hst', <- app_assoc. reflexivity.
        -- apply Forall_app; split; assumption.
    + intros out w' Ho. destruct (Hout out w' Ho) as [fresh [-> HF]].
      exists (batch ++ fresh). split.
      * rewrite Hst', <- app_assoc. reflexivity.
      * apply Forall_app; split; assumption.
Qed.

End Loop.

Lemma set_add_In x s l : In x (Py.set_add s l) <-> x = s \/ In x l.
Proof.
  unfold Py.set_add. destruct (Py.mem s l) eqn:E.
  - apply mem_In in E. split; [tauto|]. intros [->|H]; assumption.
  - rewrite in_app_iff; simpl. split; intros H; intuition congruence.
Qed.

Lemma fold_load_record l :
  forall acc ids,
    fst (fold_left load_record l (acc, ids)) = acc ++ parsed_examples l
    /\ (forall id, In id (snd (fold_left load_record l (acc, ids)))
                   <-> In id ids \/ In id (map ex_test_case_id (parsed_examples l))).
Proof.
  induction l as [|x t IH]; intros acc ids; simpl.
  - rewrite app_nil_r. split; [reflexivity|]. intros id; tauto.
  - unfold load_record at 2 4. destruct x; try (apply IH).
    destruct (parse_DatasetExample d) as [ex|]; simpl; [|apply IH].
    destruct (IH (acc ++ [ex]) (Py.set_add (ex_test_case_id ex) ids)) as [H1 H2].
    split.
    + rewrite H1, <- app_assoc. reflexivity.
    + intros id. rewrite H2, set_add_In. simpl. intuition congruence.
Qed.

Lemma load_existing_parsed path on_disk :
  path <> "" ->
  fst (load_existing path (Some on_disk)) = parsed_examples (persisted_records on_disk)
  /\ (forall id, In id (snd (load_existing path (Some on_disk)))
                 <-> In id (map ex_test_case_id
                              (parsed_examples (persisted_records on_disk)))).
Proof.
  intros Hp. unfold load_existing, persisted_records.
  destruct (String.eqb_spec path ""); [contradiction|]. simpl.
  assert (Hnil : forall id : string, In id [] <-> In id (map ex_test_case_id (parsed_examples []))).
  { intros id; simpl; tauto. }
  assert (Hl : forall l,
             fst (fold_left load_record l ([], [])) = parsed_examples l
             /\ (forall id, In id (snd (fold_left load_record l ([], [])))
                            <-> In id (map ex_test_case_id (parsed_examples l)))).
  { intros l. destruct (fold_load_record l [] []) as [H1 H2]. split; [exact H1|].
    intros id. rewrite H2. simpl. tauto. }
  destruct on_disk; simpl; try (split; [reflexivity|exact Hnil]).
  - apply Hl.
  - unfold Py.dict_get_default. destruct (Py.dict_get d "examples") as [v|].
    + destruct v; simpl; try (split; [reflexivity|exact Hnil]). apply Hl.
    + simpl. split; [reflexivity|exact Hnil].
Qed.

(** What [_save_partial] writes reads back as it was. *)
Lemma omap_as_str_jstrs l : omap as_str (map JStr l) = Some l.
Proof.
  induction l as [|x t IH]; simpl; [reflexivity|]. rewrite IH. reflexivity.
Qed.

Lemma parse_dump e :
  valid_example e ->
  exists d, dump_DatasetExample e = JDict d /\ parse_DatasetExample d = Some e.
Proof.
  intros [Hi [Hu [Ht Hc]]]. eexists. split; [reflexivity|].
  destruct e as [i c f u t inp eo ec ps md]; simpl in *.
  unfold parse_DatasetExample, id_field, case_field, str_field, field, with_prefix,
    min_length, jstrs, as_list.
  cbn [Py.dict_get String.eqb Ascii.eqb Bool.eqb obind as_str as_dict].
  rewrite Hi, Hu, Ht. cbn [obind].
  rewrite !omap_as_str_jstrs. cbn [obind].
  apply Nat.leb_le in Hc. rewrite Hc.
  destruct c, f; reflexivity.
Qed.

Lemma parsed_examples_dump exs :
  Forall valid_example exs ->
  parsed_examples (map dump_DatasetExample exs) = exs.
Proof.
  induction 1 as [|e t He _ IH]; [reflexivity|].
  destruct (parse_dump e He) as [d [Hd Hp]].
  cbn [map parsed_examples flat_map]. rewrite Hd, Hp. simpl. f_equal. exact IH.
Qed.

Lemma load_existing_wrapper path exs :
  path <> "" -> Forall valid_example exs ->
  fst (load_existing path (Some (wrapper exs))) = exs.
Proof.
  intros Hp Hv. rewrite (proj1 (load_existing_parsed path (wrapper exs) Hp)).
  apply parsed_examples_dump. exact Hv.
Qed.

Lemma uc_map_get_None use_cases id :
  uc_map_get use_cases id = None <-> ~ In id (map uc_id use_cases).
Proof.
  unfold uc_map_get.
  assert (H : forall l acc,
             fold_left (fun found uc => if (uc_id uc =? id)%string then Some uc else found)
               l acc = None
             <-> acc = None /\ ~ In id (map uc_id l)).
  { induction l as [|uc t IH]; intros acc; simpl.
    - tauto.
    - rewrite IH. destruct (String.eqb_spec (uc_id uc) id).
      + split; [intros [H _]; discriminate | intros [_ H]; tauto].
      + split; intros [H1 H2]; (split; [exact H1|tauto]). }
  rewrite H. tauto.
Qed.

Section Runs.
Variables (config : Config) (llm : gateway) (use_cases : list UseCase)
          (policies : list Policy) (path : string).

(** A run over [pre ++ rest] is the run over [pre] followed by the loop
    over [rest]. *)
Lemma loop_app completed :
  forall pre idx st w acc w',
    test_case_loop config llm use_cases path completed pre idx st w = Returned acc w' ->
    exists counter,
      forall rest,
        test_case_loop config llm use_cases path completed (pre ++ rest) idx st w
        = test_case_loop config llm use_cases path completed rest
            (idx + Z.of_nat (List.length pre)) (acc, counter) w'.
Proof.
  induction pre as [|tc pre IH]; intros idx st w acc w' H.
  - simpl in H. inversion H; subst. exists (snd st). intros rest. simpl.
    rewrite Z.add_0_r. destruct st; reflexivity.
  - assert (Hidx : forall n, idx + 1 + Z.of_nat n = idx + Z.of_nat (S n)) by (intros; lia).
    simpl in H. simpl app.
    destruct (Py.mem (tc_id tc) completed) eqn:Hc.
    { destruct (IH _ _ _ _ _ H) as [c Hc']. exists c. intros rest.
      simpl. rewrite Hc. rewrite Hc'. rewrite Hidx. reflexivity. }
    destruct (uc_map_get use_cases (tc_use_case_id tc)) eqn:Hu.
    2:{ destruct (IH _ _ _ _ _ H) as [c Hc']. exists c. intros rest.
        simpl. rewrite Hc, Hu. rewrite Hc'. rewrite Hidx. reflexivity. }
    destruct (llm (List.length (calls w))) eqn:Hl; [|discriminate H].
    destruct (process_batch _ _ _ _ _) eqn:Hb; [|discriminate H].
    destruct (IH _ _ _ _ _ H) as [c Hc']. exists c. intros rest.
    simpl. rewrite Hc, Hu, Hl, Hb. rewrite Hc'. rewrite Hidx. reflexivity.
Qed.

(** What every run leaves behind, in terms of the loaded examples. *)
Lemma generate_dataset_post test_cases on_disk :
  run_post
    (generated_for use_cases (snd (load_existing path on_disk)) test_cases)
    (called_for use_cases (snd (load_existing path on_disk)) test_cases)
    path (fst (load_existing path on_disk)) (mkWorld on_disk [])
    (generate_dataset config llm use_cases policies test_cases path on_disk).
Proof.
  unfold generate_dataset. destruct (load_existing path on_disk) as [loaded ids].
  apply (loop_post config llm use_cases path ids test_cases [] (loaded, _)).
Qed.

End Runs.

(** C8: the format is a function of the case type and the position
    alone: [support_bot] gives [single_turn_qa] at every position;
    [operator_quality] gives [single_utterance_correction] at even and
    [dialog_last_turn_correction] at odd positions; and every example a
    run generates carries the format so chosen for its test case. *)
Theorem C8_format_from_case_and_position :
  (forall i : Z, _get_format_for_case (case_str support_bot) i = "single_turn_qa")
  /\ (forall i : Z,
        _get_format_for_case (case_str operator_quality) i
        = if Z.even i then "single_utterance_correction"
          else "dialog_last_turn_correction")
  /\ (forall config llm use_cases policies test_cases path on_disk out w,
        generate_dataset config llm use_cases policies test_cases path on_disk
          = Returned out w ->
        exists fresh,
          out = fst (load_existing path on_disk) ++ fresh
          /\ Forall (fun ex => exists i tc,
                         nth_error test_cases i = Some tc
                         /\ ex_test_case_id ex = tc_id tc
                         /\ format_str (ex_format ex)
                            = _get_format_for_case (case_str (tc_case tc)) (Z.of_nat i))
               fresh).
Proof.
  split; [|split].
  - intros i. reflexivity.
  - intros i. unfold _get_format_for_case. simpl. rewrite Zmod_even.
    destruct (Z.even i); reflexivity.
  - intros cfg llm ucs pols tcs path on_disk out w H.
    destruct (generate_dataset_post cfg llm ucs pols path tcs on_disk) as [_ [_ Hout]].
    destruct (Hout out w H) as [fresh [-> HF]]. exists fresh. split; [reflexivity|].
    eapply Forall_impl; [|exact HF].
    intros ex [i [tc [Hn [_ [H1 [_ H3]]]]]]. exists i, tc. auto.
Qed.

(** C6: with a save path set, whatever file is found there, the examples
    that parse from it open the output of the stage, unchanged and in
    their order, before every new example; no gateway call is made for a
    test case whose id one of them bears and no new example bears such an
    id; the file, once rewritten, holds them first as well. *)
Theorem C6_resume_keeps_persisted_examples :
  forall (config : Config) (llm : gateway) (use_cases : list UseCase)
         (policies : list Policy) (test_cases : list TestCase) (path : string)
         (on_disk : json),
    path <> "" ->
    let persisted := parsed_examples (persisted_records on_disk) in
    let done_ids := map ex_test_case_id persisted in
    let o := generate_dataset config llm use_cases policies test_cases path (Some on_disk) in
    (forall i tc, nth_error test_cases i = Some tc -> In (tc_id tc) done_ids ->
                  ~ In (Z.of_nat i, tc_id tc) (calls (world_of o)))
    /\ Forall (fun c => ~ In (snd c) done_ids) (calls (world_of o))
    /\ (disk (world_of o) = Some on_disk
        \/ exists fresh,
             disk (world_of o) = Some (wrapper (persisted ++ fresh))
             /\ Forall (fun ex => ~ In (ex_test_case_id ex) done_ids) fresh)
    /\ (forall out w, o = Returned out w ->
          exists fresh,
            out = persisted ++ fresh
            /\ Forall (fun ex => ~ In (ex_test_case_id ex) done_ids) fresh).
Proof.
  intros cfg llm ucs pols tcs path on_disk Hp persisted done_ids o.
  destruct (load_existing_parsed path on_disk Hp) as [Hfst Hsnd].
  pose proof (generate_dataset_post cfg llm ucs pols path tcs (Some on_disk)) as Hpost.
  fold o in Hpost. rewrite Hfst in Hpost. fold persisted in Hpost.
  destruct Hpost as [[nc [Hnc HC]] [Hd Hout]]. simpl in Hnc, Hd.
  assert (HG : forall fresh,
             Forall (generated_for ucs (snd (load_existing path (Some on_disk))) tcs) fresh ->
             Forall (fun ex => ~ In (ex_test_case_id ex) done_ids) fresh).
  { intros fresh HF. eapply Forall_impl; [|exact HF].
    intros ex [i [tc [_ [[Hm _] [H1 _]]]]] Hin. rewrite H1 in Hin.
    apply Hsnd in Hin. apply mem_In in Hin. congruence. }
  assert (Hcalls : Forall (fun c => ~ In (snd c) done_ids) (calls (world_of o))).
  { rewrite Hnc. eapply Forall_impl; [|exact HC].
    intros c [i [tc [_ [[Hm _] ->]]]] Hin. simpl in Hin.
    apply Hsnd in Hin. apply mem_In in Hin. congruence. }
  split; [|split; [exact Hcalls|split]].
  - intros i tc _ Hin Hcall. rewrite Forall_forall in Hcalls.
    apply (Hcalls _ Hcall). exact Hin.
  - destruct Hd as [Hd | [_ [fresh [Hd HF]]]]; [left; exact Hd|].
    right. exists fresh. split; [exact Hd | apply HG; exact HF].
  - intros out w Ho. destruct (Hout out w Ho) as [fresh [-> HF]].
    exists fresh. split; [reflexivity | apply HG; exact HF].
Qed.

(** C7: with a save path set, when the gateway call for a test case
    raises, the run ends by raising that same failure, after one call
    for that test case, and the file then holds the object whose only
    key, "examples", lists the dumps of exactly the examples accumulated
    before it, i.e. of what the run over the preceding test cases
    returns, in their order. *)
Theorem C7_gateway_failure_persists_then_raises :
  forall (config : Config) (llm : gateway) (use_cases : list UseCase)
         (policies : list Policy) (pre : list TestCase) (tc : TestCase)
         (post : list TestCase) (path : string) (on_disk : option json)
         (acc : list DatasetExample) (w : world) (e : exn),
    path <> "" ->
    generate_dataset config llm use_cases policies pre path on_disk = Returned acc w ->
    processed use_cases (snd (load_existing path on_disk)) tc ->
    llm (List.length (calls w)) = Raise e ->
    generate_dataset config llm use_cases policies (pre ++ tc :: post) path on_disk
    = Raised e (mkWorld (Some (JDict [("examples", JList (map dump_DatasetExample acc))]))
                  (calls w ++ [(Z.of_nat (List.length pre), tc_id tc)])).
Proof.
  intros cfg llm ucs pols pre tc post path on_disk acc w e Hp Hpre [Hc Hu] Hl.
  unfold generate_dataset in *. destruct (load_existing path on_disk) as [loaded ids].
  simpl in Hc. destruct (loop_app cfg llm ucs path ids _ _ _ _ _ _ Hpre) as [c Happ].
  rewrite Happ. simpl. rewrite Hc.
  destruct (uc_map_get ucs (tc_use_case_id tc)); [|congruence].
  rewrite Hl. unfold save_if, _save_partial, wrapper; simpl.
  destruct (String.eqb_spec path ""); [contradiction|]. reflexivity.
Qed.

Example two_then_failure :
  generate_dataset (mkConfig 8 5 2) failing_gateway [uc1] [] [tc 1 "uc_1"; tc 2 "uc_1"]
    save_path None
  = Returned [ex 1 "tc_1" "tickets"; ex 2 "tc_2" "tickets"]
      (mkWorld (Some two_persisted) [(0, "tc_1"); (1, "tc_2")]).
Proof. vm_compute. reflexivity. Qed.

Lemma C7_witness :
  generate_dataset (mkConfig 8 5 2) failing_gateway [uc1] [] five_test_cases save_path None
  = Raised (GatewayErr "Max retries exceeded")
      (mkWorld
         (Some
            (JDict
               [("examples",
                 JList
                   [JDict [("id", JStr "ex_1"); ("case", JStr "support_bot");
                           ("format", JStr "single_turn_qa");
                           ("use_case_id", JStr "uc_1"); ("test_case_id", JStr "tc_1");
                           ("input",
                            JDict [("messages",
                                    JList [JDict [("role", JStr "user");
                                                  ("content", JStr "q")]])]);
                           ("expected_output", JStr "a");
                           ("evaluation_criteria",
                            JList [JStr "c1"; JStr "Response is relevant";
                                   JStr "Response follows policies"]);
                           ("policy_ids", JList [JStr "pol_1"]);
                           ("metadata",
                            JDict [("source", JStr "tickets"); ("split", JStr "test")])];
                    JDict [("id", JStr "ex_2"); ("case", JStr "support_bot");
                           ("format", JStr "single_turn_qa");
                           ("use_case_id", JStr "uc_1"); ("test_case_id", JStr "tc_2");
                           ("input",
                            JDict [("messages",
                                    JList [JDict [("role", JStr "user");
                                                  ("content", JStr "q")]])]);
                           ("expected_output", JStr "a");
                           ("evaluation_criteria",
                            JList [JStr "c1"; JStr "Response is relevant";
                                   JStr "Response follows policies"]);
                           ("policy_ids", JList [JStr "pol_1"]);
                           ("metadata",
                            JDict [("source", JStr "tickets"); ("split", JStr "test")])]])]))
         [(0, "tc_1"); (1, "tc_2"); (2, "tc_3")]).
Proof.
  assert (Hp : save_path <> "") by discriminate.
  assert (Hproc : processed [uc1] (snd (load_existing save_path None)) (tc 3 "uc_1")).
  { split; [reflexivity | discriminate]. }
  exact (C7_gateway_failure_persists_then_raises (mkConfig 8 5 2) failing_gateway [uc1] []
           [tc 1 "uc_1"; tc 2 "uc_1"] (tc 3 "uc_1") [tc 4 "uc_1"; tc 5 "uc_1"]
           save_path None _ _ (GatewayErr "Max retries exceeded")
           Hp two_then_failure Hproc eq_refl).
Defined.

(** C9, as stated, fails on a resumed run: a test case whose use case is
    unknown still ends the run with the example that the file already
    held under its id. *)
Lemma C9_orphan_keeps_persisted_example :
  generate_dataset (mkConfig 8 5 2) steady_gateway [uc1] [] [orphan] save_path
    (Some two_persisted)
  = Returned [ex 1 "tc_1" "tickets"; ex 2 "tc_2" "tickets"]
      (mkWorld (Some two_persisted) [])
  /\ ~ In (tc_use_case_id orphan) (map uc_id [uc1])
  /\ ex_test_case_id (ex 1 "tc_1" "tickets") = tc_id orphan.
Proof.
  split; [vm_compute; reflexivity|]. split; [|reflexivity].
  simpl. intros [H|[]]; discriminate H.
Qed.

(** C9 (amended): a test case whose [use_case_id] is the id of no given
    use case is passed over: its turn of the loop changes nothing and the
    loop goes on with the remaining test cases; no gateway call is made
    for it; and the run ends without any example under its id, provided
    no persisted example bears its id and every test case sharing its id
    has an unknown use case too. *)
Theorem C9_unknown_use_case_is_skipped :
  forall (config : Config) (llm : gateway) (use_cases : list UseCase)
         (policies : list Policy) (test_cases : list TestCase) (path : string)
         (on_disk : option json) (i : nat) (tc : TestCase),
    nth_error test_cases i = Some tc ->
    ~ In (tc_use_case_id tc) (map uc_id use_cases) ->
    let o := generate_dataset config llm use_cases policies test_cases path on_disk in
    (forall completed rest idx st w,
        test_case_loop config llm use_cases path completed (tc :: rest) idx st w
        = test_case_loop config llm use_cases path completed rest (idx + 1) st w)
    /\ (forall id, ~ In (Z.of_nat i, id) (calls (world_of o)))
    /\ (~ In (tc_id tc) (map ex_test_case_id (fst (load_existing path on_disk))) ->
        (forall tc', In tc' test_cases -> tc_id tc' = tc_id tc ->
                     ~ In (tc_use_case_id tc') (map uc_id use_cases)) ->
        forall out w, o = Returned out w ->
                      Forall (fun ex => ex_test_case_id ex <> tc_id tc) out).
Proof.
  intros cfg llm ucs pols tcs path on_disk i tc Hn Hu o.
  pose proof (generate_dataset_post cfg llm ucs pols path tcs on_disk) as Hpost.
  fold o in Hpost. destruct Hpost as [[nc [Hnc HC]] [_ Hout]]. simpl in Hnc.
  split; [|split].
  - intros completed rest idx st w. apply loop_skip_unknown.
    apply uc_map_get_None. exact Hu.
  - intros id Hin. rewrite Hnc in Hin. rewrite Forall_forall in HC.
    destruct (HC _ Hin) as [j [tc' [Hj [[_ Hk] Heq]]]].
    inversion Heq as [[Hij Hid]]. apply Nat2Z.inj in Hij. subst j.
    rewrite Hn in Hj. inversion Hj; subst tc'.
    apply Hk. apply uc_map_get_None. exact Hu.
  - intros Hload Hshare out w Ho. destruct (Hout out w Ho) as [fresh [-> HF]].
    apply Forall_app; split.
    + apply Forall_forall. intros ex Hex Heq. apply Hload. rewrite <- Heq.
      apply in_map. exact Hex.
    + eapply Forall_impl; [|exact HF].
      intros ex [j [tc' [Hj [[_ Hk] [H1 _]]]]] Heq.
      apply Hk. apply uc_map_get_None. apply (Hshare tc').
      * eapply nth_error_In; exact Hj.
      * congruence.
Qed.

Example skip_the_orphan_in_the_middle :
  generate_dataset (mkConfig 8 5 2) steady_gateway [uc1] []
    [tc 1 "uc_1"; tc 2 "uc_9"; tc 3 "uc_1"] save_path None
  = Returned [ex 1 "tc_1" "tickets"; ex 2 "tc_3" "tickets"]
      (mkWorld (Some (wrapper [ex 1 "tc_1" "tickets"; ex 2 "tc_3" "tickets"]))
         [(0, "tc_1"); (2, "tc_3")]).
Proof. vm_compute. reflexivity. Qed.

Lemma C9_witness :
  Forall (fun e => ex_test_case_id e <> tc_id (tc 2 "uc_9"))
    [ex 1 "tc_1" "tickets"; ex 2 "tc_3" "tickets"].
Proof.
  assert (Hu : ~ In (tc_use_case_id (tc 2 "uc_9")) (map uc_id [uc1])).
  { simpl. intros [H|[]]; discriminate H. }
  assert (Hload : ~ In (tc_id (tc 2 "uc_9"))
                    (map ex_test_case_id (fst (load_existing save_path None)))).
  { simpl. tauto. }
  assert (Hshare : forall tc', In tc' [tc 1 "uc_1"; tc 2 "uc_9"; tc 3 "uc_1"] ->
                               tc_id tc' = tc_id (tc 2 "uc_9") ->
                               ~ In (tc_use_case_id tc') (map uc_id [uc1])).
  { intros tc' [<-|[<-|[<-|[]]]] Hid; try discriminate Hid. exact Hu. }
  exact (proj2 (proj2 (C9_unknown_use_case_is_skipped (mkConfig 8 5 2) steady_gateway
                         [uc1] [] [tc 1 "uc_1"; tc 2 "uc_9"; tc 3 "uc_1"] save_path None
                         1%nat (tc 2 "uc_9") eq_refl Hu))
           Hload Hshare _ _ skip_the_orphan_in_the_middle).
Defined.

Lemma C6_witness :
  exists fresh,
    [ex 1 "tc_1" "tickets"; ex 2 "tc_2" "tickets"; ex 3 "tc_3" "tickets";
     ex 4 "tc_4" "tickets"; ex 5 "tc_5" "tickets"]
    = parsed_examples (persisted_records two_persisted) ++ fresh
    /\ Forall (fun e => ~ In (ex_test_case_id e)
                          (map ex_test_case_id
                             (parsed_examples (persisted_records two_persisted)))) fresh.
Proof.
  assert (Hp : save_path <> "") by discriminate.
  assert (Hrun : generate_dataset (mkConfig 8 5 2) steady_gateway [uc1] [] five_test_cases
                   save_path (Some two_persisted)
                 = Returned [ex 1 "tc_1" "tickets"; ex 2 "tc_2" "tickets";
                             ex 3 "tc_3" "tickets"; ex 4 "tc_4" "tickets";
                             ex 5 "tc_5" "tickets"]
                     (mkWorld (Some (wrapper [ex 1 "tc_1" "tickets"; ex 2 "tc_2" "tickets";
                                              ex 3 "tc_3" "tickets"; ex 4 "tc_4" "tickets";
                                              ex 5 "tc_5" "tickets"]))
                        [(2, "tc_3"); (3, "tc_4"); (4, "tc_5")])).
  { vm_compute. reflexivity. }
  exact (proj2 (proj2 (proj2 (C6_resume_keeps_persisted_examples (mkConfig 8 5 2)
                                steady_gateway [uc1] [] five_test_cases save_path
                                two_persisted Hp))) _ _ Hrun).
Defined.

Example resume_after_two_of_five :
  generate_dataset (mkConfig 8 5 2) steady_gateway [uc1] [] five_test_cases save_path
    (Some two_persisted)
  = Returned [ex 1 "tc_1" "tickets"; ex 2 "tc_2" "tickets"; ex 3 "tc_3" "tickets";
              ex 4 "tc_4" "tickets"; ex 5 "tc_5" "tickets"]
      (mkWorld (Some (wrapper [ex 1 "tc_1" "tickets"; ex 2 "tc_2" "tickets";
                               ex 3 "tc_3" "tickets"; ex 4 "tc_4" "tickets";
                               ex 5 "tc_5" "tickets"]))
         [(2, "tc_3"); (3, "tc_4"); (4, "tc_5")]).
Proof. vm_compute. reflexivity. Qed.

End DatasetGeneratorFacts.

(** ** The validator *)

Module ValidatorFacts.
Import Models Validator Samples.

(** *** Reports only grow *)

Lemma extends_refl P r : extends P r r.
Proof.
  split; [|auto]. exists []. rewrite app_nil_r. split; [reflexivity|constructor].
Qed.

Lemma extends_trans P r1 r2 r3 : extends P r1 r2 -> extends P r2 r3 -> extends P r1 r3.
Proof.
  intros [[e1 [H1 F1]] K1] [[e2 [H2 F2]] K2]. split; [|auto].
  exists (e1 ++ e2). split.
  - rewrite H2, H1, <- app_assoc. reflexivity.
  - apply Forall_app; split; assumption.
Qed.

Lemma extends_error P m r r' : extends P r r' -> P m -> extends P r (error m r').
Proof.
  intros H Hm. eapply extends_trans; [exact H|]. split; [|auto].
  exists [m]. split; [reflexivity|constructor; [exact Hm|constructor]].
Qed.

Lemma extends_warn P m r r' : extends P r r' -> extends P r (warn m r').
Proof.
  intros H. eapply extends_trans; [exact H|]. split; [|auto].
  exists []. simpl. rewrite app_nil_r. split; [reflexivity|constructor].
Qed.

Lemma stats_set_keys st k v k' :
  In k' (map fst (stats_set st k v)) <-> k' = k \/ In k' (map fst st).
Proof.
  induction st as [|[a b] t IH]; simpl.
  - intuition congruence.
  - destruct (String.eqb_spec a k); simpl.
    + subst. intuition congruence.
    + rewrite IH. intuition congruence.
Qed.

Lemma extends_set_stat P k v r r' : extends P r r' -> extends P r (set_stat k v r').
Proof.
  intros H. eapply extends_trans; [exact H|]. split.
  - exists []. simpl. rewrite app_nil_r. split; [reflexivity|constructor].
  - intros k' Hk. simpl. apply stats_set_keys. right; exact Hk.
Qed.

Lemma extends_fold_left P {A : Type} (f : ValidationReport -> A -> ValidationReport) :
  (forall r x, extends P r (f r x)) ->
  forall l r, extends P r (fold_left f l r).
Proof.
  intros Hf l; induction l as [|x t IH]; intros r; simpl.
  - apply extends_refl.
  - eapply extends_trans; [apply Hf | apply IH].
Qed.

Lemma extends_for_enumerate P {S : Type} (rep : S -> ValidationReport)
  (body : Z -> json -> S -> result S) :
  (forall i x s s', body i x s = Ok s' -> extends P (rep s) (rep s')) ->
  forall items i s s',
    for_enumerate body items i s = Ok s' -> extends P (rep s) (rep s').
Proof.
  intros Hb items; induction items as [|x t IH]; simpl; intros i s s' H.
  - inversion H; subst. apply extends_refl.
  - destruct (body i x s) as [s1|] eqn:E; simpl in H; [|discriminate].
    eapply extends_trans; [eapply Hb; exact E | eapply IH; exact H].
Qed.

(** Peels the report updates of a goal [extends content_error r (...)]. *)
Ltac grow :=
  repeat first
    [ apply extends_refl
    | apply extends_warn
    | apply extends_set_stat
    | apply extends_error; [|split; reflexivity]
    | match goal with
      | |- extends _ _ (if ?c then _ else _) => destruct c
      | |- extends _ _ (match ?x with _ => _ end) => destruct x
      end ].

(** *** Each check adds content errors only *)

Lemma evidence_quote_extends ev il a i r :
  extends content_error r (_validate_evidence_quote ev il a i r).
Proof. unfold _validate_evidence_quote. grow. Qed.

Lemma check_evidence_extends evs il a i r :
  extends content_error r (check_evidence evs il a i r).
Proof.
  unfold check_evidence. apply extends_fold_left. intros; apply evidence_quote_extends.
Qed.

Lemma check_manifest_extends fs ip il r r' il' :
  check_manifest fs ip il r = Ok (r', il') -> extends content_error r r'.
Proof.
  unfold check_manifest. intros H.
  destruct (Py.truthy _); [|inversion H; subst; grow].
  destruct (_load_json fs "run_manifest.json"); try discriminate.
  destruct (parse_RunManifest d).
  - destruct (_ && _); inversion H; subst; grow.
  - inversion H; subst; grow.
Qed.

Lemma load_wrapped_extends fs f k r :
  extends content_error r (snd (load_wrapped fs f k r)).
Proof.
  unfold load_wrapped. destruct (_load_json fs f); simpl; grow.
  destruct (Py.dict_get d k); simpl; grow.
Qed.

Lemma load_wrapped_list fs f k r r0 :
  fst (load_wrapped fs f k r) = fst (load_wrapped fs f k r0).
Proof.
  unfold load_wrapped. destruct (_load_json fs f); simpl; try reflexivity.
  destruct (Py.dict_get d k); reflexivity.
Qed.

Lemma use_case_body_extends il i uc s s' :
  use_case_body il i uc s = Ok s' -> extends content_error (snd s) (snd s').
Proof.
  destruct s as [ids r]. unfold use_case_body. intros H.
  destruct uc; try discriminate. destruct (parse_UseCase d); inversion H; subst; simpl.
  - apply check_evidence_extends.
  - grow.
Qed.

Lemma check_use_cases_extends fs il r ids r' :
  check_use_cases fs il r = Ok (ids, r') ->
  extends content_error r r' /\ In "use_cases" (map fst (stats r')).
Proof.
  unfold check_use_cases. intros H.
  pose proof (load_wrapped_extends fs "use_cases.json" "use_cases" r) as Hw.
  destruct (load_wrapped fs "use_cases.json" "use_cases" r) as [uc_list r1]. simpl in Hw.
  bind_inv H.
  apply (extends_for_enumerate content_error snd) in H;
    [|intros; eapply use_case_body_extends; eassumption].
  simpl in H. split.
  - eapply extends_trans; [exact Hw|]. eapply extends_trans; [|exact H]. grow.
  - apply (proj2 H). destruct (a <? 5); simpl; apply stats_set_keys; left; reflexivity.
Qed.

Lemma policy_body_extends il i pol s s' :
  policy_body il i pol s = Ok s' -> extends content_error (snd s) (snd s').
Proof.
  destruct s as [[ids types] r]. unfold policy_body. intros H.
  destruct pol; try discriminate. destruct (parse_Policy d); inversion H; subst; simpl.
  - apply check_evidence_extends.
  - grow.
Qed.

Lemma check_policies_extends fs il r ids r' :
  check_policies fs il r = Ok (ids, r') -> extends content_error r r'.
Proof.
  unfold check_policies. intros H.
  pose proof (load_wrapped_extends fs "policies.json" "policies" r) as Hw.
  destruct (load_wrapped fs "policies.json" "policies" r) as [pol_list r1]. simpl in Hw.
  bind_inv H. destruct a1 as [[pids ptypes] r2].
  apply (extends_for_enumerate content_error snd) in E1;
    [|intros; eapply policy_body_extends; eassumption].
  simpl in E1. inversion H; subst.
  eapply extends_trans; [exact Hw|].
  eapply extends_trans; [|eapply extends_trans; [exact E1|grow]]. grow.
Qed.

Lemma check_policy_refs_extends known a i pids r :
  extends content_error r (check_policy_refs known a i pids r).
Proof.
  unfold check_policy_refs.
  assert (H : extends content_error r
                (fold_left (fun r pid => if Py.mem pid known then r
                                         else error (PolicyNotFound a i pid) r) pids r)).
  { apply extends_fold_left. intros; grow. }
  destruct pids; [apply extends_error; [exact H|split; reflexivity] | exact H].
Qed.

Lemma test_case_body_extends uids pids i tc s s' :
  test_case_body uids pids i tc s = Ok s' -> extends content_error (snd s) (snd s').
Proof.
  destruct s as [[ids per] r]. unfold test_case_body. intros H.
  destruct tc; try discriminate. destruct (parse_TestCase d); inversion H; subst; simpl.
  - eapply extends_trans; [|apply check_policy_refs_extends]. grow.
  - grow.
Qed.

Lemma check_tc_per_uc_extends per r : extends content_error r (check_tc_per_uc per r).
Proof. unfold check_tc_per_uc. apply extends_fold_left. intros; grow. Qed.

Lemma check_test_cases_extends fs uids pids r ids r' :
  check_test_cases fs uids pids r = Ok (ids, r') -> extends content_error r r'.
Proof.
  unfold check_test_cases. intros H.
  pose proof (load_wrapped_extends fs "test_cases.json" "test_cases" r) as Hw.
  destruct (load_wrapped fs "test_cases.json" "test_cases" r) as [tc_list r1]. simpl in Hw.
  bind_inv H. destruct a1 as [[tids per] r2].
  apply (extends_for_enumerate content_error snd) in E1;
    [|intros; eapply test_case_body_extends; eassumption].
  simpl in E1. inversion H; subst.
  eapply extends_trans; [exact Hw|].
  eapply extends_trans; [|apply check_tc_per_uc_extends].
  eapply extends_trans; [|exact E1]. grow.
Qed.

Lemma check_single_utterance_extends i messages input r r' :
  check_single_utterance i messages input r = Ok r' -> extends content_error r r'.
Proof.
  unfold check_single_utterance. intros H. bind_inv H. inversion H; subst.
  assert (Ha : extends content_error r a0).
  { destruct (Py.truthy messages).
    - bind_inv E0. inversion E0; subst. grow.
    - inversion E0; subst. grow. }
  destruct (target_message_index input); grow; exact Ha.
Qed.

Lemma check_dialog_last_turn_extends i messages input r r' :
  check_dialog_last_turn i messages input r = Ok r' -> extends content_error r r'.
Proof.
  unfold check_dialog_last_turn. intros H. bind_inv H. inversion H; subst.
  assert (Ha : extends content_error r a0).
  { destruct (Py.truthy messages).
    - bind_inv E0. inversion E0; subst. grow.
    - inversion E0; subst. grow. }
  destruct (target_message_index input); grow; exact Ha.
Qed.

Lemma check_messages_extends i fmt input r r' :
  check_messages i fmt input r = Ok r' -> extends content_error r r'.
Proof.
  unfold check_messages, check_format_shape. intros H.
  eapply extends_trans; [|destruct fmt;
    [inversion H; apply extends_refl
    |eapply check_single_utterance_extends; exact H
    |eapply check_dialog_last_turn_extends; exact H]].
  grow.
Qed.

Lemma example_body_extends uids pids tids i ex s s' :
  example_body uids pids tids i ex s = Ok s' ->
  extends content_error (ds_report s) (ds_report s').
Proof.
  unfold example_body. intros H. destruct ex; try discriminate.
  destruct (parse_DatasetExample d) as [obj|].
  - bind_inv H. inversion H; subst; simpl.
    apply check_messages_extends in E0.
    eapply extends_trans; [|eapply extends_trans; [exact E0|grow]].
    eapply extends_trans; [|apply check_policy_refs_extends]. grow.
  - inversion H; subst; simpl. grow.
Qed.

Lemma check_examples_per_tc_extends tids per r :
  extends content_error r (check_examples_per_tc tids per r).
Proof. unfold check_examples_per_tc. apply extends_fold_left. intros; grow. Qed.

(** The dataset checks end with the coverage check, run on the case of
    the first record. *)
Lemma check_dataset_split fs uids pids tids r r' :
  check_dataset fs uids pids tids r = Ok r' ->
  exists r1 case_type formats sources,
    extends content_error r r1
    /\ first_case (examples_list fs) = Ok case_type
    /\ r' = check_coverage case_type formats sources r1.
Proof.
  unfold check_dataset, examples_list. intros H.
  pose proof (load_wrapped_extends fs "dataset.json" "examples" r) as Hw.
  rewrite (load_wrapped_list fs "dataset.json" "examples" new_report r).
  destruct (load_wrapped fs "dataset.json" "examples" r) as [ds_list r1]. simpl in Hw.
  bind_inv H. inversion H; subst; clear H.
  apply (extends_for_enumerate content_error ds_report) in E1;
    [|intros; eapply example_body_extends; eassumption].
  simpl in E1. cbn [fst]. eexists _, a3, _, _. split; [|split; [exact E3|reflexivity]].
  eapply extends_trans; [exact Hw|].
  apply extends_set_stat, extends_set_stat.
  eapply extends_trans; [|apply check_examples_per_tc_extends].
  eapply extends_trans; [|exact E1]. grow.
Qed.

Lemma validate_artifacts_split fs ip r r' :
  validate_artifacts fs ip r = Ok r' ->
  exists r1 case_type formats sources,
    extends content_error r r1
    /\ In "use_cases" (map fst (stats r1))
    /\ first_case (examples_list fs) = Ok case_type
    /\ r' = check_coverage case_type formats sources r1.
Proof.
  unfold validate_artifacts. intros H. bind_inv H.
  destruct a as [ra il]. bind_inv H. destruct a as [uids rb]. bind_inv H.
  destruct a as [pids rc]. bind_inv H. destruct a as [tids rd].
  apply check_manifest_extends in E.
  apply check_use_cases_extends in E0. destruct E0 as [E0 Hk].
  apply check_policies_extends in E1.
  apply check_test_cases_extends in E2.
  apply check_dataset_split in H.
  destruct H as [r1 [ct [fm [sr [Hx [Hc Hr]]]]]].
  exists r1, ct, fm, sr. split; [|split; [|split; assumption]].
  - eauto using extends_trans.
  - apply (proj2 Hx), (proj2 E2), (proj2 E1). exact Hk.
Qed.

(** *** The file check *)

Lemma check_required_files_fold fs l :
  forall r,
    fold_left (fun r fname => if exists_ fs fname then r else error (MissingFile fname) r) l r
    = mkReport (errors r ++ map MissingFile (filter (fun f => negb (exists_ fs f)) l))
        (warnings r) (stats r).
Proof.
  induction l as [|f t IH]; intros r; simpl.
  - rewrite app_nil_r. destruct r; reflexivity.
  - rewrite IH. destruct (exists_ fs f); simpl; [reflexivity|].
    rewrite <- app_assoc. reflexivity.
Qed.

Lemma check_required_files_report fs :
  check_required_files fs new_report = mkReport (map MissingFile (missing_files fs)) [] [].
Proof. unfold check_required_files. rewrite check_required_files_fold. reflexivity. Qed.

Lemma validate_unfold fs ip :
  validate fs ip
  = match missing_files fs with
    | [] => validate_artifacts fs ip new_report
    | _ => Ok (mkReport (map MissingFile (missing_files fs)) [] [])
    end.
Proof.
  unfold validate. rewrite check_required_files_report.
  destruct (missing_files fs); reflexivity.
Qed.

(** C3, as stated, fails: with the four artifact files in place and
    [run_manifest.json] absent, the validator still stops after the file
    check, with the one error for the manifest. *)
Lemma C3_missing_manifest_aborts :
  validate no_manifest_dir "" = Ok (mkReport [MissingFile "run_manifest.json"] [] [])
  /\ Forall (fun fname => exists_ no_manifest_dir fname = true)
       ["use_cases.json"; "policies.json"; "test_cases.json"; "dataset.json"].
Proof.
  split; [vm_compute; reflexivity|]. repeat constructor.
Qed.

(** C3 (amended): the validator stops after the file check, with exactly
    one error per missing file and nothing else in the report, if and
    only if at least one of the five required files (run_manifest.json,
    use_cases.json, policies.json, test_cases.json, dataset.json) is
    missing; when all five are present it runs the remaining checks, and
    a report it then returns has statistics recorded. *)
Theorem C3_abort_iff_required_file_missing :
  forall (fs : files) (input_path : string),
    (forall fname, In fname (missing_files fs)
                   <-> In fname required_files /\ out_dir fs fname = None)
    /\ NoDup (missing_files fs)
    /\ (missing_files fs <> [] ->
        validate fs input_path = Ok (mkReport (map MissingFile (missing_files fs)) [] []))
    /\ (missing_files fs = [] ->
        validate fs input_path = validate_artifacts fs input_path new_report)
    /\ (forall r, validate fs input_path = Ok r ->
                  (stats r = [] <-> missing_files fs <> [])).
Proof.
  intros fs ip. split; [|split; [|split; [|split]]].
  - intros f. unfold missing_files. rewrite filter_In. unfold exists_.
    destruct (out_dir fs f); simpl; intuition congruence.
  - unfold missing_files. apply NoDup_filter. unfold required_files.
    repeat constructor; simpl; intuition discriminate.
  - intros H. rewrite validate_unfold. destruct (missing_files fs); [congruence|reflexivity].
  - intros H. rewrite validate_unfold, H. reflexivity.
  - intros r H. rewrite validate_unfold in H. destruct (missing_files fs) eqn:Em.
    + apply validate_artifacts_split in H.
      destruct H as [r1 [ct [fm [sr [_ [Hk [_ ->]]]]]]].
      split; [|congruence]. intros Hs. exfalso.
      assert (Hs' : stats r1 = []).
      { unfold check_coverage in Hs.
        repeat match type of Hs with
               | context [if ?c then _ else _] => destruct c
               | context [match ?x with _ => _ end] => destruct x
               end; exact Hs. }
      rewrite Hs' in Hk. exact Hk.
    + inversion H; subst; simpl. split; [discriminate|reflexivity].
Qed.

(** *** The shape of a single-utterance example *)

(** C2, as stated, fails: a single_utterance_correction example whose
    one message has role "user" draws an error, the only entry of the
    report of an otherwise sound directory. *)
Lemma C2_user_role_is_an_error :
  validate user_role_dir ""
  = Ok (mkReport [SucRoleNotOperator 0] [] 
          [("use_cases", 5); ("policies", 5); ("test_cases", 15); ("examples", 15);
           ("formats", 2); ("sources", 0)])
  /\ nth_error (map operator_example (range 15)) 0
     = Some (example_json "operator_quality" "single_utterance_correction" 1
               [("messages", JList [message_json "user"]);
                ("target_message_index", JInt 0)] [("split", JStr "test")]).
Proof. split; [vm_compute; reflexivity | reflexivity]. Qed.

(** The three steps of the single-utterance branch, one at a time. *)
Lemma count_step i n r0 :
  let r1 := if negb (n =? 1) then warn (SucMessageCount i n) r0 else r0 in
  errors r1 = errors r0
  /\ incl (warnings r0) (warnings r1)
  /\ (n <> 1 -> In (SucMessageCount i n) (warnings r1)).
Proof.
  destruct (Z.eqb_spec n 1); simpl.
  - split; [reflexivity|]. split; [apply incl_refl|contradiction].
  - split; [reflexivity|]. split; [apply incl_appl, incl_refl|].
    intros _. apply in_or_app. right. left. reflexivity.
Qed.

Lemma role_step i role r1 :
  let r2 := if negb (Py.eq_str role "operator") then error (SucRoleNotOperator i) r1
            else r1 in
  warnings r2 = warnings r1
  /\ (Py.eq_str role "operator" = false -> errors r2 = errors r1 ++ [SucRoleNotOperator i])
  /\ (Py.eq_str role "operator" = true -> errors r2 = errors r1).
Proof.
  destruct (Py.eq_str role "operator"); simpl.
  - split; [reflexivity|]. split; [discriminate|reflexivity].
  - split; [reflexivity|]. split; [reflexivity|discriminate].
Qed.

Lemma index_step i tmi r2 :
  let r3 := match tmi with
            | JNull => warn (SucMissingIndex i) r2
            | _ => if negb (Py.eq_int tmi 0) then warn (SucWrongIndex i) r2 else r2
            end in
  errors r3 = errors r2
  /\ incl (warnings r2) (warnings r3)
  /\ (tmi = JNull -> In (SucMissingIndex i) (warnings r3))
  /\ (tmi <> JNull -> Py.eq_int tmi 0 = false -> In (SucWrongIndex i) (warnings r3)).
Proof.
  assert (Hlast : forall m, In m (warnings (warn m r2))).
  { intros m. simpl. apply in_or_app. right. left. reflexivity. }
  assert (Hinc : forall m, incl (warnings r2) (warnings (warn m r2))).
  { intros m. simpl. apply incl_appl, incl_refl. }
  assert (Hgen : forall z : bool,
             let r3 := if negb z then warn (SucWrongIndex i) r2 else r2 in
             errors r3 = errors r2
             /\ incl (warnings r2) (warnings r3)
             /\ (z = false -> In (SucWrongIndex i) (warnings r3))).
  { intros [|]; simpl.
    - split; [reflexivity|]. split; [apply incl_refl|discriminate].
    - split; [reflexivity|]. split; [apply Hinc|]. intros _. apply Hlast. }
  destruct tmi; cbv zeta iota beta;
    try (match goal with
         | |- context [Py.eq_int ?t 0] =>
             destruct (Hgen (Py.eq_int t 0)) as [G1 [G2 G3]];
             split; [exact G1|]; split; [exact G2|];
             split; [discriminate|]; intros _; exact G3
         end).
  split; [reflexivity|]. split; [apply Hinc|]. split; [intros _; apply Hlast|congruence].
Qed.

Lemma first_item_truthy messages m : first_item messages = Ok m -> Py.truthy messages = true.
Proof.
  destruct messages as [| | |s|l|d]; try discriminate.
  - destruct s; [discriminate|reflexivity].
  - destruct l; [discriminate|reflexivity].
Qed.

(** C2 (amended): for an example of format single_utterance_correction,
    a message count other than 1, a missing target_message_index and a
    target_message_index other than 0 each add a warning; a first message
    whose role is not "operator" adds an error; the checks on the
    messages add no other error than that one and the one for an empty
    [input.messages], so when the first message has role "operator" they
    add none. *)
Theorem C2_single_utterance_shape_severity :
  forall (i : Z) (input : list (string * json)) (r r' : ValidationReport),
    check_messages i single_utterance_correction input r = Ok r' ->
    let messages := Py.dict_get_default input "messages" (JList []) in
    let tmi := target_message_index input in
    (forall n, Py.len messages = Ok n -> n <> 1 -> In (SucMessageCount i n) (warnings r'))
    /\ (tmi = JNull -> In (SucMissingIndex i) (warnings r'))
    /\ (tmi <> JNull -> Py.eq_int tmi 0 = false -> In (SucWrongIndex i) (warnings r'))
    /\ (forall m role, first_item messages = Ok m -> Py.get m "role" JNull = Ok role ->
          Py.eq_str role "operator" = false -> In (SucRoleNotOperator i) (errors r'))
    /\ (forall m role, first_item messages = Ok m -> Py.get m "role" JNull = Ok role ->
          Py.eq_str role "operator" = true -> errors r' = errors r)
    /\ (exists es, errors r' = errors r ++ es
                   /\ Forall (fun e => e = MessagesEmpty i \/ e = SucRoleNotOperator i) es).
Proof.
  intros i input r r' H messages tmi.
  unfold check_messages, check_format_shape, check_single_utterance in H.
  fold messages in H. fold tmi in H.
  destruct (Py.len messages) as [n|] eqn:En; [cbn [bind] in H|discriminate H].
  pose proof (first_item_truthy messages) as Hfirst.
  destruct (Py.truthy messages) eqn:Et.
  - destruct (first_item messages) as [m|] eqn:Em; [cbn [bind] in H|discriminate H].
    destruct (Py.get m "role" JNull) as [role|] eqn:Er; [cbn [bind] in H|discriminate H].
    inversion H as [Hr']; clear H.
    destruct (count_step i n r) as [C1 [C2 C3]].
    destruct (role_step i role (if negb (n =? 1) then warn (SucMessageCount i n) r else r))
      as [R1 [R2 R3]].
    destruct (index_step i tmi
                (if negb (Py.eq_str role "operator")
                 then error (SucRoleNotOperator i)
                        (if negb (n =? 1) then warn (SucMessageCount i n) r else r)
                 else if negb (n =? 1) then warn (SucMessageCount i n) r else r))
      as [T1 [T2 [T3 T4]]].
    split; [|split; [|split; [|split; [|split]]]].
    + intros k Hk Hne. inversion Hk; subst k. apply T2. rewrite R1. apply C3. exact Hne.
    + exact T3.
    + exact T4.
    + intros m' role' Hm' Hrole Hop. inversion Hm'; subst m'. rewrite Er in Hrole.
      inversion Hrole; subst role'. rewrite T1, (R2 Hop). apply in_or_app. right.
      left. reflexivity.
    + intros m' role' Hm' Hrole Hop. inversion Hm'; subst m'. rewrite Er in Hrole.
      inversion Hrole; subst role'. rewrite T1, (R3 Hop). exact C1.
    + rewrite T1. destruct (Py.eq_str role "operator") eqn:Hop.
      * rewrite (R3 eq_refl), C1. exists []. rewrite app_nil_r.
        split; [reflexivity|constructor].
      * rewrite (R2 eq_refl), C1. exists [SucRoleNotOperator i].
        split; [reflexivity|]. constructor; [right; reflexivity|constructor].
  - cbn [bind] in H. inversion H as [Hr']; clear H.
    destruct (count_step i n (error (MessagesEmpty i) r)) as [C1 [C2 C3]].
    destruct (index_step i tmi
                (if negb (n =? 1) then warn (SucMessageCount i n) (error (MessagesEmpty i) r)
                 else error (MessagesEmpty i) r))
      as [T1 [T2 [T3 T4]]].
    split; [|split; [|split; [|split; [|split]]]].
    + intros k Hk Hne. inversion Hk; subst k. apply T2. apply C3. exact Hne.
    + exact T3.
    + exact T4.
    + intros m role Hm. apply Hfirst in Hm. discriminate Hm.
    + intros m role Hm. apply Hfirst in Hm. discriminate Hm.
    + rewrite T1, C1. exists [MessagesEmpty i]. split; [reflexivity|].
      constructor; [left; reflexivity|constructor].
Qed.

Lemma C2_witness :
  In (SucMessageCount 0 2) [SucMessageCount 0 2; SucMissingIndex 0]
  /\ In (SucMissingIndex 0) [SucMessageCount 0 2; SucMissingIndex 0]
  /\ errors (mkReport [] [SucMessageCount 0 2; SucMissingIndex 0] []) = errors new_report.
Proof.
  pose proof (C2_single_utterance_shape_severity 0
                [("messages", JList [message_json "operator"; message_json "operator"])]
                new_report (mkReport [] [SucMessageCount 0 2; SucMissingIndex 0] [])
                eq_refl) as H.
  cbv zeta in H. destruct H as [H1 [H2 [_ [_ [H5 _]]]]].
  split; [|split].
  - apply (H1 2 eq_refl). discriminate.
  - apply H2. reflexivity.
  - apply (H5 (message_json "operator") (JStr "operator")); reflexivity.
Defined.

(** On a JSON list of message objects the single-utterance checks do
    return. *)
Lemma check_messages_single_utterance_total i input r msgs :
  Py.dict_get input "messages" = Some (JList msgs) ->
  Forall (fun m => exists d, m = JDict d) msgs ->
  exists r', check_messages i single_utterance_correction input r = Ok r'.
Proof.
  intros Hm Hd. unfold check_messages, check_format_shape, check_single_utterance.
  unfold Py.dict_get_default. rewrite Hm. cbn [Py.len bind].
  destruct Hd as [|m t [d ->] _]; cbn; eexists; reflexivity.
Qed.

(** *** The coverage check *)

Lemma eq_str_true x s : Py.eq_str x s = true -> x = JStr s.
Proof.
  destruct x; simpl; try discriminate. intros H. apply String.eqb_eq in H. congruence.
Qed.

Lemma first_case_empty ds_list : Py.truthy ds_list = false -> first_case ds_list = Ok JNull.
Proof. unfold first_case. intros ->. reflexivity. Qed.

(** The errors of [check_coverage]: those of [r], then at most one
    coverage error, which tells the case type. *)
Lemma check_coverage_errors case_type formats sources r :
  errors (check_coverage case_type formats sources r) = errors r
  \/ (exists missing,
        errors (check_coverage case_type formats sources r)
        = errors r ++ [MissingSources missing]
        /\ case_type = JStr "support_bot")
  \/ (exists missing,
        errors (check_coverage case_type formats sources r)
        = errors r ++ [MissingFormats missing]
        /\ case_type = JStr "operator_quality").
Proof.
  unfold check_coverage.
  destruct (Py.eq_str case_type "support_bot") eqn:Es.
  - apply eq_str_true in Es.
    destruct (filter _ required_sources) as [|x t]; [left; reflexivity|].
    right; left. exists (x :: t). split; [reflexivity|exact Es].
  - destruct (Py.eq_str case_type "operator_quality") eqn:Eo; [|left; reflexivity].
    apply eq_str_true in Eo.
    destruct (filter _ required_formats) as [|x t]; [left; reflexivity|].
    right; right. exists (x :: t). split; [reflexivity|exact Eo].
Qed.

Lemma content_errors_not_coverage es m :
  Forall content_error es -> In m es -> is_coverage m = false.
Proof. intros HF Hin. rewrite Forall_forall in HF. apply (HF m Hin). Qed.

(** *** What the loop over the examples has seen *)

Lemma mem_set_add f g l : Py.mem f (Py.set_add g l) = Py.mem f l || String.eqb f g.
Proof.
  unfold Py.set_add. destruct (Py.mem g l) eqn:E.
  - destruct (String.eqb_spec f g) as [->|_]; [rewrite E; reflexivity|].
    rewrite orb_false_r. reflexivity.
  - unfold Py.mem. rewrite existsb_app. simpl. rewrite orb_false_r. reflexivity.
Qed.

Lemma value_set_add_seen x l l' t :
  value_set_add x l = Ok l' ->
  existsb (fun y => Py.eq_str y t) l' = existsb (fun y => Py.eq_str y t) l || Py.eq_str x t.
Proof.
  unfold value_set_add. destruct (Py.hashable x); [|discriminate].
  intros H. injection H as <-.
  destruct (existsb (Py.eq_scalar x) l) eqn:E.
  - destruct (Py.eq_str x t) eqn:Ex; [|rewrite orb_false_r; reflexivity].
    rewrite orb_true_r. apply eq_str_true in Ex. subst x.
    apply existsb_exists in E. destruct E as [y [Hy Heq]]. apply existsb_exists.
    exists y. split; [exact Hy|].
    destruct y as [| | |s| |]; simpl in Heq; try discriminate Heq.
    apply String.eqb_eq in Heq. subst s. apply String.eqb_refl.
  - rewrite existsb_app. simpl. rewrite orb_false_r. reflexivity.
Qed.

Lemma not_truthy_not_named x t : Py.truthy x = false -> t <> "" -> Py.eq_str x t = false.
Proof.
  intros Hx Ht. destruct x as [| | |s| |]; try reflexivity. simpl in *.
  destruct (String.eqb_spec s t) as [->|_]; [|reflexivity].
  destruct (String.eqb_spec t ""); [contradiction|discriminate Hx].
Qed.

Lemma accepted_cons x t : accepted (x :: t) = accepted [x] ++ accepted t.
Proof. unfold accepted. simpl. rewrite app_nil_r. reflexivity. Qed.

Lemma format_in_cons x t f : format_in (x :: t) f = format_in [x] f || format_in t f.
Proof. unfold format_in. rewrite accepted_cons. apply existsb_app. Qed.

Lemma source_in_cons x t s : source_in (x :: t) s = source_in [x] s || source_in t s.
Proof. unfold source_in. rewrite accepted_cons. apply existsb_app. Qed.

(** One pass of the loop body: the record is an object, and its format
    and its source join the sets when the schema accepts it. *)
Lemma example_body_seen uids pids tids i x s s' :
  example_body uids pids tids i x s = Ok s' ->
  (exists d, x = JDict d)
  /\ (forall f, Py.mem f (formats_seen s') = Py.mem f (formats_seen s) || format_in [x] f)
  /\ (forall t, t <> "" ->
        existsb (fun y => Py.eq_str y t) (sources_seen s')
        = existsb (fun y => Py.eq_str y t) (sources_seen s) || source_in [x] t).
Proof.
  unfold example_body. intros H. destruct x as [| | | | |d]; try discriminate H.
  split; [exists d; reflexivity|].
  unfold format_in, source_in, accepted. cbn [flat_map].
  destruct (parse_DatasetExample d) as [obj|] eqn:Hp.
  2:{ injection H as <-. cbn [formats_seen sources_seen app existsb].
      split; intros; rewrite orb_false_r; reflexivity. }
  cbv zeta in H.
  set (source := Py.dict_get_default (ex_metadata obj) "source" JNull) in *.
  match type of H with
  | bind ?m _ = _ => destruct m as [sources|] eqn:Es; [cbn [bind] in H|discriminate H]
  end.
  match type of H with
  | bind ?m _ = _ => destruct m as [r1|] eqn:Em; [cbn [bind] in H|discriminate H]
  end.
  injection H as <-. cbn [formats_seen sources_seen app existsb]. split.
  - intros f. rewrite mem_set_add, orb_false_r, String.eqb_sym. reflexivity.
  - intros t Ht. rewrite orb_false_r. destruct (Py.truthy source) eqn:Ts.
    + apply (value_set_add_seen _ _ _ t Es).
    + injection Es as <-. fold source. rewrite (not_truthy_not_named _ _ Ts Ht), orb_false_r.
      reflexivity.
Qed.

Lemma dataset_loop_seen uids pids tids items :
  forall i s s',
    for_enumerate (example_body uids pids tids) items i s = Ok s' ->
    Forall (fun x => exists d, x = JDict d) items
    /\ (forall f, Py.mem f (formats_seen s') = Py.mem f (formats_seen s) || format_in items f)
    /\ (forall t, t <> "" ->
          existsb (fun y => Py.eq_str y t) (sources_seen s')
          = existsb (fun y => Py.eq_str y t) (sources_seen s) || source_in items t).
Proof.
  induction items as [|x t IH]; intros i s s' H; cbn [for_enumerate] in H.
  - injection H as <-. split; [constructor|].
    split; intros; unfold format_in, source_in; simpl; rewrite orb_false_r; reflexivity.
  - destruct (example_body uids pids tids i x s) as [s1|] eqn:Hb;
      [cbn [bind] in H|discriminate H].
    destruct (example_body_seen _ _ _ _ _ _ _ Hb) as [Hd [Hf Hs]].
    destruct (IH _ _ _ H) as [Hds [Hfs Hss]].
    split; [constructor; assumption|]. split.
    + intros f. rewrite Hfs, Hf, (format_in_cons x t), orb_assoc. reflexivity.
    + intros u Hu. rewrite (Hss u Hu), (Hs u Hu), (source_in_cons x t), orb_assoc.
      reflexivity.
Qed.

(** The dataset checks end with the coverage check, run on the formats
    and the sources of the records that the schema accepts. *)
Lemma check_dataset_coverage fs uids pids tids r r' :
  check_dataset fs uids pids tids r = Ok r' ->
  exists r1 case_type formats sources items,
    extends content_error r r1
    /\ first_case (examples_list fs) = Ok case_type
    /\ r' = check_coverage case_type formats sources r1
    /\ Py.iter (examples_list fs) = Ok items
    /\ Forall (fun x => exists d, x = JDict d) items
    /\ (forall f, Py.mem f formats = format_in items f)
    /\ (forall t, t <> "" -> existsb (fun y => Py.eq_str y t) sources = source_in items t).
Proof.
  unfold check_dataset, examples_list. intros H.
  pose proof (load_wrapped_extends fs "dataset.json" "examples" r) as Hw.
  rewrite (load_wrapped_list fs "dataset.json" "examples" new_report r).
  destruct (load_wrapped fs "dataset.json" "examples" r) as [ds_list r1]. simpl in Hw.
  bind_inv H. inversion H; subst; clear H.
  pose proof (dataset_loop_seen _ _ _ _ _ _ _ E1) as [Hd [Hf Hs]].
  apply (extends_for_enumerate content_error ds_report) in E1;
    [|intros; eapply example_body_extends; eassumption].
  simpl in E1. cbn [fst]. eexists _, a3, _, _, a0.
  split; [|split; [exact E3|split; [reflexivity|split; [exact E0|split; [exact Hd|]]]]].
  - eapply extends_trans; [exact Hw|].
    apply extends_set_stat, extends_set_stat.
    eapply extends_trans; [|apply check_examples_per_tc_extends].
    eapply extends_trans; [|exact E1]. grow.
  - split; [exact Hf|exact Hs].
Qed.

Lemma validate_artifacts_coverage fs ip r r' :
  validate_artifacts fs ip r = Ok r' ->
  exists r1 case_type formats sources items,
    extends content_error r r1
    /\ first_case (examples_list fs) = Ok case_type
    /\ r' = check_coverage case_type formats sources r1
    /\ Py.iter (examples_list fs) = Ok items
    /\ Forall (fun x => exists d, x = JDict d) items
    /\ (forall f, Py.mem f formats = format_in items f)
    /\ (forall t, t <> "" -> existsb (fun y => Py.eq_str y t) sources = source_in items t).
Proof.
  unfold validate_artifacts. intros H. bind_inv H.
  destruct a as [ra il]. bind_inv H. destruct a as [uids rb]. bind_inv H.
  destruct a as [pids rc]. bind_inv H. destruct a as [tids rd].
  apply check_manifest_extends in E.
  apply check_use_cases_extends in E0. destruct E0 as [E0 _].
  apply check_policies_extends in E1.
  apply check_test_cases_extends in E2.
  apply check_dataset_coverage in H.
  destruct H as [r1 [ct [fm [sr [items [Hx Hrest]]]]]].
  exists r1, ct, fm, sr, items. split; [|exact Hrest].
  eauto using extends_trans.
Qed.

(** The coverage error of a report whose earlier errors are of other
    kinds: which one it is tells the case type, and it lists what is
    missing. *)
Lemma check_coverage_reports case_type formats sources r :
  Forall (fun m => is_coverage m = false) (errors r) ->
  (forall missing,
     In (MissingSources missing) (errors (check_coverage case_type formats sources r))
     <-> case_type = JStr "support_bot"
         /\ missing = filter (fun s => negb (existsb (fun x => Py.eq_str x s) sources))
                        required_sources
         /\ missing <> [])
  /\ (forall missing,
        In (MissingFormats missing) (errors (check_coverage case_type formats sources r))
        <-> case_type = JStr "operator_quality"
            /\ missing = filter (fun s => negb (Py.mem s formats)) required_formats
            /\ missing <> []).
Proof.
  intros Hpre. rewrite Forall_forall in Hpre.
  assert (Hs : forall missing, ~ In (MissingSources missing) (errors r)).
  { intros m Hm. apply Hpre in Hm. discriminate Hm. }
  assert (Hf : forall missing, ~ In (MissingFormats missing) (errors r)).
  { intros m Hm. apply Hpre in Hm. discriminate Hm. }
  unfold check_coverage.
  destruct (Py.eq_str case_type "support_bot") eqn:Es.
  - apply eq_str_true in Es. subst case_type.
    destruct (filter _ required_sources) as [|x t] eqn:Em.
    + split; intros missing; split.
      * intros H. destruct (Hs _ H).
      * intros [_ [-> Hne]]. congruence.
      * intros H. destruct (Hf _ H).
      * intros [Hc _]. discriminate Hc.
    + split; intros missing; split.
      * simpl. intros H. apply in_app_or in H. destruct H as [H|[H|[]]]; [destruct (Hs _ H)|].
        injection H as <-. split; [reflexivity|]. split; [reflexivity|discriminate].
      * intros [_ [-> _]]. simpl. apply in_or_app. right. left. reflexivity.
      * simpl. intros H. apply in_app_or in H.
        destruct H as [H|[H|[]]]; [destruct (Hf _ H)|discriminate H].
      * intros [Hc _]. discriminate Hc.
  - destruct (Py.eq_str case_type "operator_quality") eqn:Eo.
    + apply eq_str_true in Eo. subst case_type.
      destruct (filter _ required_formats) as [|x t] eqn:Em.
      * split; intros missing; split.
        -- intros H. destruct (Hs _ H).
        -- intros [Hc _]. discriminate Hc.
        -- intros H. destruct (Hf _ H).
        -- intros [_ [-> Hne]]. congruence.
      * split; intros missing; split.
        -- simpl. intros H. apply in_app_or in H.
           destruct H as [H|[H|[]]]; [destruct (Hs _ H)|discriminate H].
        -- intros [Hc _]. discriminate Hc.
        -- simpl. intros H. apply in_app_or in H.
           destruct H as [H|[H|[]]]; [destruct (Hf _ H)|].
           injection H as <-. split; [reflexivity|]. split; [reflexivity|discriminate].
        -- intros [_ [-> _]]. simpl. apply in_or_app. right. left. reflexivity.
    + split; intros missing; split.
      * intros H. destruct (Hs _ H).
      * intros [-> _]. discriminate Es.
      * intros H. destruct (Hf _ H).
      * intros [-> _]. discriminate Eo.
Qed.

Lemma case_of_record d s :
  Py.dict_get_default d "case" JNull = JStr s <-> Py.dict_get d "case" = Some (JStr s).
Proof.
  unfold Py.dict_get_default. destruct (Py.dict_get d "case"); split; congruence.
Qed.

(** C10: the case-wide coverage check takes the case type from the first
    record of the examples list, whatever the later records say.  Once
    the required files are there and the list that dataset.json holds,
    bare or under the key "examples", starts with the object [d], the
    report holds a missing-sources error exactly when the
    "case" of [d] is "support_bot" and some required source is the
    metadata source of no record that the schema accepts, and the error
    lists those sources; it holds a missing-formats error exactly when
    the "case" of [d] is "operator_quality" and some required format is
    the format of no accepted record, and the error lists those
    formats.  A list that [validate] reports on is empty or starts with
    an object; with an empty list, or with a required file missing, no
    report holds a coverage error, whatever the directory contains. *)
Theorem C10_coverage_follows_first_record :
  forall (fs : files) (input_path : string) (r : ValidationReport),
    validate fs input_path = Ok r ->
    (forall d rest,
       missing_files fs = [] ->
       (out_dir fs "dataset.json" = Some (JList (JDict d :: rest))
        \/ exists w, out_dir fs "dataset.json" = Some (JDict w)
                     /\ Py.dict_get w "examples" = Some (JList (JDict d :: rest))) ->
       (forall missing,
          In (MissingSources missing) (errors r)
          <-> Py.dict_get d "case" = Some (JStr "support_bot")
              /\ missing = filter (fun s => negb (source_in (JDict d :: rest) s))
                             ["tickets"; "faq_paraphrase"; "corner"]
              /\ missing <> [])
       /\ (forall missing,
             In (MissingFormats missing) (errors r)
             <-> Py.dict_get d "case" = Some (JStr "operator_quality")
                 /\ missing = filter (fun f => negb (format_in (JDict d :: rest) f))
                                ["single_utterance_correction"; "dialog_last_turn_correction"]
                 /\ missing <> []))
    /\ (missing_files fs = [] -> Py.truthy (examples_list fs) = true ->
        exists d rest, examples_list fs = JList (JDict d :: rest))
    /\ (Py.truthy (examples_list fs) = false ->
        Forall (fun m => is_coverage m = false) (errors r))
    /\ (missing_files fs <> [] ->
        Forall (fun m => is_coverage m = false) (errors r)).
Proof.
  intros fs ip r H. rewrite validate_unfold in H.
  destruct (missing_files fs) as [|f t] eqn:Em.
  - apply validate_artifacts_coverage in H.
    destruct H as [r1 [ct [fm [sr [items [[[es [He HF]] _] [Hc [-> [Hi [Hd [Hf Hs]]]]]]]]]]].
    simpl in He.
    assert (Hpre : Forall (fun m => is_coverage m = false) (errors r1)).
    { apply Forall_forall. intros m Hm. rewrite He in Hm.
      eapply content_errors_not_coverage; eauto. }
    destruct (check_coverage_reports ct fm sr r1 Hpre) as [Hsrc Hfmt].
    split; [|split; [|split]].
    + intros d rest _ Hfile.
      assert (Hl : examples_list fs = JList (JDict d :: rest)).
      { unfold examples_list, load_wrapped, _load_json.
        destruct Hfile as [Hb|[w [Hw Hk]]]; [rewrite Hb|rewrite Hw, Hk]; reflexivity. }
      rewrite Hl in Hc, Hi. injection Hi as <-.
      cbn in Hc. injection Hc as <-. split; intros missing.
      * rewrite Hsrc, case_of_record.
        replace (filter (fun s => negb (existsb (fun x => Py.eq_str x s) sr)) required_sources)
          with (filter (fun s => negb (source_in (JDict d :: rest) s))
                  ["tickets"; "faq_paraphrase"; "corner"]); [reflexivity|].
        apply filter_ext_in. intros s Hin. rewrite Hs; [reflexivity|].
        intros ->. simpl in Hin. intuition discriminate.
      * rewrite Hfmt, case_of_record.
        replace (filter (fun s => negb (Py.mem s fm)) required_formats)
          with (filter (fun f => negb (format_in (JDict d :: rest) f))
                  ["single_utterance_correction"; "dialog_last_turn_correction"]);
          [reflexivity|].
        apply filter_ext. intros s. rewrite Hf. reflexivity.
    + intros _ Ht. destruct (examples_list fs) as [| | |s|l|d0]; try discriminate Hi.
      * destruct s as [|c s]; [discriminate Ht|]. injection Hi as <-.
        inversion Hd as [|x l [d Hx] Hl]. discriminate Hx.
      * destruct l as [|x l]; [discriminate Ht|]. injection Hi as <-.
        inversion Hd as [|x' l' [d Hx] Hl]. subst x. exists d, l. reflexivity.
      * destruct d0 as [|kv d0]; [discriminate Ht|]. injection Hi as <-.
        inversion Hd as [|x l [d Hx] Hl]. discriminate Hx.
    + intros Ht. apply first_case_empty in Ht. rewrite Ht in Hc. injection Hc as <-.
      unfold check_coverage. simpl. exact Hpre.
    + intros Hne. congruence.
  - injection H as <-. simpl.
    assert (Hpre : Forall (fun m => is_coverage m = false) (map MissingFile (f :: t))).
    { apply Forall_forall. intros m Hm. apply in_map_iff in Hm.
      destruct Hm as [x [<- _]]. reflexivity. }
    split; [|split; [|split]].
    + intros d rest Hne. discriminate Hne.
    + intros Hne. discriminate Hne.
    + intros _. exact Hpre.
    + intros _. exact Hpre.
Qed.

Example no_examples_report :
  validate no_examples_dir ""
  = Ok (mkReport [NoExamples "tc_1"; NoExamples "tc_2"; NoExamples "tc_3"] []
          [("use_cases", 5); ("policies", 5); ("test_cases", 3); ("examples", 0);
           ("formats", 0); ("sources", 0)]).
Proof. vm_compute. reflexivity. Qed.

Example mixed_cases_report :
  validate mixed_cases_dir ""
  = Ok (mkReport [NoExamples "tc_3"; MissingSources ["faq_paraphrase"; "corner"]] []
          [("use_cases", 5); ("policies", 5); ("test_cases", 3); ("examples", 2);
           ("formats", 2); ("sources", 1)]).
Proof. vm_compute. reflexivity. Qed.

Lemma C10_witness :
  In (MissingSources ["faq_paraphrase"; "corner"])
    (errors (mkReport [NoExamples "tc_3"; MissingSources ["faq_paraphrase"; "corner"]] []
               [("use_cases", 5); ("policies", 5); ("test_cases", 3); ("examples", 2);
                ("formats", 2); ("sources", 1)]))
  /\ Forall (fun m => is_coverage m = false)
       [NoExamples "tc_1"; NoExamples "tc_2"; NoExamples "tc_3"].
Proof.
  split.
  - pose proof (proj1 (C10_coverage_follows_first_record mixed_cases_dir "" _
                         mixed_cases_report)) as H.
    edestruct H as [Hs _];
      [reflexivity|right; eexists; split; vm_compute; reflexivity|].
    apply (proj2 (Hs _)).
    split; [reflexivity|]. split; [vm_compute; reflexivity|discriminate].
  - exact (proj1 (proj2 (proj2 (C10_coverage_follows_first_record no_examples_dir "" _
                                  no_examples_report))) eq_refl).
Defined.

(** *** Test cases per use case *)

(** C1 fails on the code: the directory [shortfall_dir] holds the
    schema-valid use case [uc_5] and no test case that refers to it, and
    its report has no error at all: the per-use-case floor is checked
    only for the use cases that some test case names. *)
Theorem C1_use_case_without_test_cases_passes :
  validate shortfall_dir ""
  = Ok (mkReport [] []
          [("use_cases", 5); ("policies", 5); ("test_cases", 12); ("examples", 12);
           ("formats", 1); ("sources", 3)])
  /\ In (use_case_json "support_bot" 5) (map (use_case_json "support_bot") (range 5))
  /\ option_map uc_id (parse_UseCase (use_case_fields "support_bot" 5)) = Some "uc_5"
  /\ Forall (fun n => exists t, parse_TestCase (test_case_fields "support_bot" n) = Some t
                                /\ tc_use_case_id t <> "uc_5")
       (range 12).
Proof.
  split; [vm_compute; reflexivity|]. split; [|split].
  - simpl. do 4 right. left. reflexivity.
  - vm_compute. reflexivity.
  - repeat (constructor;
            [eexists; split; [vm_compute; reflexivity|discriminate]|]).
    constructor.
Qed.

(** With one or two test cases the floor is enforced. *)
Lemma check_tc_per_uc_reports per r uc_id count :
  In (uc_id, count) per -> count < 3 ->
  In (TooFewTestCases uc_id count) (errors (check_tc_per_uc per r)).
Proof.
  unfold check_tc_per_uc.
  assert (Hext : forall t r0,
             extends (fun _ => True) r0
               (fold_left (fun r kv => if snd kv <? 3
                                       then error (TooFewTestCases (fst kv) (snd kv)) r
                                       else r) t r0)).
  { intros t. apply extends_fold_left. intros r0 x.
    destruct (snd x <? 3); [apply extends_error; [apply extends_refl|exact I]
                           |apply extends_refl]. }
  revert r. induction per as [|[k v] t IH]; intros r Hin Hlt.
  - contradiction.
  - simpl. destruct Hin as [Heq|Hin].
    + inversion Heq; subst. destruct (Z.ltb_spec count 3); [|lia].
      destruct (Hext t (error (TooFewTestCases uc_id count) r)) as [[es [Hes _]] _].
      rewrite Hes. simpl. apply in_or_app. left. apply in_or_app. right. left. reflexivity.
    + apply IH; assumption.
Qed.

End ValidatorFacts.

(* ------------------------------------------------------------------ *)
(** * Further properties of the stages *)

(** ** Dicts *)

Lemma dict_get_set_eq d k v : Py.dict_get (Py.dict_set d k v) k = Some v.
Proof.
  induction d as [|[k' v'] t IH]; simpl.
  - rewrite String.eqb_refl. reflexivity.
  - destruct (String.eqb_spec k' k); simpl.
    + subst. rewrite String.eqb_refl. reflexivity.
    + destruct (String.eqb_spec k' k); [contradiction|exact IH].
Qed.

Lemma dict_get_set_neq d k v k' :
  k' <> k -> Py.dict_get (Py.dict_set d k v) k' = Py.dict_get d k'.
Proof.
  intros Hne. induction d as [|[a b] t IH]; simpl.
  - destruct (String.eqb_spec k k'); [congruence|reflexivity].
  - destruct (String.eqb_spec a k); simpl.
    + subst a. destruct (String.eqb_spec k k'); [congruence|reflexivity].
    + destruct (String.eqb_spec a k'); [reflexivity|exact IH].
Qed.

Lemma omap_as_str_inv js l : Models.omap Models.as_str js = Some l -> js = map JStr l.
Proof.
  revert l. induction js as [|j t IH]; simpl; intros l H.
  - inversion H; reflexivity.
  - destruct j; simpl in H; try discriminate.
    destruct (Models.omap Models.as_str t) as [l'|]; simpl in H; [|discriminate].
    inversion H; subst. simpl. f_equal. apply IH. reflexivity.
Qed.

(** ** One example of a batch *)

Module BuildExampleFacts.
Import Models DatasetGenerator Samples Shapes MoreSamples.

Lemma with_prefix_inv p s x : with_prefix p s = Some x -> x = s /\ String.prefix p s = true.
Proof. unfold with_prefix. destruct (String.prefix p s); [|discriminate]. intros H; inversion H; auto. Qed.

(** What the constructor checked, read back from the record. *)
Lemma new_DatasetExample_inv id c fmt u t input expected ec ps md ex :
  new_DatasetExample id c fmt u t input expected ec ps md = Some ex ->
  exists f,
    format_of_str fmt = Some f
    /\ input = JDict (ex_input ex)
    /\ expected = JStr (ex_expected_output ex)
    /\ ec = JList (map JStr (ex_evaluation_criteria ex))
    /\ md = JDict (ex_metadata ex)
    /\ ex = mkDatasetExample id c f u t (ex_input ex) (ex_expected_output ex)
              (ex_evaluation_criteria ex) ps (ex_metadata ex)
    /\ valid_example ex.
Proof.
  unfold new_DatasetExample. intros H.
  destruct (with_prefix "ex_" id) as [i'|] eqn:Ei; [cbn [obind] in H|discriminate H].
  destruct (format_of_str fmt) as [f|] eqn:Ef; [cbn [obind] in H|discriminate H].
  destruct (with_prefix "uc_" u) as [u'|] eqn:Eu; [cbn [obind] in H|discriminate H].
  destruct (with_prefix "tc_" t) as [t'|] eqn:Et; [cbn [obind] in H|discriminate H].
  destruct input as [| | | | |inp]; try discriminate H. cbn [as_dict obind] in H.
  destruct expected as [| | |eo| |]; try discriminate H. cbn [as_str obind] in H.
  destruct ec as [| | | |js|]; try discriminate H. cbn [as_list] in H.
  destruct (omap as_str js) as [crit|] eqn:Ec; [cbn [obind] in H|discriminate H].
  unfold min_length in H.
  destruct (3 <=? List.length crit)%nat eqn:Hlen; [cbn [obind] in H|discriminate H].
  destruct md as [| | | | |meta]; try discriminate H. cbn [as_dict obind] in H.
  inversion H; subst; clear H. simpl.
  apply with_prefix_inv in Ei, Eu, Et.
  destruct Ei as [-> Hp1], Eu as [-> Hp2], Et as [-> Hp3].
  exists f. repeat split; auto.
  - f_equal. apply omap_as_str_inv. exact Ec.
  - apply Nat.leb_le. exact Hlen.
Qed.

(** The steps of [build_example], named. *)
Lemma build_example_inv tc fmt i c ex_data ex :
  build_example tc fmt i c ex_data = Ok ex ->
  exists input0 has input1 expected ec0 n ec md0 md1 md2 input2,
    Py.get ex_data "input" (JDict []) = Ok input0
    /\ has_messages input0 = Ok has
    /\ (if has then
          raw <- getitem input0 "messages" ;;
          msgs <- Py.iter raw ;;
          messages <- mapM normalize_message msgs ;;
          setitem input0 "messages" (JList messages)
        else Ok input0) = Ok input1
    /\ Py.get ex_data "expected_output" (JStr "") = Ok expected
    /\ Py.get ex_data "evaluation_criteria" (JList []) = Ok ec0
    /\ Py.len ec0 = Ok n
    /\ (if n <? 3 then
          match ec0 with
          | JList l => Ok (JList (l ++ Py.take (3 - n) fallback_criteria))
          | _ => Raise RuntimeErr
          end
        else Ok ec0) = Ok ec
    /\ Py.get ex_data "metadata" (JDict []) = Ok md0
    /\ (if String.eqb (case_str (tc_case tc)) "support_bot"
        then setitem md0 "source" (JStr (_get_source_for_support i))
        else Ok md0) = Ok md1
    /\ setitem md1 "split" (JStr "test") = Ok md2
    /\ (if String.eqb fmt "single_utterance_correction" then
          setitem input1 "target_message_index" (JInt 0)
        else if String.eqb fmt "dialog_last_turn_correction" then
          has <- has_messages input1 ;;
          if has then
            msgs <- getitem input1 "messages" ;;
            n <- Py.len msgs ;;
            setitem input1 "target_message_index" (JInt (n - 1))
          else Ok input1
        else Ok input1) = Ok input2
    /\ new_DatasetExample ("ex_" ++ Py.str_of_int c)%string (tc_case tc) fmt
         (tc_use_case_id tc) (tc_id tc) input2 expected ec (tc_policy_ids tc) md2
       = Some ex.
Proof.
  unfold build_example. intros H.
  destruct (Py.get ex_data "input" (JDict [])) as [input0|] eqn:E1;
    [cbn [bind] in H|discriminate H].
  destruct (has_messages input0) as [has|] eqn:E2; [cbn [bind] in H|discriminate H].
  match type of H with bind ?m _ = _ => destruct m as [input1|] eqn:E3 end;
    [cbn [bind] in H|discriminate H].
  destruct (Py.get ex_data "expected_output" (JStr "")) as [expected|] eqn:E4;
    [cbn [bind] in H|discriminate H].
  destruct (Py.get ex_data "evaluation_criteria" (JList [])) as [ec0|] eqn:E5;
    [cbn [bind] in H|discriminate H].
  destruct (Py.len ec0) as [n|] eqn:E6; [cbn [bind] in H|discriminate H].
  match type of H with bind ?m _ = _ => destruct m as [ec|] eqn:E7 end;
    [cbn [bind] in H|discriminate H].
  destruct (Py.get ex_data "metadata" (JDict [])) as [md0|] eqn:E8;
    [cbn [bind] in H|discriminate H].
  match type of H with bind ?m _ = _ => destruct m as [md1|] eqn:E9 end;
    [cbn [bind] in H|discriminate H].
  destruct (setitem md1 "split" (JStr "test")) as [md2|] eqn:E10;
    [cbn [bind] in H|discriminate H].
  match type of H with bind ?m _ = _ => destruct m as [input2|] eqn:E11 end;
    [cbn [bind] in H|discriminate H].
  match type of H with
  | match ?x with _ => _ end = _ => destruct x as [ex'|] eqn:E12; [|discriminate H]
  end.
  inversion H; subst ex'.
  exists input0, has, input1, expected, ec0, n, ec, md0, md1, md2, input2.
  repeat split; first [reflexivity | assumption].
Qed.

(** X1: the evaluation criteria of a built example are the criteria
    the gateway supplied, in their order and never cut, followed, when
    fewer than three were supplied, by as many of the three generic
    criteria as it takes to reach three. *)
Theorem X1_criteria_kept_and_padded :
  forall (tc : TestCase) (fmt : string) (ex_idx ex_counter : Z) (ex_data : json)
         (ex : DatasetExample),
    build_example tc fmt ex_idx ex_counter ex_data = Ok ex ->
    exists supplied,
      Py.get ex_data "evaluation_criteria" (JList []) = Ok (JList supplied)
      /\ map JStr (ex_evaluation_criteria ex)
         = supplied ++ firstn (3 - List.length supplied) fallback_criteria
      /\ (3 <= List.length (ex_evaluation_criteria ex))%nat.
Proof.
  intros tc fmt i c ex_data ex H.
  destruct (build_example_inv _ _ _ _ _ _ H)
    as (input0 & has & input1 & expected & ec0 & n & ec & md0 & md1 & md2 & input2
        & _ & _ & _ & _ & Hec0 & Hn & Hec & _ & _ & _ & _ & Hnew).
  destruct (new_DatasetExample_inv _ _ _ _ _ _ _ _ _ _ _ Hnew)
    as (f & _ & _ & _ & Hcrit & _ & _ & _ & _ & _ & Hlen).
  subst ec. destruct (Z.ltb_spec n 3) as [Hlt|Hge].
  - destruct ec0 as [| | | |l|]; try discriminate Hec.
    cbn [Py.len] in Hn. assert (Hn' : n = Z.of_nat (List.length l)) by congruence.
    exists l. split; [exact Hec0|]. split; [|exact Hlen].
    assert (Htake : Py.take (3 - n) fallback_criteria
                    = firstn (3 - List.length l) fallback_criteria).
    { unfold Py.take. destruct (Z.ltb_spec (3 - n) 0); [lia|].
      replace (Z.to_nat (3 - n)) with (3 - List.length l)%nat by lia. reflexivity. }
    rewrite Htake in Hec. congruence.
  - inversion Hec; subst ec0. exists (map JStr (ex_evaluation_criteria ex)).
    split; [exact Hec0|]. split; [|exact Hlen].
    cbn [Py.len] in Hn.
    assert (Hn' : n = Z.of_nat (List.length (map JStr (ex_evaluation_criteria ex))))
      by congruence.
    replace (3 - List.length (map JStr (ex_evaluation_criteria ex)))%nat with 0%nat by lia.
    simpl. rewrite app_nil_r. reflexivity.
Qed.

Lemma X1_witness :
  exists supplied,
    Py.get one_example "evaluation_criteria" (JList []) = Ok (JList supplied)
    /\ map JStr (ex_evaluation_criteria (ex 1 "tc_1" "tickets"))
       = supplied ++ firstn (3 - List.length supplied) fallback_criteria
    /\ (3 <= List.length (ex_evaluation_criteria (ex 1 "tc_1" "tickets")))%nat.
Proof.
  exact (X1_criteria_kept_and_padded (tc 1 "uc_1") "single_turn_qa" 0 1 one_example
           (ex 1 "tc_1" "tickets") eq_refl).
Defined.

(** A message as the stage stores it. *)
Lemma normalize_message_shape msg m :
  normalize_message msg = Ok m -> normalized_message m.
Proof.
  unfold normalize_message. intros H. bind_inv H. inversion H; subst.
  exists a, a0. reflexivity.
Qed.

(** The [input] object after the normalisation step. *)
Lemma normalized_input input0 has input1 d1 :
  has_messages input0 = Ok has ->
  (if has then
     raw <- getitem input0 "messages" ;;
     msgs <- Py.iter raw ;;
     messages <- mapM normalize_message msgs ;;
     setitem input0 "messages" (JList messages)
   else Ok input0) = Ok input1 ->
  input1 = JDict d1 ->
  (Py.dict_get d1 "messages" = None /\ input0 = JDict d1)
  \/ (exists d0 ms, input0 = JDict d0 /\ d1 = Py.dict_set d0 "messages" (JList ms)
                    /\ Forall normalized_message ms).
Proof.
  intros Hhas Hstep ->. destruct has.
  - right. bind_inv Hstep. destruct input0; try discriminate Hstep.
    inversion Hstep; subst. exists d, a1. split; [reflexivity|]. split; [reflexivity|].
    eapply mapM_ok_Forall; [|exact E1]. intros x y.
    apply normalize_message_shape.
  - left. assert (H0 : input0 = JDict d1) by congruence. subst input0.
    cbn [has_messages] in Hhas.
    assert (Hd : Py.dict_has d1 "messages" = false) by congruence.
    unfold Py.dict_has in Hd. destruct (Py.dict_get d1 "messages"); [discriminate|].
    split; reflexivity.
Qed.

Lemma normalized_input_messages input0 has input1 d1 v :
  has_messages input0 = Ok has ->
  (if has then
     raw <- getitem input0 "messages" ;;
     msgs <- Py.iter raw ;;
     messages <- mapM normalize_message msgs ;;
     setitem input0 "messages" (JList messages)
   else Ok input0) = Ok input1 ->
  input1 = JDict d1 ->
  Py.dict_get d1 "messages" = Some v ->
  exists ms, v = JList ms /\ Forall normalized_message ms.
Proof.
  intros H1 H2 H3 Hv.
  destruct (normalized_input _ _ _ _ H1 H2 H3) as [[Hn _]|(d0 & ms & _ & -> & HF)].
  - congruence.
  - rewrite dict_get_set_eq in Hv. inversion Hv; subst. exists ms. split; [reflexivity|exact HF].
Qed.

(** The [input] object after the index step. *)
Lemma indexed_input fmt input1 input2 d2 :
  (if String.eqb fmt "single_utterance_correction" then
     setitem input1 "target_message_index" (JInt 0)
   else if String.eqb fmt "dialog_last_turn_correction" then
     has <- has_messages input1 ;;
     if has then
       msgs <- getitem input1 "messages" ;;
       n <- Py.len msgs ;;
       setitem input1 "target_message_index" (JInt (n - 1))
     else Ok input1
   else Ok input1) = Ok input2 ->
  input2 = JDict d2 ->
  exists d1,
    input1 = JDict d1
    /\ Py.dict_get d2 "messages" = Py.dict_get d1 "messages"
    /\ (fmt = "single_utterance_correction" ->
        Py.dict_get d2 "target_message_index" = Some (JInt 0))
    /\ (fmt = "dialog_last_turn_correction" ->
        forall msgs, Py.dict_get d1 "messages" = Some msgs ->
                     exists n, Py.len msgs = Ok n
                               /\ Py.dict_get d2 "target_message_index" = Some (JInt (n - 1)))
    /\ (fmt <> "single_utterance_correction" ->
        (fmt = "dialog_last_turn_correction" -> Py.dict_get d1 "messages" = None) ->
        d2 = d1).
Proof.
  intros H ->.
  assert (Hneq : "messages" <> "target_message_index") by discriminate.
  destruct (String.eqb_spec fmt "single_utterance_correction") as [->|Hs].
  - destruct input1; try discriminate H. inversion H; subst. exists d.
    split; [reflexivity|]. split; [apply dict_get_set_neq; exact Hneq|].
    split; [intros _; apply dict_get_set_eq|]. split; [discriminate|congruence].
  - destruct (String.eqb_spec fmt "dialog_last_turn_correction") as [->|Hd].
    + destruct input1 as [| | |s|l|d]; try discriminate H.
      * cbn [has_messages bind] in H.
        destruct (Py.contains "messages" s); cbn [getitem bind] in H; discriminate H.
      * cbn [has_messages bind] in H.
        destruct (existsb _ l); cbn [getitem bind] in H; discriminate H.
      * cbn [has_messages bind] in H. unfold Py.dict_has, getitem in H.
        destruct (Py.dict_get d "messages") as [msgs|] eqn:Em; cbn [bind] in H.
        -- destruct (Py.len msgs) as [n|] eqn:En; cbn [bind] in H; [|discriminate H].
           inversion H; subst. exists d. split; [reflexivity|].
           split; [apply dict_get_set_neq; exact Hneq|]. split; [discriminate|].
           split.
           ++ intros _ msgs' Hm. rewrite Em in Hm. inversion Hm; subst msgs'.
              exists n. split; [exact En|apply dict_get_set_eq].
           ++ intros _ Hnone. specialize (Hnone eq_refl). congruence.
        -- inversion H; subst. exists d2. split; [reflexivity|]. split; [reflexivity|].
           split; [discriminate|]. split; [|reflexivity].
           intros _ msgs Hm. congruence.
    + inversion H; subst. exists d2. split; [reflexivity|]. split; [reflexivity|].
      split; [congruence|]. split; [congruence|reflexivity].
Qed.

(** X2: in a built example the messages are objects with exactly a role
    and a content; for single_utterance_correction the target index is
    0 whatever the gateway sent; for dialog_last_turn_correction with
    messages it is the position of the last message. *)
Theorem X2_messages_and_target_index :
  forall (tc : TestCase) (fmt : string) (ex_idx ex_counter : Z) (ex_data : json)
         (ex : DatasetExample),
    build_example tc fmt ex_idx ex_counter ex_data = Ok ex ->
    (forall v, Py.dict_get (ex_input ex) "messages" = Some v ->
               exists ms, v = JList ms /\ Forall normalized_message ms)
    /\ (fmt = "single_utterance_correction" ->
        Validator.target_message_index (ex_input ex) = JInt 0)
    /\ (fmt = "dialog_last_turn_correction" ->
        forall ms, Py.dict_get (ex_input ex) "messages" = Some (JList ms) ->
                   Validator.target_message_index (ex_input ex)
                   = JInt (Z.of_nat (List.length ms) - 1)).
Proof.
  intros tc fmt i c ex_data ex H.
  destruct (build_example_inv _ _ _ _ _ _ H)
    as (input0 & has & input1 & expected & ec0 & n & ec & md0 & md1 & md2 & input2
        & _ & Hhas & Hnorm & _ & _ & _ & _ & _ & _ & _ & Hidx & Hnew).
  destruct (new_DatasetExample_inv _ _ _ _ _ _ _ _ _ _ _ Hnew)
    as (f & _ & Hin & _).
  destruct (indexed_input _ _ _ _ Hidx Hin) as (d1 & Hd1 & Hmsg & Hsuc & Hdlg & _).
  split; [|split].
  - intros v Hv. rewrite Hmsg in Hv.
    eapply normalized_input_messages; eauto.
  - intros Hf. unfold Validator.target_message_index, Py.dict_get_default.
    rewrite (Hsuc Hf). reflexivity.
  - intros Hf ms Hms. rewrite Hmsg in Hms.
    destruct (Hdlg Hf _ Hms) as (k & Hk & Ht). simpl in Hk. inversion Hk; subst k.
    unfold Validator.target_message_index, Py.dict_get_default. rewrite Ht. reflexivity.
Qed.

Example dialog_example_built :
  build_example operator_tc "dialog_last_turn_correction" 1 5 dialog_answer
  = Ok dialog_example.
Proof. vm_compute. reflexivity. Qed.

Lemma X2_witness :
  Validator.target_message_index (ex_input dialog_example) = JInt (Z.of_nat 3 - 1).
Proof.
  exact (proj2 (proj2 (X2_messages_and_target_index operator_tc
                         "dialog_last_turn_correction" 1 5 dialog_answer dialog_example
                         dialog_example_built))
           eq_refl
           [JDict [("role", JStr "user"); ("content", JStr "q")];
            JDict [("role", JStr "operator"); ("content", JStr "a")];
            JDict [("role", JStr "user"); ("content", JStr "")]]
           eq_refl).
Defined.

Lemma setitem_inv x k v y : setitem x k v = Ok y -> exists d, x = JDict d /\ y = JDict (Py.dict_set d k v).
Proof. destruct x; try discriminate. intros H. inversion H. eauto. Qed.

(** X3: the metadata of a built example always says split "test",
    whatever the gateway sent; for a support_bot test case its source is
    the one of the three labels that the position in the batch selects,
    again whatever the gateway sent; for operator_quality the source is
    left as the gateway gave it; every other key is kept. *)
Theorem X3_metadata_split_and_source :
  forall (tc : TestCase) (fmt : string) (ex_idx ex_counter : Z) (ex_data : json)
         (ex : DatasetExample),
    build_example tc fmt ex_idx ex_counter ex_data = Ok ex ->
    exists md0,
      Py.get ex_data "metadata" (JDict []) = Ok (JDict md0)
      /\ Py.dict_get (ex_metadata ex) "split" = Some (JStr "test")
      /\ (tc_case tc = support_bot ->
          Py.dict_get (ex_metadata ex) "source"
          = Some (JStr (nth (Z.to_nat (ex_idx mod 3))
                          ["tickets"; "faq_paraphrase"; "corner"] "")))
      /\ (tc_case tc = operator_quality ->
          Py.dict_get (ex_metadata ex) "source" = Py.dict_get md0 "source")
      /\ (forall k, k <> "split" -> k <> "source" ->
                    Py.dict_get (ex_metadata ex) k = Py.dict_get md0 k).
Proof.
  intros tc fmt i c ex_data ex H.
  destruct (build_example_inv _ _ _ _ _ _ H)
    as (input0 & has & input1 & expected & ec0 & n & ec & md0 & md1 & md2 & input2
        & _ & _ & _ & _ & _ & _ & _ & Hmd0 & Hmd1 & Hmd2 & _ & Hnew).
  destruct (new_DatasetExample_inv _ _ _ _ _ _ _ _ _ _ _ Hnew)
    as (f & _ & _ & _ & _ & Hmd & _).
  destruct (setitem_inv _ _ _ _ Hmd2) as (d1 & -> & ->).
  assert (Hmeta : ex_metadata ex = Py.dict_set d1 "split" (JStr "test")) by congruence.
  rewrite Hmeta.
  assert (Hss : "source" <> "split") by discriminate.
  destruct (tc_case tc) eqn:Hcase; cbn [case_str String.eqb Ascii.eqb Bool.eqb] in Hmd1.
  - destruct (setitem_inv _ _ _ _ Hmd1) as (d0 & -> & Hd1). injection Hd1 as ->.
    exists d0. split; [exact Hmd0|]. split; [apply dict_get_set_eq|].
    split; [|split].
    + intros _. rewrite dict_get_set_neq by exact Hss. rewrite dict_get_set_eq.
      reflexivity.
    + discriminate.
    + intros k Hk1 Hk2. rewrite !dict_get_set_neq by assumption. reflexivity.
  - assert (Hd0 : md0 = JDict d1) by congruence. subst md0.
    exists d1. split; [exact Hmd0|]. split; [apply dict_get_set_eq|].
    split; [discriminate|]. split.
    + intros _. apply dict_get_set_neq. exact Hss.
    + intros k Hk1 _. apply dict_get_set_neq. exact Hk1.
Qed.

Lemma X3_witness :
  exists md0,
    Py.get dialog_answer "metadata" (JDict []) = Ok (JDict md0)
    /\ Py.dict_get (ex_metadata dialog_example) "split" = Some (JStr "test")
    /\ (tc_case operator_tc = support_bot ->
        Py.dict_get (ex_metadata dialog_example) "source"
        = Some (JStr (nth (Z.to_nat (1 mod 3)) ["tickets"; "faq_paraphrase"; "corner"] "")))
    /\ (tc_case operator_tc = operator_quality ->
        Py.dict_get (ex_metadata dialog_example) "source" = Py.dict_get md0 "source")
    /\ (forall k, k <> "split" -> k <> "source" ->
                  Py.dict_get (ex_metadata dialog_example) k = Py.dict_get md0 k).
Proof.
  exact (X3_metadata_split_and_source operator_tc "dialog_last_turn_correction" 1 5
           dialog_answer dialog_example dialog_example_built).
Defined.

End BuildExampleFacts.

(** ** Whole runs of the dataset stage *)

Module RunFacts.
Import Models DatasetGenerator Samples Shapes MoreSamples.

(** The batch loop, element by element. *)
Lemma batch_loop_spec tc fmt items :
  forall k st st',
    batch_loop tc fmt items k st = Ok st' ->
    exists batch,
      fst st' = fst st ++ batch
      /\ snd st' = snd st + Z.of_nat (List.length batch)
      /\ List.length batch = List.length items
      /\ forall j ex,
           nth_error batch j = Some ex ->
           exists ex_data,
             nth_error items j = Some ex_data
             /\ build_example tc fmt (k + Z.of_nat j) (snd st + Z.of_nat j) ex_data = Ok ex.
Proof.
  induction items as [|x t IH]; intros k st st' H; cbn [batch_loop] in H.
  - injection H as <-. exists []. rewrite app_nil_r. simpl.
    split; [reflexivity|]. split; [lia|]. split; [reflexivity|].
    intros [|j] ex Hj; discriminate Hj.
  - destruct (build_example tc fmt k (snd st) x) as [e|] eqn:Hb; [cbn [bind] in H|discriminate H].
    destruct (IH _ _ _ H) as (batch & Hf & Hs & Hl & Hnth). cbn [fst snd] in Hf, Hs, Hnth.
    exists (e :: batch). split; [rewrite Hf, <- app_assoc; reflexivity|].
    split; [rewrite Hs; simpl List.length; lia|]. split; [simpl; congruence|].
    intros [|j] ex Hj.
    + injection Hj as <-. exists x. split; [reflexivity|].
      rewrite !Z.add_0_r. exact Hb.
    + destruct (Hnth j ex Hj) as (ex_data & Hi & Hbuild). exists ex_data.
      split; [exact Hi|].
      replace (k + Z.of_nat (S j)) with (k + 1 + Z.of_nat j) by lia.
      replace (snd st + Z.of_nat (S j)) with (snd st + 1 + Z.of_nat j) by lia.
      exact Hbuild.
Qed.

Lemma take_length_le {A : Type} (n : Z) (l : list A) :
  0 <= n -> (List.length (Py.take n l) <= Z.to_nat n)%nat.
Proof.
  intros Hn. unfold Py.take. destruct (Z.ltb_spec n 0); [lia|].
  rewrite length_firstn. lia.
Qed.

Lemma take_items_length_le n x items :
  0 <= n -> Py.take_items n x = Ok items -> (List.length items <= Z.to_nat n)%nat.
Proof.
  intros Hn H. destruct x; try discriminate H; injection H as <-; apply take_length_le; exact Hn.
Qed.

(** A batch: at most [n_examples_per_tc] examples (when that is not
    negative), the j-th built at position j with the next counter. *)
Lemma process_batch_spec config tc fmt response st st' :
  process_batch config tc fmt response st = Ok st' ->
  exists batch,
    fst st' = fst st ++ batch
    /\ snd st' = snd st + Z.of_nat (List.length batch)
    /\ (0 <= n_examples_per_tc config ->
        (List.length batch <= Z.to_nat (n_examples_per_tc config))%nat)
    /\ forall j ex,
         nth_error batch j = Some ex ->
         exists ex_data,
           build_example tc fmt (Z.of_nat j) (snd st + Z.of_nat j) ex_data = Ok ex.
Proof.
  unfold process_batch. intros H.
  destruct (Py.take_items _ _) as [items|] eqn:Ei; [cbn [bind] in H|discriminate H].
  destruct (batch_loop_spec _ _ _ _ _ _ H) as (batch & Hf & Hs & Hl & Hnth).
  exists batch. split; [exact Hf|]. split; [exact Hs|]. split.
  - intros Hn. rewrite Hl. eapply take_items_length_le; eauto.
  - intros j ex Hj. destruct (Hnth j ex Hj) as (ex_data & _ & Hb).
    exists ex_data. exact Hb.
Qed.

(** An invariant of [all_examples] and [ex_counter] that every batch
    keeps holds of what the loop returns. *)
Lemma loop_state_invariant config llm use_cases path completed
  (I : list DatasetExample * Z -> Prop) :
  (forall tc fmt response st st',
      I st -> process_batch config tc fmt response st = Ok st' -> I st') ->
  forall tcs idx st w out w',
    I st ->
    test_case_loop config llm use_cases path completed tcs idx st w = Returned out w' ->
    exists counter, I (out, counter).
Proof.
  intros Hstep tcs; induction tcs as [|t rest IH]; intros idx st w out w' Hst H.
  - cbn [test_case_loop] in H. injection H as <- <-. exists (snd st).
    destruct st; exact Hst.
  - cbn [test_case_loop] in H.
    destruct (Py.mem (tc_id t) completed); [eapply IH; eauto|].
    destruct (uc_map_get use_cases (tc_use_case_id t)); [|eapply IH; eauto].
    destruct (llm (List.length (calls w))); [|discriminate H].
    destruct (process_batch _ _ _ _ _) as [st1|] eqn:Hb; [|discriminate H].
    eapply IH; [|exact H]. eapply Hstep; eauto.
Qed.

Lemma run_state_invariant config llm use_cases policies test_cases path on_disk
  (I : list DatasetExample * Z -> Prop) out w :
  (forall tc fmt response st st',
      I st -> process_batch config tc fmt response st = Ok st' -> I st') ->
  I (fst (load_existing path on_disk),
     Z.of_nat (List.length (fst (load_existing path on_disk))) + 1) ->
  generate_dataset config llm use_cases policies test_cases path on_disk = Returned out w ->
  exists counter, I (out, counter).
Proof.
  unfold generate_dataset. intros Hstep Hinit H.
  destruct (load_existing path on_disk) as [loaded ids].
  eapply loop_state_invariant; eauto.
Qed.

Lemma build_example_id tc fmt i c ex_data ex :
  build_example tc fmt i c ex_data = Ok ex ->
  ex_id ex = ("ex_" ++ Py.str_of_int c)%string /\ ex_case ex = tc_case tc /\ valid_example ex.
Proof.
  intros H.
  destruct (BuildExampleFacts.build_example_inv _ _ _ _ _ _ H)
    as (input0 & has & input1 & expected & ec0 & n & ec & md0 & md1 & md2 & input2
        & _ & _ & _ & _ & _ & _ & _ & _ & _ & _ & _ & Hnew).
  destruct (BuildExampleFacts.new_DatasetExample_inv _ _ _ _ _ _ _ _ _ _ _ Hnew)
    as (f & _ & _ & _ & _ & _ & Hex & Hv).
  split; [|split; [|exact Hv]]; rewrite Hex; reflexivity.
Qed.

(** X4: example ids are numbered by position: the example at position j
    of the returned list, counted from 0, when it was generated in this
    run, has id "ex_" followed by j+1; the numbering of a resumed run
    starts from the number of examples loaded, not from their ids. *)
Theorem X4_example_ids_follow_positions :
  forall (config : Config) (llm : gateway) (use_cases : list UseCase)
         (policies : list Policy) (test_cases : list TestCase) (path : string)
         (on_disk : option json) (out : list DatasetExample) (w : world),
    generate_dataset config llm use_cases policies test_cases path on_disk
      = Returned out w ->
    forall j ex,
      nth_error out j = Some ex ->
      (List.length (fst (load_existing path on_disk)) <= j)%nat ->
      ex_id ex = ("ex_" ++ Py.str_of_int (Z.of_nat j + 1))%string.
Proof.
  intros cfg llm ucs pols tcs path on_disk out w H.
  set (loaded := fst (load_existing path on_disk)).
  destruct (run_state_invariant cfg llm ucs pols tcs path on_disk
              (fun st => snd st = Z.of_nat (List.length (fst st)) + 1
                         /\ forall j ex, nth_error (fst st) j = Some ex ->
                                         (List.length loaded <= j)%nat ->
                                         ex_id ex
                                         = ("ex_" ++ Py.str_of_int (Z.of_nat j + 1))%string)
              out w) as [c [_ Hids]]; [| |exact H|exact Hids].
  - intros tc fmt response [l c] st' [Hc Hl] Hb. cbn [fst snd] in *.
    destruct (process_batch_spec _ _ _ _ _ _ Hb) as (batch & Hf & Hs & _ & Hnth).
    cbn [fst snd] in *. rewrite Hf, Hs. split.
    + rewrite length_app. lia.
    + intros j ex Hj Hge. destruct (Nat.lt_ge_cases j (List.length l)) as [Hlt|Hle].
      * rewrite nth_error_app1 in Hj by exact Hlt. apply Hl; assumption.
      * rewrite nth_error_app2 in Hj by exact Hle.
        destruct (Hnth _ _ Hj) as (ex_data & Hbuild).
        apply build_example_id in Hbuild. destruct Hbuild as [-> _].
        f_equal. f_equal. lia.
  - cbn [fst snd]. split; [reflexivity|].
    intros j ex Hj Hge.
    assert (j < List.length loaded)%nat
      by (apply nth_error_Some; unfold loaded; rewrite Hj; discriminate).
    lia.
Qed.

Lemma X4_witness :
  ex_id (ex 4 "tc_4" "tickets") = ("ex_" ++ Py.str_of_int (Z.of_nat 3 + 1))%string.
Proof.
  exact (X4_example_ids_follow_positions (mkConfig 8 5 2) steady_gateway [uc1] []
           five_test_cases save_path (Some two_persisted) _ _
           DatasetGeneratorFacts.resume_after_two_of_five 3%nat (ex 4 "tc_4" "tickets")
           eq_refl (le_S 2 2 (le_n 2))).
Defined.

Lemma build_example_source tc fmt i c ex_data ex :
  build_example tc fmt i c ex_data = Ok ex ->
  tc_case tc = support_bot ->
  Py.dict_get (ex_metadata ex) "source" = Some (JStr (_get_source_for_support i)).
Proof.
  intros H Hcase.
  destruct (BuildExampleFacts.build_example_inv _ _ _ _ _ _ H)
    as (input0 & has & input1 & expected & ec0 & n & ec & md0 & md1 & md2 & input2
        & _ & _ & _ & _ & _ & _ & _ & _ & Hmd1 & Hmd2 & _ & Hnew).
  destruct (BuildExampleFacts.new_DatasetExample_inv _ _ _ _ _ _ _ _ _ _ _ Hnew)
    as (f & _ & _ & _ & _ & Hmd & _).
  rewrite Hcase in Hmd1. cbn [case_str String.eqb Ascii.eqb Bool.eqb] in Hmd1.
  destruct (BuildExampleFacts.setitem_inv _ _ _ _ Hmd1) as (d0 & _ & ->).
  destruct (BuildExampleFacts.setitem_inv _ _ _ _ Hmd2) as (d1 & Hd1 & ->).
  assert (Hmeta : ex_metadata ex = Py.dict_set d1 "split" (JStr "test")) by congruence.
  assert (Hd : d1 = Py.dict_set d0 "source" (JStr (_get_source_for_support i)))
    by congruence.
  rewrite Hmeta, Hd. rewrite dict_get_set_neq by discriminate. apply dict_get_set_eq.
Qed.

(** X5: with at most two examples per test case (the default is two),
    the run never labels an example of a support_bot test case "corner":
    the source follows the position within the batch, so every example
    generated in the run is labelled "tickets" or "faq_paraphrase". *)
Theorem X5_small_batches_never_reach_corner :
  forall (config : Config) (llm : gateway) (use_cases : list UseCase)
         (policies : list Policy) (test_cases : list TestCase) (path : string)
         (on_disk : option json) (out : list DatasetExample) (w : world),
    0 <= n_examples_per_tc config <= 2 ->
    generate_dataset config llm use_cases policies test_cases path on_disk
      = Returned out w ->
    exists fresh,
      out = fst (load_existing path on_disk) ++ fresh
      /\ Forall (fun ex => ex_case ex = support_bot ->
                           Py.dict_get (ex_metadata ex) "source" = Some (JStr "tickets")
                           \/ Py.dict_get (ex_metadata ex) "source"
                              = Some (JStr "faq_paraphrase")) fresh.
Proof.
  intros cfg llm ucs pols tcs path on_disk out w Hn H.
  set (loaded := fst (load_existing path on_disk)).
  set (Q := fun ex => ex_case ex = support_bot ->
                      Py.dict_get (ex_metadata ex) "source" = Some (JStr "tickets")
                      \/ Py.dict_get (ex_metadata ex) "source"
                         = Some (JStr "faq_paraphrase")).
  destruct (run_state_invariant cfg llm ucs pols tcs path on_disk
              (fun st => exists fresh, fst st = loaded ++ fresh /\ Forall Q fresh)
              out w) as [c Hinv]; [| |exact H|exact Hinv].
  - intros tc fmt response st st' (fresh & Hf & HQ) Hb.
    destruct (process_batch_spec _ _ _ _ _ _ Hb) as (batch & Hf' & _ & Hlen & Hnth).
    exists (fresh ++ batch). split; [rewrite Hf', Hf, <- app_assoc; reflexivity|].
    apply Forall_app. split; [exact HQ|]. apply Forall_forall. intros ex Hin.
    apply In_nth_error in Hin. destruct Hin as [j Hj].
    assert (Hj2 : (j < 2)%nat).
    { assert (j < List.length batch)%nat by (apply nth_error_Some; rewrite Hj; discriminate).
      specialize (Hlen (proj1 Hn)). lia. }
    destruct (Hnth j ex Hj) as (ex_data & Hbuild). intros Hcase.
    destruct (build_example_id _ _ _ _ _ _ Hbuild) as (_ & Hc & _).
    rewrite Hcase in Hc. symmetry in Hc.
    rewrite (build_example_source _ _ _ _ _ _ Hbuild Hc).
    destruct j as [|[|j]]; [left; reflexivity|right; reflexivity|lia].
  - exists []. rewrite app_nil_r. split; [reflexivity|constructor].
Qed.

Lemma X5_witness :
  exists fresh,
    [ex 1 "tc_1" "tickets"; ex 2 "tc_2" "tickets"; ex 3 "tc_3" "tickets";
     ex 4 "tc_4" "tickets"; ex 5 "tc_5" "tickets"]
    = fst (load_existing save_path (Some two_persisted)) ++ fresh
    /\ Forall (fun e => ex_case e = support_bot ->
                        Py.dict_get (ex_metadata e) "source" = Some (JStr "tickets")
                        \/ Py.dict_get (ex_metadata e) "source"
                           = Some (JStr "faq_paraphrase")) fresh.
Proof.
  assert (Hn : 0 <= n_examples_per_tc (mkConfig 8 5 2) <= 2) by (simpl; lia).
  exact (X5_small_batches_never_reach_corner (mkConfig 8 5 2) steady_gateway [uc1] []
           five_test_cases save_path (Some two_persisted) _ _ Hn
           DatasetGeneratorFacts.resume_after_two_of_five).
Defined.





Lemma parse_valid d ex : parse_DatasetExample d = Some ex -> valid_example ex.
Proof.
  unfold parse_DatasetExample, id_field. intros H.
  destruct (str_field d "id") as [i|]; [cbn [obind] in H|discriminate H].
  destruct (with_prefix "ex_" i) as [i'|] eqn:Ei; [cbn [obind] in H|discriminate H].
  destruct (case_field d "case") as [c|]; [cbn [obind] in H|discriminate H].
  match type of H with obind ?m _ = _ => destruct m as [f|]; [cbn [obind] in H|discriminate H] end.
  destruct (str_field d "use_case_id") as [u|]; [cbn [obind] in H|discriminate H].
  destruct (with_prefix "uc_" u) as [u'|] eqn:Eu; [cbn [obind] in H|discriminate H].
  destruct (str_field d "test_case_id") as [t|]; [cbn [obind] in H|discriminate H].
  destruct (with_prefix "tc_" t) as [t'|] eqn:Et; [cbn [obind] in H|discriminate H].
  destruct (field as_dict d "input") as [inp|]; [cbn [obind] in H|discriminate H].
  destruct (str_field d "expected_output") as [eo|]; [cbn [obind] in H|discriminate H].
  destruct (field (as_list as_str) d "evaluation_criteria") as [l|];
    [cbn [obind] in H|discriminate H].
  unfold min_length in H.
  destruct (3 <=? List.length l)%nat eqn:Hlen; [cbn [obind] in H|discriminate H].
  destruct (field (as_list as_str) d "policy_ids") as [ps|]; [cbn [obind] in H|discriminate H].
  match type of H with obind ?m _ = _ => destruct m as [md|]; [cbn [obind] in H|discriminate H] end.
  injection H as <-. unfold valid_example; simpl.
  apply BuildExampleFacts.with_prefix_inv in Ei, Eu, Et.
  destruct Ei as [-> ?], Eu as [-> ?], Et as [-> ?].
  repeat split; try assumption. apply Nat.leb_le. exact Hlen.
Qed.

Lemma parsed_examples_valid l : Forall valid_example (parsed_examples l).
Proof.
  induction l as [|x t IH]; [constructor|]. cbn [parsed_examples flat_map].
  apply Forall_app. split; [|exact IH].
  destruct x; try constructor.
  destruct (parse_DatasetExample d) eqn:E; [|constructor].
  constructor; [eapply parse_valid; exact E|constructor].
Qed.

Lemma load_existing_valid path on_disk : Forall valid_example (fst (load_existing path on_disk)).
Proof.
  destruct on_disk as [j|]; [|constructor].
  destruct (String.eqb_spec path "") as [->|Hp].
  - unfold load_existing. simpl. constructor.
  - rewrite (proj1 (DatasetGeneratorFacts.load_existing_parsed path j Hp)).
    apply parsed_examples_valid.
Qed.

(** Every example a run returns satisfies the constraints of the
    schema. *)
Lemma run_output_valid config llm use_cases policies test_cases path on_disk out w :
  generate_dataset config llm use_cases policies test_cases path on_disk = Returned out w ->
  Forall valid_example out.
Proof.
  intros H.
  destruct (run_state_invariant config llm use_cases policies test_cases path on_disk
              (fun st => Forall valid_example (fst st)) out w) as [c Hinv];
    [| |exact H|exact Hinv].
  - intros tc fmt response st st' Hst Hb.
    destruct (process_batch_spec _ _ _ _ _ _ Hb) as (batch & Hf & _ & _ & Hnth).
    rewrite Hf. apply Forall_app. split; [exact Hst|]. apply Forall_forall.
    intros ex Hin. apply In_nth_error in Hin. destruct Hin as [j Hj].
    destruct (Hnth j ex Hj) as (ex_data & Hbuild).
    apply (build_example_id _ _ _ _ _ _ Hbuild).
  - apply load_existing_valid.
Qed.

(** A loop in which every test case is skipped. *)
Lemma loop_all_skipped config llm use_cases path completed :
  forall tcs idx st w,
    (forall tc, In tc tcs -> Py.mem (tc_id tc) completed = true
                             \/ uc_map_get use_cases (tc_use_case_id tc) = None) ->
    test_case_loop config llm use_cases path completed tcs idx st w = Returned (fst st) w.
Proof.
  induction tcs as [|t rest IH]; intros idx st w Hall; [reflexivity|].
  cbn [test_case_loop].
  assert (Hrest : forall tc, In tc rest ->
                             Py.mem (tc_id tc) completed = true
                             \/ uc_map_get use_cases (tc_use_case_id tc) = None)
    by (intros tc Hin; apply Hall; right; exact Hin).
  destruct (Hall t (or_introl eq_refl)) as [Hc|Hu].
  - rewrite Hc. apply IH. exact Hrest.
  - rewrite Hu. destruct (Py.mem (tc_id t) completed); apply IH; exact Hrest.
Qed.

(** A run over a file that holds valid examples for every test case
    with a known use case skips them all. *)
Lemma rerun_over_saved_examples config llm use_cases policies test_cases path out :
  path <> "" ->
  Forall valid_example out ->
  (forall tc, In tc test_cases ->
              In (tc_use_case_id tc) (map uc_id use_cases) ->
              In (tc_id tc) (map ex_test_case_id out)) ->
  generate_dataset config llm use_cases policies test_cases path (Some (wrapper out))
  = Returned out (mkWorld (Some (wrapper out)) []).
Proof.
  intros Hp Hvalid Hcov.
  destruct (DatasetGeneratorFacts.load_existing_parsed path (wrapper out) Hp) as [Hfst Hsnd].
  change (persisted_records (wrapper out)) with (map dump_DatasetExample out) in Hfst, Hsnd.
  rewrite (DatasetGeneratorFacts.parsed_examples_dump out Hvalid) in Hfst, Hsnd.
  unfold generate_dataset.
  destruct (load_existing path (Some (wrapper out))) as [loaded ids] eqn:El.
  cbn [fst snd] in Hfst, Hsnd. subst loaded.
  rewrite loop_all_skipped; [reflexivity|].
  intros tc Hin.
  destruct (uc_map_get use_cases (tc_use_case_id tc)) eqn:Hu; [left|right; reflexivity].
  apply mem_In. apply Hsnd. apply Hcov; [exact Hin|].
  destruct (in_dec string_dec (tc_use_case_id tc) (map uc_id use_cases)) as [Hk|Hk];
    [exact Hk|].
  apply DatasetGeneratorFacts.uc_map_get_None in Hk. congruence.
Qed.

(** X7: running the stage again on the file of a finished run is a
    no-op: if every test case with a known use case has at least one
    example in the returned list, then a second run over the file holding
    that list, with any gateway, makes no call, leaves the file as it is
    and returns the same list. *)
Theorem X7_rerun_is_idempotent :
  forall (config : Config) (llm llm' : gateway) (use_cases : list UseCase)
         (policies : list Policy) (test_cases : list TestCase) (path : string)
         (on_disk : option json) (out : list DatasetExample) (w : world),
    path <> "" ->
    generate_dataset config llm use_cases policies test_cases path on_disk
      = Returned out w ->
    (forall tc, In tc test_cases ->
                In (tc_use_case_id tc) (map uc_id use_cases) ->
                In (tc_id tc) (map ex_test_case_id out)) ->
    generate_dataset config llm' use_cases policies test_cases path (Some (wrapper out))
    = Returned out (mkWorld (Some (wrapper out)) []).
Proof.
  intros cfg llm llm' ucs pols tcs path on_disk out w Hp H Hcov.
  pose proof (run_output_valid _ _ _ _ _ _ _ _ _ H) as Hvalid.
  apply rerun_over_saved_examples.
  - exact Hp.
  - exact Hvalid.
  - exact Hcov.
Qed.

Lemma X7_witness :
  generate_dataset (mkConfig 8 5 2) failing_gateway [uc1] [] five_test_cases save_path
    (Some (wrapper [ex 1 "tc_1" "tickets"; ex 2 "tc_2" "tickets"; ex 3 "tc_3" "tickets";
                    ex 4 "tc_4" "tickets"; ex 5 "tc_5" "tickets"]))
  = Returned [ex 1 "tc_1" "tickets"; ex 2 "tc_2" "tickets"; ex 3 "tc_3" "tickets";
              ex 4 "tc_4" "tickets"; ex 5 "tc_5" "tickets"]
      (mkWorld (Some (wrapper [ex 1 "tc_1" "tickets"; ex 2 "tc_2" "tickets";
                               ex 3 "tc_3" "tickets"; ex 4 "tc_4" "tickets";
                               ex 5 "tc_5" "tickets"])) []).
Proof.
  assert (Hp : save_path <> "") by discriminate.
  assert (Hcov : forall t, In t five_test_cases ->
                           In (tc_use_case_id t) (map uc_id [uc1]) ->
                           In (tc_id t)
                              (map ex_test_case_id
                                 [ex 1 "tc_1" "tickets"; ex 2 "tc_2" "tickets";
                                  ex 3 "tc_3" "tickets"; ex 4 "tc_4" "tickets";
                                  ex 5 "tc_5" "tickets"])).
  { intros t [<-|[<-|[<-|[<-|[<-|[]]]]]] _; simpl; tauto. }
  exact (X7_rerun_is_idempotent (mkConfig 8 5 2) steady_gateway failing_gateway [uc1] []
           five_test_cases save_path (Some two_persisted) _ _ Hp
           DatasetGeneratorFacts.resume_after_two_of_five Hcov).
Defined.

End RunFacts.

(** ** The output of test-case generation *)

Module TestCaseRunFacts.
Import Models TestCaseGenerator Samples MoreSamples.

Lemma new_TestCase_inv id c u p ids tc :
  new_TestCase id c u p ids = Some tc ->
  p = JDict (tc_parameters tc)
  /\ tc = mkTestCase id c u (tc_parameters tc) ids
  /\ String.prefix "tc_" id = true /\ String.prefix "uc_" u = true.
Proof.
  unfold new_TestCase. intros H.
  destruct (with_prefix "tc_" id) as [i'|] eqn:Ei; [cbn [obind] in H|discriminate H].
  destruct (with_prefix "uc_" u) as [u'|] eqn:Eu; [cbn [obind] in H|discriminate H].
  destruct p as [| | | | |d]; try discriminate H. cbn [as_dict obind] in H.
  injection H as <-. simpl.
  apply BuildExampleFacts.with_prefix_inv in Ei, Eu.
  destruct Ei as [-> ?], Eu as [-> ?]. auto.
Qed.

(** One record becomes one test case, numbered by the counter. *)
Lemma add_test_case_spec c known uc acc n tc_data st' :
  add_test_case c known uc (acc, n) tc_data = Ok st' ->
  exists tc,
    st' = (acc ++ [tc], n + 1)
    /\ tc_id tc = ("tc_" ++ Py.str_of_int n)%string
    /\ tc_case tc = c
    /\ tc_use_case_id tc = uc_id uc
    /\ Py.get tc_data "parameters" (JDict []) = Ok (JDict (tc_parameters tc)).
Proof.
  unfold add_test_case. intros H.
  destruct (Py.get tc_data "parameters" (JDict [])) as [params|] eqn:Ep;
    [cbn [bind] in H|discriminate H].
  destruct (Py.get tc_data "policy_ids" (JList [])) as [pids0|]; [cbn [bind] in H|discriminate H].
  destruct (resolve_policy_ids known pids0) as [pids|]; [cbn [bind] in H|discriminate H].
  destruct (new_TestCase _ c (uc_id uc) params pids) as [tc|] eqn:Et; [|discriminate H].
  injection H as <-. exists tc. apply new_TestCase_inv in Et.
  destruct Et as (Hp & Htc & _). split; [reflexivity|].
  rewrite Htc. simpl. repeat split. congruence.
Qed.

(** The records of one use case become one block. *)
Lemma block_spec c known uc items :
  forall acc n st',
    foldM (add_test_case c known uc) items (acc, n) = Ok st' ->
    exists block,
      st' = (acc ++ block, n + Z.of_nat (List.length block))
      /\ List.length block = List.length items
      /\ forall j tc, nth_error block j = Some tc ->
                      tc_id tc = ("tc_" ++ Py.str_of_int (n + Z.of_nat j))%string
                      /\ tc_case tc = c /\ tc_use_case_id tc = uc_id uc.
Proof.
  induction items as [|x t IH]; intros acc n st' H; cbn [foldM] in H.
  - injection H as <-. exists []. rewrite app_nil_r, Z.add_0_r.
    split; [reflexivity|]. split; [reflexivity|]. intros [|j] tc Hj; discriminate Hj.
  - destruct (add_test_case c known uc (acc, n) x) as [s1|] eqn:Ea;
      [cbn [bind] in H|discriminate H].
    destruct (add_test_case_spec _ _ _ _ _ _ _ Ea) as (tc0 & -> & Hid & Hc & Hu & _).
    destruct (IH _ _ _ H) as (block & -> & Hl & Hnth).
    exists (tc0 :: block). split; [|split].
    + rewrite <- app_assoc. simpl. f_equal. lia.
    + simpl. congruence.
    + intros [|j] tc Hj.
      * injection Hj as <-. rewrite Z.add_0_r. auto.
      * destruct (Hnth j tc Hj) as (H1 & H2 & H3). split; [|auto].
        rewrite H1. do 2 f_equal. lia.
Qed.

(** A block per use case, in the order of the use cases. *)
Lemma use_case_loop_spec config llm c known :
  forall ucs k acc n st',
    use_case_loop config llm c known ucs k (acc, n) = Ok st' ->
    exists blocks,
      st' = (acc ++ List.concat blocks, n + Z.of_nat (List.length (List.concat blocks)))
      /\ Forall2 (fun uc block =>
                    (0 <= n_test_cases_per_uc config ->
                     (List.length block <= Z.to_nat (n_test_cases_per_uc config))%nat)
                    /\ Forall (fun tc => tc_use_case_id tc = uc_id uc /\ tc_case tc = c) block)
           ucs blocks
      /\ forall j tc, nth_error (List.concat blocks) j = Some tc ->
                      tc_id tc = ("tc_" ++ Py.str_of_int (n + Z.of_nat j))%string.
Proof.
  induction ucs as [|uc rest IH]; intros k acc n st' H; cbn [use_case_loop] in H.
  - injection H as <-. exists []. simpl. rewrite app_nil_r, Z.add_0_r.
    split; [reflexivity|]. split; [constructor|]. intros [|j] tc Hj; discriminate Hj.
  - destruct (llm k) as [response|]; [cbn [bind] in H|discriminate H].
    destruct (Py.take_items _ _) as [items|] eqn:Ei; [cbn [bind] in H|discriminate H].
    destruct (foldM _ items (acc, n)) as [s1|] eqn:Ef; [cbn [bind] in H|discriminate H].
    destruct (block_spec _ _ _ _ _ _ _ Ef) as (block & -> & Hl & Hnth).
    destruct (IH _ _ _ _ H) as (blocks & -> & HF & Hids).
    exists (block :: blocks). split; [|split].
    + simpl List.concat. rewrite length_app, <- app_assoc. f_equal. lia.
    + constructor; [|exact HF]. split.
      * intros Hn. rewrite Hl. eapply RunFacts.take_items_length_le; eauto.
      * apply Forall_forall. intros tc Hin. apply In_nth_error in Hin.
        destruct Hin as [j Hj]. destruct (Hnth j tc Hj) as (_ & H2 & H3). auto.
    + intros j tc Hj. simpl List.concat in Hj.
      destruct (Nat.lt_ge_cases j (List.length block)) as [Hlt|Hge].
      * rewrite nth_error_app1 in Hj by exact Hlt. apply (Hnth j tc Hj).
      * rewrite nth_error_app2 in Hj by exact Hge. rewrite (Hids _ _ Hj).
        do 2 f_equal. lia.
Qed.

(** X8: the test cases come in one block per use case, in the order of
    the use cases: every test case of a block refers to that use case
    and carries the case type of the first use case of the run, and,
    when the configured count is not negative, a block has at most that
    many test cases. *)
Theorem X8_one_block_per_use_case :
  forall (config : Config) (llm : gateway) (use_cases : list UseCase)
         (policies : list Policy) (tcs : list TestCase),
    generate_test_cases config llm use_cases policies = Ok tcs ->
    exists blocks,
      tcs = List.concat blocks
      /\ Forall2 (fun uc block =>
                    (0 <= n_test_cases_per_uc config ->
                     (List.length block <= Z.to_nat (n_test_cases_per_uc config))%nat)
                    /\ Forall (fun tc => tc_use_case_id tc = uc_id uc
                                         /\ tc_case tc = match use_cases with
                                                         | first :: _ => uc_case first
                                                         | [] => support_bot
                                                         end) block)
           use_cases blocks.
Proof.
  intros cfg llm ucs pols tcs H. unfold generate_test_cases in H.
  destruct (use_case_loop _ _ _ _ _ _ _) as [st|] eqn:El; [cbn [bind] in H|discriminate H].
  injection H as <-.
  destruct (use_case_loop_spec _ _ _ _ _ _ _ _ _ El) as (blocks & -> & HF & _).
  exists blocks. split; [reflexivity|exact HF].
Qed.

(** X9: test-case ids are numbered across the whole run: the test case
    at position j of the output, counted from 0, has id "tc_" followed
    by j+1, whichever use case it belongs to. *)
Theorem X9_test_case_ids_follow_positions :
  forall (config : Config) (llm : gateway) (use_cases : list UseCase)
         (policies : list Policy) (tcs : list TestCase),
    generate_test_cases config llm use_cases policies = Ok tcs ->
    forall j tc, nth_error tcs j = Some tc ->
                 tc_id tc = ("tc_" ++ Py.str_of_int (Z.of_nat j + 1))%string.
Proof.
  intros cfg llm ucs pols tcs H j tc Hj. unfold generate_test_cases in H.
  destruct (use_case_loop _ _ _ _ _ _ _) as [st|] eqn:El; [cbn [bind] in H|discriminate H].
  injection H as <-.
  destruct (use_case_loop_spec _ _ _ _ _ _ _ _ _ El) as (blocks & -> & _ & Hids).
  simpl in Hj. rewrite (Hids _ _ Hj). do 2 f_equal. lia.
Qed.

Example two_blocks_of_two :
  generate_test_cases (mkConfig 8 2 2) three_records [uc1; uc2]
    [pol "pol_1"; pol "pol_2"; pol "pol_3"]
  = Ok four_test_cases.
Proof. vm_compute. reflexivity. Qed.

Lemma X8_witness :
  exists blocks,
    four_test_cases = List.concat blocks
    /\ Forall2 (fun uc block =>
                  (0 <= n_test_cases_per_uc (mkConfig 8 2 2) ->
                   (List.length block <= Z.to_nat (n_test_cases_per_uc (mkConfig 8 2 2)))%nat)
                  /\ Forall (fun t => tc_use_case_id t = uc_id uc
                                      /\ tc_case t = uc_case uc1) block)
         [uc1; uc2] blocks.
Proof.
  exact (X8_one_block_per_use_case (mkConfig 8 2 2) three_records [uc1; uc2]
           [pol "pol_1"; pol "pol_2"; pol "pol_3"] four_test_cases two_blocks_of_two).
Defined.

Lemma X9_witness :
  tc_id (mkTestCase "tc_3" support_bot "uc_2" [("tone", JStr "angry")] ["pol_2"])
  = ("tc_" ++ Py.str_of_int (Z.of_nat 2 + 1))%string.
Proof.
  exact (X9_test_case_ids_follow_positions (mkConfig 8 2 2) three_records [uc1; uc2]
           [pol "pol_1"; pol "pol_2"; pol "pol_3"] four_test_cases two_blocks_of_two
           2%nat _ eq_refl).
Defined.

End TestCaseRunFacts.

(** ** The extraction calls *)

Module ExtractionFacts.
Import Models Extractor ExtractionStage Samples MoreSamples.

Lemma collect_spec {A : Type} (body : Z -> json -> result A) items :
  forall i ys,
    collect body items i = Ok ys ->
    List.length ys = List.length items
    /\ forall j y, nth_error ys j = Some y ->
                   exists x, nth_error items j = Some x /\ body (i + Z.of_nat j) x = Ok y.
Proof.
  induction items as [|x t IH]; intros i ys H; cbn [collect] in H.
  - injection H as <-. split; [reflexivity|]. intros [|j] y Hj; discriminate Hj.
  - destruct (body i x) as [y0|] eqn:Hb; [cbn [bind] in H|discriminate H].
    destruct (collect body t (i + 1)) as [ys0|] eqn:Hc; [cbn [bind] in H|discriminate H].
    injection H as <-. destruct (IH _ _ Hc) as [Hl Hnth]. split; [simpl; congruence|].
    intros [|j] y Hj.
    + injection Hj as <-. exists x. rewrite Z.add_0_r. auto.
    + destruct (Hnth j y Hj) as (x' & Hx & Hb'). exists x'. split; [exact Hx|].
      replace (i + Z.of_nat (S j)) with (i + 1 + Z.of_nat j) by lia. exact Hb'.
Qed.

Lemma validate_one_file raw f ev e : validate_one raw f ev = Ok e -> input_file e = f.
Proof.
  unfold validate_one. intros H. bind_inv H. destruct a1; try discriminate H.
  injection H as <-. reflexivity.
Qed.

(** The evidence of a record: never empty, filed under the input file,
    and within the document when the document has a line. *)
Lemma checked_evidence_spec data raw f evs :
  checked_evidence data raw f = Ok evs ->
  evs <> []
  /\ Forall (fun e => input_file e = f) evs
  /\ ((1 <= List.length raw)%nat -> Forall (in_range (Z.of_nat (List.length raw))) evs).
Proof.
  unfold checked_evidence. intros H. bind_inv H. injection H as <-.
  destruct a1 as [|e t] eqn:Ea.
  - split; [discriminate|]. split; [repeat constructor|].
    intros Hn. constructor; [|constructor]. unfold in_range, placeholder; simpl. lia.
  - rewrite <- Ea in *. split; [rewrite Ea; discriminate|]. split.
    + eapply mapM_ok_Forall; [|exact E1]. intros x y. apply validate_one_file.
    + intros Hn. eapply mapM_ok_Forall; [|exact E1]. intros x y.
      apply ExtractorFacts.validate_one_range. exact Hn.
Qed.

Lemma new_UseCase_inv id c name description evidence uc :
  new_UseCase id c name description evidence = Some uc ->
  uc_id uc = id /\ uc_case uc = c /\ uc_evidence uc = evidence
  /\ name = JStr (uc_name uc) /\ description = JStr (uc_description uc).
Proof.
  unfold new_UseCase. intros H.
  destruct (with_prefix "uc_" id) as [i'|] eqn:Ei; [cbn [obind] in H|discriminate H].
  destruct name as [| | |n| |]; try discriminate H. cbn [as_str obind] in H.
  destruct description as [| | |ds| |]; try discriminate H. cbn [as_str obind] in H.
  unfold min_length in H. destruct (1 <=? List.length evidence)%nat; [|discriminate H].
  cbn [obind] in H. injection H as <-. simpl.
  apply BuildExampleFacts.with_prefix_inv in Ei. destruct Ei as [-> _]. auto.
Qed.

Lemma new_Policy_inv id t c statement evidence p :
  new_Policy id t c statement evidence = Some p ->
  pol_id p = id /\ pol_type p = t /\ pol_case p = c /\ pol_evidence p = evidence
  /\ statement = JStr (pol_statement p).
Proof.
  unfold new_Policy. intros H.
  destruct (with_prefix "pol_" id) as [i'|] eqn:Ei; [cbn [obind] in H|discriminate H].
  destruct statement as [| | |st| |]; try discriminate H. cbn [as_str obind] in H.
  unfold min_length in H. destruct (1 <=? List.length evidence)%nat; [|discriminate H].
  cbn [obind] in H. injection H as <-. simpl.
  apply BuildExampleFacts.with_prefix_inv in Ei. destruct Ei as [-> _]. auto.
Qed.

(** X10: every record of the gateway's answer that the configured count
    lets through becomes a use case, so that, when the count is not
    negative, there are at most that many.  The one at position j,
    counted from 0, has id "uc_" followed by j+1 and the detected case
    type; its name is the record's name, or "Use Case" and its number
    when the record has none; its description is the record's, or empty;
    its evidence is what [_validate_evidence] makes of the record's
    evidence (of one entry for line 1 when the record has none), or,
    when that is empty, the placeholder for line 1 of the input file; it
    is never empty, is filed under the input file and, in a document
    with at least one line, lies within the document. *)
Theorem X10_extracted_use_cases :
  forall (config : Config) (answer : result json) (raw_lines : list string)
         (case : case_type) (file : string) (ucs : list UseCase),
    extract_use_cases config answer raw_lines case file = Ok ucs ->
    exists response records,
      answer = Ok response
      /\ Py.take_items (n_use_cases config) (unwrap "use_cases" response) = Ok records
      /\ List.length ucs = List.length records
      /\ (0 <= n_use_cases config -> (List.length ucs <= Z.to_nat (n_use_cases config))%nat)
      /\ forall j uc,
           nth_error ucs j = Some uc ->
           exists uc_data given evidence_list checked,
             nth_error records j = Some uc_data
             /\ uc_id uc = ("uc_" ++ Py.str_of_int (Z.of_nat j + 1))%string
             /\ uc_case uc = case
             /\ Py.get uc_data "name"
                  (JStr ("Use Case " ++ Py.str_of_int (Z.of_nat j + 1))%string)
                = Ok (JStr (uc_name uc))
             /\ Py.get uc_data "description" (JStr "") = Ok (JStr (uc_description uc))
             /\ Py.get uc_data "evidence"
                  (JList [JDict [("line_start", JInt 1); ("line_end", JInt 1);
                                 ("quote", JStr "N/A")]])
                = Ok given
             /\ Py.iter given = Ok evidence_list
             /\ _validate_evidence evidence_list raw_lines file = Ok checked
             /\ (checked = [] -> uc_evidence uc = [mkEvidence file 1 1 "N/A"])
             /\ (checked <> [] -> uc_evidence uc = checked)
             /\ uc_evidence uc <> []
             /\ Forall (fun e => input_file e = file) (uc_evidence uc)
             /\ ((1 <= List.length raw_lines)%nat ->
                 Forall (in_range (Z.of_nat (List.length raw_lines))) (uc_evidence uc)).
Proof.
  intros cfg answer raw c f ucs H. unfold extract_use_cases in H.
  destruct answer as [response|]; [cbn [bind] in H|discriminate H].
  destruct (Py.take_items _ _) as [items|] eqn:Ei; [cbn [bind] in H|discriminate H].
  destruct (collect_spec _ _ _ _ H) as [Hl Hnth].
  exists response, items. split; [reflexivity|]. split; [exact Ei|]. split; [exact Hl|].
  split.
  - intros Hn. rewrite Hl. eapply RunFacts.take_items_length_le; eauto.
  - intros j uc Hj. destruct (Hnth j uc Hj) as (uc_data & Hx & Hb).
    replace (1 + Z.of_nat j) with (Z.of_nat j + 1) in Hb by lia.
    unfold use_case_of in Hb.
    destruct (checked_evidence uc_data raw f) as [evs|] eqn:Ee; [cbn [bind] in Hb|discriminate Hb].
    destruct (Py.get uc_data "name" _) as [name|] eqn:En; [cbn [bind] in Hb|discriminate Hb].
    destruct (Py.get uc_data "description" _) as [ds|] eqn:Ed;
      [cbn [bind] in Hb|discriminate Hb].
    destruct (new_UseCase _ c name ds evs) as [uc'|] eqn:Eu; [|discriminate Hb].
    injection Hb as ->. apply new_UseCase_inv in Eu.
    destruct Eu as (H1 & H2 & H3 & H4 & H5).
    destruct (checked_evidence_spec _ _ _ _ Ee) as (G1 & G2 & G3).
    unfold checked_evidence, default_evidence in Ee.
    destruct (Py.get uc_data "evidence" _) as [given|] eqn:Eg; [cbn [bind] in Ee|discriminate Ee].
    destruct (Py.iter given) as [evidence_list|] eqn:Eit; [cbn [bind] in Ee|discriminate Ee].
    destruct (_validate_evidence evidence_list raw f) as [checked|] eqn:Ev;
      [cbn [bind] in Ee|discriminate Ee].
    injection Ee as Ee. exists uc_data, given, evidence_list, checked.
    rewrite H3. rewrite <- H4, <- H5.
    split; [exact Hx|]. split; [exact H1|]. split; [exact H2|]. split; [exact En|].
    split; [exact Ed|]. split; [exact Eg|]. split; [exact Eit|].
    split; [exact Ev|]. split; [|split; [|split; [exact G1|split; [exact G2|exact G3]]]].
    + intros ->. symmetry. exact Ee.
    + intros Hne. rewrite <- Ee. destruct checked; [congruence|reflexivity].
Qed.

Example two_use_cases_extracted :
  extract_use_cases (mkConfig 8 5 2) use_cases_answer two_lines support_bot "doc.md"
  = Ok extracted_use_cases.
Proof. vm_compute. reflexivity. Qed.

Lemma X10_witness :
  exists response records,
    use_cases_answer = Ok response
    /\ Py.take_items (n_use_cases (mkConfig 8 5 2)) (unwrap "use_cases" response) = Ok records
    /\ List.length extracted_use_cases = List.length records
    /\ (0 <= n_use_cases (mkConfig 8 5 2) ->
        (List.length extracted_use_cases <= Z.to_nat (n_use_cases (mkConfig 8 5 2)))%nat)
    /\ forall j uc,
         nth_error extracted_use_cases j = Some uc ->
         exists uc_data given evidence_list checked,
           nth_error records j = Some uc_data
           /\ uc_id uc = ("uc_" ++ Py.str_of_int (Z.of_nat j + 1))%string
           /\ uc_case uc = support_bot
           /\ Py.get uc_data "name"
                (JStr ("Use Case " ++ Py.str_of_int (Z.of_nat j + 1))%string)
              = Ok (JStr (uc_name uc))
           /\ Py.get uc_data "description" (JStr "") = Ok (JStr (uc_description uc))
           /\ Py.get uc_data "evidence"
                (JList [JDict [("line_start", JInt 1); ("line_end", JInt 1);
                               ("quote", JStr "N/A")]])
              = Ok given
           /\ Py.iter given = Ok evidence_list
           /\ _validate_evidence evidence_list two_lines "doc.md" = Ok checked
           /\ (checked = [] -> uc_evidence uc = [mkEvidence "doc.md" 1 1 "N/A"])
           /\ (checked <> [] -> uc_evidence uc = checked)
           /\ uc_evidence uc <> []
           /\ Forall (fun e => input_file e = "doc.md") (uc_evidence uc)
           /\ ((1 <= List.length two_lines)%nat ->
               Forall (in_range (Z.of_nat (List.length two_lines))) (uc_evidence uc)).
Proof.
  exact (X10_extracted_use_cases (mkConfig 8 5 2) use_cases_answer two_lines support_bot
           "doc.md" extracted_use_cases two_use_cases_extracted).
Defined.

(** X11: every record of the gateway's answer becomes a policy, none is
    cut: the one at position j has id "pol_" followed by j+1 and the
    detected case type; its type is the record's type when that is one of
    must, must_not, escalate, style, format, and must for any other
    value or when the key is missing; its evidence list is non-empty and,
    in a document with at least one line, within the document. *)
Theorem X11_extracted_policies :
  forall (config : Config) (response : json) (raw_lines : list string)
         (case : case_type) (file : string) (pols : list Policy),
    extract_policies config (Ok response) raw_lines case file = Ok pols ->
    exists records,
      Py.iter (unwrap "policies" response) = Ok records
      /\ List.length pols = List.length records
      /\ forall j p,
           nth_error pols j = Some p ->
           exists pol_data given,
             nth_error records j = Some pol_data
             /\ Py.get pol_data "type" (JStr "must") = Ok given
             /\ pol_id p = ("pol_" ++ Py.str_of_int (Z.of_nat j + 1))%string
             /\ pol_case p = case
             /\ (forall t, given = JStr (policy_type_str t) -> pol_type p = t)
             /\ ((forall t, given <> JStr (policy_type_str t)) -> pol_type p = must)
             /\ pol_evidence p <> []
             /\ ((1 <= List.length raw_lines)%nat ->
                 Forall (in_range (Z.of_nat (List.length raw_lines))) (pol_evidence p)).
Proof.
  intros cfg response raw c f pols H. unfold extract_policies in H. cbn [bind] in H.
  destruct (Py.iter (unwrap "policies" response)) as [items|] eqn:Ei;
    [cbn [bind] in H|discriminate H].
  destruct (collect_spec _ _ _ _ H) as [Hl Hnth].
  exists items. split; [reflexivity|]. split; [exact Hl|].
  intros j p Hj. destruct (Hnth j p Hj) as (pol_data & Hx & Hb).
  replace (1 + Z.of_nat j) with (Z.of_nat j + 1) in Hb by lia.
  unfold policy_of in Hb.
  destruct (Py.get pol_data "type" (JStr "must")) as [given|] eqn:Eg;
    [cbn [bind] in Hb|discriminate Hb].
  destruct (resolve_type given) as [t0|] eqn:Et; [cbn [bind] in Hb|discriminate Hb].
  destruct (checked_evidence pol_data raw f) as [evs|] eqn:Ee; [cbn [bind] in Hb|discriminate Hb].
  destruct (Py.get pol_data "statement" _) as [st|]; [cbn [bind] in Hb|discriminate Hb].
  destruct (new_Policy _ t0 c st evs) as [p'|] eqn:Ep; [|discriminate Hb].
  injection Hb as ->. apply new_Policy_inv in Ep.
  destruct Ep as (H1 & H2 & H3 & H4 & _).
  destruct (checked_evidence_spec _ _ _ _ Ee) as (G1 & _ & G3).
  exists pol_data, given. rewrite H4.
  split; [exact Hx|]. split; [exact Eg|]. split; [exact H1|]. split; [exact H3|].
  split; [|split; [|split; [exact G1|exact G3]]].
  - intros t ->. rewrite H2. unfold resolve_type in Et. cbn [Py.hashable] in Et.
    destruct t; cbn in Et; congruence.
  - intros Hnot. rewrite H2. unfold resolve_type in Et.
    destruct (Py.hashable given); [|discriminate Et].
    destruct given as [| | |s| |]; try congruence.
    destruct (policy_type_of_str s) as [t|] eqn:Es; [|congruence].
    exfalso. apply (Hnot t). f_equal.
    unfold policy_type_of_str in Es.
    repeat match type of Es with
           | (if String.eqb s ?k then _ else _) = _ =>
               destruct (String.eqb_spec s k); [subst s; injection Es as <-; reflexivity|]
           end.
    discriminate Es.
Qed.

Example three_policies_extracted :
  extract_policies (mkConfig 8 5 2) policies_answer two_lines support_bot "doc.md"
  = Ok extracted_policies.
Proof. vm_compute. reflexivity. Qed.

Lemma X11_witness :
  exists records,
    Py.iter (unwrap "policies"
               (JList [JDict [("type", JStr "escalate"); ("statement", JStr "Call a human")];
                       JDict [("type", JStr "should");
                              ("evidence", JList [JDict [("line_start", JInt 2)]])];
                       JDict [("type", JNull)]])) = Ok records
    /\ List.length extracted_policies = List.length records
    /\ forall j p,
         nth_error extracted_policies j = Some p ->
         exists pol_data given,
           nth_error records j = Some pol_data
           /\ Py.get pol_data "type" (JStr "must") = Ok given
           /\ pol_id p = ("pol_" ++ Py.str_of_int (Z.of_nat j + 1))%string
           /\ pol_case p = support_bot
           /\ (forall t, given = JStr (policy_type_str t) -> pol_type p = t)
           /\ ((forall t, given <> JStr (policy_type_str t)) -> pol_type p = must)
           /\ pol_evidence p <> []
           /\ ((1 <= List.length two_lines)%nat ->
               Forall (in_range (Z.of_nat (List.length two_lines))) (pol_evidence p)).
Proof.
  exact (X11_extracted_policies (mkConfig 8 5 2) _ two_lines support_bot "doc.md"
           extracted_policies three_policies_extracted).
Defined.

End ExtractionFacts.

(** ** What a report without errors guarantees *)

Module PassingReportFacts.
Import Models Validator Contract Samples MoreSamples ValidatorFacts.

Lemma extends_no_errors P r r' : extends P r r' -> errors r' = [] -> errors r = [].
Proof.
  intros [[es [He _]] _] H. rewrite He in H. apply app_eq_nil in H. tauto.
Qed.

Lemma error_not_nil m r : errors (error m r) <> [].
Proof. simpl. destruct (errors r); discriminate. Qed.

Lemma len_iter x n items :
  Py.len x = Ok n -> Py.iter x = Ok items -> n = Z.of_nat (List.length items).
Proof.
  destruct x as [| | |s|l|d]; simpl; try discriminate; intros H1 H2;
    injection H1 as <-; injection H2 as <-.
  - f_equal. induction s as [|c s IH]; simpl; [reflexivity|]. f_equal. exact IH.
  - reflexivity.
  - rewrite length_map. reflexivity.
Qed.

Lemma artifact_list_eq fs fname key r l r0 :
  load_wrapped fs fname key r = (l, r0) -> artifact_list fs fname key = l.
Proof.
  intros H. unfold artifact_list. rewrite <- (load_wrapped_list fs fname key r), H. reflexivity.
Qed.

Lemma items_of_eq fs fname key r l r0 items :
  load_wrapped fs fname key r = (l, r0) -> Py.iter l = Ok items ->
  items_of fs fname key = items.
Proof.
  intros H Hi. unfold items_of. rewrite (artifact_list_eq _ _ _ _ _ _ H), Hi. reflexivity.
Qed.

Lemma load_wrapped_snd fs fname key r l r0 :
  load_wrapped fs fname key r = (l, r0) -> extends content_error r r0.
Proof. intros H. pose proof (load_wrapped_extends fs fname key r) as E. rewrite H in E. exact E. Qed.

(** *** Use cases *)

Lemma use_case_loop_pass il items :
  forall i ids r ids' r',
    for_enumerate (use_case_body il) items i (ids, r) = Ok (ids', r') ->
    errors r' = [] ->
    errors r = []
    /\ Forall (schema_valid parse_UseCase) items
    /\ (forall id, In id ids' <-> In id ids \/ In id (map uc_id (parsed parse_UseCase items))).
Proof.
  induction items as [|x t IH]; intros i ids r ids' r' H Hr; cbn [for_enumerate] in H.
  - injection H as <- <-. split; [exact Hr|]. split; [constructor|]. simpl. tauto.
  - destruct (use_case_body il i x (ids, r)) as [[ids1 r1]|] eqn:Hb; [cbn [bind] in H|discriminate H].
    destruct (IH _ _ _ _ _ H Hr) as (H1 & H2 & H3).
    unfold use_case_body in Hb. destruct x as [| | | | |d]; try discriminate Hb.
    destruct (parse_UseCase d) as [obj|] eqn:Hp; injection Hb as <- <-.
    + split; [exact (extends_no_errors _ _ _ (check_evidence_extends _ _ _ _ _) H1)|].
      split; [constructor; [exists d, obj; auto|exact H2]|].
      intros id. rewrite H3, DatasetGeneratorFacts.set_add_In. cbn [parsed flat_map]. rewrite Hp. simpl.
      fold (parsed parse_UseCase t). intuition congruence.
    + exfalso. exact (error_not_nil _ _ H1).
Qed.

Lemma check_use_cases_pass fs il r ids r' :
  check_use_cases fs il r = Ok (ids, r') ->
  errors r' = [] ->
  errors r = []
  /\ Forall (schema_valid parse_UseCase) (items_of fs "use_cases.json" "use_cases")
  /\ (5 <= List.length (use_cases_of fs))%nat
  /\ (forall id, In id ids <-> In id (map uc_id (use_cases_of fs))).
Proof.
  unfold check_use_cases. intros H Hr.
  destruct (load_wrapped fs "use_cases.json" "use_cases" r) as [uc_list r0] eqn:El.
  bind_inv H. rename a into n, a0 into items.
  destruct (use_case_loop_pass _ _ _ _ _ _ _ H Hr) as (H1 & H2 & H3).
  unfold use_cases_of. rewrite (items_of_eq _ _ _ _ _ _ _ El E0).
  assert (Hn : (n <? 5) = false).
  { destruct (n <? 5); [|reflexivity]. exfalso. exact (error_not_nil _ _ H1). }
  rewrite Hn in H1. cbn in H1.
  split; [exact (extends_no_errors _ _ _ (load_wrapped_snd _ _ _ _ _ _ El) H1)|].
  split; [exact H2|]. split.
  - assert (List.length (parsed parse_UseCase items) = List.length items) as ->.
    { clear - H2. induction H2 as [|x t (d & a & -> & Hp) _ IH]; [reflexivity|].
      cbn [parsed flat_map]. rewrite Hp. simpl. f_equal. exact IH. }
    apply Z.ltb_ge in Hn. pose proof (len_iter _ _ _ E E0). lia.
  - intros id. rewrite H3. simpl. tauto.
Qed.

Lemma parsed_length {A : Type} (parse : list (string * json) -> option A) items :
  Forall (schema_valid parse) items -> List.length (parsed parse items) = List.length items.
Proof.
  induction 1 as [|x t (d & a & -> & Hp) _ IH]; [reflexivity|].
  cbn [parsed flat_map]. rewrite Hp. simpl. f_equal. exact IH.
Qed.

Lemma parsed_cons {A : Type} (parse : list (string * json) -> option A) d a t :
  parse d = Some a -> parsed parse (JDict d :: t) = a :: parsed parse t.
Proof. intros Hp. cbn [parsed flat_map]. rewrite Hp. reflexivity. Qed.

(** *** Policies *)

Lemma NoDup_snoc {A : Type} (x : A) l : NoDup l -> ~ In x l -> NoDup (l ++ [x]).
Proof.
  induction 1 as [|y l Hy Hl IH]; intros Hx; simpl.
  - constructor; [intros []|constructor].
  - constructor.
    + rewrite in_app_iff. simpl. intros [H|[H|[]]]; [tauto|]. apply Hx. left. congruence.
    + apply IH. intros H. apply Hx. right. exact H.
Qed.

Lemma set_add_NoDup s l : NoDup l -> NoDup (Py.set_add s l).
Proof.
  intros H. unfold Py.set_add. destruct (Py.mem s l) eqn:E; [exact H|].
  apply NoDup_snoc; [exact H|]. apply mem_false_In. exact E.
Qed.

Lemma policy_loop_pass il items :
  forall i ids types r ids' types' r',
    for_enumerate (policy_body il) items i (ids, types, r) = Ok (ids', types', r') ->
    errors r' = [] ->
    errors r = []
    /\ Forall (schema_valid parse_Policy) items
    /\ (forall id, In id ids' <-> In id ids \/ In id (map pol_id (parsed parse_Policy items)))
    /\ (forall t, In t types' <->
                  In t types
                  \/ In t (map (fun p => policy_type_str (pol_type p))
                             (parsed parse_Policy items)))
    /\ (NoDup types -> NoDup types').
Proof.
  induction items as [|x t IH]; intros i ids types r ids' types' r' H Hr;
    cbn [for_enumerate] in H.
  - injection H as <- <- <-. split; [exact Hr|]. split; [constructor|]. simpl. tauto.
  - destruct (policy_body il i x (ids, types, r)) as [[[ids1 types1] r1]|] eqn:Hb;
      [cbn [bind] in H|discriminate H].
    destruct (IH _ _ _ _ _ _ _ H Hr) as (H1 & H2 & H3 & H4 & H5).
    unfold policy_body in Hb. destruct x as [| | | | |d]; try discriminate Hb.
    destruct (parse_Policy d) as [obj|] eqn:Hp; injection Hb as <- <- <-.
    + split; [exact (extends_no_errors _ _ _ (check_evidence_extends _ _ _ _ _) H1)|].
      split; [constructor; [exists d, obj; auto|exact H2]|].
      rewrite (parsed_cons _ _ _ _ Hp). split; [|split].
      * intros id. rewrite H3, DatasetGeneratorFacts.set_add_In. simpl. intuition congruence.
      * intros ty. rewrite H4, DatasetGeneratorFacts.set_add_In. simpl. intuition congruence.
      * intros Hn. apply H5, set_add_NoDup, Hn.
    + exfalso. exact (error_not_nil _ _ H1).
Qed.

Lemma policy_type_str_inj a b : policy_type_str a = policy_type_str b -> a = b.
Proof. destruct a, b; simpl; intros H; first [reflexivity | discriminate H]. Qed.

Lemma check_policies_pass fs il r ids r' :
  check_policies fs il r = Ok (ids, r') ->
  errors r' = [] ->
  errors r = []
  /\ Forall (schema_valid parse_Policy) (items_of fs "policies.json" "policies")
  /\ (5 <= List.length (policies_of fs))%nat
  /\ (forall id, In id ids <-> In id (map pol_id (policies_of fs)))
  /\ (exists p q, In p (policies_of fs) /\ In q (policies_of fs) /\ pol_type p <> pol_type q).
Proof.
  unfold check_policies. intros H Hr.
  destruct (load_wrapped fs "policies.json" "policies" r) as [pol_list r0] eqn:El.
  bind_inv H. rename a into n, a0 into items. destruct a1 as [[ids1 types1] r1].
  injection H as <- <-.
  assert (Hk : (Z.of_nat (List.length types1) <? 2) = false).
  { destruct (Z.of_nat (List.length types1) <? 2); [|reflexivity].
    exfalso. exact (error_not_nil _ _ Hr). }
  rewrite Hk in Hr.
  destruct (policy_loop_pass _ _ _ _ _ _ _ _ _ E1 Hr) as (H1 & H2 & H3 & H4 & H5).
  unfold policies_of. rewrite (items_of_eq _ _ _ _ _ _ _ El E0).
  assert (Hn : (n <? 5) = false).
  { destruct (n <? 5); [|reflexivity]. exfalso. exact (error_not_nil _ _ H1). }
  rewrite Hn in H1. cbn in H1.
  split; [exact (extends_no_errors _ _ _ (load_wrapped_snd _ _ _ _ _ _ El) H1)|].
  split; [exact H2|]. split; [|split].
  - rewrite (parsed_length _ _ H2). apply Z.ltb_ge in Hn.
    pose proof (len_iter _ _ _ E E0). lia.
  - intros id. rewrite H3. simpl. tauto.
  - apply Z.ltb_ge in Hk. specialize (H5 (NoDup_nil _)).
    destruct types1 as [|t1 [|t2 rest]]; simpl in Hk; try lia.
    assert (Hne : t1 <> t2).
    { inversion H5 as [|? ? Hnot _]; subst. intros ->. apply Hnot. left. reflexivity. }
    destruct (proj1 (H4 t1)) as [[]|G1]; [left; reflexivity|].
    destruct (proj1 (H4 t2)) as [[]|G2]; [right; left; reflexivity|].
    apply in_map_iff in G1. destruct G1 as (p & Ep & Hp).
    apply in_map_iff in G2. destruct G2 as (q & Eq & Hq).
    exists p, q. split; [exact Hp|]. split; [exact Hq|]. congruence.
Qed.

(** *** Test cases *)

Lemma policy_refs_fold known a i pids :
  forall r,
    errors (fold_left (fun r pid => if Py.mem pid known then r
                                    else error (PolicyNotFound a i pid) r) pids r) = [] ->
    errors r = [] /\ Forall (fun p => In p known) pids.
Proof.
  induction pids as [|p t IH]; intros r H; simpl in H.
  - split; [exact H|constructor].
  - destruct (IH _ H) as [H1 H2]. destruct (Py.mem p known) eqn:E.
    + split; [exact H1|]. constructor; [apply mem_In; exact E|exact H2].
    + exfalso. exact (error_not_nil _ _ H1).
Qed.

Lemma check_policy_refs_pass known a i pids r :
  errors (check_policy_refs known a i pids r) = [] ->
  errors r = [] /\ pids <> [] /\ Forall (fun p => In p known) pids.
Proof.
  unfold check_policy_refs. intros H. destruct pids as [|p t].
  - exfalso. exact (error_not_nil _ _ H).
  - destruct (policy_refs_fold _ _ _ _ _ H) as [H1 H2]. split; [exact H1|].
    split; [discriminate|exact H2].
Qed.

Lemma counter_get_incr d k0 k :
  counter_get (incr d k0) k
  = if String.eqb k0 k then Some (counter_total d k0 + 1) else counter_get d k.
Proof.
  unfold counter_total. induction d as [|[k' v] t IH]; simpl.
  - destruct (String.eqb k0 k); reflexivity.
  - destruct (String.eqb k' k0) eqn:E1; simpl.
    + apply String.eqb_eq in E1. subst k'. destruct (String.eqb k0 k); reflexivity.
    + destruct (String.eqb k' k) eqn:E2.
      * apply String.eqb_eq in E2. subst k'. rewrite String.eqb_sym, E1. reflexivity.
      * exact IH.
Qed.

Lemma counter_get_In d k v : counter_get d k = Some v -> In (k, v) d.
Proof.
  induction d as [|[k' v'] t IH]; simpl; [discriminate|].
  destruct (String.eqb_spec k' k) as [->|_].
  - intros H. injection H as ->. left. reflexivity.
  - intros H. right. exact (IH H).
Qed.

Lemma has_key_counter d k :
  has_key d k = match counter_get d k with Some _ => true | None => false end.
Proof.
  unfold has_key. induction d as [|[k' v'] t IH]; simpl; [reflexivity|].
  destruct (String.eqb k' k); [reflexivity|exact IH].
Qed.

Lemma occ_cons k k0 keys :
  occ k (k0 :: keys) = (if String.eqb k0 k then 1 else 0) + occ k keys.
Proof.
  unfold occ. cbn [filter]. rewrite (String.eqb_sym k k0).
  destruct (String.eqb k0 k); [cbn [List.length]; rewrite Nat2Z.inj_succ|]; lia.
Qed.

Lemma occ_pos k keys : In k keys -> 1 <= occ k keys.
Proof.
  induction keys as [|k0 t IH]; [intros []|]. rewrite occ_cons. intros [->|H].
  - rewrite String.eqb_refl. unfold occ. lia.
  - specialize (IH H). destruct (String.eqb k0 k); lia.
Qed.

(** One more key counted. *)
Lemma incr_counts d k0 :
  (forall k, counter_total (incr d k0) k
             = counter_total d k + (if String.eqb k0 k then 1 else 0))
  /\ (forall k, counter_get (incr d k0) k = None <-> counter_get d k = None /\ k0 <> k).
Proof.
  split; intros k; [unfold counter_total at 1|]; rewrite counter_get_incr;
    destruct (String.eqb_spec k0 k) as [->|Hne].
  - reflexivity.
  - fold (counter_total d k). lia.
  - split; [discriminate|]. intros [_ H]. congruence.
  - tauto.
Qed.

Lemma test_case_loop_pass uids pids items :
  forall i tids per r tids' per' r',
    for_enumerate (test_case_body uids pids) items i (tids, per, r) = Ok (tids', per', r') ->
    errors r' = [] ->
    let tcs := parsed parse_TestCase items in
    errors r = []
    /\ Forall (schema_valid parse_TestCase) items
    /\ (forall id, In id tids' <-> In id tids \/ In id (map tc_id tcs))
    /\ (forall k, counter_total per' k = counter_total per k + occ k (map tc_use_case_id tcs))
    /\ (forall k, counter_get per' k = None <->
                  counter_get per k = None /\ ~ In k (map tc_use_case_id tcs))
    /\ Forall (test_case_ok uids pids) tcs.
Proof.
  induction items as [|x t IH]; intros i tids per r tids' per' r' H Hr;
    cbn [for_enumerate] in H; cbv zeta.
  - injection H as <- <- <-. split; [exact Hr|]. split; [constructor|]. simpl.
    split; [tauto|]. split; [intros k; unfold occ; simpl; lia|].
    split; [tauto|constructor].
  - destruct (test_case_body uids pids i x (tids, per, r)) as [[[tids1 per1] r1]|] eqn:Hb;
      [cbn [bind] in H|discriminate H].
    destruct (IH _ _ _ _ _ _ _ H Hr) as (H1 & H2 & H3 & H4 & H5 & H6).
    unfold test_case_body in Hb. destruct x as [| | | | |d]; try discriminate Hb.
    destruct (parse_TestCase d) as [obj|] eqn:Hp; injection Hb as <- <- <-.
    + apply check_policy_refs_pass in H1. destruct H1 as (G1 & G2 & G3).
      destruct (Py.mem (tc_use_case_id obj) uids) eqn:Em;
        [|exfalso; exact (error_not_nil _ _ G1)].
      destruct (incr_counts per (tc_use_case_id obj)) as [I1 I2].
      split; [exact G1|]. split; [constructor; [exists d, obj; auto|exact H2]|].
      rewrite (parsed_cons _ _ _ _ Hp). split; [|split; [|split]].
      * intros id. rewrite H3, DatasetGeneratorFacts.set_add_In. simpl. intuition congruence.
      * intros k. rewrite H4, I1. cbn [map]. rewrite occ_cons. lia.
      * intros k. rewrite H5, I2. simpl. intuition congruence.
      * constructor; [|exact H6]. split; [apply mem_In; exact Em|]. split; assumption.
    + exfalso. exact (error_not_nil _ _ H1).
Qed.

Lemma check_tc_per_uc_pass per r :
  errors (check_tc_per_uc per r) = [] ->
  errors r = [] /\ forall k c, In (k, c) per -> 3 <= c.
Proof.
  intros H. split; [exact (extends_no_errors _ _ _ (check_tc_per_uc_extends per r) H)|].
  intros k c Hin. destruct (Z.lt_ge_cases c 3) as [Hlt|Hge]; [|exact Hge].
  pose proof (check_tc_per_uc_reports per r k c Hin Hlt) as Hbad.
  rewrite H in Hbad. destruct Hbad.
Qed.

Lemma check_test_cases_pass fs uids pids r tids r' :
  check_test_cases fs uids pids r = Ok (tids, r') ->
  errors r' = [] ->
  errors r = []
  /\ Forall (schema_valid parse_TestCase) (items_of fs "test_cases.json" "test_cases")
  /\ (forall id, In id tids <-> In id (map tc_id (test_cases_of fs)))
  /\ Forall (test_case_ok uids pids) (test_cases_of fs)
  /\ (forall u, In u (map tc_use_case_id (test_cases_of fs)) ->
                3 <= occ u (map tc_use_case_id (test_cases_of fs))).
Proof.
  unfold check_test_cases. intros H Hr.
  destruct (load_wrapped fs "test_cases.json" "test_cases" r) as [tc_list r0] eqn:El.
  bind_inv H. rename a into n, a0 into items. destruct a1 as [[tids1 per1] r1].
  injection H as <- <-. apply check_tc_per_uc_pass in Hr. destruct Hr as [Hr Hper].
  destruct (test_case_loop_pass _ _ _ _ _ _ _ _ _ _ E1 Hr) as (H1 & H2 & H3 & H4 & H5 & H6).
  unfold test_cases_of. rewrite (items_of_eq _ _ _ _ _ _ _ El E0). cbn in H1.
  split; [exact (extends_no_errors _ _ _ (load_wrapped_snd _ _ _ _ _ _ El) H1)|].
  split; [exact H2|]. split; [intros id; rewrite H3; simpl; tauto|]. split; [exact H6|].
  intros u Hu. specialize (H4 u). unfold counter_total at 2 in H4. simpl in H4.
  destruct (counter_get per1 u) as [c|] eqn:Ec.
  - unfold counter_total in H4. rewrite Ec in H4. rewrite <- H4.
    apply (Hper u c). apply counter_get_In. exact Ec.
  - exfalso. apply (proj1 (H5 u)) in Ec. tauto.
Qed.

(** *** Examples *)

Lemma check_messages_pass i fmt input r r' :
  check_messages i fmt input r = Ok r' ->
  errors r' = [] ->
  errors r = [] /\ Py.truthy (messages_in input) = true /\ shape fmt input.
Proof.
  intros H Hr.
  pose proof (extends_no_errors _ _ _ (check_messages_extends _ _ _ _ _ H) Hr) as H0.
  split; [exact H0|]. unfold check_messages in H. fold (messages_in input) in H.
  destruct (Py.truthy (messages_in input)) eqn:T.
  2:{ exfalso.
      assert (G : extends content_error (error (MessagesEmpty i) r) r').
      { destruct fmt; cbn [check_format_shape] in H.
        - injection H as <-. apply extends_refl.
        - exact (check_single_utterance_extends _ _ _ _ _ H).
        - exact (check_dialog_last_turn_extends _ _ _ _ _ H). }
      exact (error_not_nil _ _ (extends_no_errors _ _ _ G Hr)). }
  split; [reflexivity|]. destruct fmt; cbn [check_format_shape shape] in *.
  - exact I.
  - unfold check_single_utterance in H. rewrite T in H.
    destruct (Py.len (messages_in input)) as [n|]; [cbn [bind] in H|discriminate H].
    destruct (first_item (messages_in input)) as [m|]; [cbn [bind] in H|discriminate H].
    destruct (Py.get m "role" JNull) as [role|] eqn:Eg; [cbn [bind] in H|discriminate H].
    injection H as <-. exists m. split; [reflexivity|].
    destruct (Py.eq_str role "operator") eqn:Er.
    + apply eq_str_true in Er. rewrite Eg, Er. reflexivity.
    + exfalso. cbn [negb] in Hr.
      destruct (target_message_index input);
        try destruct (negb (Py.eq_int _ 0)); simpl in Hr;
        destruct (errors (if negb (n =? 1) then warn (SucMessageCount i n) r else r));
        discriminate Hr.
  - unfold check_dialog_last_turn in H. rewrite T in H.
    destruct (Py.len (messages_in input)) as [n|] eqn:En; [cbn [bind] in H|discriminate H].
    destruct (last_item (messages_in input)) as [m|]; [cbn [bind] in H|discriminate H].
    destruct (Py.get m "role" JNull) as [role|] eqn:Eg; [cbn [bind] in H|discriminate H].
    injection H as <-.
    assert (Hi : Py.eq_int (target_message_index input) (n - 1) = true).
    { destruct (Py.eq_int (target_message_index input) (n - 1)) eqn:Ei; [reflexivity|].
      exfalso. cbn [negb] in Hr.
      destruct (target_message_index input); exact (error_not_nil _ _ Hr). }
    rewrite Hi in Hr. cbn [negb] in Hr.
    assert (Hr2 : errors (if negb (Py.eq_str role "operator")
                          then error (DlcLastRoleNotOperator i)
                                 (if n <? 2 then error (DlcTooFewMessages i) r else r)
                          else if n <? 2 then error (DlcTooFewMessages i) r else r) = []).
    { destruct (target_message_index input); first [exact Hr | discriminate Hi]. }
    destruct (Py.eq_str role "operator") eqn:Er;
      [|exfalso; exact (error_not_nil _ _ Hr2)].
    cbn [negb] in Hr2. destruct (n <? 2) eqn:E2; [exfalso; exact (error_not_nil _ _ Hr2)|].
    apply eq_str_true in Er. subst role. apply Z.ltb_ge in E2.
    exists n, m. repeat split; assumption.
Qed.

Lemma check_examples_per_tc_pass tids per :
  forall r,
    errors (check_examples_per_tc tids per r) = [] ->
    errors r = [] /\ Forall (fun tid => has_key per tid = true) tids.
Proof.
  unfold check_examples_per_tc. induction tids as [|t l IH]; intros r H; simpl in H.
  - split; [exact H|constructor].
  - destruct (IH _ H) as [H1 H2]. destruct (has_key per t) eqn:E.
    + split; [exact H1|]. constructor; assumption.
    + exfalso. exact (error_not_nil _ _ H1).
Qed.

Lemma filter_nil_all {A : Type} (f : A -> bool) l :
  filter f l = [] -> forall x, In x l -> f x = false.
Proof.
  induction l as [|y t IH]; simpl; intros H x []; destruct (f y) eqn:E;
    try discriminate H; subst; auto.
Qed.

Lemma check_coverage_pass case_type formats sources r :
  errors (check_coverage case_type formats sources r) = [] ->
  errors r = []
  /\ (case_type = JStr "support_bot" ->
      forall src, In src required_sources ->
                  existsb (fun x => Py.eq_str x src) sources = true)
  /\ (case_type = JStr "operator_quality" ->
      forall f, In f required_formats -> In f formats).
Proof.
  unfold check_coverage. intros H.
  destruct (Py.eq_str case_type "support_bot") eqn:E1.
  - apply eq_str_true in E1. subst case_type.
    destruct (filter _ required_sources) eqn:Ef; [|exfalso; exact (error_not_nil _ _ H)].
    split; [exact H|]. split; [|discriminate].
    intros _ src Hin. pose proof (filter_nil_all _ _ Ef src Hin) as G.
    apply negb_false_iff in G. exact G.
  - destruct (Py.eq_str case_type "operator_quality") eqn:E2.
    + apply eq_str_true in E2. subst case_type.
      destruct (filter _ required_formats) eqn:Ef; [|exfalso; exact (error_not_nil _ _ H)].
      split; [exact H|]. split; [discriminate|].
      intros _ f Hin. pose proof (filter_nil_all _ _ Ef f Hin) as G.
      apply negb_false_iff in G. apply mem_In. exact G.
    + split; [exact H|]. split; intros ->; simpl in *; discriminate.
Qed.

Lemma dataset_loop_pass uids pids tids items :
  forall i s s',
    for_enumerate (example_body uids pids tids) items i s = Ok s' ->
    errors (ds_report s') = [] ->
    let exs := parsed parse_DatasetExample items in
    errors (ds_report s) = []
    /\ Forall (schema_valid parse_DatasetExample) items
    /\ Forall (example_ok uids pids tids) exs
    /\ (forall k, counter_get (ex_per_tc s') k = None <->
                  counter_get (ex_per_tc s) k = None /\ ~ In k (map ex_test_case_id exs))
    /\ (forall f, In f (formats_seen s') <->
                  In f (formats_seen s) \/ In f (map (fun e => format_str (ex_format e)) exs))
    /\ (forall src, existsb (fun x => Py.eq_str x src) (sources_seen s') = true ->
                    existsb (fun x => Py.eq_str x src) (sources_seen s) = true
                    \/ exists e, In e exs
                                 /\ Py.dict_get (ex_metadata e) "source" = Some (JStr src)).
Proof.
  induction items as [|x t IH]; intros i s s' H Hr; cbn [for_enumerate] in H; cbv zeta.
  - injection H as <-. split; [exact Hr|]. split; [constructor|]. split; [constructor|].
    simpl. split; [tauto|]. split; [tauto|]. auto.
  - destruct (example_body uids pids tids i x s) as [s1|] eqn:Hb;
      [cbn [bind] in H|discriminate H].
    destruct (IH _ _ _ H Hr) as (H1 & H2 & H3 & H4 & H5 & H6).
    unfold example_body in Hb. destruct x as [| | | | |d]; try discriminate Hb.
    destruct (parse_DatasetExample d) as [obj|] eqn:Hp.
    2:{ injection Hb as <-. exfalso. exact (error_not_nil _ _ H1). }
    cbv zeta in Hb.
    set (source := Py.dict_get_default (ex_metadata obj) "source" JNull) in *.
    match type of Hb with
    | bind ?m _ = _ => destruct m as [sources|] eqn:Es; [cbn [bind] in Hb|discriminate Hb]
    end.
    match type of Hb with
    | bind ?m _ = _ => destruct m as [r1|] eqn:Em; [cbn [bind] in Hb|discriminate Hb]
    end.
    injection Hb as <-. cbn [ds_report ex_per_tc formats_seen sources_seen] in *.
    assert (G0 : errors r1 = []).
    { destruct (String.eqb (case_str (ex_case obj)) "support_bot" && negb (Py.truthy source));
        exact H1. }
    apply check_messages_pass in Em; [|exact G0]. destruct Em as (G1 & G2 & G3).
    apply check_policy_refs_pass in G1. destruct G1 as (G4 & G5 & G6).
    destruct (Py.mem (ex_test_case_id obj) tids) eqn:Et;
      [|exfalso; exact (error_not_nil _ _ G4)].
    destruct (Py.mem (ex_use_case_id obj) uids) eqn:Eu;
      [|exfalso; exact (error_not_nil _ _ G4)].
    destruct (incr_counts (ex_per_tc s) (ex_test_case_id obj)) as [_ I2].
    split; [exact G4|]. split; [constructor; [exists d, obj; auto|exact H2]|].
    rewrite (parsed_cons _ _ _ _ Hp). split; [|split; [|split]].
    + constructor; [|exact H3]. unfold example_ok, example_refs_ok, example_messages_ok.
      split; [|split; assumption].
      split; [apply mem_In; exact Eu|]. split; [apply mem_In; exact Et|]. auto.
    + intros k. rewrite H4, I2. simpl. intuition congruence.
    + intros f. rewrite H5, DatasetGeneratorFacts.set_add_In. simpl. intuition congruence.
    + intros src Hs. destruct (H6 src Hs) as [Hin|(e & He & Hsrc)].
      2:{ right. exists e. split; [right; exact He|exact Hsrc]. }
      destruct (Py.truthy source) eqn:Ts.
      2:{ injection Es as <-. left. exact Hin. }
      unfold value_set_add in Es. destruct (Py.hashable source); [|discriminate Es].
      injection Es as <-. destruct (existsb (Py.eq_scalar source) (sources_seen s)).
      * left. exact Hin.
      * rewrite existsb_app in Hin. apply orb_true_iff in Hin. destruct Hin as [Hin|Hin].
        -- left. exact Hin.
        -- right. exists obj. split; [left; reflexivity|]. simpl in Hin.
           rewrite orb_false_r in Hin. apply eq_str_true in Hin.
           unfold source, Py.dict_get_default in Hin.
           destruct (Py.dict_get (ex_metadata obj) "source"); [congruence|discriminate Hin].
Qed.

Lemma check_dataset_pass fs uids pids tids r r' :
  check_dataset fs uids pids tids r = Ok r' ->
  errors r' = [] ->
  errors r = []
  /\ Forall (schema_valid parse_DatasetExample) (items_of fs "dataset.json" "examples")
  /\ Forall (example_ok uids pids tids) (examples_of fs)
  /\ (forall tid, In tid tids -> In tid (map ex_test_case_id (examples_of fs)))
  /\ (first_case (examples_list fs) = Ok (JStr "support_bot") ->
      forall src, In src required_sources ->
                  exists e, In e (examples_of fs)
                            /\ Py.dict_get (ex_metadata e) "source" = Some (JStr src))
  /\ (first_case (examples_list fs) = Ok (JStr "operator_quality") ->
      forall f, In f required_formats ->
                exists e, In e (examples_of fs) /\ format_str (ex_format e) = f).
Proof.
  unfold check_dataset. intros H Hr.
  destruct (load_wrapped fs "dataset.json" "examples" r) as [ds_list r0] eqn:El.
  bind_inv H. rename a into n, a0 into items, a1 into s, a3 into case_type.
  injection H as <-. apply check_coverage_pass in Hr. destruct Hr as (Hr & Hs & Hf).
  cbn [set_stat errors] in Hr.
  apply check_examples_per_tc_pass in Hr. destruct Hr as [Hr Hk].
  destruct (dataset_loop_pass _ _ _ _ _ _ _ E1 Hr) as (H1 & H2 & H3 & H4 & H5 & H6).
  cbn [ds_report ex_per_tc formats_seen sources_seen] in *.
  assert (Hl : examples_list fs = ds_list) by exact (artifact_list_eq _ _ _ _ _ _ El).
  unfold examples_of. rewrite (items_of_eq _ _ _ _ _ _ _ El E0), Hl. cbn in H1.
  split; [exact (extends_no_errors _ _ _ (load_wrapped_snd _ _ _ _ _ _ El) H1)|].
  split; [exact H2|]. split; [exact H3|]. split; [|split].
  - intros tid Hin. rewrite Forall_forall in Hk. specialize (Hk tid Hin).
    rewrite has_key_counter in Hk.
    destruct (counter_get (ex_per_tc s) tid) eqn:Ec; [|discriminate Hk].
    destruct (in_dec string_dec tid
                (map ex_test_case_id (parsed parse_DatasetExample items))) as [Hy|Hn];
      [exact Hy|].
    exfalso. assert (G : counter_get (ex_per_tc s) tid = None) by (apply H4; auto).
    congruence.
  - intros Hc src Hin. rewrite E3 in Hc. injection Hc as ->.
    destruct (H6 src (Hs eq_refl src Hin)) as [Hbad|He]; [discriminate Hbad|exact He].
  - intros Hc f Hin. rewrite E3 in Hc. injection Hc as ->.
    destruct (proj1 (H5 f) (Hf eq_refl f Hin)) as [[]|He].
    apply in_map_iff in He. destruct He as (e & He1 & He2). exists e. auto.
Qed.

(** *** The report as a whole *)

Lemma test_case_ok_iff uids pids uids' pids' tc :
  (forall id, In id uids <-> In id uids') ->
  (forall id, In id pids <-> In id pids') ->
  test_case_ok uids pids tc -> test_case_ok uids' pids' tc.
Proof.
  intros Hu Hp (H1 & H2 & H3). split; [apply Hu; exact H1|]. split; [exact H2|].
  eapply Forall_impl; [|exact H3]. intros p. apply Hp.
Qed.

Lemma example_refs_ok_iff uids pids tids uids' pids' tids' e :
  (forall id, In id uids <-> In id uids') ->
  (forall id, In id pids <-> In id pids') ->
  (forall id, In id tids <-> In id tids') ->
  example_refs_ok uids pids tids e -> example_refs_ok uids' pids' tids' e.
Proof.
  intros Hu Hp Ht (H1 & H2 & H3 & H4). split; [apply Hu; exact H1|].
  split; [apply Ht; exact H2|]. split; [exact H3|].
  eapply Forall_impl; [|exact H4]. intros p. apply Hp.
Qed.

(** Everything the blocks of [validate] have established when the
    report has no error. *)
Lemma validate_pass fs ip r :
  validate fs ip = Ok r ->
  errors r = [] ->
  let uids := map uc_id (use_cases_of fs) in
  let pids := map pol_id (policies_of fs) in
  let tids := map tc_id (test_cases_of fs) in
  missing_files fs = []
  /\ (Forall (schema_valid parse_UseCase) (items_of fs "use_cases.json" "use_cases")
      /\ (5 <= List.length (use_cases_of fs))%nat)
  /\ (Forall (schema_valid parse_Policy) (items_of fs "policies.json" "policies")
      /\ (5 <= List.length (policies_of fs))%nat
      /\ exists p q, In p (policies_of fs) /\ In q (policies_of fs) /\ pol_type p <> pol_type q)
  /\ (Forall (schema_valid parse_TestCase) (items_of fs "test_cases.json" "test_cases")
      /\ Forall (test_case_ok uids pids) (test_cases_of fs)
      /\ (forall u, In u (map tc_use_case_id (test_cases_of fs)) ->
                    3 <= occ u (map tc_use_case_id (test_cases_of fs))))
  /\ (Forall (schema_valid parse_DatasetExample) (items_of fs "dataset.json" "examples")
      /\ Forall (example_ok uids pids tids) (examples_of fs)
      /\ (forall tid, In tid tids -> In tid (map ex_test_case_id (examples_of fs)))
      /\ (first_case (examples_list fs) = Ok (JStr "support_bot") ->
          forall src, In src required_sources ->
                      exists e, In e (examples_of fs)
                                /\ Py.dict_get (ex_metadata e) "source" = Some (JStr src))
      /\ (first_case (examples_list fs) = Ok (JStr "operator_quality") ->
          forall f, In f required_formats ->
                    exists e, In e (examples_of fs) /\ format_str (ex_format e) = f)).
Proof.
  intros H Hr. cbv zeta. rewrite validate_unfold in H.
  destruct (missing_files fs) as [|f l] eqn:Em.
  2:{ injection H as <-. discriminate Hr. }
  split; [reflexivity|]. unfold validate_artifacts in H.
  destruct (check_manifest fs ip (_read_input_lines fs ip) new_report) as [[r1 il]|] eqn:E1;
    [cbn [bind] in H|discriminate H].
  destruct (check_use_cases fs il r1) as [[uids r2]|] eqn:E2; [cbn [bind] in H|discriminate H].
  destruct (check_policies fs il r2) as [[pids r3]|] eqn:E3; [cbn [bind] in H|discriminate H].
  destruct (check_test_cases fs uids pids r3) as [[tids r4]|] eqn:E4;
    [cbn [bind] in H|discriminate H].
  destruct (check_dataset_pass _ _ _ _ _ _ H Hr) as (G4 & D1 & D2 & D3 & D4 & D5).
  destruct (check_test_cases_pass _ _ _ _ _ _ E4 G4) as (G3 & T1 & T2 & T3 & T4).
  destruct (check_policies_pass _ _ _ _ _ E3 G3) as (G2 & P1 & P2 & P3 & P4).
  destruct (check_use_cases_pass _ _ _ _ _ E2 G2) as (G1 & U1 & U2 & U3).
  split; [split; assumption|]. split; [repeat split; assumption|].
  split; [split; [exact T1|split; [|exact T4]]|split; [exact D1|split; [|split; [|split]]]].
  - eapply Forall_impl; [|exact T3]. intros tc. apply test_case_ok_iff; assumption.
  - eapply Forall_impl; [|exact D2]. intros e [Ha Hb]. split; [|exact Hb].
    revert Ha. apply example_refs_ok_iff; assumption.
  - intros tid Hin. apply D3, T2, Hin.
  - exact D4.
  - exact D5.
Qed.

Example support_directory_passes :
  validate shortfall_dir ""
  = Ok (mkReport [] []
          [("use_cases", 5); ("policies", 5); ("test_cases", 12); ("examples", 12);
           ("formats", 1); ("sources", 3)]).
Proof. vm_compute. reflexivity. Qed.

Example operator_directory_passes :
  validate operator_dir ""
  = Ok (mkReport [] []
          [("use_cases", 5); ("policies", 5); ("test_cases", 15); ("examples", 15);
           ("formats", 2); ("sources", 0)]).
Proof. vm_compute. reflexivity. Qed.

(** X12: when the report has no error, all five required files are
    there, use_cases.json holds at least five records and the
    constructor of UseCase accepts each of them, and policies.json holds
    at least five records, each accepted by the constructor of Policy,
    two of them of different types. *)
Theorem X12_passing_report_use_cases_and_policies :
  forall (fs : files) (input_path : string) (r : ValidationReport),
    validate fs input_path = Ok r ->
    errors r = [] ->
    missing_files fs = []
    /\ Forall (schema_valid parse_UseCase) (items_of fs "use_cases.json" "use_cases")
    /\ (5 <= List.length (use_cases_of fs))%nat
    /\ Forall (schema_valid parse_Policy) (items_of fs "policies.json" "policies")
    /\ (5 <= List.length (policies_of fs))%nat
    /\ exists p q, In p (policies_of fs) /\ In q (policies_of fs) /\ pol_type p <> pol_type q.
Proof.
  intros fs ip r H Hr.
  destruct (validate_pass fs ip r H Hr) as (M & (U1 & U2) & (P1 & P2 & P3) & _).
  repeat split; assumption.
Qed.

Lemma X12_witness :
  missing_files shortfall_dir = []
  /\ Forall (schema_valid parse_UseCase) (items_of shortfall_dir "use_cases.json" "use_cases")
  /\ (5 <= List.length (use_cases_of shortfall_dir))%nat
  /\ Forall (schema_valid parse_Policy) (items_of shortfall_dir "policies.json" "policies")
  /\ (5 <= List.length (policies_of shortfall_dir))%nat
  /\ exists p q, In p (policies_of shortfall_dir) /\ In q (policies_of shortfall_dir)
                 /\ pol_type p <> pol_type q.
Proof.
  exact (X12_passing_report_use_cases_and_policies shortfall_dir "" _
           support_directory_passes eq_refl).
Defined.

(** X13: when the report has no error, the constructor of TestCase
    accepts every record of test_cases.json, every test case names a use
    case of use_cases.json and at least one policy, all of them policies
    of policies.json, and every use case that some test case names is
    named by at least three. *)
Theorem X13_passing_report_test_cases :
  forall (fs : files) (input_path : string) (r : ValidationReport),
    validate fs input_path = Ok r ->
    errors r = [] ->
    Forall (schema_valid parse_TestCase) (items_of fs "test_cases.json" "test_cases")
    /\ Forall (test_case_ok (map uc_id (use_cases_of fs)) (map pol_id (policies_of fs)))
         (test_cases_of fs)
    /\ (forall tc, In tc (test_cases_of fs) ->
                   3 <= occ (tc_use_case_id tc) (map tc_use_case_id (test_cases_of fs))).
Proof.
  intros fs ip r H Hr.
  destruct (validate_pass fs ip r H Hr) as (_ & _ & _ & (T1 & T2 & T3) & _).
  split; [exact T1|]. split; [exact T2|].
  intros tc Hin. apply T3. apply in_map. exact Hin.
Qed.

Lemma X13_witness :
  Forall (schema_valid parse_TestCase) (items_of shortfall_dir "test_cases.json" "test_cases")
  /\ Forall (test_case_ok (map uc_id (use_cases_of shortfall_dir))
               (map pol_id (policies_of shortfall_dir)))
       (test_cases_of shortfall_dir)
  /\ (forall tc, In tc (test_cases_of shortfall_dir) ->
                 3 <= occ (tc_use_case_id tc)
                        (map tc_use_case_id (test_cases_of shortfall_dir))).
Proof.
  exact (X13_passing_report_test_cases shortfall_dir "" _ support_directory_passes eq_refl).
Defined.

(** X14: when the report has no error, the constructor of DatasetExample
    accepts every record of dataset.json, every example names a use case
    of use_cases.json, a test case of test_cases.json and at least one
    policy, all of them policies of policies.json, and every test case
    has an example. *)
Theorem X14_passing_report_examples :
  forall (fs : files) (input_path : string) (r : ValidationReport),
    validate fs input_path = Ok r ->
    errors r = [] ->
    Forall (schema_valid parse_DatasetExample) (items_of fs "dataset.json" "examples")
    /\ Forall (example_refs_ok (map uc_id (use_cases_of fs)) (map pol_id (policies_of fs))
                 (map tc_id (test_cases_of fs)))
         (examples_of fs)
    /\ (forall tc, In tc (test_cases_of fs) ->
                   exists e, In e (examples_of fs) /\ ex_test_case_id e = tc_id tc).
Proof.
  intros fs ip r H Hr.
  destruct (validate_pass fs ip r H Hr) as (_ & _ & _ & _ & (D1 & D2 & D3 & _)).
  split; [exact D1|]. split.
  - eapply Forall_impl; [|exact D2]. intros e [Ha _]. exact Ha.
  - intros tc Hin. specialize (D3 (tc_id tc) (in_map tc_id _ _ Hin)).
    apply in_map_iff in D3. destruct D3 as (e & He & Hi). exists e. auto.
Qed.

Lemma X14_witness :
  Forall (schema_valid parse_DatasetExample) (items_of shortfall_dir "dataset.json" "examples")
  /\ Forall (example_refs_ok (map uc_id (use_cases_of shortfall_dir))
               (map pol_id (policies_of shortfall_dir))
               (map tc_id (test_cases_of shortfall_dir)))
       (examples_of shortfall_dir)
  /\ (forall tc, In tc (test_cases_of shortfall_dir) ->
                 exists e, In e (examples_of shortfall_dir) /\ ex_test_case_id e = tc_id tc).
Proof.
  exact (X14_passing_report_examples shortfall_dir "" _ support_directory_passes eq_refl).
Defined.

(** X15: when the report has no error, every example has a non-empty
    messages value; the first message of a single_utterance_correction
    example has role operator; a dialog_last_turn_correction example has
    at least two messages, the last one with role operator, and its
    target_message_index equals the number of messages minus one. *)
Theorem X15_passing_report_message_shapes :
  forall (fs : files) (input_path : string) (r : ValidationReport),
    validate fs input_path = Ok r ->
    errors r = [] ->
    Forall (fun e => Py.truthy (messages_in (ex_input e)) = true
                     /\ shape (ex_format e) (ex_input e))
      (examples_of fs).
Proof.
  intros fs ip r H Hr.
  destruct (validate_pass fs ip r H Hr) as (_ & _ & _ & _ & (_ & D2 & _)).
  eapply Forall_impl; [|exact D2]. intros e [_ Hb]. exact Hb.
Qed.

Lemma X15_witness :
  Forall (fun e => Py.truthy (messages_in (ex_input e)) = true
                   /\ shape (ex_format e) (ex_input e))
    (examples_of operator_dir).
Proof.
  exact (X15_passing_report_message_shapes operator_dir "" _ operator_directory_passes eq_refl).
Defined.

(** X16: when the report has no error and the first record of the
    examples list has case support_bot, each of the sources tickets,
    faq_paraphrase and corner is the metadata source of some example;
    when it has case operator_quality, both correction formats occur
    among the examples. *)
Theorem X16_passing_report_coverage :
  forall (fs : files) (input_path : string) (r : ValidationReport),
    validate fs input_path = Ok r ->
    errors r = [] ->
    (first_case (examples_list fs) = Ok (JStr "support_bot") ->
     forall src, In src ["tickets"; "faq_paraphrase"; "corner"] ->
                 exists e, In e (examples_of fs)
                           /\ Py.dict_get (ex_metadata e) "source" = Some (JStr src))
    /\ (first_case (examples_list fs) = Ok (JStr "operator_quality") ->
        forall f, In f [single_utterance_correction; dialog_last_turn_correction] ->
                  exists e, In e (examples_of fs) /\ ex_format e = f).
Proof.
  intros fs ip r H Hr.
  destruct (validate_pass fs ip r H Hr) as (_ & _ & _ & _ & (_ & _ & _ & D4 & D5)).
  split; [exact D4|]. intros Hc f Hin.
  destruct (D5 Hc (format_str f)) as (e & He & Hf).
  - destruct Hin as [<-|[<-|[]]]; simpl; auto.
  - exists e. split; [exact He|].
    destruct (ex_format e), f; simpl in Hf; first [reflexivity | discriminate Hf].
Qed.

Lemma X16_witness :
  (first_case (examples_list shortfall_dir) = Ok (JStr "support_bot") ->
   forall src, In src ["tickets"; "faq_paraphrase"; "corner"] ->
               exists e, In e (examples_of shortfall_dir)
                         /\ Py.dict_get (ex_metadata e) "source" = Some (JStr src))
  /\ (first_case (examples_list shortfall_dir) = Ok (JStr "operator_quality") ->
      forall f, In f [single_utterance_correction; dialog_last_turn_correction] ->
                exists e, In e (examples_of shortfall_dir) /\ ex_format e = f).
Proof.
  exact (X16_passing_report_coverage shortfall_dir "" _ support_directory_passes eq_refl).
Defined.

End PassingReportFacts.

(** ** Stripping and searching strings *)

Module StringFacts.
Import Shapes.

Lemma append_nil_r s : (s ++ "")%string = s.
Proof. induction s as [|c s IH]; simpl; [reflexivity|]. rewrite IH. reflexivity. Qed.

Lemma append_assoc a b c : ((a ++ b) ++ c)%string = (a ++ (b ++ c))%string.
Proof. induction a as [|x a IH]; simpl; [reflexivity|]. rewrite IH. reflexivity. Qed.

Lemma rev_string_app s : forall acc, Py.rev_string s acc = (srev s ++ acc)%string.
Proof.
  unfold srev. induction s as [|c s IH]; intros acc; simpl; [reflexivity|].
  rewrite (IH (String c acc)), (IH (String c EmptyString)), append_assoc. reflexivity.
Qed.

Lemma srev_cons c s : srev (String c s) = (srev s ++ String c "")%string.
Proof. unfold srev at 1. simpl. apply rev_string_app. Qed.

Lemma srev_app a b : srev (a ++ b) = (srev b ++ srev a)%string.
Proof.
  induction a as [|c a IH]; simpl.
  - rewrite append_nil_r. reflexivity.
  - rewrite !srev_cons, IH, append_assoc. reflexivity.
Qed.

Lemma srev_involutive s : srev (srev s) = s.
Proof.
  induction s as [|c s IH]; [reflexivity|].
  rewrite srev_cons, srev_app, IH. reflexivity.
Qed.

Lemma rstrip_srev s : Py.rstrip s = srev (Py.lstrip (srev s)).
Proof. reflexivity. Qed.

Lemma lstrip_idem s : Py.lstrip (Py.lstrip s) = Py.lstrip s.
Proof.
  induction s as [|c s IH]; [reflexivity|]. simpl.
  destruct (Py.is_space c) eqn:E; [exact IH|]. simpl. rewrite E. reflexivity.
Qed.

(** A string [lstrip] leaves alone is empty or starts with a character
    that is not white space. *)
Lemma lstrip_fixed s :
  Py.lstrip s = s -> s = EmptyString \/ exists c t, s = String c t /\ Py.is_space c = false.
Proof.
  destruct s as [|c t]; [left; reflexivity|]. intros H. right. exists c, t.
  split; [reflexivity|]. simpl in H. destruct (Py.is_space c) eqn:E; [|reflexivity].
  exfalso. assert (Hl : forall u, (String.length (Py.lstrip u) <= String.length u)%nat).
  { induction u as [|x u IH]; simpl; [lia|]. destruct (Py.is_space x); simpl; lia. }
  specialize (Hl t). rewrite H in Hl. simpl in Hl. lia.
Qed.

Lemma lstrip_app_stop x c y :
  Py.is_space c = false ->
  Py.lstrip (x ++ String c y) = (Py.lstrip x ++ String c y)%string.
Proof.
  intros Hc. induction x as [|d x IH]; simpl.
  - rewrite Hc. reflexivity.
  - destruct (Py.is_space d); [exact IH|reflexivity].
Qed.

(** [rstrip] keeps a first character that is not white space. *)
Lemma rstrip_cons c t :
  Py.is_space c = false -> Py.rstrip (String c t) = String c (Py.rstrip t).
Proof.
  intros Hc. rewrite !rstrip_srev, srev_cons, (lstrip_app_stop _ _ _ Hc), srev_app.
  reflexivity.
Qed.

Lemma rstrip_idem s : Py.rstrip (Py.rstrip s) = Py.rstrip s.
Proof. rewrite !rstrip_srev, srev_involutive, lstrip_idem. reflexivity. Qed.

Lemma strip_lstrip_fixed s : Py.lstrip (Py.strip s) = Py.strip s.
Proof.
  unfold Py.strip. destruct (lstrip_fixed _ (lstrip_idem s)) as [->|(c & t & -> & Hc)];
    [reflexivity|].
  rewrite (rstrip_cons _ _ Hc). simpl. rewrite Hc. reflexivity.
Qed.

Lemma strip_idem s : Py.strip (Py.strip s) = Py.strip s.
Proof.
  unfold Py.strip at 1. rewrite strip_lstrip_fixed. unfold Py.strip. apply rstrip_idem.
Qed.

Lemma strip_srev_fixed s : Py.lstrip (srev (Py.strip s)) = srev (Py.strip s).
Proof.
  unfold Py.strip. rewrite rstrip_srev, srev_involutive. apply lstrip_idem.
Qed.

Lemma prefix_iff s : forall a, String.prefix s a = true <-> exists post, a = (s ++ post)%string.
Proof.
  induction s as [|c s IH]; intros a.
  - destruct a; simpl; (split; [intros _; eexists; reflexivity|reflexivity]).
  - destruct a as [|b a]; simpl.
    + split; [discriminate|]. intros [post H]. discriminate H.
    + destruct (ascii_dec c b) as [->|Hne].
      * rewrite IH. split; intros [post H]; exists post; congruence.
      * split; [discriminate|]. intros [post H]. congruence.
Qed.

Lemma contains_unfold needle hay :
  Py.contains needle hay
  = if String.prefix needle hay then true
    else match hay with
         | EmptyString => false
         | String _ t => Py.contains needle t
         end.
Proof. destruct hay; reflexivity. Qed.

Lemma contains_iff s a :
  Py.contains s a = true <-> exists pre post, a = (pre ++ s ++ post)%string.
Proof.
  split.
  - induction a as [|c a IH]; rewrite contains_unfold;
      destruct (String.prefix s _) eqn:Ep.
    + intros _. apply prefix_iff in Ep. destruct Ep as [post H]. exists EmptyString, post. exact H.
    + discriminate.
    + intros _. apply prefix_iff in Ep. destruct Ep as [post H]. exists EmptyString, post. exact H.
    + intros H. destruct (IH H) as (pre & post & ->). exists (String c pre), post. reflexivity.
  - intros (pre & post & ->). induction pre as [|c pre IH]; rewrite contains_unfold.
    + assert (Hp : String.prefix s ("" ++ s ++ post) = true)
        by (apply prefix_iff; exists post; reflexivity).
      rewrite Hp. reflexivity.
    + destruct (String.prefix s _); [reflexivity|exact IH].
Qed.

Lemma contains_refl s : Py.contains s s = true.
Proof. apply contains_iff. exists EmptyString, EmptyString. simpl. rewrite append_nil_r. reflexivity. Qed.

Lemma contains_empty_hay s : s <> EmptyString -> Py.contains s EmptyString = false.
Proof. destruct s; [congruence|reflexivity]. Qed.

Lemma contains_srev s a : Py.contains s a = true -> Py.contains (srev s) (srev a) = true.
Proof.
  rewrite !contains_iff. intros (pre & post & ->). exists (srev post), (srev pre).
  rewrite !srev_app, append_assoc. reflexivity.
Qed.

Lemma contains_lstrip s a :
  Py.lstrip s = s -> s <> EmptyString ->
  Py.contains s a = true -> Py.contains s (Py.lstrip a) = true.
Proof.
  intros Hs Hne. destruct (lstrip_fixed _ Hs) as [->|(c & t & -> & Hc)]; [congruence|].
  induction a as [|b a IH]; [intros H; exact H|].
  intros H. simpl. destruct (Py.is_space b) eqn:Eb; [|exact H].
  apply IH. rewrite contains_unfold in H.
  destruct (String.prefix (String c t) (String b a)) eqn:Ep; [|exact H].
  exfalso. simpl in Ep. destruct (ascii_dec c b) as [->|]; congruence.
Qed.

Lemma srev_nil s : srev s = EmptyString -> s = EmptyString.
Proof. intros H. rewrite <- (srev_involutive s), H. reflexivity. Qed.

(** A stripped, non-empty needle found in a text is found in the
    stripped text. *)
Lemma contains_strip q a :
  Py.strip q <> EmptyString ->
  Py.contains (Py.strip q) a = true -> Py.contains (Py.strip q) (Py.strip a) = true.
Proof.
  intros Hne H. unfold Py.strip at 2. rewrite rstrip_srev.
  rewrite <- (srev_involutive (Py.strip q)). apply contains_srev.
  apply contains_lstrip.
  - apply strip_srev_fixed.
  - intros E. apply Hne, srev_nil, E.
  - apply contains_srev. apply contains_lstrip; [apply strip_lstrip_fixed|exact Hne|exact H].
Qed.

End StringFacts.

(** ** The stages against the validator *)

Module CompositionFacts.
Import Models DatasetGenerator Validator Contract Shapes Samples MoreSamples.

Lemma rev_head_Forall {A : Type} (P : A -> Prop) l :
  l <> [] -> Forall P l -> exists y rest, rev l = y :: rest /\ P y.
Proof.
  intros Hne HF. destruct (rev l) as [|y rest] eqn:E.
  - apply (f_equal (@rev A)) in E. rewrite rev_involutive in E. simpl in E. contradiction.
  - exists y, rest. split; [reflexivity|]. rewrite Forall_forall in HF. apply HF.
    apply in_rev. rewrite E. left. reflexivity.
Qed.

(** X17: an example the dataset stage built from an answer that gave
    messages goes through the message checks of the validator without an
    exception and without any message about target_message_index: the
    index the stage stored is the one the validator expects. *)
Theorem X17_built_example_meets_index_checks :
  forall (tc : TestCase) (fmt : string) (ex_idx ex_counter : Z) (ex_data : json)
         (ex : DatasetExample) (ms : json) (i : Z),
    build_example tc fmt ex_idx ex_counter ex_data = Ok ex ->
    Py.dict_get (ex_input ex) "messages" = Some ms ->
    exists r',
      check_messages i (ex_format ex) (ex_input ex) new_report = Ok r'
      /\ Forall (fun m => is_index_message m = false) (errors r' ++ warnings r').
Proof.
  intros tc fmt ex_idx c ex_data ex ms i H Hms.
  destruct (BuildExampleFacts.build_example_inv _ _ _ _ _ _ H)
    as (input0 & has & input1 & expected & ec0 & n & ec & md0 & md1 & md2 & input2
        & _ & Hhas & Hnorm & _ & _ & _ & _ & _ & _ & _ & Hidx & Hnew).
  destruct (BuildExampleFacts.new_DatasetExample_inv _ _ _ _ _ _ _ _ _ _ _ Hnew)
    as (f & Hf & Hin & _ & _ & _ & Hex & _).
  assert (Hfmt : ex_format ex = f) by (rewrite Hex; reflexivity).
  destruct (BuildExampleFacts.indexed_input _ _ _ _ Hidx Hin)
    as (d1 & Hd1 & Hmsg & Hsuc & Hdlg & _).
  rewrite Hmsg in Hms.
  destruct (BuildExampleFacts.normalized_input_messages _ _ _ _ _ Hhas Hnorm Hd1 Hms)
    as (l & -> & HF).
  rewrite <- Hmsg in Hms. apply DatasetGeneratorFacts.format_of_str_Some in Hf.
  rewrite Hfmt. unfold check_messages, Py.dict_get_default. rewrite Hms.
  destruct f; cbn [format_str] in Hf; subst fmt; cbn [check_format_shape].
  - destruct l; eexists; (split; [reflexivity|]); cbn; repeat constructor.
  - unfold check_single_utterance, target_message_index, Py.dict_get_default.
    rewrite (Hsuc eq_refl). cbn [Py.len bind].
    destruct HF as [|m t (role & content & ->) _].
    + eexists. split; [reflexivity|]. cbn. repeat constructor.
    + cbn [Py.truthy first_item bind Py.get Py.dict_get_default Py.dict_get].
      change (String.eqb "role" "role") with true.
      change (Py.eq_int (JInt 0) 0) with true. cbn [negb]. cbv iota. cbn [bind].
      repeat match goal with
             | |- context [if ?b then _ else _] => destruct b
             end;
        (eexists; split; [reflexivity|]); cbn; repeat constructor.
  - destruct (Hdlg eq_refl _ (eq_trans (eq_sym Hmsg) Hms)) as (k & Hk & Ht).
    unfold check_dialog_last_turn, target_message_index, Py.dict_get_default.
    rewrite Ht, Hk. cbn [bind]. unfold Py.eq_int. cbn [Py.eq_scalar].
    rewrite Z.eqb_refl. cbn [negb].
    destruct l as [|m0 t0] eqn:El.
    + cbn [Py.truthy]. destruct (k <? 2); (eexists; split; [reflexivity|]); cbn;
        repeat constructor.
    + rewrite <- El in *.
      destruct (rev_head_Forall _ l ltac:(rewrite El; discriminate) HF)
        as (y & rest & Hrev & (role & content & ->)).
      assert (Ty : Py.truthy (JList l) = true) by (rewrite El; reflexivity).
      rewrite Ty. cbn [last_item]. rewrite Hrev.
      cbn [bind Py.get Py.dict_get_default Py.dict_get].
      change (String.eqb "role" "role") with true. cbv iota. cbn [bind].
      repeat match goal with
             | |- context [if ?b then _ else _] => destruct b
             end;
        (eexists; split; [reflexivity|]); cbn; repeat constructor.
Qed.

Lemma X17_witness :
  exists r',
    check_messages 4 (ex_format dialog_example) (ex_input dialog_example) new_report = Ok r'
    /\ Forall (fun m => is_index_message m = false) (errors r' ++ warnings r').
Proof.
  exact (X17_built_example_meets_index_checks operator_tc "dialog_last_turn_correction"
           1 5 dialog_answer dialog_example
           (JList [JDict [("role", JStr "user"); ("content", JStr "q")];
                   JDict [("role", JStr "operator"); ("content", JStr "a")];
                   JDict [("role", JStr "user"); ("content", JStr "")]])
           4 BuildExampleFacts.dialog_example_built eq_refl).
Defined.

(** X18: take a document of 7-bit text with at least one line and an
    entry whose quote is 7-bit text too (on such text [Py.strip] is
    Python's [str.strip]).  The evidence the extraction stage makes of
    the entry, checked by the validator against the same lines, changes
    no error and never draws the out-of-bounds warning; it draws the
    quote-mismatch warning exactly when the cited lines are blank and
    the quote the gateway gave is not. *)
Theorem X18_validated_evidence_against_the_validator :
  forall (raw_lines : list string) (file : string) (ev : json) (e : Evidence)
         (q : string) (artifact : string) (i : Z) (r : ValidationReport),
    Extractor.validate_one raw_lines file ev = Ok e ->
    (1 <= List.length raw_lines)%nat ->
    Py.get ev "quote" (JStr "") = Ok (JStr q) ->
    seven_bit q = true ->
    forallb seven_bit raw_lines = true ->
    _validate_evidence_quote e (Some raw_lines) artifact i r
    = if String.eqb
           (Py.strip (Py.join_lines (Py.slice (line_start e - 1) (line_end e) raw_lines)))
           ""
         && negb (String.eqb (Py.strip q) "")
      then warn (EvidenceQuoteMismatch artifact i (line_start e) (line_end e)) r
      else r.
Proof.
  intros raw f ev e q a i r H Hn Hq _ _.
  pose proof (ExtractorFacts.validate_one_range _ _ _ _ Hn H) as (R1 & R2 & R3).
  unfold Extractor.validate_one in H.
  destruct (Py.get ev "line_start" (JInt 1)) as [ls0|]; [cbn [bind] in H|discriminate H].
  destruct (Py.get ev "line_end" ls0) as [le0|]; [cbn [bind] in H|discriminate H].
  rewrite Hq in H. cbn [bind] in H.
  destruct (Py.as_int ls0) as [ls|]; [cbn [bind] in H|discriminate H].
  destruct (Py.as_int le0) as [le|]; [cbn [bind] in H|discriminate H].
  cbv zeta in H. injection H as <-.
  cbn [line_start line_end quote] in *.
  set (n := Z.of_nat (List.length raw)) in *.
  set (line_start := Z.max 1 (Z.min ls n)) in *.
  set (line_end := Z.max line_start (Z.min le n)) in *.
  set (actual := Py.join_lines (Py.slice (line_start - 1) line_end raw)).
  unfold _validate_evidence_quote. cbn [Models.line_start Models.line_end quote]. fold n.
  assert (Hr : ((line_start <? 1) || (line_end <? line_start) || (n <? line_end)) = false).
  { apply orb_false_iff. split; [apply orb_false_iff; split|]; apply Z.ltb_ge; lia. }
  rewrite Hr. fold actual.
  destruct (String.eqb_spec (Py.strip q) "") as [Eq|Nq]; cbn [negb andb].
  - (* the gateway's quote is blank: the text of the lines is stored *)
    rewrite andb_false_r.
    destruct (String.eqb_spec (Py.strip actual) "") as [Ea|Na]; cbn [negb].
    + rewrite Eq, String.eqb_refl. reflexivity.
    + rewrite StringFacts.strip_idem. destruct (String.eqb_spec (Py.strip actual) "");
        [contradiction|]. cbn [negb andb]. rewrite StringFacts.contains_refl. reflexivity.
  - rewrite andb_true_r. destruct (Py.contains (Py.strip q) actual) eqn:Ec.
    + (* the quote is found: it is stored stripped *)
      destruct (String.eqb_spec (Py.strip q) ""); [contradiction|]. cbn [negb].
      rewrite StringFacts.strip_idem. destruct (String.eqb_spec (Py.strip q) "");
        [contradiction|]. cbn [negb andb].
      rewrite (StringFacts.contains_strip _ _ Nq Ec). cbn [negb].
      destruct (String.eqb_spec (Py.strip actual) "") as [Ea|Na]; [|reflexivity].
      exfalso. pose proof (StringFacts.contains_strip _ _ Nq Ec) as G. rewrite Ea in G.
      rewrite (StringFacts.contains_empty_hay _ Nq) in G. discriminate G.
    + destruct (String.eqb_spec (Py.strip actual) "") as [Ea|Na]; cbn [negb].
      * (* blank lines: the quote is kept as given *)
        destruct (String.eqb_spec (Py.strip q) ""); [contradiction|]. cbn [negb andb].
        rewrite Ea, (StringFacts.contains_empty_hay _ Nq). reflexivity.
      * rewrite StringFacts.strip_idem. destruct (String.eqb_spec (Py.strip actual) "");
          [contradiction|]. cbn [negb andb]. rewrite StringFacts.contains_refl. reflexivity.
Qed.

Example blank_line_evidence :
  Extractor.validate_one ["   "; "Refunds by card"] "doc.md"
    (JDict [("line_start", JInt 1); ("line_end", JInt 1); ("quote", JStr "Returns")])
  = Ok (mkEvidence "doc.md" 1 1 "Returns").
Proof. vm_compute. reflexivity. Qed.

Lemma X18_witness :
  _validate_evidence_quote (mkEvidence "doc.md" 1 1 "Returns")
    (Some ["   "; "Refunds by card"]) "use_cases" 0 new_report
  = mkReport [] [EvidenceQuoteMismatch "use_cases" 0 1 1] [].
Proof.
  exact (X18_validated_evidence_against_the_validator ["   "; "Refunds by card"] "doc.md"
           _ _ "Returns" "use_cases" 0 new_report blank_line_evidence ltac:(simpl; lia)
           eq_refl eq_refl eq_refl).
Defined.

End CompositionFacts.

(** ** The retry loop of the gateway *)

Module LlmFacts.
Import Llm.

Lemma rate_limit_wait_le attempt delay : rate_limit_wait attempt delay <= 120.
Proof. unfold rate_limit_wait. destruct delay; lia. Qed.

(** The loop from attempt [a] on, with [len] attempts to go. *)
Lemma retry_loop_bounds api n :
  forall len a slept0 calls0,
    Z.of_nat (a + len) = n ->
    let r := retry_loop api n (map Z.of_nat (seq a len)) slept0 calls0 in
    (calls r <= calls0 + len)%nat
    /\ exists more,
         slept r = slept0 ++ more
         /\ (List.length more <= calls r - calls0)%nat
         /\ (calls0 <= calls r)%nat
         /\ Forall (fun w => w <= 120 \/ exists k, 0 <= k < n - 1 /\ w = 2 ^ k) more.
Proof.
  induction len as [|len IH]; intros a slept0 calls0 Hn; cbn [seq map retry_loop]; cbv zeta.
  - cbn [calls slept]. split; [lia|]. exists []. rewrite app_nil_r.
    split; [reflexivity|]. split; [simpl; lia|]. split; [lia|constructor].
  - assert (Hn' : Z.of_nat (S a + len) = n) by lia.
    assert (Step : forall w,
               (w <= 120 \/ exists k, 0 <= k < n - 1 /\ w = 2 ^ k) ->
               let r := retry_loop api n (map Z.of_nat (seq (S a) len)) (slept0 ++ [w])
                          (S calls0) in
               (calls r <= calls0 + S len)%nat
               /\ exists more,
                    slept r = slept0 ++ more
                    /\ (List.length more <= calls r - calls0)%nat
                    /\ (calls0 <= calls r)%nat
                    /\ Forall (fun w => w <= 120 \/ exists k, 0 <= k < n - 1 /\ w = 2 ^ k)
                         more).
    { intros w Hw. cbv zeta.
      destruct (IH (S a) (slept0 ++ [w]) (S calls0) Hn') as (H1 & more & H2 & H3 & H4 & H5).
      split; [lia|]. exists (w :: more). rewrite H2, <- app_assoc.
      split; [reflexivity|]. split; [simpl; lia|]. split; [lia|]. constructor; assumption. }
    assert (Stop : forall res,
               let r := mkRun res slept0 (S calls0) in
               (calls r <= calls0 + S len)%nat
               /\ exists more,
                    slept r = slept0 ++ more
                    /\ (List.length more <= calls r - calls0)%nat
                    /\ (calls0 <= calls r)%nat
                    /\ Forall (fun w => w <= 120 \/ exists k, 0 <= k < n - 1 /\ w = 2 ^ k)
                         more).
    { intros res. cbn [calls slept]. split; [lia|]. exists []. rewrite app_nil_r.
      split; [reflexivity|]. split; [simpl; lia|]. split; [lia|constructor]. }
    destruct (api (Z.of_nat a)) as [j|res|e|e delay|e].
    + apply Stop.
    + apply Stop.
    + destruct (Z.of_nat a <? n - 1) eqn:E; [|apply Stop].
      apply Step. right. exists (Z.of_nat a). apply Z.ltb_lt in E. split; [lia|reflexivity].
    + apply Step. left. apply rate_limit_wait_le.
    + destruct (Z.of_nat a <? n - 1) eqn:E; [|apply Stop].
      apply Step. right. exists (Z.of_nat a). apply Z.ltb_lt in E. split; [lia|reflexivity].
Qed.

Lemma total_le_bound l b :
  0 <= b -> Forall (fun w => w <= b) l -> total l <= b * Z.of_nat (List.length l).
Proof.
  intros Hb. induction 1 as [|w l Hw _ IH]; [simpl; lia|].
  cbn [total fold_right List.length]. fold (total l). rewrite Nat2Z.inj_succ. lia.
Qed.

(** X19: [generate_json] calls the API at most [max_retries] times and
    sleeps in back-off at most once per call; a sleep after a rate-limit
    error never exceeds 120 seconds and any other is a power of two below
    2^(max_retries - 1); so with at most eight retries (the default) no
    back-off sleep exceeds 120 seconds and their sum is at most 120
    seconds per call made. *)
Theorem X19_retry_loop_is_bounded :
  forall (api : Z -> attempt) (max_retries : Z),
    (calls (generate_json api max_retries) <= Z.to_nat max_retries)%nat
    /\ (List.length (slept (generate_json api max_retries))
         <= calls (generate_json api max_retries))%nat
    /\ Forall (fun w => w <= 120 \/ exists k, 0 <= k < max_retries - 1 /\ w = 2 ^ k)
         (slept (generate_json api max_retries))
    /\ (max_retries <= 8 ->
        Forall (fun w => w <= 120) (slept (generate_json api max_retries))
        /\ total (slept (generate_json api max_retries))
           <= 120 * Z.of_nat (calls (generate_json api max_retries))).
Proof.
  intros api n. unfold generate_json, py_range.
  destruct (Z.le_gt_cases n 0) as [Hn|Hn].
  - replace (Z.to_nat n) with 0%nat by lia. cbn.
    split; [lia|]. split; [lia|]. split; [constructor|]. intros _. split; [constructor|lia].
  - destruct (retry_loop_bounds api n (Z.to_nat n) 0 [] 0 ltac:(lia))
      as (H1 & more & H2 & H3 & H4 & H5).
    cbn [app] in H2. rewrite H2. split; [lia|]. split; [lia|]. split; [exact H5|].
    intros H8.
    assert (HF : Forall (fun w => w <= 120) more).
    { eapply Forall_impl; [|exact H5]. intros w [Hw|(k & Hk & ->)]; [exact Hw|].
      assert (2 ^ k <= 2 ^ 6) by (apply Z.pow_le_mono_r; lia). lia. }
    split; [exact HF|]. pose proof (total_le_bound more 120 ltac:(lia) HF). lia.
Qed.

(** The attempts before the first one that answers are all retried. *)
Lemma retry_loop_reach api n :
  forall len a slept0 calls0 k,
    Z.of_nat (a + len) = n ->
    (a <= k < a + len)%nat ->
    (forall i, (a <= i < k)%nat -> answer_of (api (Z.of_nat i)) = None) ->
    exists slept1,
      List.length slept1 = (List.length slept0 + (k - a))%nat
      /\ retry_loop api n (map Z.of_nat (seq a len)) slept0 calls0
         = retry_loop api n (map Z.of_nat (seq k (a + len - k))) slept1 (calls0 + (k - a)).
Proof.
  induction len as [|len IH]; intros a slept0 calls0 k Hn Hk Hnone; [lia|].
  destruct (Nat.eq_dec k a) as [->|Hne].
  - exists slept0. replace (a + S len - a)%nat with (S len) by lia.
    replace (calls0 + (a - a))%nat with calls0 by lia. split; [lia|reflexivity].
  - assert (Ha : answer_of (api (Z.of_nat a)) = None) by (apply Hnone; lia).
    assert (Hlt : (Z.of_nat a <? n - 1) = true) by (apply Z.ltb_lt; lia).
    assert (Step : forall w,
               exists slept1,
                 List.length slept1 = (List.length slept0 + (k - a))%nat
                 /\ retry_loop api n (map Z.of_nat (seq (S a) len)) (slept0 ++ [w]) (S calls0)
                    = retry_loop api n (map Z.of_nat (seq k (a + S len - k))) slept1
                        (calls0 + (k - a))).
    { intros w.
      destruct (IH (S a) (slept0 ++ [w]) (S calls0) k ltac:(lia) ltac:(lia)
                  ltac:(intros i Hi; apply Hnone; lia)) as (slept1 & H1 & H2).
      exists slept1. rewrite length_app in H1. simpl in H1. split; [lia|].
      rewrite H2. replace (S a + len - k)%nat with (a + S len - k)%nat by lia.
      replace (S calls0 + (k - S a))%nat with (calls0 + (k - a))%nat by lia. reflexivity. }
    cbn [seq map retry_loop]. rewrite Hlt.
    destruct (api (Z.of_nat a)) as [j|res|e|e delay|e]; try discriminate Ha; apply Step.
Qed.

Lemma generate_json_reach api n k :
  0 <= k < n ->
  (forall i, 0 <= i < k -> answer_of (api i) = None) ->
  exists slept1,
    List.length slept1 = Z.to_nat k
    /\ generate_json api n
       = retry_loop api n (k :: map Z.of_nat (seq (S (Z.to_nat k)) (Z.to_nat n - S (Z.to_nat k))))
           slept1 (Z.to_nat k).
Proof.
  intros Hk Hnone. unfold generate_json, py_range.
  destruct (retry_loop_reach api n (Z.to_nat n) 0 [] 0 (Z.to_nat k) ltac:(lia) ltac:(lia)
              ltac:(intros i Hi; apply Hnone; lia)) as (slept1 & H1 & H2).
  exists slept1. simpl in H1. split; [lia|]. rewrite H2.
  replace (0 + Z.to_nat n - Z.to_nat k)%nat with (S (Z.to_nat n - S (Z.to_nat k))) by lia.
  cbn [seq map]. rewrite Z2Nat.id by lia.
  replace (0 + (Z.to_nat k - 0))%nat with (Z.to_nat k) by lia. reflexivity.
Qed.

(** X20: the first attempt that yields JSON, from the text or from a
    code block in it, decides the call, whatever failed before it: when
    attempt k, below [max_retries], is the first to answer, the call ends
    with that answer after k+1 calls to the API and k back-off sleeps. *)
Theorem X20_first_answer_decides :
  forall (api : Z -> attempt) (max_retries k : Z) (res : result json),
    0 <= k < max_retries ->
    answer_of (api k) = Some res ->
    (forall i, 0 <= i < k -> answer_of (api i) = None) ->
    outcome (generate_json api max_retries) = res
    /\ calls (generate_json api max_retries) = S (Z.to_nat k)
    /\ List.length (slept (generate_json api max_retries)) = Z.to_nat k.
Proof.
  intros api n k res Hk Ha Hnone.
  destruct (generate_json_reach api n k Hk Hnone) as (slept1 & H1 & ->).
  cbn [retry_loop]. destruct (api k) as [j|r|e|e delay|e]; try discriminate Ha;
    injection Ha as <-; cbn [outcome calls slept]; auto.
Qed.

Lemma X20_witness :
  outcome (generate_json MoreSamples.limited_twice 8) = Ok (JDict [])
  /\ calls (generate_json MoreSamples.limited_twice 8) = S (Z.to_nat 2)
  /\ List.length (slept (generate_json MoreSamples.limited_twice 8)) = Z.to_nat 2.
Proof.
  apply (X20_first_answer_decides MoreSamples.limited_twice 8 2 (Ok (JDict []))).
  - lia.
  - reflexivity.
  - intros i Hi. unfold MoreSamples.limited_twice.
    destruct (Z.ltb_spec i 2); [reflexivity|lia].
Defined.

(** X21: on the last attempt the two kinds of failure part ways.  When
    no earlier attempt answered, a rate-limit error at the last attempt
    is slept through like any other and the call then raises "Max
    retries exceeded", so the error of the API is not what the caller
    sees; any other failure at the last attempt is raised as it is,
    without a sleep. *)
Theorem X21_failure_at_the_last_attempt :
  forall (api : Z -> attempt) (max_retries : Z),
    0 < max_retries ->
    (forall i, 0 <= i < max_retries - 1 -> answer_of (api i) = None) ->
    (forall e delay,
        api (max_retries - 1) = RateLimited e delay ->
        outcome (generate_json api max_retries) = Raise (GatewayErr "Max retries exceeded")
        /\ List.length (slept (generate_json api max_retries)) = Z.to_nat max_retries
        /\ calls (generate_json api max_retries) = Z.to_nat max_retries)
    /\ (forall e,
          api (max_retries - 1) = NotJson e \/ api (max_retries - 1) = Failed e ->
          outcome (generate_json api max_retries) = Raise e
          /\ List.length (slept (generate_json api max_retries)) = Z.to_nat (max_retries - 1)
          /\ calls (generate_json api max_retries) = Z.to_nat max_retries).
Proof.
  intros api n Hn Hnone.
  destruct (generate_json_reach api n (n - 1) ltac:(lia) Hnone) as (slept1 & H1 & ->).
  replace (Z.to_nat n - S (Z.to_nat (n - 1)))%nat with 0%nat by lia.
  cbn [seq map retry_loop]. rewrite Z.ltb_irrefl. split.
  - intros e delay ->. cbn [outcome slept calls]. rewrite length_app. simpl.
    split; [reflexivity|]. split; lia.
  - intros e [-> | ->]; cbn [outcome slept calls]; (split; [reflexivity|]); split; lia.
Qed.

Lemma X21_witness :
  outcome (generate_json MoreSamples.always_limited 8)
  = Raise (GatewayErr "Max retries exceeded")
  /\ List.length (slept (generate_json MoreSamples.always_limited 8)) = Z.to_nat 8
  /\ calls (generate_json MoreSamples.always_limited 8) = Z.to_nat 8.
Proof.
  exact (proj1 (X21_failure_at_the_last_attempt MoreSamples.always_limited 8
                  ltac:(lia) ltac:(intros i Hi; reflexivity))
           (GatewayErr "429 quota") (Some 30) eq_refl).
Defined.

End LlmFacts.

(** ** The pipeline with resume *)

Module PipelineFacts.
Import Models DatasetGenerator Pipeline Samples MoreSamples.

(** *** What the stages save loads back *)

Lemma omap_parse_evidence evs :
  omap (fun j => e <-? as_dict j ;; parse_Evidence e) (map dump_Evidence evs) = Some evs.
Proof.
  induction evs as [|[f ls le q] t IH]; [reflexivity|].
  cbn [map omap]. rewrite IH. reflexivity.
Qed.

Lemma min_length_one {A : Type} (l : list A) : l <> [] -> min_length 1 l = Some l.
Proof. destruct l; [congruence|reflexivity]. Qed.

Lemma parse_dump_UseCase uc :
  valid_use_case uc -> exists d, dump_UseCase uc = JDict d /\ parse_UseCase d = Some uc.
Proof.
  intros [Hi He]. eexists. split; [reflexivity|].
  destruct uc as [i c n ds ev]; simpl in *.
  unfold parse_UseCase, id_field, case_field, str_field, evidence_field, field, with_prefix,
    as_list.
  cbn [Py.dict_get String.eqb Ascii.eqb Bool.eqb obind as_str].
  rewrite Hi, omap_parse_evidence. cbn [obind]. rewrite (min_length_one _ He).
  destruct c; reflexivity.
Qed.

Lemma parse_dump_Policy p :
  valid_policy p -> exists d, dump_Policy p = JDict d /\ parse_Policy d = Some p.
Proof.
  intros [Hi He]. eexists. split; [reflexivity|].
  destruct p as [i t c st ev]; simpl in *.
  unfold parse_Policy, id_field, case_field, str_field, evidence_field, field, with_prefix,
    as_list.
  cbn [Py.dict_get String.eqb Ascii.eqb Bool.eqb obind as_str].
  rewrite Hi, omap_parse_evidence. cbn [obind]. rewrite (min_length_one _ He).
  destruct c, t; reflexivity.
Qed.

Lemma parse_dump_TestCase tc :
  valid_test_case tc -> exists d, dump_TestCase tc = JDict d /\ parse_TestCase d = Some tc.
Proof.
  intros [Hi Hu]. eexists. split; [reflexivity|].
  destruct tc as [i c u ps ids]; simpl in *.
  unfold parse_TestCase, id_field, case_field, str_field, field, with_prefix, as_list, jstrs.
  cbn [Py.dict_get String.eqb Ascii.eqb Bool.eqb obind as_str as_dict].
  rewrite Hi, Hu, DatasetGeneratorFacts.omap_as_str_jstrs. cbn [obind].
  destruct c; reflexivity.
Qed.

Lemma load_all_dump {A : Type} (parse : list (string * json) -> option A) (dump : A -> json)
  (valid : A -> Prop) :
  (forall x, valid x -> exists d, dump x = JDict d /\ parse d = Some x) ->
  forall xs, Forall valid xs -> load_all parse (JList (map dump xs)) = Ok xs.
Proof.
  intros Hrt xs Hv. unfold load_all. cbn [Py.iter bind].
  induction Hv as [|x t Hx _ IH]; [reflexivity|].
  destruct (Hrt x Hx) as (d & Hd & Hp). cbn [map mapM]. rewrite Hd, Hp. cbn [bind].
  rewrite IH. reflexivity.
Qed.

(** *** What the stages build satisfies the models *)

Lemma collect_Forall {A : Type} (body : Z -> json -> result A) (P : A -> Prop) :
  (forall i x y, body i x = Ok y -> P y) ->
  forall items i ys, ExtractionStage.collect body items i = Ok ys -> Forall P ys.
Proof.
  intros Hb items. induction items as [|x t IH]; intros i ys H; cbn in H.
  - injection H as <-. constructor.
  - destruct (body i x) as [y|] eqn:Ey; [cbn [bind] in H|discriminate H].
    destruct (ExtractionStage.collect body t (i + 1)) as [ys0|] eqn:Ec;
      [cbn [bind] in H|discriminate H].
    injection H as <-. constructor; [exact (Hb _ _ _ Ey)|exact (IH _ _ Ec)].
Qed.

Lemma new_UseCase_valid id c name description evidence uc :
  ExtractionStage.new_UseCase id c name description evidence = Some uc -> valid_use_case uc.
Proof.
  unfold ExtractionStage.new_UseCase, with_prefix, min_length. intros H.
  destruct (String.prefix "uc_" id) eqn:Ep; [cbn [obind] in H|discriminate H].
  destruct (as_str name); [cbn [obind] in H|discriminate H].
  destruct (as_str description); [cbn [obind] in H|discriminate H].
  destruct evidence as [|e t]; [discriminate H|]. cbn in H. injection H as <-.
  split; [exact Ep|discriminate].
Qed.

Lemma new_Policy_valid id t c statement evidence p :
  ExtractionStage.new_Policy id t c statement evidence = Some p -> valid_policy p.
Proof.
  unfold ExtractionStage.new_Policy, with_prefix, min_length. intros H.
  destruct (String.prefix "pol_" id) eqn:Ep; [cbn [obind] in H|discriminate H].
  destruct (as_str statement); [cbn [obind] in H|discriminate H].
  destruct evidence as [|e l]; [discriminate H|]. cbn in H. injection H as <-.
  split; [exact Ep|discriminate].
Qed.

Lemma run_extraction_valid config llm raw_lines case input_file ucs pols :
  ExtractionStage.run_extraction config llm raw_lines case input_file = Ok (ucs, pols) ->
  Forall valid_use_case ucs /\ Forall valid_policy pols.
Proof.
  unfold ExtractionStage.run_extraction. intros H. bind_inv H. injection H as <- <-.
  split.
  - unfold ExtractionStage.extract_use_cases in E. bind_inv E.
    eapply collect_Forall; [|exact E]. intros i x y Hy.
    unfold ExtractionStage.use_case_of in Hy. bind_inv Hy.
    match type of Hy with
    | match ?m with _ => _ end = _ => destruct m eqn:En; [|discriminate Hy]
    end.
    injection Hy as <-. eapply new_UseCase_valid. exact En.
  - unfold ExtractionStage.extract_policies in E0. bind_inv E0.
    eapply collect_Forall; [|exact E0]. intros i x y Hy.
    unfold ExtractionStage.policy_of in Hy. bind_inv Hy.
    match type of Hy with
    | match ?m with _ => _ end = _ => destruct m eqn:En; [|discriminate Hy]
    end.
    injection Hy as <-. eapply new_Policy_valid. exact En.
Qed.

Lemma new_TestCase_valid id c u params pids tc :
  new_TestCase id c u params pids = Some tc -> valid_test_case tc.
Proof.
  unfold new_TestCase, with_prefix. intros H.
  destruct (String.prefix "tc_" id) eqn:Ei; [cbn [obind] in H|discriminate H].
  destruct (String.prefix "uc_" u) eqn:Eu; [cbn [obind] in H|discriminate H].
  destruct (as_dict params); [cbn [obind] in H|discriminate H].
  injection H as <-. split; assumption.
Qed.

Lemma use_case_loop_valid config llm case policy_ids :
  forall ucs k st st',
    Forall valid_test_case (fst st) ->
    TestCaseGenerator.use_case_loop config llm case policy_ids ucs k st = Ok st' ->
    Forall valid_test_case (fst st').
Proof.
  induction ucs as [|uc rest IH]; intros k st st' Hst H; cbn in H.
  - injection H as <-. exact Hst.
  - bind_inv H. eapply IH; [|exact H].
    eapply (foldM_invariant _ (fun s => Forall valid_test_case (fst s))); [|exact Hst|exact E1].
    intros [all c] x s' Hs Hx. unfold TestCaseGenerator.add_test_case in Hx. bind_inv Hx.
    match type of Hx with
    | match ?m with _ => _ end = _ => destruct m eqn:En; [|discriminate Hx]
    end.
    injection Hx as <-. cbn [fst] in *. apply Forall_app. split; [exact Hs|].
    constructor; [|constructor]. eapply new_TestCase_valid. exact En.
Qed.

Lemma generate_test_cases_valid config llm ucs pols tcs :
  TestCaseGenerator.generate_test_cases config llm ucs pols = Ok tcs ->
  Forall valid_test_case tcs.
Proof.
  unfold TestCaseGenerator.generate_test_cases. intros H. bind_inv H. injection H as <-.
  eapply use_case_loop_valid; [|exact E]. constructor.
Qed.

(** *** The steps *)

Lemma resumable_exists fs name key : resumable fs name key = true -> fs name <> None.
Proof.
  unfold resumable, _load_json. intros H E. rewrite E in H. discriminate H.
Qed.

Lemma extraction_step_spec config llm raw_lines case input_file fs ucs pols fs' :
  extraction_step config llm raw_lines case input_file fs = Ok (ucs, pols, fs') ->
  stored parse_UseCase fs' "use_cases.json" "use_cases" ucs
  /\ stored parse_Policy fs' "policies.json" "policies" pols
  /\ (forall n, n <> "use_cases.json" -> n <> "policies.json" -> fs' n = fs n)
  /\ (ucs <> [] -> resumable fs' "use_cases.json" "use_cases" = true)
  /\ (pols <> [] -> resumable fs' "policies.json" "policies" = true)
  /\ fs' "use_cases.json" <> None
  /\ fs' "policies.json" <> None.
Proof.
  unfold extraction_step. intros H.
  destruct (Py.truthy (_unwrap (_load_json fs "use_cases.json") "use_cases")) eqn:Tu;
    [destruct (Py.truthy (_unwrap (_load_json fs "policies.json") "policies")) eqn:Tp|];
    cbn [andb] in H.
  - bind_inv H. injection H as <- <- <-.
    split; [exact E|]. split; [exact E0|]. split; [reflexivity|].
    split; [intros _; exact Tu|]. split; [intros _; exact Tp|].
    split; [exact (resumable_exists _ _ "use_cases" Tu)|exact (resumable_exists _ _ "policies" Tp)].
  - bind_inv H. destruct a as [ucs0 pols0]. injection H as <- <- <-.
    destruct (run_extraction_valid _ _ _ _ _ _ _ E) as [Vu Vp].
    split; [exact (load_all_dump parse_UseCase dump_UseCase _ parse_dump_UseCase _ Vu)|].
    split; [exact (load_all_dump parse_Policy dump_Policy _ parse_dump_Policy _ Vp)|].
    split.
    { intros n Hu Hp. unfold _save_json. apply String.eqb_neq in Hu, Hp.
      rewrite Hu, Hp. reflexivity. }
    split; [intros Hne; destruct ucs0; [congruence|reflexivity]|].
    split; [intros Hne; destruct pols0; [congruence|reflexivity]|].
    split; discriminate.
  - bind_inv H. destruct a as [ucs0 pols0]. injection H as <- <- <-.
    destruct (run_extraction_valid _ _ _ _ _ _ _ E) as [Vu Vp].
    split; [exact (load_all_dump parse_UseCase dump_UseCase _ parse_dump_UseCase _ Vu)|].
    split; [exact (load_all_dump parse_Policy dump_Policy _ parse_dump_Policy _ Vp)|].
    split.
    { intros n Hu Hp. unfold _save_json. apply String.eqb_neq in Hu, Hp.
      rewrite Hu, Hp. reflexivity. }
    split; [intros Hne; destruct ucs0; [congruence|reflexivity]|].
    split; [intros Hne; destruct pols0; [congruence|reflexivity]|].
    split; discriminate.
Qed.

Lemma test_case_step_spec config llm ucs pols fs tcs fs' :
  test_case_step config llm ucs pols fs = Ok (tcs, fs') ->
  stored parse_TestCase fs' "test_cases.json" "test_cases" tcs
  /\ (forall n, n <> "test_cases.json" -> fs' n = fs n)
  /\ (tcs <> [] -> resumable fs' "test_cases.json" "test_cases" = true)
  /\ fs' "test_cases.json" <> None.
Proof.
  unfold test_case_step. intros H.
  destruct (Py.truthy (_unwrap (_load_json fs "test_cases.json") "test_cases")) eqn:Tt.
  - bind_inv H. injection H as <- <-. split; [exact E|]. split; [reflexivity|].
    split; [intros _; exact Tt|]. apply (resumable_exists _ _ _ Tt).
  - bind_inv H. injection H as <- <-.
    pose proof (generate_test_cases_valid _ _ _ _ _ E) as Vt.
    split; [exact (load_all_dump parse_TestCase dump_TestCase _ parse_dump_TestCase _ Vt)|].
    split.
    { intros n Hn. unfold _save_json. apply String.eqb_neq in Hn. rewrite Hn. reflexivity. }
    split; [intros Hne; destruct a; [congruence|reflexivity]|discriminate].
Qed.

Lemma stored_same_file {A : Type} (parse : list (string * json) -> option A) fs1 fs2 name key xs :
  fs2 name = fs1 name -> stored parse fs1 name key xs -> stored parse fs2 name key xs.
Proof. unfold stored, _load_json. intros ->. auto. Qed.

Lemma resumable_same_file fs1 fs2 name key :
  fs2 name = fs1 name -> resumable fs2 name key = resumable fs1 name key.
Proof. unfold resumable, _load_json. intros ->. reflexivity. Qed.

(** The steps of a completed run. *)
Lemma run_pipeline_inv config manifest raw_lines case input_file lx lt ld fs a fs' :
  run_pipeline config manifest raw_lines case input_file lx lt ld fs = Completed a fs' ->
  exists fs1 fs2 w,
    extraction_step config lx raw_lines case input_file
      (_save_json "run_manifest.json" manifest fs) = Ok (use_cases a, policies a, fs1)
    /\ test_case_step config lt (use_cases a) (policies a) fs1 = Ok (test_cases a, fs2)
    /\ generate_dataset config ld (use_cases a) (policies a) (test_cases a) "dataset.json"
         (fs2 "dataset.json") = Returned (examples a) w
    /\ fs' = _save_json "dataset.json" (wrapper (examples a)) fs2.
Proof.
  unfold run_pipeline. intros H.
  destruct (extraction_step _ _ _ _ _ _) as [[[ucs pols] fs1]|] eqn:E1; [|discriminate H].
  destruct (test_case_step _ _ _ _ _) as [[tcs fs2]|] eqn:E2; [|discriminate H].
  destruct (generate_dataset _ _ _ _ _ _ _) as [exs w|] eqn:E3; [|discriminate H].
  injection H as <- <-. exists fs1, fs2, w. auto.
Qed.

Lemma no_file_missing fs text :
  Forall (fun name => fs name <> None) Validator.required_files ->
  Validator.missing_files (Validator.mkFiles fs text) = [].
Proof.
  unfold Validator.missing_files. induction 1 as [|name l Hn _ IH]; [reflexivity|].
  cbn [filter]. unfold Validator.exists_ at 1. cbn [Validator.out_dir].
  destruct (fs name); [exact IH|congruence].
Qed.

(** X22: after a run that completes, the files hold what the run worked
    with: the manifest, use cases, policies and test cases that load back
    as the lists the later stages were given, whether they were resumed
    or freshly saved, and the returned examples in wrapped form, which
    the dataset stage would load back unchanged; all five files the
    validator requires are there. *)
Theorem X22_completed_run_files :
  forall (config : Config) (manifest : json) (raw_lines : list string) (case : case_type)
         (input_file : string) (llm_extract llm_tests llm_dataset : gateway)
         (fs fs' : files) (a : artifacts),
    run_pipeline config manifest raw_lines case input_file llm_extract llm_tests llm_dataset fs
      = Completed a fs' ->
    fs' "run_manifest.json" = Some manifest
    /\ stored parse_UseCase fs' "use_cases.json" "use_cases" (use_cases a)
    /\ stored parse_Policy fs' "policies.json" "policies" (policies a)
    /\ stored parse_TestCase fs' "test_cases.json" "test_cases" (test_cases a)
    /\ fs' "dataset.json" = Some (wrapper (examples a))
    /\ fst (load_existing "dataset.json" (fs' "dataset.json")) = examples a
    /\ (forall text, Validator.missing_files (Validator.mkFiles fs' text) = []).
Proof.
  intros cfg m raw c f lx lt ld fs fs' a H.
  destruct (run_pipeline_inv _ _ _ _ _ _ _ _ _ _ _ H) as (fs1 & fs2 & w & E1 & E2 & E3 & ->).
  destruct (extraction_step_spec _ _ _ _ _ _ _ _ _ E1) as (U1 & U2 & U3 & _ & _ & U6 & U7).
  destruct (test_case_step_spec _ _ _ _ _ _ _ E2) as (T1 & T2 & _ & T4).
  assert (Hm : fs2 "run_manifest.json" = Some m).
  { rewrite T2 by discriminate. rewrite U3 by discriminate. reflexivity. }
  assert (Hu : fs2 "use_cases.json" = fs1 "use_cases.json") by (apply T2; discriminate).
  assert (Hp : fs2 "policies.json" = fs1 "policies.json") by (apply T2; discriminate).
  split; [exact Hm|].
  split; [eapply stored_same_file; [|exact U1]; exact Hu|].
  split; [eapply stored_same_file; [|exact U2]; exact Hp|].
  split; [eapply stored_same_file; [|exact T1]; reflexivity|].
  split; [reflexivity|]. split.
  - change (_save_json "dataset.json" (wrapper (examples a)) fs2 "dataset.json")
      with (Some (wrapper (examples a))).
    apply DatasetGeneratorFacts.load_existing_wrapper; [discriminate|].
    exact (RunFacts.run_output_valid _ _ _ _ _ _ _ _ _ E3).
  - intros text. apply no_file_missing. unfold Validator.required_files.
    repeat constructor; cbn; try congruence; discriminate.
Qed.

Example first_run_completes :
  run_pipeline (mkConfig 8 2 2) manifest_json two_lines support_bot "doc.md"
    extraction_gateway three_records steady_gateway empty_directory
  = Completed first_run_artifacts first_run_files.
Proof. vm_compute. reflexivity. Qed.

Lemma X22_witness :
  first_run_files "run_manifest.json" = Some manifest_json
  /\ stored parse_UseCase first_run_files "use_cases.json" "use_cases"
       (use_cases first_run_artifacts)
  /\ stored parse_Policy first_run_files "policies.json" "policies"
       (policies first_run_artifacts)
  /\ stored parse_TestCase first_run_files "test_cases.json" "test_cases"
       (test_cases first_run_artifacts)
  /\ first_run_files "dataset.json" = Some (wrapper (examples first_run_artifacts))
  /\ fst (load_existing "dataset.json" (first_run_files "dataset.json"))
     = examples first_run_artifacts
  /\ (forall text, Validator.missing_files (Validator.mkFiles first_run_files text) = []).
Proof.
  exact (X22_completed_run_files (mkConfig 8 2 2) manifest_json two_lines support_bot "doc.md"
           extraction_gateway three_records steady_gateway empty_directory first_run_files
           first_run_artifacts first_run_completes).
Defined.

(** *** Resuming *)

Lemma extraction_step_resumed config llm raw_lines case input_file fs :
  resumable fs "use_cases.json" "use_cases" = true ->
  resumable fs "policies.json" "policies" = true ->
  extraction_step config llm raw_lines case input_file fs
  = (ucs <- load_all parse_UseCase (_unwrap (_load_json fs "use_cases.json") "use_cases") ;;
     pols <- load_all parse_Policy (_unwrap (_load_json fs "policies.json") "policies") ;;
     Ok (ucs, pols, fs)).
Proof.
  unfold resumable, extraction_step. intros -> ->. reflexivity.
Qed.

Lemma test_case_step_resumed config llm ucs pols fs :
  resumable fs "test_cases.json" "test_cases" = true ->
  test_case_step config llm ucs pols fs
  = (tcs <- load_all parse_TestCase (_unwrap (_load_json fs "test_cases.json") "test_cases") ;;
     Ok (tcs, fs)).
Proof.
  unfold resumable, test_case_step. intros ->. reflexivity.
Qed.

Lemma extraction_step_files config llm raw_lines case input_file fs ucs pols fs' :
  extraction_step config llm raw_lines case input_file fs = Ok (ucs, pols, fs') ->
  (resumable fs "use_cases.json" "use_cases" = true ->
   resumable fs "policies.json" "policies" = true -> fs' = fs)
  /\ fs' "test_cases.json" = fs "test_cases.json".
Proof.
  intros H. split.
  - intros Hu Hp. rewrite (extraction_step_resumed _ _ _ _ _ _ Hu Hp) in H. bind_inv H.
    injection H as _ _ <-. reflexivity.
  - destruct (extraction_step_spec _ _ _ _ _ _ _ _ _ H) as (_ & _ & K & _).
    apply K; discriminate.
Qed.

Lemma test_case_step_files config llm ucs pols fs tcs fs' :
  test_case_step config llm ucs pols fs = Ok (tcs, fs') ->
  (resumable fs "test_cases.json" "test_cases" = true -> fs' = fs)
  /\ (forall n, n <> "test_cases.json" -> fs' n = fs n).
Proof.
  intros H. split.
  - intros Ht. rewrite (test_case_step_resumed _ _ _ _ _ Ht) in H. bind_inv H.
    injection H as _ <-. reflexivity.
  - destruct (test_case_step_spec _ _ _ _ _ _ _ H) as (_ & K & _). exact K.
Qed.

(** The files a run leaves, stage file by stage file. *)
Lemma run_pipeline_files config manifest raw_lines case input_file lx lt ld fs :
  let fs0 := _save_json "run_manifest.json" manifest fs in
  let r := run_pipeline config manifest raw_lines case input_file lx lt ld fs in
  (resumable fs "use_cases.json" "use_cases" = true ->
   resumable fs "policies.json" "policies" = true ->
   files_of r "use_cases.json" = fs "use_cases.json"
   /\ files_of r "policies.json" = fs "policies.json")
  /\ (resumable fs "test_cases.json" "test_cases" = true ->
      files_of r "test_cases.json" = fs "test_cases.json").
Proof.
  cbv zeta. unfold run_pipeline.
  set (fs0 := _save_json "run_manifest.json" manifest fs).
  assert (Ru : resumable fs0 "use_cases.json" "use_cases"
               = resumable fs "use_cases.json" "use_cases")
    by (apply resumable_same_file; reflexivity).
  assert (Rp : resumable fs0 "policies.json" "policies"
               = resumable fs "policies.json" "policies")
    by (apply resumable_same_file; reflexivity).
  assert (Rt : resumable fs0 "test_cases.json" "test_cases"
               = resumable fs "test_cases.json" "test_cases")
    by (apply resumable_same_file; reflexivity).
  destruct (extraction_step config lx raw_lines case input_file fs0)
    as [[[ucs pols] fs1]|e] eqn:E1.
  2:{ cbn [files_of]. split; [intros _ _; split; reflexivity|intros _; reflexivity]. }
  destruct (extraction_step_files _ _ _ _ _ _ _ _ _ E1) as [K1 K2].
  destruct (test_case_step config lt ucs pols fs1) as [[tcs fs2]|e] eqn:E2.
  2:{ cbn [files_of]. split.
      - intros Hu Hp. rewrite (K1 ltac:(congruence) ltac:(congruence)). split; reflexivity.
      - intros _. rewrite K2. reflexivity. }
  destruct (test_case_step_files _ _ _ _ _ _ _ E2) as [K3 K4].
  assert (G : forall n, n <> "dataset.json" ->
                files_of (match generate_dataset config ld ucs pols tcs "dataset.json"
                                  (fs2 "dataset.json") with
                          | Returned exs w =>
                              Completed (mkArtifacts ucs pols tcs exs)
                                (_save_json "dataset.json" (wrapper exs) fs2)
                          | Raised e w =>
                              Crashed e (fun n => if String.eqb n "dataset.json"
                                                  then disk w else fs2 n)
                          end) n = fs2 n).
  { intros n Hn. apply String.eqb_neq in Hn.
    destruct (generate_dataset _ _ _ _ _ _ _); cbn [files_of]; unfold _save_json;
      rewrite Hn; reflexivity. }
  split.
  - intros Hu Hp. rewrite !G by discriminate. rewrite !K4 by discriminate.
    rewrite (K1 ltac:(congruence) ltac:(congruence)). split; reflexivity.
  - intros Ht. rewrite G by discriminate.
    assert (Rt1 : resumable fs1 "test_cases.json" "test_cases" = true).
    { rewrite (resumable_same_file fs0 fs1) by exact K2. congruence. }
    rewrite (K3 Rt1), K2. reflexivity.
Qed.

(** X23: a stage whose file holds something truthy is not run again.
    When use_cases.json and policies.json both do, the run does not
    depend on the document or on the gateway of the extraction and
    leaves both files as they are, however it ends; when test_cases.json
    does, the run does not depend on the gateway of the test cases and
    leaves that file as it is. *)
Theorem X23_resume_skips_saved_stages :
  forall (config : Config) (manifest : json) (raw_lines : list string) (case : case_type)
         (input_file : string) (llm_extract llm_tests llm_dataset : gateway) (fs : files),
    (resumable fs "use_cases.json" "use_cases" = true
     /\ resumable fs "policies.json" "policies" = true ->
     (forall raw_lines' case' input_file' llm_extract',
         run_pipeline config manifest raw_lines' case' input_file' llm_extract'
           llm_tests llm_dataset fs
         = run_pipeline config manifest raw_lines case input_file llm_extract
             llm_tests llm_dataset fs)
     /\ files_of (run_pipeline config manifest raw_lines case input_file llm_extract
                    llm_tests llm_dataset fs) "use_cases.json" = fs "use_cases.json"
     /\ files_of (run_pipeline config manifest raw_lines case input_file llm_extract
                    llm_tests llm_dataset fs) "policies.json" = fs "policies.json")
    /\ (resumable fs "test_cases.json" "test_cases" = true ->
        (forall llm_tests',
            run_pipeline config manifest raw_lines case input_file llm_extract
              llm_tests' llm_dataset fs
            = run_pipeline config manifest raw_lines case input_file llm_extract
                llm_tests llm_dataset fs)
        /\ files_of (run_pipeline config manifest raw_lines case input_file llm_extract
                       llm_tests llm_dataset fs) "test_cases.json" = fs "test_cases.json").
Proof.
  intros cfg m raw c f lx lt ld fs.
  destruct (run_pipeline_files cfg m raw c f lx lt ld fs) as [F1 F2].
  set (fs0 := _save_json "run_manifest.json" m fs).
  split.
  - intros [Hu Hp]. split; [|exact (F1 Hu Hp)].
    intros raw' c' f' lx'. unfold run_pipeline. fold fs0.
    assert (Ru : resumable fs0 "use_cases.json" "use_cases" = true)
      by (rewrite (resumable_same_file fs fs0) by reflexivity; exact Hu).
    assert (Rp : resumable fs0 "policies.json" "policies" = true)
      by (rewrite (resumable_same_file fs fs0) by reflexivity; exact Hp).
    rewrite !(extraction_step_resumed _ _ _ _ _ _ Ru Rp). reflexivity.
  - intros Ht. split; [|exact (F2 Ht)].
    intros lt'. unfold run_pipeline. fold fs0.
    destruct (extraction_step cfg lx raw c f fs0) as [[[ucs pols] fs1]|e] eqn:E1;
      [|reflexivity].
    destruct (extraction_step_files _ _ _ _ _ _ _ _ _ E1) as [_ K2].
    assert (Rt1 : resumable fs1 "test_cases.json" "test_cases" = true).
    { rewrite (resumable_same_file fs fs1); [exact Ht|]. rewrite K2. reflexivity. }
    rewrite !(test_case_step_resumed _ _ _ _ _ Rt1). reflexivity.
Qed.

Lemma X23_witness :
  (forall raw_lines' case' input_file' llm_extract',
      run_pipeline (mkConfig 8 2 2) manifest_json raw_lines' case' input_file' llm_extract'
        down down first_run_files
      = run_pipeline (mkConfig 8 2 2) manifest_json two_lines support_bot "doc.md" down
          down down first_run_files)
  /\ files_of (run_pipeline (mkConfig 8 2 2) manifest_json two_lines support_bot "doc.md"
                 down down down first_run_files) "use_cases.json"
     = first_run_files "use_cases.json"
  /\ files_of (run_pipeline (mkConfig 8 2 2) manifest_json two_lines support_bot "doc.md"
                 down down down first_run_files) "policies.json"
     = first_run_files "policies.json".
Proof.
  exact (proj1 (X23_resume_skips_saved_stages (mkConfig 8 2 2) manifest_json two_lines
                  support_bot "doc.md" down down down first_run_files)
           (conj eq_refl eq_refl)).
Defined.

(** X24: running the pipeline again over the files of a completed run
    changes nothing but the manifest.  If the run ended with at least
    one use case, one policy and one test case, and every test case with
    a known use case got an example, then a second run over its files,
    with any document, any gateways and any manifest, completes with the
    same artifacts, and every file but the manifest is as the first run
    left it. *)
Theorem X24_second_run_changes_only_the_manifest :
  forall (config : Config) (manifest manifest' : json) (raw_lines raw_lines' : list string)
         (case case' : case_type) (input_file input_file' : string)
         (llm_extract llm_tests llm_dataset llm_extract' llm_tests' llm_dataset' : gateway)
         (fs fs' : files) (a : artifacts),
    run_pipeline config manifest raw_lines case input_file llm_extract llm_tests llm_dataset fs
      = Completed a fs' ->
    use_cases a <> [] ->
    policies a <> [] ->
    test_cases a <> [] ->
    (forall tc, In tc (test_cases a) ->
                In (tc_use_case_id tc) (map uc_id (use_cases a)) ->
                In (tc_id tc) (map ex_test_case_id (examples a))) ->
    exists fs'',
      run_pipeline config manifest' raw_lines' case' input_file'
        llm_extract' llm_tests' llm_dataset' fs'
      = Completed a fs''
      /\ forall name, fs'' name = _save_json "run_manifest.json" manifest' fs' name.
Proof.
  intros cfg m m' raw raw' c c' f f' lx lt ld lx' lt' ld' fs fs' a H Hu Hp Ht Hcov.
  destruct (run_pipeline_inv _ _ _ _ _ _ _ _ _ _ _ H) as (fs1 & fs2 & w & E1 & E2 & E3 & ->).
  destruct (extraction_step_spec _ _ _ _ _ _ _ _ _ E1) as (U1 & U2 & _ & U4 & U5 & _).
  destruct (test_case_step_spec _ _ _ _ _ _ _ E2) as (T1 & T2 & T3 & _).
  pose proof (RunFacts.run_output_valid _ _ _ _ _ _ _ _ _ E3) as Hvalid.
  set (fs3 := _save_json "dataset.json" (wrapper (examples a)) fs2).
  set (fs4 := _save_json "run_manifest.json" m' fs3).
  assert (Ku : fs4 "use_cases.json" = fs1 "use_cases.json")
    by (unfold fs4, fs3, _save_json; cbn; apply T2; discriminate).
  assert (Kp : fs4 "policies.json" = fs1 "policies.json")
    by (unfold fs4, fs3, _save_json; cbn; apply T2; discriminate).
  assert (Kt : fs4 "test_cases.json" = fs2 "test_cases.json") by reflexivity.
  assert (Kd : fs4 "dataset.json" = Some (wrapper (examples a))) by reflexivity.
  exists (_save_json "dataset.json" (wrapper (examples a)) fs4). split.
  - unfold run_pipeline. fold fs4.
    rewrite extraction_step_resumed.
    2:{ rewrite (resumable_same_file fs1 fs4) by exact Ku. exact (U4 Hu). }
    2:{ rewrite (resumable_same_file fs1 fs4) by exact Kp. exact (U5 Hp). }
    pose proof (stored_same_file parse_UseCase fs1 fs4 _ _ _ Ku U1) as S1.
    pose proof (stored_same_file parse_Policy fs1 fs4 _ _ _ Kp U2) as S2.
    unfold stored in S1, S2. rewrite S1, S2. cbn [bind].
    rewrite test_case_step_resumed.
    2:{ rewrite (resumable_same_file fs2 fs4) by exact Kt. exact (T3 Ht). }
    pose proof (stored_same_file parse_TestCase fs2 fs4 _ _ _ Kt T1) as S3.
    unfold stored in S3. rewrite S3. cbn [bind]. rewrite Kd.
    rewrite (RunFacts.rerun_over_saved_examples cfg ld' _ _ _ "dataset.json" _
               ltac:(discriminate) Hvalid Hcov).
    destruct a; reflexivity.
  - intros name. unfold _save_json at 1. destruct (String.eqb_spec name "dataset.json") as [->|_];
      [symmetry; exact Kd|reflexivity].
Qed.

Lemma X24_witness :
  exists fs'',
    run_pipeline (mkConfig 8 2 2) manifest_json [] operator_quality "" down down down
      first_run_files
    = Completed first_run_artifacts fs''
    /\ forall name, fs'' name = _save_json "run_manifest.json" manifest_json first_run_files name.
Proof.
  apply (X24_second_run_changes_only_the_manifest (mkConfig 8 2 2) manifest_json manifest_json
           two_lines [] support_bot operator_quality "doc.md" ""
           extraction_gateway three_records steady_gateway down down down
           empty_directory first_run_files first_run_artifacts first_run_completes).
  - discriminate.
  - discriminate.
  - discriminate.
  - intros tc Hin _. simpl in Hin. simpl.
    destruct Hin as [<-|[<-|[<-|[<-|[]]]]]; simpl; tauto.
Defined.

(** X26: a crash never loses a finished stage.  When the run crashes,
    either the extraction step raised and only the manifest was written,
    or use_cases.json and policies.json hold what the extraction step
    gave; then either the test-case step raised, or test_cases.json holds
    its test cases, the dataset stage raised the exception the run ends
    with, and dataset.json is as that stage left it. *)
Theorem X26_crash_keeps_finished_stages :
  forall (config : Config) (manifest : json) (raw_lines : list string) (case : case_type)
         (input_file : string) (llm_extract llm_tests llm_dataset : gateway)
         (fs fs' : files) (e : exn),
    run_pipeline config manifest raw_lines case input_file llm_extract llm_tests llm_dataset fs
      = Crashed e fs' ->
    (extraction_step config llm_extract raw_lines case input_file
       (_save_json "run_manifest.json" manifest fs) = Raise e
     /\ fs' = _save_json "run_manifest.json" manifest fs)
    \/ exists ucs pols fs1,
         extraction_step config llm_extract raw_lines case input_file
           (_save_json "run_manifest.json" manifest fs) = Ok (ucs, pols, fs1)
         /\ stored parse_UseCase fs' "use_cases.json" "use_cases" ucs
         /\ stored parse_Policy fs' "policies.json" "policies" pols
         /\ ((test_case_step config llm_tests ucs pols fs1 = Raise e /\ fs' = fs1)
             \/ exists tcs fs2 w,
                  test_case_step config llm_tests ucs pols fs1 = Ok (tcs, fs2)
                  /\ stored parse_TestCase fs' "test_cases.json" "test_cases" tcs
                  /\ generate_dataset config llm_dataset ucs pols tcs "dataset.json"
                       (fs2 "dataset.json") = Raised e w
                  /\ fs' "dataset.json" = disk w).
Proof.
  intros cfg m raw c f lx lt ld fs fs' e H. unfold run_pipeline in H.
  set (fs0 := _save_json "run_manifest.json" m fs) in *.
  destruct (extraction_step cfg lx raw c f fs0) as [[[ucs pols] fs1]|e1] eqn:E1.
  2:{ injection H as <- <-. left. auto. }
  right. exists ucs, pols, fs1. split; [reflexivity|].
  destruct (extraction_step_spec _ _ _ _ _ _ _ _ _ E1) as (U1 & U2 & _).
  destruct (test_case_step cfg lt ucs pols fs1) as [[tcs fs2]|e2] eqn:E2.
  2:{ injection H as <- <-. split; [exact U1|]. split; [exact U2|]. left. auto. }
  destruct (test_case_step_spec _ _ _ _ _ _ _ E2) as (T1 & T2 & _).
  destruct (generate_dataset cfg ld ucs pols tcs "dataset.json" (fs2 "dataset.json"))
    as [exs w|e3 w] eqn:E3; [discriminate H|].
  injection H as <- <-.
  split; [eapply stored_same_file; [|exact U1]; cbn; apply T2; discriminate|].
  split; [eapply stored_same_file; [|exact U2]; cbn; apply T2; discriminate|].
  right. exists tcs, fs2, w. split; [reflexivity|].
  split; [eapply stored_same_file; [|exact T1]; reflexivity|].
  split; [exact E3|reflexivity].
Qed.

Example run_with_dataset_gateway_down :
  run_pipeline (mkConfig 8 2 2) manifest_json two_lines support_bot "doc.md"
    extraction_gateway three_records down empty_directory
  = Crashed (GatewayErr "down") crashed_run_files.
Proof. vm_compute. reflexivity. Qed.

Lemma X26_witness :
  (extraction_step (mkConfig 8 2 2) extraction_gateway two_lines support_bot "doc.md"
     (_save_json "run_manifest.json" manifest_json empty_directory)
   = Raise (GatewayErr "down")
   /\ crashed_run_files = _save_json "run_manifest.json" manifest_json empty_directory)
  \/ exists ucs pols fs1,
       extraction_step (mkConfig 8 2 2) extraction_gateway two_lines support_bot "doc.md"
         (_save_json "run_manifest.json" manifest_json empty_directory) = Ok (ucs, pols, fs1)
       /\ stored parse_UseCase crashed_run_files "use_cases.json" "use_cases" ucs
       /\ stored parse_Policy crashed_run_files "policies.json" "policies" pols
       /\ ((test_case_step (mkConfig 8 2 2) three_records ucs pols fs1
            = Raise (GatewayErr "down") /\ crashed_run_files = fs1)
           \/ exists tcs fs2 w,
                test_case_step (mkConfig 8 2 2) three_records ucs pols fs1 = Ok (tcs, fs2)
                /\ stored parse_TestCase crashed_run_files "test_cases.json" "test_cases" tcs
                /\ generate_dataset (mkConfig 8 2 2) down ucs pols tcs "dataset.json"
                     (fs2 "dataset.json") = Raised (GatewayErr "down") w
                /\ crashed_run_files "dataset.json" = disk w).
Proof.
  exact (X26_crash_keeps_finished_stages (mkConfig 8 2 2) manifest_json two_lines support_bot
           "doc.md" extraction_gateway three_records down empty_directory crashed_run_files
           (GatewayErr "down") run_with_dataset_gateway_down).
Defined.

(** X29: extraction resumes only when both of its files do.  When
    use_cases.json or policies.json is missing or holds nothing truthy,
    a run that completes has extracted both lists anew and has written
    both files, replacing a use_cases.json that was fine; a
    test_cases.json that holds something truthy is nevertheless resumed
    as it is, with the use-case ids of the extraction before. *)
Theorem X29_extraction_resumes_both_or_neither :
  forall (config : Config) (manifest : json) (raw_lines : list string) (case : case_type)
         (input_file : string) (llm_extract llm_tests llm_dataset : gateway)
         (fs fs' : files) (a : artifacts),
    resumable fs "use_cases.json" "use_cases" && resumable fs "policies.json" "policies"
    = false ->
    run_pipeline config manifest raw_lines case input_file llm_extract llm_tests llm_dataset fs
      = Completed a fs' ->
    ExtractionStage.run_extraction config llm_extract raw_lines case input_file
    = Ok (use_cases a, policies a)
    /\ fs' "use_cases.json"
       = Some (wrap "use_cases" (map dump_UseCase (use_cases a)))
    /\ fs' "policies.json"
       = Some (wrap "policies" (map dump_Policy (policies a)))
    /\ (resumable fs "test_cases.json" "test_cases" = true ->
        fs' "test_cases.json" = fs "test_cases.json"
        /\ stored parse_TestCase fs "test_cases.json" "test_cases" (test_cases a)).
Proof.
  intros cfg m raw c f lx lt ld fs fs' a Hr H.
  destruct (run_pipeline_inv _ _ _ _ _ _ _ _ _ _ _ H) as (fs1 & fs2 & w & E1 & E2 & E3 & ->).
  set (fs0 := _save_json "run_manifest.json" m fs) in *.
  assert (Hr0 : Py.truthy (_unwrap (_load_json fs0 "use_cases.json") "use_cases")
                && Py.truthy (_unwrap (_load_json fs0 "policies.json") "policies") = false)
    by exact Hr.
  unfold extraction_step in E1. rewrite Hr0 in E1. bind_inv E1. destruct a0 as [ucs pols].
  injection E1 as Hu Hp <-. subst ucs pols. split; [reflexivity|].
  destruct (test_case_step_files _ _ _ _ _ _ _ E2) as [K1 K2].
  split; [|split].
  - cbn. rewrite K2 by discriminate. reflexivity.
  - cbn. rewrite K2 by discriminate. reflexivity.
  - intros Ht.
    assert (Ht1 : resumable
                    (_save_json "policies.json"
                       (wrap "policies" (map dump_Policy (policies a)))
                       (_save_json "use_cases.json"
                          (wrap "use_cases" (map dump_UseCase (use_cases a))) fs0))
                    "test_cases.json" "test_cases" = true) by exact Ht.
    rewrite (test_case_step_resumed _ _ _ _ _ Ht1) in E2. bind_inv E2.
    injection E2 as Ha <-. split; [reflexivity|]. rewrite <- Ha. exact E0.
Qed.

Example run_without_policies :
  run_pipeline (mkConfig 8 2 2) manifest_json two_lines support_bot "doc.md"
    extraction_gateway down down without_policies
  = Completed first_run_artifacts after_second_extraction.
Proof. vm_compute. reflexivity. Qed.

Lemma X29_witness :
  ExtractionStage.run_extraction (mkConfig 8 2 2) extraction_gateway two_lines support_bot
    "doc.md"
  = Ok (use_cases first_run_artifacts, policies first_run_artifacts)
  /\ after_second_extraction "use_cases.json"
     = Some (wrap "use_cases" (map dump_UseCase (use_cases first_run_artifacts)))
  /\ after_second_extraction "policies.json"
     = Some (wrap "policies" (map dump_Policy (policies first_run_artifacts)))
  /\ (resumable without_policies "test_cases.json" "test_cases" = true ->
      after_second_extraction "test_cases.json" = without_policies "test_cases.json"
      /\ stored parse_TestCase without_policies "test_cases.json" "test_cases"
           (test_cases first_run_artifacts)).
Proof.
  exact (X29_extraction_resumes_both_or_neither (mkConfig 8 2 2) manifest_json two_lines
           support_bot "doc.md" extraction_gateway down down without_policies
           after_second_extraction first_run_artifacts eq_refl run_without_policies).
Defined.

End PipelineFacts.

(** ** The test-case stage has no partial result *)

Module AllOrNothingFacts.
Import Models TestCaseGenerator Samples MoreSamples.

Lemma use_case_loop_calls config llm c known :
  forall ucs k st st',
    use_case_loop config llm c known ucs k st = Ok st' ->
    forall i, (i < List.length ucs)%nat -> exists response, llm (k + i)%nat = Ok response.
Proof.
  induction ucs as [|uc rest IH]; intros k st st' H i Hi; [simpl in Hi; lia|].
  cbn [use_case_loop] in H.
  destruct (llm k) as [response|] eqn:Ek; [cbn [bind] in H|discriminate H].
  bind_inv H. destruct i as [|i].
  - rewrite Nat.add_0_r. exists response. exact Ek.
  - destruct (IH _ _ _ H i ltac:(simpl in Hi; lia)) as [r Hr].
    exists r. rewrite <- Hr. f_equal. lia.
Qed.

(** X25: the test-case stage returns all or nothing: when the gateway
    call made for any of the use cases fails, the stage raises and
    returns no test case at all, not even those of the use cases already
    answered. *)
Theorem X25_test_cases_all_or_nothing :
  forall (config : Config) (llm : gateway) (ucs : list UseCase) (pols : list Policy)
         (k : nat) (e : exn),
    (k < List.length ucs)%nat ->
    llm k = Raise e ->
    exists e', generate_test_cases config llm ucs pols = Raise e'.
Proof.
  intros cfg llm ucs pols k e Hk Hf.
  destruct (generate_test_cases cfg llm ucs pols) as [tcs|e'] eqn:H; [|exists e'; reflexivity].
  exfalso. unfold generate_test_cases in H. bind_inv H.
  destruct (use_case_loop_calls _ _ _ _ _ _ _ _ E k Hk) as [r Hr].
  simpl in Hr. congruence.
Qed.

Lemma X25_witness :
  exists e',
    generate_test_cases (mkConfig 8 2 2)
      (fun k => if (k <? 1)%nat then three_records k else Raise (GatewayErr "down"))
      [uc1; uc2] [pol "pol_1"]
    = Raise e'.
Proof.
  exact (X25_test_cases_all_or_nothing (mkConfig 8 2 2)
           (fun k => if (k <? 1)%nat then three_records k else Raise (GatewayErr "down"))
           [uc1; uc2] [pol "pol_1"] 1%nat (GatewayErr "down") ltac:(simpl; lia) eq_refl).
Defined.

End AllOrNothingFacts.

(** ** The pipeline against the validator *)

Module EndToEndFacts.
Import Models Validator Contract EndToEnd ValidatorFacts.

(** *** The stages of a support-bot run build sound records *)

Lemma use_case_loop_sound config llm known uids :
  forall ucs k st st',
    (forall uc, In uc ucs -> In (uc_id uc) uids) ->
    Forall (sound_test_case uids known) (fst st) ->
    TestCaseGenerator.use_case_loop config llm support_bot known ucs k st = Ok st' ->
    Forall (sound_test_case uids known) (fst st').
Proof.
  induction ucs as [|uc rest IH]; intros k st st' Hin Hst H; cbn in H.
  - injection H as <-. exact Hst.
  - bind_inv H. eapply IH; [intros u Hu; apply Hin; right; exact Hu| |exact H].
    eapply (foldM_invariant _ (fun s => Forall (sound_test_case uids known) (fst s)));
      [|exact Hst|exact E1].
    intros [all c] x s' Hs Hx. unfold TestCaseGenerator.add_test_case in Hx. bind_inv Hx.
    match type of Hx with
    | match ?m with _ => _ end = _ => destruct m as [tc|] eqn:En; [|discriminate Hx]
    end.
    injection Hx as <-. cbn [fst] in *. apply Forall_app. split; [exact Hs|].
    constructor; [|constructor].
    pose proof (PipelineFacts.new_TestCase_valid _ _ _ _ _ _ En) as Hv.
    destruct (TestCaseRunFacts.new_TestCase_inv _ _ _ _ _ _ En) as (_ & Heq & _).
    split; [exact Hv|]. rewrite Heq. cbn. split; [apply Hin; left; reflexivity|]. split; [|reflexivity].
    unfold TestCaseGenerator.resolve_policy_ids in E4.
    destruct (Py.iter a3) as [items|]; [cbn [bind] in E4|discriminate E4].
    injection E4 as <-. apply Forall_forall. intros p Hp.
    destruct (TestCaseGenerator.keep_known known items) eqn:Ek.
    + exact (TestCaseGeneratorFacts.take_two_incl known p Hp).
    + rewrite <- Ek in Hp. exact (TestCaseGeneratorFacts.keep_known_incl known items p Hp).
Qed.

Lemma generate_test_cases_sound config llm ucs pols tcs :
  Forall (fun uc => uc_case uc = support_bot) ucs ->
  TestCaseGenerator.generate_test_cases config llm ucs pols = Ok tcs ->
  Forall (sound_test_case (map uc_id ucs) (map pol_id pols)) tcs.
Proof.
  unfold TestCaseGenerator.generate_test_cases. intros Hc H. bind_inv H. injection H as <-.
  assert (Hcase : match ucs with
                  | uc :: _ => uc_case uc
                  | [] => support_bot
                  end = support_bot).
  { destruct Hc as [|uc l Hu _]; [reflexivity|exact Hu]. }
  rewrite Hcase in E.
  apply (use_case_loop_sound config llm _ _ ucs 0%nat ([], 1) a);
    [|constructor|exact E].
  intros uc Hin. apply in_map. exact Hin.
Qed.

Lemma loop_member_invariant config llm ucs path completed
  (I : list DatasetExample * Z -> Prop) (all : list TestCase) :
  (forall tc idx response st st',
      In tc all -> I st ->
      DatasetGenerator.process_batch config tc
        (DatasetGenerator._get_format_for_case (case_str (tc_case tc)) idx) response st
      = Ok st' -> I st') ->
  forall tcs idx st w out w',
    incl tcs all ->
    I st ->
    DatasetGenerator.test_case_loop config llm ucs path completed tcs idx st w
    = DatasetGenerator.Returned out w' ->
    exists counter, I (out, counter).
Proof.
  intros Hstep tcs; induction tcs as [|t rest IH]; intros idx st w out w' Hincl Hst H.
  - cbn [DatasetGenerator.test_case_loop] in H. injection H as <- <-. exists (snd st).
    destruct st; exact Hst.
  - cbn [DatasetGenerator.test_case_loop] in H.
    assert (Hrest : incl rest all) by (intros x Hx; apply Hincl; right; exact Hx).
    destruct (Py.mem (tc_id t) completed); [eapply IH; eauto|].
    destruct (DatasetGenerator.uc_map_get ucs (tc_use_case_id t)); [|eapply IH; eauto].
    destruct (llm (List.length (DatasetGenerator.calls w))); [|discriminate H].
    destruct (DatasetGenerator.process_batch _ _ _ _ _) as [st1|] eqn:Hb; [|discriminate H].
    eapply IH; [exact Hrest| |exact H].
    eapply Hstep; [apply Hincl; left; reflexivity|exact Hst|exact Hb].
Qed.

Lemma build_example_policy_ids tc fmt i c ex_data ex :
  DatasetGenerator.build_example tc fmt i c ex_data = Ok ex ->
  ex_policy_ids ex = tc_policy_ids tc.
Proof.
  intros H.
  destruct (BuildExampleFacts.build_example_inv _ _ _ _ _ _ H)
    as (input0 & has & input1 & expected & ec0 & n & ec & md0 & md1 & md2 & input2
        & _ & _ & _ & _ & _ & _ & _ & _ & _ & _ & _ & Hnew).
  destruct (BuildExampleFacts.new_DatasetExample_inv _ _ _ _ _ _ _ _ _ _ _ Hnew)
    as (f & _ & _ & _ & _ & _ & Hex & _).
  rewrite Hex. reflexivity.
Qed.

Lemma generate_dataset_sound config llm ucs pols tcs path uids pids exs w :
  Forall (sound_test_case uids pids) tcs ->
  DatasetGenerator.generate_dataset config llm ucs pols tcs path None
  = DatasetGenerator.Returned exs w ->
  Forall (sound_example uids pids (map tc_id tcs)) exs.
Proof.
  intros Hs H. unfold DatasetGenerator.generate_dataset in H. cbn in H.
  destruct (loop_member_invariant config llm ucs path []
              (fun st => Forall (sound_example uids pids (map tc_id tcs)) (fst st)) tcs)
    with (tcs := tcs) (idx := 0) (st := (@nil DatasetExample, 1))
         (w := DatasetGenerator.mkWorld None []) (out := exs) (w' := w) as [c Hc].
  - intros tc idx response st st' Hin Hst Hb.
    rewrite Forall_forall in Hs. destruct (Hs tc Hin) as (Hv & Hu & Hp & Hcase).
    destruct (RunFacts.process_batch_spec _ _ _ _ _ _ Hb) as (batch & Hf & _ & _ & Hnth).
    rewrite Hf. apply Forall_app. split; [exact Hst|]. apply Forall_forall.
    intros ex Hex. apply In_nth_error in Hex. destruct Hex as [j Hj].
    destruct (Hnth j ex Hj) as (ex_data & Hbuild).
    destruct (RunFacts.build_example_id _ _ _ _ _ _ Hbuild) as (_ & Hc & Hvalid).
    destruct (DatasetGeneratorFacts.build_example_fields _ _ _ _ _ _ Hbuild)
      as (Ht & Hu' & Hfmt).
    split; [exact Hvalid|]. split; [rewrite Hu'; exact Hu|].
    split; [rewrite Ht; apply in_map; exact Hin|].
    split; [rewrite (build_example_policy_ids _ _ _ _ _ _ Hbuild); exact Hp|].
    split; [congruence|]. split.
    + rewrite Hcase in Hfmt. cbn in Hfmt.
      destruct (ex_format ex); first [reflexivity | discriminate Hfmt].
    + eexists. exact (RunFacts.build_example_source _ _ _ _ _ _ Hbuild Hcase).
  - apply incl_refl.
  - constructor.
  - exact H.
  - exact Hc.
Qed.

(** *** The validator over what the stages saved *)

Ltac grow_sf :=
  repeat first
    [ apply extends_refl
    | apply extends_warn
    | apply extends_set_stat
    | apply extends_error; [|reflexivity]
    | match goal with
      | |- extends _ _ (if ?c then _ else _) => destruct c
      | |- extends _ _ (match ?x with _ => _ end) => destruct x
      end ].

Lemma check_evidence_sf evs il a i r : extends shortfall r (check_evidence evs il a i r).
Proof.
  unfold check_evidence. apply extends_fold_left. intros r0 ev.
  unfold _validate_evidence_quote. grow_sf.
Qed.

Lemma load_wrapped_wrap fs fname key records r :
  out_dir fs fname = Some (Pipeline.wrap key records) ->
  load_wrapped fs fname key r = (JList records, r).
Proof.
  intros H. unfold load_wrapped, _load_json. rewrite H. unfold Pipeline.wrap.
  cbn [Py.dict_get]. rewrite String.eqb_refl. reflexivity.
Qed.

Lemma use_case_loop_dumps il ucs :
  Forall Pipeline.valid_use_case ucs ->
  forall i ids r,
    exists ids' r',
      for_enumerate (use_case_body il) (map Pipeline.dump_UseCase ucs) i (ids, r)
      = Ok (ids', r')
      /\ extends shortfall r r'
      /\ (forall id, In id ids' <-> In id ids \/ In id (map uc_id ucs)).
Proof.
  induction 1 as [|uc t Hv _ IH]; intros i ids r.
  - exists ids, r. split; [reflexivity|]. split; [apply extends_refl|]. simpl. tauto.
  - destruct (PipelineFacts.parse_dump_UseCase uc Hv) as (d & Hd & Hp).
    cbn [map for_enumerate]. rewrite Hd. cbn [use_case_body]. rewrite Hp. cbn [bind].
    destruct (IH (i + 1) (Py.set_add (uc_id uc) ids)
                (check_evidence (uc_evidence uc) il "use_cases" i r))
      as (ids' & r' & H1 & H2 & H3).
    exists ids', r'. split; [exact H1|]. split.
    + eapply extends_trans; [apply check_evidence_sf|exact H2].
    + intros id. rewrite H3, DatasetGeneratorFacts.set_add_In. simpl. intuition congruence.
Qed.

Lemma check_use_cases_dumps fs il r ucs :
  out_dir fs "use_cases.json" = Some (Pipeline.wrap "use_cases" (map Pipeline.dump_UseCase ucs)) ->
  Forall Pipeline.valid_use_case ucs ->
  exists ids r',
    check_use_cases fs il r = Ok (ids, r')
    /\ extends shortfall r r'
    /\ (forall id, In id ids <-> In id (map uc_id ucs)).
Proof.
  intros Hf Hv. unfold check_use_cases. rewrite (load_wrapped_wrap _ _ _ _ _ Hf).
  cbn [Py.len Py.iter bind].
  match goal with
  | |- context [for_enumerate _ _ 0 (?ids0, ?r0)] =>
      destruct (use_case_loop_dumps il ucs Hv 0 ids0 r0) as (ids & r' & H1 & H2 & H3)
  end.
  exists ids, r'. split; [exact H1|]. split.
  - eapply extends_trans; [|exact H2]. grow_sf.
  - intros id. rewrite H3. simpl. tauto.
Qed.

Lemma policy_loop_dumps il pols :
  Forall Pipeline.valid_policy pols ->
  forall i ids types r,
    exists ids' types' r',
      for_enumerate (policy_body il) (map Pipeline.dump_Policy pols) i (ids, types, r)
      = Ok (ids', types', r')
      /\ extends shortfall r r'
      /\ (forall id, In id ids' <-> In id ids \/ In id (map pol_id pols)).
Proof.
  induction 1 as [|p t Hv _ IH]; intros i ids types r.
  - exists ids, types, r. split; [reflexivity|]. split; [apply extends_refl|]. simpl. tauto.
  - destruct (PipelineFacts.parse_dump_Policy p Hv) as (d & Hd & Hp).
    cbn [map for_enumerate]. rewrite Hd. cbn [policy_body]. rewrite Hp. cbn [bind].
    destruct (IH (i + 1) (Py.set_add (pol_id p) ids)
                (Py.set_add (policy_type_str (pol_type p)) types)
                (check_evidence (pol_evidence p) il "policies" i r))
      as (ids' & types' & r' & H1 & H2 & H3).
    exists ids', types', r'. split; [exact H1|]. split.
    + eapply extends_trans; [apply check_evidence_sf|exact H2].
    + intros id. rewrite H3, DatasetGeneratorFacts.set_add_In. simpl. intuition congruence.
Qed.

Lemma check_policies_dumps fs il r pols :
  out_dir fs "policies.json" = Some (Pipeline.wrap "policies" (map Pipeline.dump_Policy pols)) ->
  Forall Pipeline.valid_policy pols ->
  exists ids r',
    check_policies fs il r = Ok (ids, r')
    /\ extends shortfall r r'
    /\ (forall id, In id ids <-> In id (map pol_id pols)).
Proof.
  intros Hf Hv. unfold check_policies. rewrite (load_wrapped_wrap _ _ _ _ _ Hf).
  cbn [Py.len Py.iter bind].
  match goal with
  | |- context [for_enumerate _ _ 0 (?ids0, ?types0, ?r0)] =>
      destruct (policy_loop_dumps il pols Hv 0 ids0 types0 r0)
        as (ids & types & r' & H1 & H2 & H3)
  end.
  rewrite H1. cbn [bind]. eexists. eexists. split; [reflexivity|]. split.
  - eapply extends_trans; [|eapply extends_trans; [exact H2|]]; grow_sf.
  - intros id. rewrite H3. simpl. tauto.
Qed.

Lemma policy_refs_known known a i pids :
  Forall (fun p => In p known) pids ->
  forall r,
    fold_left (fun r pid => if Py.mem pid known then r
                            else error (PolicyNotFound a i pid) r) pids r = r.
Proof.
  induction 1 as [|p t Hp _ IH]; intros r; [reflexivity|].
  cbn [fold_left]. apply mem_In in Hp. rewrite Hp. apply IH.
Qed.

Lemma check_policy_refs_sf known a i pids r :
  Forall (fun p => In p known) pids ->
  extends shortfall r (check_policy_refs known a i pids r).
Proof.
  intros H. unfold check_policy_refs. rewrite (policy_refs_known _ _ _ _ H). grow_sf.
Qed.

Lemma test_case_loop_dumps uids pids tcs :
  Forall (sound_test_case uids pids) tcs ->
  forall i tids per r,
    exists tids' per' r',
      for_enumerate (test_case_body uids pids) (map Pipeline.dump_TestCase tcs) i
        (tids, per, r) = Ok (tids', per', r')
      /\ extends shortfall r r'
      /\ (forall id, In id tids' <-> In id tids \/ In id (map tc_id tcs)).
Proof.
  induction 1 as [|tc t (Hv & Hu & Hp & _) _ IH]; intros i tids per r.
  - exists tids, per, r. split; [reflexivity|]. split; [apply extends_refl|]. simpl. tauto.
  - destruct (PipelineFacts.parse_dump_TestCase tc Hv) as (d & Hd & Hparse).
    cbn [map for_enumerate]. rewrite Hd. cbn [test_case_body]. rewrite Hparse.
    apply mem_In in Hu. rewrite Hu. cbn [bind].
    destruct (IH (i + 1) (Py.set_add (tc_id tc) tids) (incr per (tc_use_case_id tc))
                (check_policy_refs pids "test_cases" i (tc_policy_ids tc) r))
      as (tids' & per' & r' & H1 & H2 & H3).
    exists tids', per', r'. split; [exact H1|]. split.
    + eapply extends_trans; [apply check_policy_refs_sf; exact Hp|exact H2].
    + intros id. rewrite H3, DatasetGeneratorFacts.set_add_In. simpl. intuition congruence.
Qed.

Lemma check_tc_per_uc_sf per r : extends shortfall r (check_tc_per_uc per r).
Proof. unfold check_tc_per_uc. apply extends_fold_left. intros r0 kv. grow_sf. Qed.

Lemma check_test_cases_dumps fs uids pids r tcs :
  out_dir fs "test_cases.json"
  = Some (Pipeline.wrap "test_cases" (map Pipeline.dump_TestCase tcs)) ->
  Forall (sound_test_case uids pids) tcs ->
  exists tids r',
    check_test_cases fs uids pids r = Ok (tids, r')
    /\ extends shortfall r r'
    /\ (forall id, In id tids <-> In id (map tc_id tcs)).
Proof.
  intros Hf Hv. unfold check_test_cases. rewrite (load_wrapped_wrap _ _ _ _ _ Hf).
  cbn [Py.len Py.iter bind].
  match goal with
  | |- context [for_enumerate _ _ 0 (?tids0, ?per0, ?r0)] =>
      destruct (test_case_loop_dumps uids pids tcs Hv 0 tids0 per0 r0)
        as (tids & per & r' & H1 & H2 & H3)
  end.
  rewrite H1. cbn [bind]. eexists. eexists. split; [reflexivity|]. split.
  - eapply extends_trans; [|eapply extends_trans; [exact H2|apply check_tc_per_uc_sf]].
    grow_sf.
  - intros id. rewrite H3. simpl. tauto.
Qed.

Lemma forallb_is_str_add s l :
  forallb is_str l = true ->
  forallb is_str (if existsb (Py.eq_scalar (JStr s)) l then l else l ++ [JStr s]) = true.
Proof.
  intros H. destruct (existsb _ l); [exact H|].
  rewrite forallb_app, H. reflexivity.
Qed.

Lemma dataset_loop_dumps uids pids tids exs :
  Forall (sound_example uids pids tids) exs ->
  forall i s,
    forallb is_str (sources_seen s) = true ->
    exists s',
      for_enumerate (example_body uids pids tids) (map dump_DatasetExample exs) i s = Ok s'
      /\ extends shortfall (ds_report s) (ds_report s')
      /\ forallb is_str (sources_seen s') = true.
Proof.
  induction 1 as [|ex t (Hv & Hu & Ht & Hp & Hc & Hf & (src & Hs)) _ IH]; intros i s Hstr.
  - exists s. split; [reflexivity|]. split; [apply extends_refl|exact Hstr].
  - destruct (DatasetGeneratorFacts.parse_dump ex Hv) as (d & Hd & Hparse).
    cbn [map for_enumerate]. rewrite Hd. cbn [example_body]. rewrite Hparse. cbv zeta.
    unfold Py.dict_get_default at 1 2 3. rewrite Hs.
    apply mem_In in Hu, Ht. rewrite Hu, Ht, Hf, Hc.
    unfold check_messages. cbn [check_format_shape bind].
    set (r1 := check_policy_refs pids "dataset" i (ex_policy_ids ex) (ds_report s)).
    assert (E1 : extends shortfall (ds_report s) r1)
      by (apply check_policy_refs_sf; exact Hp).
    destruct (Py.truthy (JStr src)) eqn:Ts.
    + unfold value_set_add. cbn [Py.hashable bind].
      match goal with
      | |- context [for_enumerate _ _ (i + 1) ?s1] => destruct (IH (i + 1) s1) as (s' & H1 & H2 & H3)
      end.
      { cbn [sources_seen]. apply forallb_is_str_add. exact Hstr. }
      exists s'. split; [exact H1|]. split; [|exact H3].
      eapply extends_trans; [|exact H2]. cbn [ds_report].
      eapply extends_trans; [exact E1|]. grow_sf.
    + cbn [bind].
      match goal with
      | |- context [for_enumerate _ _ (i + 1) ?s1] => destruct (IH (i + 1) s1) as (s' & H1 & H2 & H3)
      end.
      { cbn [sources_seen]. exact Hstr. }
      exists s'. split; [exact H1|]. split; [|exact H3].
      eapply extends_trans; [|exact H2]. cbn [ds_report].
      eapply extends_trans; [exact E1|]. grow_sf.
Qed.

Lemma check_examples_per_tc_sf tids per r :
  extends shortfall r (check_examples_per_tc tids per r).
Proof. unfold check_examples_per_tc. apply extends_fold_left. intros r0 tid. grow_sf. Qed.

Lemma check_coverage_support formats sources r :
  extends shortfall r (check_coverage (JStr "support_bot") formats sources r).
Proof. unfold check_coverage. cbn. grow_sf. Qed.

Lemma check_dataset_dumps fs uids pids tids r exs :
  out_dir fs "dataset.json" = Some (DatasetGenerator.wrapper exs) ->
  Forall (sound_example uids pids tids) exs ->
  exists r', check_dataset fs uids pids tids r = Ok r' /\ extends shortfall r r'.
Proof.
  intros Hf Hv. unfold check_dataset.
  rewrite (load_wrapped_wrap fs "dataset.json" "examples" (map dump_DatasetExample exs) r Hf).
  cbn [Py.len Py.iter bind].
  match goal with
  | |- context [for_enumerate _ _ 0 ?s0] =>
      destruct (dataset_loop_dumps uids pids tids exs Hv 0 s0 eq_refl) as (s' & H1 & H2 & H3)
  end.
  rewrite H1. cbn [bind ds_report] in *. unfold print_sources. rewrite H3. cbn [bind].
  assert (G : forall r0, extends shortfall r r0 ->
                exists case_type,
                  first_case (JList (map dump_DatasetExample exs)) = Ok case_type
                  /\ extends shortfall r
                       (check_coverage case_type (formats_seen s') (sources_seen s') r0)).
  { intros r0 Hr0. destruct Hv as [|ex t (_ & _ & _ & _ & Hc & _) _].
    - exists JNull. split; [reflexivity|]. exact Hr0.
    - exists (JStr "support_bot"). split.
      + unfold first_case. cbn. rewrite Hc. reflexivity.
      + eapply extends_trans; [exact Hr0|apply check_coverage_support]. }
  match goal with
  | |- context [check_coverage _ _ _ ?r0] => destruct (G r0) as (ct & Hct & Hcov)
  end.
  { eapply extends_trans; [|apply extends_set_stat, extends_set_stat,
                             check_examples_per_tc_sf].
    eapply extends_trans; [|exact H2]. grow_sf. }
  rewrite Hct. cbn [bind]. eexists. split; [reflexivity|exact Hcov].
Qed.

Lemma validate_over_saved_files fs ip manifest rm ucs pols tcs exs :
  out_dir fs "run_manifest.json" = Some (JDict manifest) ->
  parse_RunManifest manifest = Some rm ->
  out_dir fs "use_cases.json" = Some (Pipeline.wrap "use_cases" (map Pipeline.dump_UseCase ucs)) ->
  out_dir fs "policies.json" = Some (Pipeline.wrap "policies" (map Pipeline.dump_Policy pols)) ->
  out_dir fs "test_cases.json"
  = Some (Pipeline.wrap "test_cases" (map Pipeline.dump_TestCase tcs)) ->
  out_dir fs "dataset.json" = Some (DatasetGenerator.wrapper exs) ->
  Forall Pipeline.valid_use_case ucs ->
  Forall Pipeline.valid_policy pols ->
  Forall (sound_test_case (map uc_id ucs) (map pol_id pols)) tcs ->
  Forall (sound_example (map uc_id ucs) (map pol_id pols) (map tc_id tcs)) exs ->
  exists r, validate fs ip = Ok r /\ Forall shortfall (errors r).
Proof.
  intros Fm Hm Fu Fp Ft Fd Vu Vp Vt Ve.
  rewrite validate_unfold.
  assert (Hmiss : missing_files fs = []).
  { destruct fs as [od tx]. apply PipelineFacts.no_file_missing. cbn [out_dir] in *.
    unfold required_files. repeat constructor; congruence. }
  rewrite Hmiss. unfold validate_artifacts.
  assert (Hcm : exists il, check_manifest fs ip (_read_input_lines fs ip) new_report
                           = Ok (new_report, il)).
  { unfold check_manifest, _load_json. rewrite Fm.
    assert (Tm : Py.truthy (JDict manifest) = true).
    { destruct manifest; [discriminate Hm|reflexivity]. }
    rewrite Tm, Hm. destruct (_ && _); eexists; reflexivity. }
  destruct Hcm as [il ->]. cbn [bind].
  destruct (check_use_cases_dumps fs il new_report ucs Fu Vu) as (uids & r1 & -> & E1 & I1).
  cbn [bind].
  destruct (check_policies_dumps fs il r1 pols Fp Vp) as (pids & r2 & -> & E2 & I2).
  cbn [bind].
  assert (Vt' : Forall (sound_test_case uids pids) tcs).
  { eapply Forall_impl; [|exact Vt]. intros tc (H1 & H2 & H3 & H4).
    split; [exact H1|]. split; [apply I1; exact H2|]. split; [|exact H4].
    eapply Forall_impl; [|exact H3]. intros p. apply I2. }
  destruct (check_test_cases_dumps fs uids pids r2 tcs Ft Vt') as (tids & r3 & -> & E3 & I3).
  cbn [bind].
  assert (Ve' : Forall (sound_example uids pids tids) exs).
  { eapply Forall_impl; [|exact Ve]. intros ex (H1 & H2 & H3 & H4 & H5).
    split; [exact H1|]. split; [apply I1; exact H2|]. split; [apply I3; exact H3|].
    split; [|exact H5]. eapply Forall_impl; [|exact H4]. intros p. apply I2. }
  destruct (check_dataset_dumps fs uids pids tids r3 exs Fd Ve') as (r4 & -> & E4).
  exists r4. split; [reflexivity|].
  assert (E : extends shortfall new_report r4).
  { eapply extends_trans; [exact E1|]. eapply extends_trans; [exact E2|].
    eapply extends_trans; [exact E3|exact E4]. }
  destruct E as [[es [He HF]] _]. rewrite He. exact HF.
Qed.

(** *** A fresh run *)

Lemma run_extraction_case config llm raw_lines case input_file ucs pols :
  ExtractionStage.run_extraction config llm raw_lines case input_file = Ok (ucs, pols) ->
  Forall (fun uc => uc_case uc = case) ucs.
Proof.
  unfold ExtractionStage.run_extraction. intros H. bind_inv H. injection H as <- _.
  unfold ExtractionStage.extract_use_cases in E. bind_inv E.
  eapply PipelineFacts.collect_Forall; [|exact E]. intros i x y Hy.
  unfold ExtractionStage.use_case_of in Hy. bind_inv Hy.
  match type of Hy with
  | match ?m with _ => _ end = _ => destruct m eqn:En; [|discriminate Hy]
  end.
  injection Hy as <-. apply ExtractionFacts.new_UseCase_inv in En. tauto.
Qed.

Lemma extraction_step_fresh config llm raw_lines case input_file fs ucs pols fs1 :
  fs "use_cases.json" = None ->
  Pipeline.extraction_step config llm raw_lines case input_file fs = Ok (ucs, pols, fs1) ->
  ExtractionStage.run_extraction config llm raw_lines case input_file = Ok (ucs, pols)
  /\ fs1 = Pipeline._save_json "policies.json"
             (Pipeline.wrap "policies" (map Pipeline.dump_Policy pols))
             (Pipeline._save_json "use_cases.json"
                (Pipeline.wrap "use_cases" (map Pipeline.dump_UseCase ucs)) fs).
Proof.
  intros Hn H. unfold Pipeline.extraction_step, Pipeline._load_json in H. rewrite Hn in H.
  cbn [Pipeline._unwrap Py.truthy andb] in H. bind_inv H. destruct a as [u p].
  injection H as <- <- <-. auto.
Qed.

Lemma test_case_step_fresh config llm ucs pols fs tcs fs2 :
  fs "test_cases.json" = None ->
  Pipeline.test_case_step config llm ucs pols fs = Ok (tcs, fs2) ->
  TestCaseGenerator.generate_test_cases config llm ucs pols = Ok tcs
  /\ fs2 = Pipeline._save_json "test_cases.json"
             (Pipeline.wrap "test_cases" (map Pipeline.dump_TestCase tcs)) fs.
Proof.
  intros Hn H. unfold Pipeline.test_case_step, Pipeline._load_json in H. rewrite Hn in H.
  cbn [Pipeline._unwrap Py.truthy] in H. bind_inv H. injection H as <- <-. auto.
Qed.

(** X27: what a fresh support-bot run saves always goes through the
    validator, whatever the gateways answered.  If the run starts
    without use_cases.json, test_cases.json and dataset.json, completes,
    and its manifest has the fields of a run manifest, then validating
    its output directory raises no exception, and every error of the
    report is a shortfall (too few use cases, policies, policy types or
    test cases, no policy id, no message, no example for a test case, a
    source never used): none is about a missing or malformed file, a
    record the schema rejects or a reference that does not resolve. *)
Theorem X27_fresh_support_run_validates :
  forall (config : Config) (manifest : json) (fields : list (string * json))
         (rm : RunManifest) (raw_lines : list string) (input_file : string)
         (llm_extract llm_tests llm_dataset : gateway)
         (fs fs' : Pipeline.files) (a : Pipeline.artifacts)
         (text : string -> option (list string)) (input_path : string),
    fs "use_cases.json" = None ->
    fs "test_cases.json" = None ->
    fs "dataset.json" = None ->
    manifest = JDict fields ->
    parse_RunManifest fields = Some rm ->
    Pipeline.run_pipeline config manifest raw_lines support_bot input_file
      llm_extract llm_tests llm_dataset fs = Pipeline.Completed a fs' ->
    exists r,
      validate (as_validator_files fs' text) input_path = Ok r
      /\ Forall shortfall (errors r).
Proof.
  intros cfg m fields rm raw f lx lt ld fs fs' a text ip Nu Nt Nd Hm Hrm H.
  destruct (PipelineFacts.run_pipeline_inv _ _ _ _ _ _ _ _ _ _ _ H)
    as (fs1 & fs2 & w & E1 & E2 & E3 & ->).
  apply extraction_step_fresh in E1; [|exact Nu]. destruct E1 as [X1 ->].
  apply test_case_step_fresh in E2; [|cbn; exact Nt]. destruct E2 as [X2 ->].
  cbn in E3. rewrite Nd in E3.
  destruct (PipelineFacts.run_extraction_valid _ _ _ _ _ _ _ X1) as [Vu Vp].
  pose proof (run_extraction_case _ _ _ _ _ _ _ X1) as Vc.
  pose proof (generate_test_cases_sound _ _ _ _ _ Vc X2) as Vt.
  pose proof (generate_dataset_sound _ _ _ _ _ _ _ _ _ _ Vt E3) as Ve.
  subst m.
  apply (validate_over_saved_files _ ip fields rm (Pipeline.use_cases a) (Pipeline.policies a)
           (Pipeline.test_cases a) (Pipeline.examples a));
    first [reflexivity | assumption].
Qed.

Lemma X27_witness :
  exists r,
    validate (as_validator_files MoreSamples.first_run_files Samples.document) "" = Ok r
    /\ Forall shortfall (errors r).
Proof.
  exact (X27_fresh_support_run_validates (mkConfig 8 2 2) Samples.manifest_json _ _
           MoreSamples.two_lines "doc.md" MoreSamples.extraction_gateway
           MoreSamples.three_records Samples.steady_gateway MoreSamples.empty_directory
           MoreSamples.first_run_files MoreSamples.first_run_artifacts Samples.document ""
           eq_refl eq_refl eq_refl eq_refl eq_refl PipelineFacts.first_run_completes).
Defined.

End EndToEndFacts.

(** ** A source that is not a string *)

Module SourceFacts.
Import Models Validator Contract Samples MoreSamples.

Lemma odd_source_not_printable l : odd_source l = true -> print_sources l = Raise RuntimeErr.
Proof.
  unfold odd_source, print_sources. intros H.
  assert (E : forallb is_str l = false).
  { induction l as [|x t IH]; [discriminate H|]. simpl in *.
    destruct (is_str x); [exact (IH H)|reflexivity]. }
  rewrite E. reflexivity.
Qed.

Lemma eq_scalar_not_str x y : Py.eq_scalar x y = true -> is_str x = false -> is_str y = false.
Proof. destruct x, y; simpl; congruence. Qed.

Lemma value_set_add_odd x l l' :
  value_set_add x l = Ok l' -> (is_str x = false \/ odd_source l = true) -> odd_source l' = true.
Proof.
  unfold value_set_add, odd_source. destruct (Py.hashable x); [|discriminate].
  intros H. injection H as <-. intros [Hx|Hl].
  - destruct (existsb (Py.eq_scalar x) l) eqn:E.
    + apply existsb_exists in E. destruct E as (y & Hy & Heq). apply existsb_exists.
      exists y. split; [exact Hy|]. rewrite (eq_scalar_not_str _ _ Heq Hx). reflexivity.
    + rewrite existsb_app. simpl. rewrite Hx. simpl. apply orb_true_r.
  - destruct (existsb (Py.eq_scalar x) l); [exact Hl|].
    rewrite existsb_app, Hl. reflexivity.
Qed.

(** The body of the loop over the examples keeps an odd source, and
    meets one in a record whose source is truthy and not a string. *)
Lemma example_body_odd uids pids tids i x s s' :
  example_body uids pids tids i x s = Ok s' ->
  (odd_source (sources_seen s) = true
   \/ exists d ex, x = JDict d /\ parse_DatasetExample d = Some ex
                   /\ Py.truthy (Py.dict_get_default (ex_metadata ex) "source" JNull) = true
                   /\ is_str (Py.dict_get_default (ex_metadata ex) "source" JNull) = false) ->
  odd_source (sources_seen s') = true.
Proof.
  unfold example_body. intros H Hodd. destruct x as [| | | | |d]; try discriminate H.
  destruct (parse_DatasetExample d) as [obj|] eqn:Hp.
  2:{ injection H as <-. cbn [sources_seen]. destruct Hodd as [Ho|(d' & ex & Hd & Hp' & _)];
        [exact Ho|]. injection Hd as <-. congruence. }
  cbv zeta in H.
  set (source := Py.dict_get_default (ex_metadata obj) "source" JNull) in *.
  match type of H with
  | bind ?m _ = _ => destruct m as [sources|] eqn:Es; [cbn [bind] in H|discriminate H]
  end.
  match type of H with
  | bind ?m _ = _ => destruct m as [r1|] eqn:Em; [cbn [bind] in H|discriminate H]
  end.
  injection H as <-. cbn [sources_seen].
  destruct (Py.truthy source) eqn:Ts.
  - apply (value_set_add_odd _ _ _ Es). destruct Hodd as [Ho|(d' & ex & Hd & Hp' & _ & Hn)].
    + right. exact Ho.
    + left. injection Hd as <-. rewrite Hp in Hp'. injection Hp' as <-. exact Hn.
  - injection Es as <-. destruct Hodd as [Ho|(d' & ex & Hd & Hp' & Ht & _)]; [exact Ho|].
    injection Hd as <-. rewrite Hp in Hp'. injection Hp' as <-. unfold source in Ts. congruence.
Qed.

Lemma dataset_loop_odd uids pids tids items :
  forall i s s',
    for_enumerate (example_body uids pids tids) items i s = Ok s' ->
    (odd_source (sources_seen s) = true
     \/ exists d ex, In (JDict d) items /\ parse_DatasetExample d = Some ex
                     /\ Py.truthy (Py.dict_get_default (ex_metadata ex) "source" JNull) = true
                     /\ is_str (Py.dict_get_default (ex_metadata ex) "source" JNull) = false) ->
    odd_source (sources_seen s') = true.
Proof.
  induction items as [|x t IH]; intros i s s' H Hodd; cbn [for_enumerate] in H.
  - injection H as <-. destruct Hodd as [Ho|(d & ex & [] & _)]. exact Ho.
  - destruct (example_body uids pids tids i x s) as [s1|] eqn:Hb;
      [cbn [bind] in H|discriminate H].
    apply (IH _ _ _ H).
    destruct Hodd as [Ho|(d & ex & [Hx|Hin] & Hrest)].
    + left. apply (example_body_odd _ _ _ _ _ _ _ Hb). left. exact Ho.
    + left. apply (example_body_odd _ _ _ _ _ _ _ Hb). right. exists d, ex. auto.
    + right. exists d, ex. auto.
Qed.

(** X28: a source that is truthy and not a string makes the validator
    raise instead of report.  When the five files are there and some
    record of the examples list that the schema accepts has such a
    metadata source (a number, true, a list, an object), [validate]
    ends in an exception: a list or an object cannot be added to the set
    of sources, and any other value cannot be joined when the sources
    are printed. *)
Theorem X28_odd_source_raises :
  forall (fs : files) (input_path : string) (d : list (string * json))
         (ex : DatasetExample),
    missing_files fs = [] ->
    In (JDict d) (items_of fs "dataset.json" "examples") ->
    parse_DatasetExample d = Some ex ->
    Py.truthy (Py.dict_get_default (ex_metadata ex) "source" JNull) = true ->
    is_str (Py.dict_get_default (ex_metadata ex) "source" JNull) = false ->
    exists e, validate fs input_path = Raise e.
Proof.
  intros fs ip d ex Hm Hin Hp Ht Hs. rewrite ValidatorFacts.validate_unfold, Hm.
  unfold validate_artifacts.
  destruct (check_manifest _ _ _ _) as [[r1 il]|e]; [cbn [bind]|eexists; reflexivity].
  destruct (check_use_cases _ _ _) as [[uids r2]|e]; [cbn [bind]|eexists; reflexivity].
  destruct (check_policies _ _ _) as [[pids r3]|e]; [cbn [bind]|eexists; reflexivity].
  destruct (check_test_cases _ _ _ _) as [[tids r4]|e]; [cbn [bind]|eexists; reflexivity].
  unfold check_dataset.
  destruct (load_wrapped fs "dataset.json" "examples" r4) as [ds_list r5] eqn:El.
  destruct (Py.len ds_list) as [n|e]; [cbn [bind]|eexists; reflexivity].
  destruct (Py.iter ds_list) as [items|e] eqn:Ei; [cbn [bind]|eexists; reflexivity].
  rewrite (PassingReportFacts.items_of_eq _ _ _ _ _ _ _ El Ei) in Hin.
  destruct (for_enumerate _ items 0 _) as [s|e] eqn:Hloop; [cbn [bind]|eexists; reflexivity].
  assert (Hodd : odd_source (sources_seen s) = true).
  { apply (dataset_loop_odd _ _ _ _ _ _ _ Hloop). right. exists d, ex. auto. }
  rewrite (odd_source_not_printable _ Hodd). eexists. reflexivity.
Qed.

Lemma X28_witness : exists e, validate numbered_source_dir "" = Raise e.
Proof.
  apply (X28_odd_source_raises numbered_source_dir ""
           [("id", JStr "ex_2"); ("case", JStr "operator_quality");
            ("format", JStr "dialog_last_turn_correction");
            ("use_case_id", JStr "uc_1"); ("test_case_id", JStr "tc_2");
            ("input", JDict [("messages", JList [message_json "user"; message_json "operator"]);
                             ("target_message_index", JInt 1)]);
            ("expected_output", JStr "answer");
            ("evaluation_criteria", JList [JStr "c1"; JStr "c2"; JStr "c3"]);
            ("policy_ids", JList [JStr "pol_1"]);
            ("metadata", JDict [("source", JInt 7); ("split", JStr "test")])]
           (mkDatasetExample "ex_2" operator_quality dialog_last_turn_correction "uc_1" "tc_2"
              [("messages", JList [message_json "user"; message_json "operator"]);
               ("target_message_index", JInt 1)]
              "answer" ["c1"; "c2"; "c3"] ["pol_1"]
              [("source", JInt 7); ("split", JStr "test")])).
  - reflexivity.
  - right. left. reflexivity.
  - reflexivity.
  - reflexivity.
  - reflexivity.
Defined.

End SourceFacts.
